(** * Embedded CLI: a shallow embedding of [lib/src/embedded_cli.c]

    The engine is modelled the way the C source is written.

    - C integers are [Z].  Values assigned to (or cast to) [uint16_t] and
      [uint8_t] objects are wrapped with [u16] / [u8]; subtractions carried
      out in [size_t] are wrapped with [size_t].  [int] counters stay far
      below the limit of their type and are exact.
    - A byte buffer of the arena is a [list Z]; a pointer into a buffer is an
      offset.  Every access goes through [load] / [store] / [memmove], which
      report an access outside the object as [Fault].
    - A string owned by the host ([const char *] names, help texts, the
      invitation) is the [list Z] of its bytes, terminator excluded.
    - The host hooks and the command handlers are external code.  Calling one
      is recorded in a trace of [event]s; a handler is a function from its
      three arguments to its result code and does not call back into the
      engine. *)

From stdpp Require Import prelude.
From Stdlib Require Import ZArith Lia.
From Stdlib Require String Ascii.

Local Open Scope Z_scope.

(** ** Results of partial computations *)

Inductive result (A : Type) : Type :=
| Ok (a : A)
| Fault       (* access outside an object, or a call through NULL *)
| OutOfFuel.  (* the loop bound of the model was exceeded *)

Arguments Ok {A} a.
Arguments Fault {A}.
Arguments OutOfFuel {A}.

Definition bind {A B : Type} (m : result A) (k : A -> result B) : result B :=
  match m with
  | Ok a => k a
  | Fault => Fault
  | OutOfFuel => OutOfFuel
  end.

Notation "x <- m ;; k" := (bind m (fun x => k))
  (at level 100, m at next level, right associativity).

(** ** Machine integers *)

Definition u16 (x : Z) : Z := x mod 65536.
Definition u8 (x : Z) : Z := x mod 256.
Definition size_t (x : Z) : Z := x mod 2 ^ 64.

Definition len (l : list Z) : Z := Z.of_nat (length l).

(** ** Memory *)

Definition load (m : list Z) (i : Z) : result Z :=
  if i <? 0 then Fault
  else match m !! Z.to_nat i with
       | Some v => Ok v
       | None => Fault
       end.

Definition store (m : list Z) (i v : Z) : result (list Z) :=
  if (0 <=? i) && (i <? len m) then Ok (<[Z.to_nat i := v]> m) else Fault.

(** [memmove (m + dst, m + src, n)] inside one buffer. *)
Definition memmove (m : list Z) (dst src n : Z) : result (list Z) :=
  if (0 <=? dst) && (0 <=? src) && (0 <=? n)
     && (dst + n <=? len m) && (src + n <=? len m)
  then Ok (take (Z.to_nat dst) m
           ++ take (Z.to_nat n) (drop (Z.to_nat src) m)
           ++ drop (Z.to_nat (dst + n)) m)
  else Fault.

(** [memcpy (m + dst, data, |data|)] from a source that does not overlap. *)
Definition memcpy (m : list Z) (dst : Z) (data : list Z) : result (list Z) :=
  if (0 <=? dst) && (dst + len data <=? len m)
  then Ok (take (Z.to_nat dst) m ++ data ++ drop (Z.to_nat (dst + len data)) m)
  else Fault.

(** [strlen] of the bytes [m]: the position of the first NUL. *)
Fixpoint strlen_from (m : list Z) : result Z :=
  match m with
  | [] => Fault
  | c :: m' => if c =? 0 then Ok 0 else n <- strlen_from m' ;; Ok (n + 1)
  end.

(** [strlen (m + p)]. *)
Definition strlen (m : list Z) (p : Z) : result Z :=
  if (p <? 0) || (len m <? p) then Fault
  else strlen_from (drop (Z.to_nat p) m).

(** The string that starts at [m + p], without its terminator. *)
Definition cstr (m : list Z) (p : Z) : result (list Z) :=
  n <- strlen m p ;;
  Ok (take (Z.to_nat n) (drop (Z.to_nat p) m)).

(** [s[j]] for a host string: its bytes, then the terminator. *)
Definition str_get (s : list Z) (j : Z) : result Z :=
  if j <? 0 then Fault
  else match s !! Z.to_nat j with
       | Some v => Ok v
       | None => if j =? len s then Ok 0 else Fault
       end.

Definition list_eqb (a b : list Z) : bool := bool_decide (a = b).

(** ** Constants of the source *)

Definition CLI_TOKEN_NPOS : Z := 65535.
Definition BINDING_FLAG_AUTOCOMPLETE : Z := 1.
Definition CLI_FLAG_OVERFLOW : Z := 1.
Definition CLI_FLAG_INIT_COMPLETE : Z := 2.
Definition CLI_FLAG_ALLOCATED : Z := 4.
Definition CLI_FLAG_ESCAPE_MODE : Z := 8.
Definition CLI_FLAG_DIRECT_PRINT : Z := 16.
Definition CLI_FLAG_AUTOCOMPLETE_ENABLED : Z := 32.

Definition IS_FLAG_SET (flags flag : Z) : bool := negb (Z.land flags flag =? 0).
(** [flags |= flag] on a [uint8_t] object *)
Definition SET_FLAG (flags flag : Z) : Z := u8 (Z.lor flags flag).
Definition UNSET_U8FLAG (flags flag : Z) : Z := Z.land flags (u8 (Z.lnot flag)).

Definition cliInternalBindingCount : Z := 1.
Definition lineBreak : list Z := [13; 10].

(** ** Data model *)

Module FifoBuf.
Record t : Type := mk {
  buf : list Z;
  front : Z;   (* position of the first element *)
  back : Z;    (* position after the last element *)
  size : Z     (* size of the buffer *)
}.
End FifoBuf.

Module CliHistory.
Record t : Type := mk {
  buf : list Z;       (* items, separated by NUL *)
  bufferSize : Z;
  current : Z;
  itemsCount : Z
}.
End CliHistory.

(** Modelled from the spec: the declaration of [CliCommandBinding] lives in
    the header [embedded_cli.h], which is not part of the sources; the fields
    and their order are those of the initialiser in [initInternalBindings]
    and of the binding described in the data model. *)
Module CliCommandBinding.
Record t : Type := mk {
  name : list Z;
  help : option (list Z);
  tokenizeArgs : bool;
  context : Z;
  (* handle, args, context |-> result code; [None] is a NULL handler *)
  binding : option (Z -> option (list Z) -> Z -> Z)
}.
End CliCommandBinding.

Module AutocompletedCommand.
Record t : Type := mk {
  firstCandidate : option (list Z);
  autocompletedLen : Z;
  candidateCount : Z
}.
End AutocompletedCommand.

Module Impl.
Record t : Type := mk {
  invitation : list Z;
  history : CliHistory.t;
  rxBuffer : FifoBuf.t;
  cmdBuffer : list Z;
  cmdSize : Z;
  cmdMaxSize : Z;
  (* the first [bindingsCount] entries of the bindings array *)
  bindings : list CliCommandBinding.t;
  bindingsFlags : list Z;
  maxBindingsCount : Z;
  inputLineLength : Z;
  lastChar : Z;
  flags : Z
}.

Definition bindingsCount (i : t) : Z := Z.of_nat (length (bindings i)).

Definition set_history h (i : t) : t :=
  mk (invitation i) h (rxBuffer i) (cmdBuffer i) (cmdSize i) (cmdMaxSize i)
     (bindings i) (bindingsFlags i) (maxBindingsCount i)
     (inputLineLength i) (lastChar i) (flags i).
Definition set_rxBuffer r (i : t) : t :=
  mk (invitation i) (history i) r (cmdBuffer i) (cmdSize i) (cmdMaxSize i)
     (bindings i) (bindingsFlags i) (maxBindingsCount i)
     (inputLineLength i) (lastChar i) (flags i).
Definition set_cmdBuffer b (i : t) : t :=
  mk (invitation i) (history i) (rxBuffer i) b (cmdSize i) (cmdMaxSize i)
     (bindings i) (bindingsFlags i) (maxBindingsCount i)
     (inputLineLength i) (lastChar i) (flags i).
Definition set_cmdSize n (i : t) : t :=
  mk (invitation i) (history i) (rxBuffer i) (cmdBuffer i) n (cmdMaxSize i)
     (bindings i) (bindingsFlags i) (maxBindingsCount i)
     (inputLineLength i) (lastChar i) (flags i).
Definition set_bindings bs (i : t) : t :=
  mk (invitation i) (history i) (rxBuffer i) (cmdBuffer i) (cmdSize i)
     (cmdMaxSize i) bs (bindingsFlags i) (maxBindingsCount i)
     (inputLineLength i) (lastChar i) (flags i).
Definition set_bindingsFlags fl (i : t) : t :=
  mk (invitation i) (history i) (rxBuffer i) (cmdBuffer i) (cmdSize i)
     (cmdMaxSize i) (bindings i) fl (maxBindingsCount i)
     (inputLineLength i) (lastChar i) (flags i).
Definition set_inputLineLength n (i : t) : t :=
  mk (invitation i) (history i) (rxBuffer i) (cmdBuffer i) (cmdSize i)
     (cmdMaxSize i) (bindings i) (bindingsFlags i) (maxBindingsCount i)
     n (lastChar i) (flags i).
Definition set_lastChar c (i : t) : t :=
  mk (invitation i) (history i) (rxBuffer i) (cmdBuffer i) (cmdSize i)
     (cmdMaxSize i) (bindings i) (bindingsFlags i) (maxBindingsCount i)
     (inputLineLength i) c (flags i).
Definition set_flags f (i : t) : t :=
  mk (invitation i) (history i) (rxBuffer i) (cmdBuffer i) (cmdSize i)
     (cmdMaxSize i) (bindings i) (bindingsFlags i) (maxBindingsCount i)
     (inputLineLength i) (lastChar i) f.
End Impl.

(** What the engine does to the outside world, in order. *)
Inductive event : Type :=
| EvWriteChar (c : Z)
| EvWriteString (s : list Z)
| EvBinding (i : nat) (handle : Z) (args : option (list Z)) (context : Z)
| EvPostCommand (handle : Z) (code : Z)
| EvOnCommand (name : list Z) (args : option (list Z)).

(** Modelled from the spec: [EmbeddedCli] is declared in the missing header;
    the hooks are those the source calls ([writeChar], [writeString],
    [onCommand], [postCommand]).  A hook is present or NULL; [trace] is the
    record of the calls made so far. *)
Module EmbeddedCli.
Record t : Type := mk {
  writeChar : bool;
  writeString : bool;
  onCommand : bool;
  postCommand : bool;
  _impl : Impl.t;
  trace : list event
}.

Definition set_impl i (c : t) : t :=
  mk (writeChar c) (writeString c) (onCommand c) (postCommand c) i (trace c).
Definition upd_impl (f : Impl.t -> Impl.t) (c : t) : t :=
  set_impl (f (_impl c)) c.
Definition emit (e : event) (c : t) : t :=
  mk (writeChar c) (writeString c) (onCommand c) (postCommand c) (_impl c)
     (trace c ++ [e]).
End EmbeddedCli.

(** ** Ring buffer *)

Definition fifoBufAvailable (b : FifoBuf.t) : Z :=
  if FifoBuf.front b <=? FifoBuf.back b
  then u16 (FifoBuf.back b - FifoBuf.front b)
  else u16 (FifoBuf.size b - FifoBuf.front b + FifoBuf.back b).

(** [%] by zero is undefined in C. *)
Definition c_mod (a b : Z) : result Z :=
  if b =? 0 then Fault else Ok (a mod b).

Definition fifoBufPop (b : FifoBuf.t) : result (Z * FifoBuf.t) :=
  if negb (FifoBuf.front b =? FifoBuf.back b) then
    a <- load (FifoBuf.buf b) (FifoBuf.front b) ;;
    f <- c_mod (u16 (FifoBuf.front b + 1)) (FifoBuf.size b) ;;
    Ok (a, FifoBuf.mk (FifoBuf.buf b) f (FifoBuf.back b) (FifoBuf.size b))
  else Ok (0, b).

Definition fifoBufPush (b : FifoBuf.t) (a : Z) : result (bool * FifoBuf.t) :=
  newBack <- c_mod (u16 (FifoBuf.back b + 1)) (FifoBuf.size b) ;;
  if negb (newBack =? FifoBuf.front b) then
    m <- store (FifoBuf.buf b) (FifoBuf.back b) a ;;
    Ok (true, FifoBuf.mk m (FifoBuf.front b) newBack (FifoBuf.size b))
  else Ok (false, b).

Definition embeddedCliReceiveChar (cli : EmbeddedCli.t) (c : Z)
  : result EmbeddedCli.t :=
  let impl := EmbeddedCli._impl cli in
  r <- fifoBufPush (Impl.rxBuffer impl) c ;;
  let '(pushed, rx) := r in
  let impl := Impl.set_rxBuffer rx impl in
  if negb pushed then
    Ok (EmbeddedCli.set_impl
          (Impl.set_flags (SET_FLAG (Impl.flags impl) CLI_FLAG_OVERFLOW) impl)
          cli)
  else Ok (EmbeddedCli.set_impl impl cli).

(** ** Tokenizer *)

Module Tok.
(** The variables of the scanning loop of [embeddedCliTokenizeArgs]. *)
Record state : Type := mk {
  args : list Z;
  i : Z;
  insertPos : Z;
  quotesEnabled : bool;
  escapeActivated : bool
}.
End Tok.

(** [strchr (separators, c) != NULL] with [separators = " "]: the terminator
    of [separators] is part of the searched string. *)
Definition is_separator (c : Z) : bool := (c =? 32) || (c =? 0).

(** The tail of the loop body: NUL is copied once, and never to the
    beginning. *)
Definition tokenize_emit (s : Tok.state) (currentChar : Z)
  : result (option Tok.state) :=
  copy <- (if negb (currentChar =? 0) then Ok true
           else if 0 <? Tok.insertPos s then
                  p <- load (Tok.args s) (Tok.insertPos s - 1) ;;
                  Ok (negb (p =? 0))
                else Ok false) ;;
  if copy : bool then
    a <- store (Tok.args s) (Tok.insertPos s) currentChar ;;
    Ok (Some (Tok.mk a (Tok.i s) (Tok.insertPos s + 1)
                     (Tok.quotesEnabled s) (Tok.escapeActivated s)))
  else Ok (Some s).

(** One turn of the [while] loop; [None] when its condition fails. *)
Definition tokenize_iter (s : Tok.state) : result (option Tok.state) :=
  currentChar <- load (Tok.args s) (Tok.i s) ;;
  if currentChar =? 0 then Ok None
  else
    let i := Tok.i s + 1 in
    let a := Tok.args s in
    let ip := Tok.insertPos s in
    let q := Tok.quotesEnabled s in
    if Tok.escapeActivated s then
      tokenize_emit (Tok.mk a i ip q false) currentChar
    else if currentChar =? 92 then
      Ok (Some (Tok.mk a i ip q true))
    else if currentChar =? 34 then
      tokenize_emit (Tok.mk a i ip (negb q) false) 0
    else if negb q && is_separator currentChar then
      tokenize_emit (Tok.mk a i ip q false) 0
    else
      tokenize_emit (Tok.mk a i ip q false) currentChar.

Fixpoint tokenize_loop (fuel : nat) (s : Tok.state) : result Tok.state :=
  match fuel with
  | O => OutOfFuel
  | S fuel =>
      r <- tokenize_iter s ;;
      match r with
      | None => Ok s
      | Some s' => tokenize_loop fuel s'
      end
  end.

Definition tokenize_init (args : list Z) : Tok.state :=
  Tok.mk args 0 0 false false.

(** [args] is the memory from the pointer to the end of its buffer, or
    [None] for NULL.  Each turn of the loop reads one more byte, so the loop
    ends within [length args] turns or faults. *)
Definition embeddedCliTokenizeArgs (args : option (list Z))
  : result (option (list Z)) :=
  match args with
  | None => Ok None
  | Some a =>
      s <- tokenize_loop (S (length a)) (tokenize_init a) ;;
      a1 <- store (Tok.args s) (Tok.insertPos s) 0 ;;
      a2 <- store a1 (Tok.insertPos s + 1) 0 ;;
      Ok (Some a2)
  end.

(** ** Token accessors *)

Fixpoint getTokenPosition_loop (fuel : nat) (tokenizedStr : list Z)
         (pos i tokenCount : Z) : result Z :=
  match fuel with
  | O => OutOfFuel
  | S fuel =>
      if tokenCount =? pos then Ok i
      else
        c <- load tokenizedStr i ;;
        if c =? 0 then
          let tokenCount := u16 (tokenCount + 1) in
          c1 <- load tokenizedStr (i + 1) ;;
          if c1 =? 0 then Ok i
          else getTokenPosition_loop fuel tokenizedStr pos (u16 (i + 1))
                                     tokenCount
        else getTokenPosition_loop fuel tokenizedStr pos (u16 (i + 1))
                                   tokenCount
  end.

(** The index stops at the end of the buffer at the latest, for a buffer
    whose size a [uint16_t] can hold. *)
Definition getTokenPosition (tokenizedStr : option (list Z)) (pos : Z)
  : result Z :=
  match tokenizedStr with
  | None => Ok CLI_TOKEN_NPOS
  | Some str =>
      if pos =? 0 then Ok CLI_TOKEN_NPOS
      else
        i <- getTokenPosition_loop (S (length str)) str pos 0 1 ;;
        c <- load str i ;;
        if negb (c =? 0) then Ok i else Ok CLI_TOKEN_NPOS
  end.

(** The result is the offset of the token, [None] for NULL. *)
Definition embeddedCliGetToken (tokenizedStr : option (list Z)) (pos : Z)
  : result (option Z) :=
  i <- getTokenPosition tokenizedStr pos ;;
  if negb (i =? CLI_TOKEN_NPOS) then Ok (Some i) else Ok None.

Definition embeddedCliGetTokenVariable (tokenizedStr : option (list Z))
           (pos : Z) : result (option Z) :=
  i <- getTokenPosition tokenizedStr pos ;;
  if negb (i =? CLI_TOKEN_NPOS) then Ok (Some i) else Ok None.

Fixpoint getTokenCount_loop (fuel : nat) (tokenizedStr : list Z)
         (i tokenCount : Z) : result Z :=
  match fuel with
  | O => OutOfFuel
  | S fuel =>
      c <- load tokenizedStr i ;;
      if c =? 0 then
        c1 <- load tokenizedStr (i + 1) ;;
        if c1 =? 0 then Ok tokenCount
        else getTokenCount_loop fuel tokenizedStr (i + 1) (u16 (tokenCount + 1))
      else getTokenCount_loop fuel tokenizedStr (i + 1) tokenCount
  end.

Definition embeddedCliGetTokenCount (tokenizedStr : option (list Z))
  : result Z :=
  match tokenizedStr with
  | None => Ok 0
  | Some str =>
      c <- load str 0 ;;
      if c =? 0 then Ok 0
      else getTokenCount_loop (S (length str)) str 0 1
  end.

(** The tokens of a tokenized string, read back through the accessors. *)
Fixpoint tokens_from (n : nat) (str : list Z) (pos : Z)
  : result (list (list Z)) :=
  match n with
  | O => Ok []
  | S n =>
      p <- embeddedCliGetToken (Some str) pos ;;
      match p with
      | None => Fault
      | Some off =>
          t <- cstr str off ;;
          ts <- tokens_from n str (pos + 1) ;;
          Ok (t :: ts)
      end
  end.

Definition tokens_of (str : list Z) : result (list (list Z)) :=
  n <- embeddedCliGetTokenCount (Some str) ;;
  tokens_from (Z.to_nat n) str 1.

(** ** History *)

Definition historyGet (history : CliHistory.t) (item : Z)
  : result (option Z) :=
  if (item =? 0) || (CliHistory.itemsCount history <? item) then Ok None
  else embeddedCliGetToken (Some (CliHistory.buf history)) item.

Definition set_itemsCount (n : Z) (h : CliHistory.t) : CliHistory.t :=
  CliHistory.mk (CliHistory.buf h) (CliHistory.bufferSize h)
                (CliHistory.current h) n.
Definition set_historyBuf (b : list Z) (h : CliHistory.t) : CliHistory.t :=
  CliHistory.mk b (CliHistory.bufferSize h) (CliHistory.current h)
                (CliHistory.itemsCount h).
Definition set_current (n : Z) (h : CliHistory.t) : CliHistory.t :=
  CliHistory.mk (CliHistory.buf h) (CliHistory.bufferSize h) n
                (CliHistory.itemsCount h).

(** The search loop of [historyRemove]: the item found (or NULL) and the
    final [itemPosition].  [strcmp] on a NULL item is a fault. *)
Fixpoint historyRemove_find (fuel : nat) (history : CliHistory.t)
         (str : list Z) (itemPosition : Z) : result (option Z * Z) :=
  match fuel with
  | O => OutOfFuel
  | S fuel =>
      if itemPosition <=? CliHistory.itemsCount history then
        item <- embeddedCliGetTokenVariable (Some (CliHistory.buf history))
                                            itemPosition ;;
        match item with
        | None => Fault
        | Some off =>
            s <- cstr (CliHistory.buf history) off ;;
            if list_eqb s str then Ok (Some off, itemPosition)
            else historyRemove_find fuel history str (u16 (itemPosition + 1))
        end
      else Ok (None, itemPosition)
  end.

(** [str] is never NULL at the only call site, in [historyPut]. *)
Definition historyRemove (history : CliHistory.t) (str : list Z)
  : result CliHistory.t :=
  if CliHistory.itemsCount history =? 0 then Ok history
  else
    r <- historyRemove_find (S (Z.to_nat (CliHistory.itemsCount history)))
                            history str 1 ;;
    match r with
    | (None, _) => Ok history
    | (Some item, itemPosition) =>
        let history := set_itemsCount (u16 (CliHistory.itemsCount history - 1))
                                      history in
        if itemPosition =? CliHistory.itemsCount history + 1 then Ok history
        else
          l <- strlen (CliHistory.buf history) item ;;
          let remaining :=
            size_t (CliHistory.bufferSize history - (item + l + 1)) in
          b <- memmove (CliHistory.buf history) item (item + l + 1) remaining ;;
          Ok (set_historyBuf b history)
    end.

(** The eviction loop of [historyPut]: the history and [usedSize]. *)
Fixpoint historyPut_evict (fuel : nat) (history : CliHistory.t) (l : Z)
         (usedSize : Z) : result (CliHistory.t * Z) :=
  match fuel with
  | O => OutOfFuel
  | S fuel =>
      if 0 <? CliHistory.itemsCount history then
        item <- historyGet history (CliHistory.itemsCount history) ;;
        match item with
        | None => Fault
        | Some off =>
            itemLen <- strlen (CliHistory.buf history) off ;;
            let usedSize := off + itemLen + 1 in
            let freeSpace :=
              size_t (CliHistory.bufferSize history - usedSize) in
            if l + 1 <=? freeSpace then Ok (history, usedSize)
            else
              historyPut_evict fuel
                (set_itemsCount (u16 (CliHistory.itemsCount history - 1))
                                history)
                l usedSize
        end
      else Ok (history, usedSize)
  end.

Definition historyPut (history : CliHistory.t) (str : list Z)
  : result (bool * CliHistory.t) :=
  let l := len str in
  if CliHistory.bufferSize history <? l + 1 then Ok (false, history)
  else
    history <- historyRemove history str ;;
    r <- historyPut_evict (S (Z.to_nat (CliHistory.itemsCount history)))
                          history l 0 ;;
    let '(history, usedSize) := r in
    b <- (if 0 <? CliHistory.itemsCount history
          then memmove (CliHistory.buf history) (l + 1) 0 usedSize
          else Ok (CliHistory.buf history)) ;;
    b <- memcpy b 0 (str ++ [0]) ;;
    Ok (true,
        set_itemsCount (u16 (CliHistory.itemsCount history + 1))
                       (set_historyBuf b history)).

(** ** Output *)

Import EmbeddedCli (emit, set_impl, upd_impl, _impl).

(** [cli->writeChar (cli, c)] *)
Definition writeChar (cli : EmbeddedCli.t) (c : Z) : result EmbeddedCli.t :=
  if EmbeddedCli.writeChar cli then Ok (emit (EvWriteChar c) cli) else Fault.

Fixpoint writeChars (cli : EmbeddedCli.t) (str : list Z)
  : result EmbeddedCli.t :=
  match str with
  | [] => Ok cli
  | c :: str => cli <- writeChar cli c ;; writeChars cli str
  end.

Definition writeToOutput (cli : EmbeddedCli.t) (str : list Z)
  : result EmbeddedCli.t :=
  if EmbeddedCli.writeString cli then Ok (emit (EvWriteString str) cli)
  else writeChars cli str.

(** [writeToOutput (cli, m + p)] for a string inside a buffer. *)
Definition writeToOutput_at (cli : EmbeddedCli.t) (m : list Z) (p : Z)
  : result EmbeddedCli.t :=
  s <- cstr m p ;; writeToOutput cli s.

Definition clearCurrentLine (cli : EmbeddedCli.t) : result EmbeddedCli.t :=
  let impl := _impl cli in
  let l := Impl.inputLineLength impl + len (Impl.invitation impl) in
  cli <- writeChar cli 13 ;;
  cli <- writeChars cli (replicate (Z.to_nat l) 32) ;;
  cli <- writeChar cli 13 ;;
  Ok (upd_impl (Impl.set_inputLineLength 0) cli).

(** ** Autocompletion *)

Import AutocompletedCommand (firstCandidate, autocompletedLen, candidateCount).

(** [for (j = ...; j < prefixLen; ++j) if (prefix[j] != name[j]) ...] *)
Fixpoint isCandidate_loop (n : nat) (prefix name : list Z) (j : Z)
  : result bool :=
  match n with
  | O => Ok true
  | S n =>
      a <- load prefix j ;;
      b <- str_get name j ;;
      if negb (a =? b) then Ok false
      else isCandidate_loop n prefix name (j + 1)
  end.

(** [for (j = ...; j < cmd.autocompletedLen; ++j)
       if (cmd.firstCandidate[j] != name[j]) ...]: the new
    [autocompletedLen]. *)
Fixpoint commonLen_loop (n : nat) (first : option (list Z)) (name : list Z)
         (j aLen : Z) : result Z :=
  match n with
  | O => Ok aLen
  | S n =>
      a <- match first with
           | None => Fault
           | Some f => str_get f j
           end ;;
      b <- str_get name j ;;
      if negb (a =? b) then Ok (u16 j)
      else commonLen_loop n first name (j + 1) aLen
  end.

Fixpoint getAutocompletedCommand_loop (bs : list CliCommandBinding.t) (i : Z)
         (prefix : list Z) (prefixLen cmdSize : Z) (bindingsFlags : list Z)
         (cmd : AutocompletedCommand.t)
  : result (AutocompletedCommand.t * list Z) :=
  match bs with
  | [] => Ok (cmd, bindingsFlags)
  | b :: bs =>
      let name := CliCommandBinding.name b in
      let l := len name in
      f <- load bindingsFlags i ;;
      bindingsFlags <-
        store bindingsFlags i (UNSET_U8FLAG f BINDING_FLAG_AUTOCOMPLETE) ;;
      if l <? prefixLen then
        getAutocompletedCommand_loop bs (i + 1) prefix prefixLen cmdSize
                                     bindingsFlags cmd
      else
        isCandidate <- isCandidate_loop (Z.to_nat prefixLen) prefix name 0 ;;
        if negb isCandidate then
          getAutocompletedCommand_loop bs (i + 1) prefix prefixLen cmdSize
                                       bindingsFlags cmd
        else
          f <- load bindingsFlags i ;;
          bindingsFlags <-
            store bindingsFlags i (u8 (Z.lor f BINDING_FLAG_AUTOCOMPLETE)) ;;
          let aLen :=
            if (candidateCount cmd =? 0) || (l <? autocompletedLen cmd)
            then u16 l else autocompletedLen cmd in
          let count := u16 (candidateCount cmd + 1) in
          if count =? 1 then
            getAutocompletedCommand_loop bs (i + 1) prefix prefixLen cmdSize
              bindingsFlags (AutocompletedCommand.mk (Some name) aLen count)
          else
            aLen <- commonLen_loop (Z.to_nat (aLen - cmdSize))
                                   (firstCandidate cmd) name cmdSize aLen ;;
            getAutocompletedCommand_loop bs (i + 1) prefix prefixLen cmdSize
              bindingsFlags
              (AutocompletedCommand.mk (firstCandidate cmd) aLen count)
  end.

(** [prefix] is the memory the pointer designates; both callers pass the
    command buffer. *)
Definition getAutocompletedCommand (impl : Impl.t) (prefix : list Z)
  : result (AutocompletedCommand.t * Impl.t) :=
  let cmd := AutocompletedCommand.mk None 0 0 in
  prefixLen <- strlen prefix 0 ;;
  if (Impl.bindingsCount impl =? 0) || (prefixLen =? 0) then Ok (cmd, impl)
  else
    r <- getAutocompletedCommand_loop (Impl.bindings impl) 0 prefix prefixLen
           (Impl.cmdSize impl) (Impl.bindingsFlags impl) cmd ;;
    Ok (fst r, Impl.set_bindingsFlags (snd r) impl).

(** [for (i = ...; i < cmd.autocompletedLen; ++i)
       cli->writeChar (cli, cmd.firstCandidate[i])] *)
Fixpoint writeCandidateTail (n : nat) (cli : EmbeddedCli.t)
         (first : option (list Z)) (i : Z) : result EmbeddedCli.t :=
  match n with
  | O => Ok cli
  | S n =>
      c <- match first with
           | None => Fault
           | Some f => str_get f i
           end ;;
      cli <- writeChar cli c ;;
      writeCandidateTail n cli first (i + 1)
  end.

Definition printLiveAutocompletion (cli : EmbeddedCli.t)
  : result EmbeddedCli.t :=
  let impl := _impl cli in
  if negb (IS_FLAG_SET (Impl.flags impl) CLI_FLAG_AUTOCOMPLETE_ENABLED)
  then Ok cli
  else
    r <- getAutocompletedCommand impl (Impl.cmdBuffer impl) ;;
    let '(cmd, impl) := r in
    let cli := set_impl impl cli in
    let aLen := if candidateCount cmd =? 0 then Impl.cmdSize impl
                else autocompletedLen cmd in
    cli <- writeCandidateTail (Z.to_nat (aLen - Impl.cmdSize impl)) cli
                              (firstCandidate cmd) (Impl.cmdSize impl) ;;
    cli <- writeChars cli
             (replicate (Z.to_nat (Impl.inputLineLength impl - aLen)) 32) ;;
    let cli := upd_impl (Impl.set_inputLineLength aLen) cli in
    cli <- writeChar cli 13 ;;
    cli <- writeToOutput cli (Impl.invitation impl) ;;
    writeToOutput_at cli (Impl.cmdBuffer impl) 0.

(** The loop of [onAutocompleteRequest] that prints the candidates. *)
Fixpoint printCandidates (bs : list CliCommandBinding.t) (i : Z)
         (bindingsFlags : list Z) (cli : EmbeddedCli.t)
  : result EmbeddedCli.t :=
  match bs with
  | [] => Ok cli
  | b :: bs =>
      f <- load bindingsFlags i ;;
      if Z.land f BINDING_FLAG_AUTOCOMPLETE =? 0 then
        printCandidates bs (i + 1) bindingsFlags cli
      else
        cli <- writeToOutput cli (CliCommandBinding.name b) ;;
        cli <- writeToOutput cli lineBreak ;;
        printCandidates bs (i + 1) bindingsFlags cli
  end.

Definition onAutocompleteRequest (cli : EmbeddedCli.t)
  : result EmbeddedCli.t :=
  r <- getAutocompletedCommand (_impl cli) (Impl.cmdBuffer (_impl cli)) ;;
  let '(cmd, impl) := r in
  let cli := set_impl impl cli in
  if candidateCount cmd =? 0 then Ok cli
  else if (candidateCount cmd =? 1)
          || (Impl.cmdSize impl <? autocompletedLen cmd) then
    let aLen := autocompletedLen cmd in
    (* memcpy (impl->cmdBuffer, cmd.firstCandidate, cmd.autocompletedLen) *)
    b <- match firstCandidate cmd with
         | None => Fault
         | Some f =>
             if aLen <=? len f + 1
             then memcpy (Impl.cmdBuffer impl) 0
                         (take (Z.to_nat aLen) (f ++ [0]))
             else Fault
         end ;;
    r <- (if candidateCount cmd =? 1 then
            b <- store b aLen 32 ;; Ok (b, u16 (aLen + 1))
          else Ok (b, aLen)) ;;
    let '(b, aLen) := r in
    b <- store b aLen 0 ;;
    cli <- writeToOutput_at cli b (Impl.cmdSize impl) ;;
    Ok (upd_impl (fun i => Impl.set_inputLineLength aLen
                             (Impl.set_cmdSize aLen (Impl.set_cmdBuffer b i)))
                 cli)
  else
    cli <- clearCurrentLine cli ;;
    cli <- printCandidates (Impl.bindings impl) 0 (Impl.bindingsFlags impl)
                           cli ;;
    cli <- writeToOutput cli (Impl.invitation impl) ;;
    cli <- writeToOutput_at cli (Impl.cmdBuffer impl) 0 ;;
    Ok (upd_impl (Impl.set_inputLineLength (Impl.cmdSize impl)) cli).

(** ** Line editor *)

Definition navigateHistory (cli : EmbeddedCli.t) (navigateUp : bool)
  : result EmbeddedCli.t :=
  let h := Impl.history (_impl cli) in
  if (CliHistory.itemsCount h =? 0)
     || (navigateUp && (CliHistory.current h =? CliHistory.itemsCount h))
     || (negb navigateUp && (CliHistory.current h =? 0))
  then Ok cli
  else
    cli <- clearCurrentLine cli ;;
    cli <- writeToOutput cli (Impl.invitation (_impl cli)) ;;
    let h := set_current (if navigateUp then u16 (CliHistory.current h + 1)
                          else u16 (CliHistory.current h - 1)) h in
    let cli := upd_impl (Impl.set_history h) cli in
    item <- historyGet h (CliHistory.current h) ;;
    s <- match item with
         | None => Ok []
         | Some off => cstr (CliHistory.buf h) off
         end ;;
    let l := u16 (len s) in
    b <- memcpy (Impl.cmdBuffer (_impl cli)) 0 (take (Z.to_nat l) s) ;;
    b <- store b l 0 ;;
    let cli := upd_impl (fun i => Impl.set_cmdSize l (Impl.set_cmdBuffer b i))
                        cli in
    cli <- writeToOutput_at cli b 0 ;;
    let cli := upd_impl (Impl.set_inputLineLength l) cli in
    printLiveAutocompletion cli.

Definition onEscapedInput (cli : EmbeddedCli.t) (c : Z)
  : result EmbeddedCli.t :=
  if (64 <=? c) && (c <=? 126) then
    let cli :=
      upd_impl (fun i => Impl.set_flags
                           (UNSET_U8FLAG (Impl.flags i) CLI_FLAG_ESCAPE_MODE) i)
               cli in
    if (c =? 65) || (c =? 66) then navigateHistory cli (c =? 65)
    else Ok cli
  else Ok cli.

Definition onCharInput (cli : EmbeddedCli.t) (c : Z) : result EmbeddedCli.t :=
  let impl := _impl cli in
  if Impl.cmdMaxSize impl <=? Impl.cmdSize impl + 2 then Ok cli
  else
    b <- store (Impl.cmdBuffer impl) (Impl.cmdSize impl) c ;;
    let n := u16 (Impl.cmdSize impl + 1) in
    b <- store b n 0 ;;
    writeChar
      (upd_impl (fun i => Impl.set_cmdSize n (Impl.set_cmdBuffer b i)) cli) c.

(** ** Dispatcher *)

(** The bytes of a string literal. *)
Fixpoint bytes (s : String.string) : list Z :=
  match s with
  | String.EmptyString => []
  | String.String a s => Z.of_N (Ascii.N_of_ascii a) :: bytes s
  end.

(** The two literals of [onUnknownCommand]; byte 34 is the double quote. *)
Module Literal.
Import String.
Local Open Scope string_scope.
Definition unknownHead : list Z := bytes "Unknown command: " ++ [34%Z].
Definition unknownTail : list Z :=
  [34%Z] ++ bytes ". Write " ++ [34%Z] ++ bytes "help" ++ [34%Z]
  ++ bytes " for a list of available commands".
Definition helpName : list Z := bytes "help".
Definition helpText : list Z := bytes "Print list of commands".
End Literal.

(** [name] is a pointer into the buffer [m]. *)
Definition onUnknownCommand (cli : EmbeddedCli.t) (m : list Z) (name : Z)
  : result EmbeddedCli.t :=
  cli <- writeToOutput cli Literal.unknownHead ;;
  cli <- writeToOutput_at cli m name ;;
  cli <- writeToOutput cli Literal.unknownTail ;;
  writeToOutput cli lineBreak.

(** [strcmp (m + p, s) == 0] for a host string [s]: bytes are compared up to
    the first difference or the common terminator. *)
Fixpoint strcmp_eq_from (m s : list Z) : result bool :=
  match m with
  | [] => Fault
  | c :: m' =>
      match s with
      | [] => Ok (c =? 0)
      | x :: s' =>
          if c =? x then (if c =? 0 then Ok true else strcmp_eq_from m' s')
          else Ok false
      end
  end.

Definition strcmp_eq (m : list Z) (p : Z) (s : list Z) : result bool :=
  if (p <? 0) || (len m <? p) then Fault
  else strcmp_eq_from (drop (Z.to_nat p) m) s.

(** [for (i = ...; i < command_size; ++i) if (command_buffer[i] != ' ') ...] *)
Fixpoint isEmpty_loop (n : nat) (command_buffer : list Z) (i : Z)
  : result bool :=
  match n with
  | O => Ok true
  | S n =>
      c <- load command_buffer i ;;
      if negb (c =? 32) then Ok false
      else isEmpty_loop n command_buffer (i + 1)
  end.

(** The loop that finds name and arguments: the buffer, [cmdName] and
    [cmdArgs] (offsets, [None] for NULL). *)
Fixpoint splitNameArgs_loop (n : nat) (command_buffer : list Z) (i : Z)
         (cmdName cmdArgs : option Z) (nameFinished : bool)
  : result (list Z * option Z * option Z) :=
  match n with
  | O => Ok (command_buffer, cmdName, cmdArgs)
  | S n =>
      c <- load command_buffer i ;;
      if c =? 32 then
        b <- (if cmdArgs is None then store command_buffer i 0
              else Ok command_buffer) ;;
        splitNameArgs_loop n b (i + 1) cmdName cmdArgs
                           (if cmdName is Some _ then true else nameFinished)
      else if cmdName is None then
        splitNameArgs_loop n command_buffer (i + 1) (Some i) cmdArgs
                           nameFinished
      else if (if cmdArgs is None then nameFinished else false) then
        splitNameArgs_loop n command_buffer (i + 1) cmdName (Some i)
                           nameFinished
      else
        splitNameArgs_loop n command_buffer (i + 1) cmdName cmdArgs
                           nameFinished
  end.

(** The first binding whose name compares equal to the string at
    [command_buffer + cmdName], with its index. *)
Fixpoint findBinding (bs : list CliCommandBinding.t) (i : nat)
         (command_buffer : list Z) (cmdName : Z)
  : result (option (nat * CliCommandBinding.t)) :=
  match bs with
  | [] => Ok None
  | b :: bs =>
      e <- strcmp_eq command_buffer cmdName (CliCommandBinding.name b) ;;
      if e : bool then Ok (Some (i, b))
      else findBinding bs (S i) command_buffer cmdName
  end.

Definition set_flag (flag : Z) (cli : EmbeddedCli.t) : EmbeddedCli.t :=
  upd_impl (fun i => Impl.set_flags (SET_FLAG (Impl.flags i) flag) i) cli.
Definition unset_flag (flag : Z) (cli : EmbeddedCli.t) : EmbeddedCli.t :=
  upd_impl (fun i => Impl.set_flags (UNSET_U8FLAG (Impl.flags i) flag) i) cli.

(** The memory a pointer into [m] designates. *)
Definition view (m : list Z) (p : option Z) : option (list Z) :=
  match p with
  | None => None
  | Some off => Some (drop (Z.to_nat off) m)
  end.

(** The part of [_parseCommand] that runs when a binding with a handler
    matched. *)
Definition invokeBinding (cli : EmbeddedCli.t) (command_buffer : list Z)
           (cmdArgs : option Z) (direct_mode : bool) (handle : Z)
           (i : nat) (b : CliCommandBinding.t)
           (handler : Z -> option (list Z) -> Z -> Z)
  : result (EmbeddedCli.t * list Z) :=
  command_buffer <-
    (if CliCommandBinding.tokenizeArgs b then
       match cmdArgs with
       | None => Ok command_buffer
       | Some off =>
           a <- embeddedCliTokenizeArgs (view command_buffer cmdArgs) ;;
           Ok (take (Z.to_nat off) command_buffer ++ default [] a)
       end
     else Ok command_buffer) ;;
  let cli := if negb direct_mode then set_flag CLI_FLAG_DIRECT_PRINT cli
             else cli in
  let args := view command_buffer cmdArgs in
  let code := u8 (handler handle args (CliCommandBinding.context b)) in
  let cli := emit (EvBinding i handle args (CliCommandBinding.context b)) cli in
  let cli := if EmbeddedCli.postCommand cli
             then emit (EvPostCommand handle code) cli else cli in
  let cli := if negb direct_mode then unset_flag CLI_FLAG_DIRECT_PRINT cli
             else cli in
  Ok (cli, command_buffer).

(** [_parseCommand]: the result code, the engine and the command buffer.
    In REPL mode [command_buffer] is the command buffer of the engine, which
    the function reaches through the pointer only. *)
Definition _parseCommand (cli : EmbeddedCli.t) (command_buffer : list Z)
           (command_size : Z) (direct_mode : bool) (handle : Z)
  : result (Z * EmbeddedCli.t * list Z) :=
  isEmpty <- isEmpty_loop (Z.to_nat command_size) command_buffer 0 ;;
  if isEmpty : bool then Ok (1, cli, command_buffer)
  else
    cli <- (if negb direct_mode then
              str <- cstr command_buffer 0 ;;
              r <- historyPut (Impl.history (_impl cli)) str ;;
              Ok (upd_impl (Impl.set_history (snd r)) cli)
            else Ok cli) ;;
    r <- splitNameArgs_loop (Z.to_nat command_size) command_buffer 0
                            None None false ;;
    let '(command_buffer, cmdName, cmdArgs) := r in
    command_buffer <- store command_buffer (command_size + 1) 0 ;;
    match cmdName with
    | None => Ok (1, cli, command_buffer)
    | Some name =>
        found <- findBinding (Impl.bindings (_impl cli)) 0 command_buffer
                             name ;;
        (* a match whose handler is NULL leaves the search loop *)
        match (if found is Some (i, b)
               then if CliCommandBinding.binding b is Some handler
                    then Some (i, b, handler) else None
               else None) with
        | Some (i, b, handler) =>
            r <- invokeBinding cli command_buffer cmdArgs direct_mode
                               handle i b handler ;;
            Ok (0, fst r, snd r)
        | None =>
            if direct_mode then Ok (1, cli, command_buffer)
            else if EmbeddedCli.onCommand cli then
              let cli := set_flag CLI_FLAG_DIRECT_PRINT cli in
              let cli := emit (EvOnCommand
                                 (drop (Z.to_nat name) command_buffer)
                                 (view command_buffer cmdArgs)) cli in
              let cli := unset_flag CLI_FLAG_DIRECT_PRINT cli in
              Ok (1, cli, command_buffer)
            else
              cli <- onUnknownCommand cli command_buffer name ;;
              let cli := if EmbeddedCli.postCommand cli
                         then emit (EvPostCommand handle 1) cli else cli in
              Ok (1, cli, command_buffer)
        end
    end.

(** [strncpy (buffer, src, n)]: the [n] bytes written. *)
Fixpoint strncpy_bytes (n : nat) (src : list Z) : result (list Z) :=
  match n with
  | O => Ok []
  | S n =>
      match src with
      | [] => Fault
      | c :: src' =>
          if c =? 0 then Ok (replicate (S n) 0)
          else r <- strncpy_bytes n src' ;; Ok (c :: r)
      end
  end.

(** [command] is the memory the pointer designates.  The block obtained from
    [malloc] has indeterminate contents: every byte of it is [junk].  The
    allocation is taken to succeed. *)
Definition embeddedCliParseDirectCommand (cli : EmbeddedCli.t)
           (command : list Z) (length : Z) (handle : Z) (junk : Z)
  : result (Z * EmbeddedCli.t) :=
  let buffer := replicate (Z.to_nat (length + 2)) junk in
  copied <- strncpy_bytes (Z.to_nat length) command ;;
  buffer <- memcpy buffer 0 copied ;;
  buffer <- store buffer length 0 ;;
  r <- _parseCommand cli buffer length true handle ;;
  Ok (fst (fst r), snd (fst r)).

Definition parseCommand (cli : EmbeddedCli.t) (handle : Z)
  : result EmbeddedCli.t :=
  r <- _parseCommand cli (Impl.cmdBuffer (_impl cli))
                     (Impl.cmdSize (_impl cli)) false handle ;;
  Ok (upd_impl (Impl.set_cmdBuffer (snd r)) (snd (fst r))).

(** ** Control characters and the processing loop *)

Definition isControlChar (c : Z) : bool :=
  (c =? 13) || (c =? 10) || (c =? 8) || (c =? 9) || (c =? 127).

Definition isDisplayableChar (c : Z) : bool := (32 <=? c) && (c <=? 126).

(** The branch of [onControlInput] taken for a line terminator that is not
    the second byte of a pair. *)
Definition onControlInput_newline (cli : EmbeddedCli.t) (handle : Z)
  : result EmbeddedCli.t :=
  cli <- onAutocompleteRequest cli ;;
  cli <- writeToOutput cli lineBreak ;;
  cli <- (if 0 <? Impl.cmdSize (_impl cli) then parseCommand cli handle
          else Ok cli) ;;
  b <- store (Impl.cmdBuffer (_impl cli)) 0 0 ;;
  let cli :=
    upd_impl (fun i =>
                Impl.set_history (set_current 0 (Impl.history i))
                  (Impl.set_inputLineLength 0
                     (Impl.set_cmdBuffer b (Impl.set_cmdSize 0 i))))
             cli in
  writeToOutput cli (Impl.invitation (_impl cli)).

Definition onControlInput (cli : EmbeddedCli.t) (c : Z) (handle : Z)
  : result EmbeddedCli.t :=
  let lastChar := Impl.lastChar (_impl cli) in
  if ((lastChar =? 13) && (c =? 10)) || ((lastChar =? 10) && (c =? 13))
  then Ok cli
  else if (c =? 13) || (c =? 10) then onControlInput_newline cli handle
  else if ((c =? 8) || (c =? 127)) && (0 <? Impl.cmdSize (_impl cli)) then
    cli <- writeChar cli 8 ;;
    cli <- writeChar cli 32 ;;
    cli <- writeChar cli 8 ;;
    let n := u16 (Impl.cmdSize (_impl cli) - 1) in
    b <- store (Impl.cmdBuffer (_impl cli)) n 0 ;;
    Ok (upd_impl (fun i => Impl.set_cmdBuffer b (Impl.set_cmdSize n i)) cli)
  else if c =? 9 then onAutocompleteRequest cli
  else Ok cli.

(** The body of the [while] loop of [embeddedCliProcess], for the byte [c]
    just taken from the ring buffer. *)
Definition processByte (cli : EmbeddedCli.t) (c : Z) (handle : Z)
  : result EmbeddedCli.t :=
  let impl := _impl cli in
  cli <- (if IS_FLAG_SET (Impl.flags impl) CLI_FLAG_ESCAPE_MODE then
            onEscapedInput cli c
          else if (Impl.lastChar impl =? 27) && (c =? 91) then
            Ok (set_flag CLI_FLAG_ESCAPE_MODE cli)
          else if isControlChar c then onControlInput cli c handle
          else if isDisplayableChar c then onCharInput cli c
          else Ok cli) ;;
  cli <- printLiveAutocompletion cli ;;
  Ok (upd_impl (Impl.set_lastChar c) cli).

Fixpoint process_loop (fuel : nat) (cli : EmbeddedCli.t) (handle : Z)
  : result EmbeddedCli.t :=
  if fifoBufAvailable (Impl.rxBuffer (_impl cli)) =? 0 then Ok cli
  else
    match fuel with
    | O => OutOfFuel
    | S fuel =>
        r <- fifoBufPop (Impl.rxBuffer (_impl cli)) ;;
        let '(c, rx) := r in
        cli <- processByte (upd_impl (Impl.set_rxBuffer rx) cli) c handle ;;
        process_loop fuel cli handle
    end.

(** Every turn of the loop takes one byte out of the ring buffer, which
    holds fewer than [size] of them. *)
Definition embeddedCliProcess (cli : EmbeddedCli.t) (handle : Z)
  : result EmbeddedCli.t :=
  if negb (EmbeddedCli.writeChar cli) then Ok cli
  else
    cli <- (if negb (IS_FLAG_SET (Impl.flags (_impl cli))
                                 CLI_FLAG_INIT_COMPLETE) then
              writeToOutput (set_flag CLI_FLAG_INIT_COMPLETE cli)
                            (Impl.invitation (_impl cli))
            else Ok cli) ;;
    cli <- process_loop
             (Z.to_nat (FifoBuf.size (Impl.rxBuffer (_impl cli))))
             cli handle ;;
    if IS_FLAG_SET (Impl.flags (_impl cli)) CLI_FLAG_OVERFLOW then
      b <- store (Impl.cmdBuffer (_impl cli)) 0 0 ;;
      Ok (unset_flag CLI_FLAG_OVERFLOW
            (upd_impl (fun i => Impl.set_cmdBuffer b (Impl.set_cmdSize 0 i))
                      cli))
    else Ok cli.

Definition embeddedCliAddBinding (cli : EmbeddedCli.t)
           (binding : CliCommandBinding.t) : bool * EmbeddedCli.t :=
  let impl := _impl cli in
  if Impl.bindingsCount impl =? Impl.maxBindingsCount impl then (false, cli)
  else (true,
        upd_impl (Impl.set_bindings (Impl.bindings impl ++ [binding])) cli).

(** ** Construction *)

(** Modelled from the spec: [EmbeddedCliConfig] is declared in the missing
    header; these are the fields the construction reads.  The arena itself
    ([cliBuffer], [cliBufferSize]) is not modelled: each buffer is an object
    of its configured size, zeroed as by the [memset] of [embeddedCliNew]. *)
Module EmbeddedCliConfig.
Record t : Type := mk {
  rxBufferSize : Z;
  cmdBufferSize : Z;
  historyBufferSize : Z;
  maxBindingCount : Z;
  enableAutoComplete : bool;
  invitation : list Z
}.
End EmbeddedCliConfig.

Definition embeddedCliDefaultConfig : EmbeddedCliConfig.t :=
  EmbeddedCliConfig.mk 64 64 128 8 true [62; 32].

(** [onHelp] is the handler of the internal binding; [allocated] tells
    whether the arena came from [malloc]. *)
Definition initInternalBindings (cli : EmbeddedCli.t)
           (onHelp : Z -> option (list Z) -> Z -> Z) : EmbeddedCli.t :=
  let b := CliCommandBinding.mk
             (Literal.helpName) (Some Literal.helpText) true 0 (Some onHelp) in
  snd (embeddedCliAddBinding cli b).

Definition embeddedCliNew (config : EmbeddedCliConfig.t) (allocated : bool)
           (onHelp : Z -> option (list Z) -> Z -> Z) : EmbeddedCli.t :=
  let bindingCount :=
    u16 (EmbeddedCliConfig.maxBindingCount config + cliInternalBindingCount) in
  let zeros n := replicate (Z.to_nat n) 0 in
  let flags := if allocated then SET_FLAG 0 CLI_FLAG_ALLOCATED else 0 in
  let flags := if EmbeddedCliConfig.enableAutoComplete config
               then SET_FLAG flags CLI_FLAG_AUTOCOMPLETE_ENABLED else flags in
  let impl :=
    Impl.mk (EmbeddedCliConfig.invitation config)
            (CliHistory.mk (zeros (EmbeddedCliConfig.historyBufferSize config))
                           (EmbeddedCliConfig.historyBufferSize config) 0 0)
            (FifoBuf.mk (zeros (EmbeddedCliConfig.rxBufferSize config)) 0 0
                        (EmbeddedCliConfig.rxBufferSize config))
            (zeros (EmbeddedCliConfig.cmdBufferSize config))
            0 (EmbeddedCliConfig.cmdBufferSize config)
            [] (zeros bindingCount) bindingCount 0 0 flags in
  initInternalBindings (EmbeddedCli.mk false false false false impl [])
                       onHelp.

(** * Specification-side definitions *)

(** ** Ring buffer *)

Definition rx (cli : EmbeddedCli.t) : FifoBuf.t := Impl.rxBuffer (_impl cli).

(** [fifo_holds b bs]: the ring buffer [b] is well formed and holds the bytes
    [bs], oldest first. *)
Definition fifo_holds (b : FifoBuf.t) (bs : list Z) : Prop :=
  0 < FifoBuf.size b < 65536
  /\ FifoBuf.size b <= len (FifoBuf.buf b)
  /\ 0 <= FifoBuf.front b < FifoBuf.size b
  /\ 0 <= FifoBuf.back b < FifoBuf.size b
  /\ len bs = (FifoBuf.back b - FifoBuf.front b) mod FifoBuf.size b
  /\ forall k : nat,
      (k < length bs)%nat ->
      FifoBuf.buf b !! Z.to_nat ((FifoBuf.front b + Z.of_nat k)
                                  mod FifoBuf.size b) = bs !! k.

(** An empty, well-formed ring buffer. *)
Definition fifo_empty (b : FifoBuf.t) : Prop :=
  0 < FifoBuf.size b < 65536
  /\ FifoBuf.size b <= len (FifoBuf.buf b)
  /\ 0 <= FifoBuf.front b < FifoBuf.size b
  /\ FifoBuf.back b = FifoBuf.front b.

(** Taking the oldest byte out: [front] moves one place. *)
Definition advance (b : FifoBuf.t) : FifoBuf.t :=
  FifoBuf.mk (FifoBuf.buf b) ((FifoBuf.front b + 1) mod FifoBuf.size b)
             (FifoBuf.back b) (FifoBuf.size b).


(** Ingestion of a byte sequence, one [embeddedCliReceiveChar] per byte. *)
Fixpoint receiveChars (cli : EmbeddedCli.t) (bs : list Z)
  : result EmbeddedCli.t :=
  match bs with
  | [] => Ok cli
  | c :: bs => cli <- embeddedCliReceiveChar cli c ;; receiveChars cli bs
  end.

(** The editor pipeline run on the bytes [bs], in order: for each byte the
    ring buffer gives up its oldest element and [processByte] runs on that
    byte. *)
Fixpoint feed (cli : EmbeddedCli.t) (bs : list Z) (handle : Z)
  : result EmbeddedCli.t :=
  match bs with
  | [] => Ok cli
  | c :: bs =>
      cli <- processByte
               (upd_impl (Impl.set_rxBuffer (advance (rx cli))) cli) c handle ;;
      feed cli bs handle
  end.

(** [embeddedCliProcess] with its draining loop replaced by [feed bs]. *)
Definition process_feeding (bs : list Z) (cli : EmbeddedCli.t) (handle : Z)
  : result EmbeddedCli.t :=
  if negb (EmbeddedCli.writeChar cli) then Ok cli
  else
    cli <- (if negb (IS_FLAG_SET (Impl.flags (_impl cli))
                                 CLI_FLAG_INIT_COMPLETE) then
              writeToOutput (set_flag CLI_FLAG_INIT_COMPLETE cli)
                            (Impl.invitation (_impl cli))
            else Ok cli) ;;
    cli <- feed cli bs handle ;;
    if IS_FLAG_SET (Impl.flags (_impl cli)) CLI_FLAG_OVERFLOW then
      b <- store (Impl.cmdBuffer (_impl cli)) 0 0 ;;
      Ok (unset_flag CLI_FLAG_OVERFLOW
            (upd_impl (fun i => Impl.set_cmdBuffer b (Impl.set_cmdSize 0 i))
                      cli))
    else Ok cli.

(** ** Sample engines *)

(** A fresh engine as the host sets it up: [embeddedCliNew] on the default
    configuration with the given buffer sizes, then [writeChar] installed. *)
Definition sample_cli (rxBufferSize cmdBufferSize : Z) : EmbeddedCli.t :=
  let config :=
    EmbeddedCliConfig.mk rxBufferSize cmdBufferSize 128 8 true [62; 32] in
  let cli := embeddedCliNew config true (fun _ _ _ => 0) in
  EmbeddedCli.mk true false false false (_impl cli) [].

(** ** Tokenizer *)

(** The states the scanning loop of [embeddedCliTokenizeArgs] goes through
    on the buffer [a]. *)
Inductive tok_reach (a : list Z) : Tok.state -> Prop :=
| tok_reach_init : tok_reach a (tokenize_init a)
| tok_reach_step s s' :
    tok_reach a s -> tokenize_iter s = Ok (Some s') -> tok_reach a s'.

(** The invariant of the scan over [s ++ 0 :: slack]: the write position is
    not ahead of the read position, the read position is inside the string
    or on its terminator, and no byte at or after the read position has been
    written. *)
Definition tok_inv (buf : list Z) (L : Z) (st : Tok.state) : Prop :=
  0 <= Tok.insertPos st <= Tok.i st
  /\ Tok.i st <= L
  /\ length (Tok.args st) = length buf
  /\ forall j : nat, Tok.i st <= Z.of_nat j -> Tok.args st !! j = buf !! j.

(** ** History *)

(** The bytes of a list of items, each followed by its NUL. *)
Fixpoint hist_flat (items : list (list Z)) : list Z :=
  match items with
  | [] => []
  | it :: items => it ++ 0 :: hist_flat items
  end.

(** An item of the history is a non-empty string. *)
Definition item_ok (it : list Z) : Prop :=
  it <> [] /\ Forall (fun c => c <> 0) it.

(** [hist_repr h items]: the history [h] holds the strings [items], most
    recent first, laid out from offset 0 of its buffer. *)
Definition hist_repr (h : CliHistory.t) (items : list (list Z)) : Prop :=
  CliHistory.bufferSize h < 65536
  /\ CliHistory.bufferSize h <= len (CliHistory.buf h)
  /\ CliHistory.itemsCount h = Z.of_nat (length items)
  /\ Forall item_ok items
  /\ len (hist_flat items) <= CliHistory.bufferSize h
  /\ exists rest, CliHistory.buf h = hist_flat items ++ rest.

(** [items] without the first occurrence of [s]. *)
Fixpoint remove_first (s : list Z) (items : list (list Z))
  : list (list Z) :=
  match items with
  | [] => []
  | it :: items =>
      if list_eqb it s then items else it :: remove_first s items
  end.

(** What the search loop of [historyRemove] returns on the items
    [remaining], the first of which is item number [pos] at offset [off]. *)
Fixpoint find_from (s : list Z) (remaining : list (list Z)) (off pos : Z)
  : option Z * Z :=
  match remaining with
  | [] => (None, pos)
  | it :: remaining =>
      if list_eqb it s then (Some off, pos)
      else find_from s remaining (off + len it + 1) (pos + 1)
  end.

(** A history of capacity 8 that holds ["b"] (most recent) and ["a"]. *)
Definition sample_history : CliHistory.t :=
  CliHistory.mk [98; 0; 97; 0; 0; 0; 0; 0] 8 0 2.

(** ** Autocompletion *)

(** The names of the bindings that start with the prefix [p], in insertion
    order. *)
Definition candidates (p : list Z) (bs : list CliCommandBinding.t)
  : list (list Z) :=
  filter (fun n => take (length p) n = p) (map CliCommandBinding.name bs).

(** [a] is a common prefix length of the names [cs], all compared with
    [f]: every name is at least that long and has the same first [a]
    bytes. *)
Definition common_prefix_len (a : nat) (f : list Z) (cs : list (list Z))
  : Prop :=
  forall c, c ∈ cs -> (a <= length c)%nat /\ take a c = take a f.

(** [a] cannot be extended: a name ends there, or differs from [f]
    there. *)
Definition prefix_len_maximal (a : nat) (f : list Z) (cs : list (list Z))
  : Prop :=
  exists c, c ∈ cs /\ (length c = a \/ c !! a <> f !! a).

(** The binding table as the engine's [uint16_t] fields can describe it:
    fewer than 2^16 bindings, names shorter than 2^16 bytes, and one flag
    byte per binding. *)
Definition bindings_ok (impl : Impl.t) : Prop :=
  Z.of_nat (length (Impl.bindings impl)) < 65536
  /\ Forall (fun b => len (CliCommandBinding.name b) < 65536)
            (Impl.bindings impl)
  /\ (length (Impl.bindings impl) <= length (Impl.bindingsFlags impl))%nat.

(** The command buffer holds the string [p], and [cmdSize] is its
    length. *)
Definition cmd_holds (impl : Impl.t) (p : list Z) : Prop :=
  Forall (fun c => c <> 0) p
  /\ Impl.cmdSize impl = len p
  /\ exists rest, Impl.cmdBuffer impl = p ++ 0 :: rest.

(** What [getAutocompletedCommand] has computed once the bindings [seen]
    have been visited. *)
Definition autocomplete_inv (p : list Z) (seen : list CliCommandBinding.t)
           (cmd : AutocompletedCommand.t) : Prop :=
  candidateCount cmd = Z.of_nat (length (candidates p seen))
  /\ match candidates p seen with
     | [] => firstCandidate cmd = None /\ autocompletedLen cmd = 0
     | f :: _ =>
         firstCandidate cmd = Some f
         /\ exists a : nat,
             autocompletedLen cmd = Z.of_nat a
             /\ (length p <= a)%nat
             /\ common_prefix_len a f (candidates p seen)
             /\ prefix_len_maximal a f (candidates p seen)
     end.

(** The sample engine with the bindings [get-led], [get-adc] and [set]
    added after the internal [help], and with [p] typed into the command
    buffer. *)
Definition sample_binding (name : list Z) (tokenize : bool)
  : CliCommandBinding.t :=
  CliCommandBinding.mk name None tokenize 0 (Some (fun _ _ _ => 0)).

Definition sample_cli_with_bindings : EmbeddedCli.t :=
  let cli := sample_cli 64 64 in
  let cli := snd (embeddedCliAddBinding cli
                    (sample_binding [103; 101; 116; 45; 108; 101; 100]
                                    false)) in
  let cli := snd (embeddedCliAddBinding cli
                    (sample_binding [103; 101; 116; 45; 97; 100; 99] false)) in
  snd (embeddedCliAddBinding cli (sample_binding [115; 101; 116] true)).

Definition with_cmd (p : list Z) (cli : EmbeddedCli.t) : EmbeddedCli.t :=
  upd_impl (fun i =>
              Impl.set_cmdSize (len p)
                (Impl.set_cmdBuffer
                   (p ++ drop (length p) (Impl.cmdBuffer i)) i))
           cli.

(** The sample engine after [g] has been typed. *)
Definition sample_impl_g : Impl.t :=
  _impl (with_cmd [103] sample_cli_with_bindings).

(** ** Line editor *)

(** The loop body run on the bytes [bs], in order. *)
Fixpoint processBytes (cli : EmbeddedCli.t) (bs : list Z) (handle : Z)
  : result EmbeddedCli.t :=
  match bs with
  | [] => Ok cli
  | c :: bs => cli <- processByte cli c handle ;; processBytes cli bs handle
  end.

(** Output through the hooks, as opposed to a call of a handler or of the
    command hooks. *)
Definition is_write (e : event) : Prop :=
  match e with
  | EvWriteChar _ | EvWriteString _ => True
  | _ => False
  end.

(** [repaint_only cli cli']: from [cli] to [cli'] the engine has only
    written output, recomputed the candidate flags and updated
    [inputLineLength]. *)
Definition repaint_only (cli cli' : EmbeddedCli.t) : Prop :=
  EmbeddedCli.writeChar cli' = EmbeddedCli.writeChar cli
  /\ EmbeddedCli.writeString cli' = EmbeddedCli.writeString cli
  /\ EmbeddedCli.onCommand cli' = EmbeddedCli.onCommand cli
  /\ EmbeddedCli.postCommand cli' = EmbeddedCli.postCommand cli
  /\ _impl cli'
     = Impl.set_inputLineLength (Impl.inputLineLength (_impl cli'))
         (Impl.set_bindingsFlags (Impl.bindingsFlags (_impl cli'))
            (_impl cli))
  /\ length (Impl.bindingsFlags (_impl cli'))
     = length (Impl.bindingsFlags (_impl cli))
  /\ exists out, EmbeddedCli.trace cli' = EmbeddedCli.trace cli ++ out
                 /\ Forall is_write out.

(** The command buffer is an object of [cmdMaxSize] bytes, a size that a
    [uint16_t] holds. *)
Definition cmd_capacity_ok (impl : Impl.t) : Prop :=
  Impl.cmdMaxSize impl < 65536
  /\ Impl.cmdMaxSize impl <= len (Impl.cmdBuffer impl).

(** The state of the engine while a line is being typed: [p] is in the
    command buffer, no escape sequence is open and the last byte was not
    ESC. *)
Definition typing (cli : EmbeddedCli.t) (p : list Z) : Prop :=
  EmbeddedCli.writeChar cli = true
  /\ cmd_capacity_ok (_impl cli)
  /\ bindings_ok (_impl cli)
  /\ cmd_holds (_impl cli) p
  /\ IS_FLAG_SET (Impl.flags (_impl cli)) CLI_FLAG_ESCAPE_MODE = false
  /\ Impl.lastChar (_impl cli) <> 27.

(** [onCharInput] when the byte is taken: stored, terminated, echoed. *)
Definition char_appended (cli : EmbeddedCli.t) (c : Z) : EmbeddedCli.t :=
  let impl := _impl cli in
  let n := Impl.cmdSize impl in
  emit (EvWriteChar c)
       (upd_impl (fun i =>
                    Impl.set_cmdSize (n + 1)
                      (Impl.set_cmdBuffer
                         (<[Z.to_nat (n + 1) := 0]>
                            (<[Z.to_nat n := c]> (Impl.cmdBuffer impl))) i))
                 cli).

(** The two line-terminator pairs, first byte then second byte. *)
Definition is_terminator_pair (c1 c2 : Z) : Prop :=
  (c1 = 13 /\ c2 = 10) \/ (c1 = 10 /\ c2 = 13).

(** The calls of handlers and command hooks in a trace. *)
Definition dispatches (t : list event) : list event :=
  List.filter (fun e => match e with
                        | EvWriteChar _ | EvWriteString _ => false
                        | _ => true
                        end) t.

(** ** Dispatcher *)

(** The working copy that [embeddedCliParseDirectCommand] builds. *)
Definition direct_buffer (command : list Z) (length junk : Z)
  : result (list Z) :=
  copied <- strncpy_bytes (Z.to_nat length) command ;;
  buffer <- memcpy (replicate (Z.to_nat (length + 2)) junk) 0 copied ;;
  store buffer length 0.

(** The command name as [_parseCommand] finds it: the string at [cmdName]
    once the name has been terminated, or [None] when the buffer holds
    spaces only. *)
Definition parsed_name (command_buffer : list Z) (command_size : Z)
  : result (option (list Z)) :=
  r <- splitNameArgs_loop (Z.to_nat command_size) command_buffer 0
                          None None false ;;
  let '(b, cmdName, _) := r in
  b <- store b (command_size + 1) 0 ;;
  match cmdName with
  | None => Ok None
  | Some n => s <- cstr b n ;; Ok (Some s)
  end.

(** The names of the bindings are strings: they hold no NUL. *)
Definition names_ok (impl : Impl.t) : Prop :=
  Forall (fun b => Forall (fun c => c <> 0) (CliCommandBinding.name b))
         (Impl.bindings impl).

(** [cli] after the calls [out] to the outside world, and nothing else. *)
Definition with_events (out : list event) (cli : EmbeddedCli.t)
  : EmbeddedCli.t :=
  EmbeddedCli.mk (EmbeddedCli.writeChar cli) (EmbeddedCli.writeString cli)
                 (EmbeddedCli.onCommand cli) (EmbeddedCli.postCommand cli)
                 (_impl cli) (EmbeddedCli.trace cli ++ out).

(** The calls made when the binding [b], at index [i], is invoked in
    direct mode with the arguments [args]. *)
Definition binding_events (cli : EmbeddedCli.t) (handle : Z) (i : nat)
           (b : CliCommandBinding.t) (h : Z -> option (list Z) -> Z -> Z)
           (args : option (list Z)) : list event :=
  EvBinding i handle args (CliCommandBinding.context b)
  :: (if EmbeddedCli.postCommand cli
      then [EvPostCommand handle
              (u8 (h handle args (CliCommandBinding.context b)))]
      else []).

(** * The rest of the interface *)

(** ** Token search *)

(** The loop of [embeddedCliFindToken]; [strcmp] on a NULL token is a
    fault.  The counter is a [uint16_t]. *)
Fixpoint findToken_loop (fuel : nat) (tokenizedStr token : list Z)
         (size i : Z) : result Z :=
  match fuel with
  | O => OutOfFuel
  | S fuel =>
      if i <=? size then
        t <- embeddedCliGetToken (Some tokenizedStr) i ;;
        match t with
        | None => Fault
        | Some off =>
            e <- strcmp_eq tokenizedStr off token ;;
            if e : bool then Ok i
            else findToken_loop fuel tokenizedStr token size (u16 (i + 1))
        end
      else Ok 0
  end.

(** [token] is a string of the caller, [None] for NULL. *)
Definition embeddedCliFindToken (tokenizedStr token : option (list Z))
  : result Z :=
  match tokenizedStr, token with
  | Some str, Some tok =>
      size <- embeddedCliGetTokenCount (Some str) ;;
      findToken_loop (S (Z.to_nat size)) str tok size 1
  | _, _ => Ok 0
  end.

(** [tokenized str items]: the memory [str] holds the tokens [items], each
    followed by its NUL, and one more NUL after the last; an empty list of
    tokens is two NULs. *)
Definition tokenized (str : list Z) (items : list (list Z)) : Prop :=
  Forall item_ok items
  /\ exists rest, str = hist_flat items ++ 0 :: rest
                  /\ (items = [] -> exists r, rest = 0 :: r).

(** The token being read, once it ends: nothing when it is empty. *)
Definition close_token (cur : list Z) : list (list Z) :=
  if cur is [] then [] else [cur].

(** The arguments of a command line [s], read from left to right: a
    backslash takes the next byte as it is, a double quote ends the
    argument being read and switches quoting, a space outside quotes ends
    the argument being read, and any other byte belongs to the argument.
    [cur] is the argument being read. *)
Fixpoint args_of (quoted escaped : bool) (cur s : list Z)
  : list (list Z) :=
  match s with
  | [] => close_token cur
  | c :: s =>
      if escaped then args_of quoted false (cur ++ [c]) s
      else if c =? 92 then args_of quoted true cur s
      else if c =? 34 then close_token cur ++ args_of (negb quoted) false [] s
      else if negb quoted && (c =? 32) then
        close_token cur ++ args_of quoted false [] s
      else args_of quoted false (cur ++ [c]) s
  end.

(** The words of a string: its maximal runs of bytes other than the
    space; [cur] is the run being read. *)
Fixpoint words_acc (cur s : list Z) : list (list Z) :=
  match s with
  | [] => close_token cur
  | c :: s =>
      if c =? 32 then close_token cur ++ words_acc [] s
      else words_acc (cur ++ [c]) s
  end.

Definition words (s : list Z) : list (list Z) := words_acc [] s.

(** A byte the tokenizer copies as it is: not NUL, space, double quote or
    backslash. *)
Definition plain_byte (c : Z) : Prop :=
  c <> 0 /\ c <> 32 /\ c <> 34 /\ c <> 92.

(** The index, from 1, of the first token equal to [token]; 0 when there is
    none. *)
Definition first_index (token : list Z) (items : list (list Z)) : Z :=
  match list_find (fun it => it = token) items with
  | Some (k, _) => Z.of_nat k + 1
  | None => 0
  end.

(** What the scan has written: the finished tokens [ts], each with its
    NUL, and the token being copied. *)
Definition tok_out (ts : list (list Z)) (cur : list Z) : list Z :=
  hist_flat ts ++ cur.

(** ** Construction and registration *)

(** [embeddedCliNewDefault]: the default configuration has no buffer of
    its own, so the arena comes from [malloc], taken to succeed. *)
Definition embeddedCliNewDefault (onHelp : Z -> option (list Z) -> Z -> Z)
  : EmbeddedCli.t :=
  embeddedCliNew embeddedCliDefaultConfig true onHelp.


(** One [embeddedCliAddBinding] per binding of [bs], in order: the results
    of the calls and the engine afterwards. *)
Fixpoint addBindings (cli : EmbeddedCli.t) (bs : list CliCommandBinding.t)
  : list bool * EmbeddedCli.t :=
  match bs with
  | [] => ([], cli)
  | b :: bs =>
      let r := embeddedCliAddBinding cli b in
      let rs := addBindings (snd r) bs in
      (fst r :: fst rs, snd rs)
  end.

(** ** Line editor *)

(** The state after the three bytes that rub out a character have been
    written and the last byte of the command has been dropped. *)
Definition char_removed (cli : EmbeddedCli.t) : EmbeddedCli.t :=
  let cli1 := emit (EvWriteChar 8)
                   (emit (EvWriteChar 32) (emit (EvWriteChar 8) cli)) in
  let n := Impl.cmdSize (_impl cli) - 1 in
  upd_impl (fun i =>
              Impl.set_cmdBuffer
                (<[Z.to_nat n := 0]> (Impl.cmdBuffer (_impl cli)))
                (Impl.set_cmdSize n i))
           cli1.


(** ** Dispatcher *)

(** What [writeToOutput] hands to the host for the string [s]: one call of
    [writeString] when that hook is set, and one call of [writeChar] per
    byte otherwise. *)
Definition written (cli : EmbeddedCli.t) (s : list Z) : list event :=
  if EmbeddedCli.writeString cli then [EvWriteString s]
  else map EvWriteChar s.

(** A command line of spaces only. *)
Definition blank (p : list Z) : bool := forallb (fun c => c =? 32) p.

(** The command buffer as the handler of [b] finds it: tokenized from the
    arguments on when the binding asks for it and there are arguments. *)
Definition args_buffer (b : CliCommandBinding.t) (command_buffer : list Z)
           (cmdArgs : option Z) : result (list Z) :=
  if CliCommandBinding.tokenizeArgs b then
    match cmdArgs with
    | None => Ok command_buffer
    | Some off =>
        a <- embeddedCliTokenizeArgs (view command_buffer cmdArgs) ;;
        Ok (take (Z.to_nat off) command_buffer ++ default [] a)
    end
  else Ok command_buffer.

(** The calls made in interactive mode for a command that no binding
    handles: the [onCommand] hook when it is set, with the name and the
    arguments as the dispatcher found them; otherwise the message about an
    unknown command, then the [postCommand] hook with result 1. *)
Definition fallback_events (cli : EmbeddedCli.t) (handle : Z)
           (command_buffer : list Z) (cmdName : Z) (name : list Z)
           (cmdArgs : option Z) : list event :=
  if EmbeddedCli.onCommand cli then
    [EvOnCommand (drop (Z.to_nat cmdName) command_buffer)
                 (view command_buffer cmdArgs)]
  else
    written cli Literal.unknownHead ++ written cli name
    ++ written cli Literal.unknownTail ++ written cli lineBreak
    ++ (if EmbeddedCli.postCommand cli then [EvPostCommand handle 1]
        else []).

(** The first binding called [name], when it has a handler. *)
Definition handler_of (impl : Impl.t) (name : list Z)
  : option (nat * CliCommandBinding.t * (Z -> option (list Z) -> Z -> Z)) :=
  match list_find (fun b => CliCommandBinding.name b = name)
                  (Impl.bindings impl) with
  | Some (i, b) =>
      match CliCommandBinding.binding b with
      | Some h => Some (i, b, h)
      | None => None
      end
  | None => None
  end.

(** The engine when a command line is submitted in interactive mode: the
    line [p] is in the command buffer with two bytes to spare, the history
    holds [items], the output hook is set and the flags are a [uint8_t]
    without the direct-print flag. *)
Definition submitting (cli : EmbeddedCli.t) (p : list Z)
           (items : list (list Z)) : Prop :=
  EmbeddedCli.writeChar cli = true
  /\ cmd_holds (_impl cli) p
  /\ len p + 2 <= len (Impl.cmdBuffer (_impl cli))
  /\ hist_repr (Impl.history (_impl cli)) items
  /\ names_ok (_impl cli)
  /\ 0 <= Impl.flags (_impl cli) < 256
  /\ IS_FLAG_SET (Impl.flags (_impl cli)) CLI_FLAG_DIRECT_PRINT = false.
(** * More definitions for the line editor *)

(** The engine with [lastChar] and [flags] replaced. *)
Definition with_last (c f : Z) (cli : EmbeddedCli.t) : EmbeddedCli.t :=
  upd_impl (fun i => Impl.set_lastChar c (Impl.set_flags f i)) cli.

(** The state of the engine while the line [p] is being edited, whatever
    the escape mode and the last byte. *)
Definition editing (cli : EmbeddedCli.t) (p : list Z) : Prop :=
  EmbeddedCli.writeChar cli = true
  /\ cmd_capacity_ok (_impl cli)
  /\ bindings_ok (_impl cli)
  /\ cmd_holds (_impl cli) p.

(** The lines that list the names [cs]: every name, then a line break. *)
Definition candidate_lines (cli : EmbeddedCli.t) (cs : list (list Z))
  : list event :=
  flat_map (fun c => written cli c ++ written cli lineBreak) cs.

(** The command line after a completion to [a] bytes of the first
    candidate [f]: a space follows the name when it is the only
    candidate. *)
Definition completed (f : list Z) (cs : list (list Z)) (a : nat) : list Z :=
  if cs is [] then f ++ [32] else take a f.

(** What [clearCurrentLine] writes. *)
Definition line_cleared (cli : EmbeddedCli.t) : list event :=
  [EvWriteChar 13]
  ++ map EvWriteChar
         (replicate (Z.to_nat (Impl.inputLineLength (_impl cli)
                               + len (Impl.invitation (_impl cli)))) 32)
  ++ [EvWriteChar 13].

(** What is fixed when the engine is set up: the hooks, the invitation,
    the bindings and the capacities. *)
Definition configuration (cli : EmbeddedCli.t)
  : bool * bool * bool * bool * list Z * list CliCommandBinding.t
    * Z * Z * Z * Z :=
  (EmbeddedCli.writeChar cli, EmbeddedCli.writeString cli,
   EmbeddedCli.onCommand cli, EmbeddedCli.postCommand cli,
   Impl.invitation (_impl cli), Impl.bindings (_impl cli),
   Impl.cmdMaxSize (_impl cli), Impl.maxBindingsCount (_impl cli),
   CliHistory.bufferSize (Impl.history (_impl cli)),
   FifoBuf.size (Impl.rxBuffer (_impl cli))).


(** ** Printing from the host *)

(** [embeddedCliPrint]: [string] is the string the pointer designates. *)
Definition embeddedCliPrint (cli : EmbeddedCli.t) (string : list Z)
  : result EmbeddedCli.t :=
  if negb (EmbeddedCli.writeChar cli) then Ok cli
  else
    cli <- (if negb (IS_FLAG_SET (Impl.flags (_impl cli))
                                 CLI_FLAG_DIRECT_PRINT)
            then clearCurrentLine cli else Ok cli) ;;
    cli <- writeToOutput cli string ;;
    cli <- writeToOutput cli lineBreak ;;
    if negb (IS_FLAG_SET (Impl.flags (_impl cli)) CLI_FLAG_DIRECT_PRINT) then
      cli <- writeToOutput cli (Impl.invitation (_impl cli)) ;;
      cli <- writeToOutput_at cli (Impl.cmdBuffer (_impl cli)) 0 ;;
      printLiveAutocompletion
        (upd_impl (fun i => Impl.set_inputLineLength (Impl.cmdSize i) i) cli)
    else Ok cli.

(** ** The [help] command *)

(** The literals of [onHelp]; byte 34 is the double quote. *)
Module HelpLiteral.
Import String.
Local Open Scope string_scope.
Definition notAvailable : list Z := bytes "Help is not available".
Definition bullet : list Z := bytes " * ".
Definition usage : list Z :=
  bytes "Command " ++ [34%Z] ++ bytes "help" ++ [34%Z]
  ++ bytes " receives one or zero arguments".
End HelpLiteral.

(** The loop of [onHelp] that lists the bindings. *)
Fixpoint onHelp_list (bs : list CliCommandBinding.t) (cli : EmbeddedCli.t)
  : result EmbeddedCli.t :=
  match bs with
  | [] => Ok cli
  | b :: bs =>
      cli <- writeToOutput cli HelpLiteral.bullet ;;
      cli <- writeToOutput cli (CliCommandBinding.name b) ;;
      cli <- writeToOutput cli lineBreak ;;
      cli <- (match CliCommandBinding.help b with
              | None => Ok cli
              | Some text =>
                  cli <- writeChar cli 9 ;;
                  cli <- writeToOutput cli text ;;
                  writeToOutput cli lineBreak
              end) ;;
      onHelp_list bs cli
  end.

(** [onHelp]: the handler of the internal binding.  It is called with the
    handle as first argument and reads the engine through it; [cli] is
    that engine, and [tokens] the memory the second argument designates.
    The result is the return code and the engine. *)
Definition onHelp (cli : EmbeddedCli.t) (tokens : option (list Z))
  : result (Z * EmbeddedCli.t) :=
  let impl := _impl cli in
  if Impl.bindingsCount impl =? 0 then
    cli <- writeToOutput cli HelpLiteral.notAvailable ;;
    cli <- writeToOutput cli lineBreak ;;
    Ok (1, cli)
  else
    tokenCount <- embeddedCliGetTokenCount tokens ;;
    if tokenCount =? 0 then
      cli <- onHelp_list (Impl.bindings impl) cli ;;
      Ok (0, cli)
    else if tokenCount =? 1 then
      cmdName <- embeddedCliGetToken tokens 1 ;;
      match tokens, cmdName with
      | Some str, Some off =>
          found <- findBinding (Impl.bindings impl) 0 str off ;;
          match found with
          | Some (_, b) =>
              match CliCommandBinding.help b with
              | Some helpStr =>
                  cli <- writeToOutput cli HelpLiteral.bullet ;;
                  cli <- writeToOutput_at cli str off ;;
                  cli <- writeToOutput cli lineBreak ;;
                  cli <- writeChar cli 9 ;;
                  cli <- writeToOutput cli helpStr ;;
                  cli <- writeToOutput cli lineBreak ;;
                  Ok (0, cli)
              | None =>
                  cli <- writeToOutput cli HelpLiteral.notAvailable ;;
                  cli <- writeToOutput cli lineBreak ;;
                  Ok (1, cli)
              end
          | None =>
              cli <- onUnknownCommand cli str off ;;
              Ok (1, cli)
          end
      | _, _ => Fault (* [strcmp] on NULL *)
      end
    else
      cli <- writeToOutput cli HelpLiteral.usage ;;
      cli <- writeToOutput cli lineBreak ;;
      Ok (0, cli).

(** What [onHelp] writes for one binding: a bullet and the name, then the
    help text after a TAB when there is one. *)
Definition help_entry (cli : EmbeddedCli.t) (name : list Z)
           (help : option (list Z)) : list event :=
  written cli HelpLiteral.bullet ++ written cli name
  ++ written cli lineBreak
  ++ match help with
     | None => []
     | Some text =>
         [EvWriteChar 9] ++ written cli text ++ written cli lineBreak
     end.

Definition help_lines (cli : EmbeddedCli.t)
           (bs : list CliCommandBinding.t) : list event :=
  flat_map (fun b => help_entry cli (CliCommandBinding.name b)
                                (CliCommandBinding.help b)) bs.

(** ** Setting an engine up *)


(** * Proofs *)

(** ** Inversion of monadic code *)

Lemma bind_Ok {A B} (m : result A) (k : A -> result B) (b : B) :
  bind m k = Ok b -> exists a, m = Ok a /\ k a = Ok b.
Proof. destruct m; simpl; intros H; try discriminate. eauto. Qed.

Ltac inv_res :=
  repeat (first
    [ progress simplify_eq
    | match goal with
      | H : bind _ _ = Ok _ |- _ =>
          let a := fresh "a" in
          let Ha := fresh "Hm" in
          apply bind_Ok in H; destruct H as (a & Ha & H)
      end ]).

(** ** Arithmetic of the ring-buffer indices *)

Lemma mod_wrap (x n : Z) :
  0 <= x < 2 * n -> x mod n = if x <? n then x else x - n.
Proof.
  intros H. destruct (x <? n) eqn:E.
  - apply Z.ltb_lt in E. apply Z.mod_small. lia.
  - apply Z.ltb_ge in E. symmetry.
    apply (Z.mod_unique_pos x n 1 (x - n)); lia.
Qed.

Lemma mod_diff (f b n : Z) :
  0 <= f < n -> 0 <= b < n ->
  (b - f) mod n = if f <=? b then b - f else b - f + n.
Proof.
  intros Hf Hb. destruct (Z.leb_spec f b).
  - apply Z.mod_small. lia.
  - symmetry. apply (Z.mod_unique_pos _ _ (-1)); lia.
Qed.

Lemma u16_small (x : Z) : 0 <= x < 65536 -> u16 x = x.
Proof. intros. unfold u16. apply Z.mod_small. lia. Qed.

Lemma load_Some (m : list Z) (i : nat) (v : Z) :
  m !! i = Some v -> load m (Z.of_nat i) = Ok v.
Proof.
  intros H. unfold load.
  destruct (Z.ltb_spec (Z.of_nat i) 0); [lia|].
  rewrite Nat2Z.id, H. reflexivity.
Qed.

Lemma load_Ok (m : list Z) (i v : Z) :
  load m i = Ok v <-> 0 <= i /\ m !! Z.to_nat i = Some v.
Proof.
  unfold load. destruct (Z.ltb_spec i 0).
  - split; [discriminate | lia].
  - destruct (m !! Z.to_nat i) eqn:E; split; intros H1.
    + injection H1 as ->. auto.
    + destruct H1 as [? H1]. congruence.
    + discriminate.
    + destruct H1 as [? H1]. discriminate.
Qed.

Lemma store_Ok (m : list Z) (i v : Z) (m' : list Z) :
  store m i v = Ok m' <-> (0 <= i < len m /\ m' = <[Z.to_nat i := v]> m).
Proof.
  unfold store.
  destruct (Z.leb_spec 0 i), (Z.ltb_spec i (len m)); simpl;
    split; intros H1; try discriminate; try lia.
  - injection H1 as <-. auto.
  - destruct H1 as [? ->]. reflexivity.
Qed.

Lemma store_in_range (m : list Z) (i v : Z) :
  0 <= i < len m -> store m i v = Ok (<[Z.to_nat i := v]> m).
Proof. intros. apply store_Ok. auto. Qed.

(** ** Ring buffer (C1) *)

Lemma fifo_holds_available b bs :
  fifo_holds b bs -> fifoBufAvailable b = len bs.
Proof.
  intros (Hs & Hl & Hf & Hb & Hn & _). unfold fifoBufAvailable.
  rewrite Hn, mod_diff by lia.
  destruct (Z.leb_spec (FifoBuf.front b) (FifoBuf.back b));
    rewrite u16_small by lia; lia.
Qed.

Lemma fifo_holds_bound b bs : fifo_holds b bs -> len bs < FifoBuf.size b.
Proof.
  intros (Hs & _ & _ & _ & Hn & _). rewrite Hn.
  apply Z.mod_pos_bound. lia.
Qed.

Lemma fifoBufPush_holds b bs a :
  fifo_holds b bs -> len bs < FifoBuf.size b - 1 ->
  exists b', fifoBufPush b a = Ok (true, b') /\ fifo_holds b' (bs ++ [a]).
Proof.
  intros (Hs & Hl & Hf & Hb & Hn & Hk) Hlt.
  unfold fifoBufPush, c_mod.
  destruct (Z.eqb_spec (FifoBuf.size b) 0); [lia|]. simpl.
  rewrite u16_small by lia.
  rewrite mod_diff in Hn by lia.
  rewrite (mod_wrap (FifoBuf.back b + 1)) by lia.
  set (nb := if FifoBuf.back b + 1 <? FifoBuf.size b
             then FifoBuf.back b + 1 else FifoBuf.back b + 1 - FifoBuf.size b).
  assert (Hnb : nb <> FifoBuf.front b /\ 0 <= nb < FifoBuf.size b).
  { subst nb.
    destruct (Z.ltb_spec (FifoBuf.back b + 1) (FifoBuf.size b)),
             (Z.leb_spec (FifoBuf.front b) (FifoBuf.back b)); lia. }
  destruct (Z.eqb_spec nb (FifoBuf.front b)); [lia|]. simpl.
  rewrite store_in_range by lia. simpl.
  eexists. split; [reflexivity|].
  unfold fifo_holds; simpl. unfold len in *.
  rewrite length_insert, length_app. simpl.
  repeat split; try lia.
  - (* the count *)
    subst nb.
    destruct (Z.ltb_spec (FifoBuf.back b + 1) (FifoBuf.size b)),
             (Z.leb_spec (FifoBuf.front b) (FifoBuf.back b)).
    all: rewrite mod_diff by lia.
    all: match goal with |- context [?x <=? ?y] =>
           destruct (Z.leb_spec x y) end; lia.
  - (* the contents *)
    intros k Hk'.
    assert (Hpos : (FifoBuf.front b + Z.of_nat k) mod FifoBuf.size b
                   = if FifoBuf.front b + Z.of_nat k <? FifoBuf.size b
                     then FifoBuf.front b + Z.of_nat k
                     else FifoBuf.front b + Z.of_nat k - FifoBuf.size b).
    { apply mod_wrap. lia. }
    destruct (decide (k = length bs)) as [->|Hne].
    + rewrite lookup_app_r by lia. rewrite Nat.sub_diag. simpl.
      replace ((FifoBuf.front b + Z.of_nat (length bs)) mod FifoBuf.size b)
        with (FifoBuf.back b).
      * apply list_lookup_insert_eq. lia.
      * rewrite Hpos.
        destruct (Z.ltb_spec (FifoBuf.front b + Z.of_nat (length bs))
                             (FifoBuf.size b)),
                 (Z.leb_spec (FifoBuf.front b) (FifoBuf.back b)); lia.
    + rewrite lookup_app_l by lia.
      rewrite list_lookup_insert_ne.
      * apply Hk. lia.
      * rewrite Hpos.
        destruct (Z.ltb_spec (FifoBuf.front b + Z.of_nat k) (FifoBuf.size b)),
                 (Z.leb_spec (FifoBuf.front b) (FifoBuf.back b)); lia.
Qed.


Lemma fifoBufPop_holds b c bs :
  fifo_holds b (c :: bs) ->
  fifoBufPop b = Ok (c, advance b) /\ fifo_holds (advance b) bs.
Proof.
  intros (Hs & Hl & Hf & Hb & Hn & Hk).
  rewrite mod_diff in Hn by lia. unfold len in Hn.
  rewrite length_cons in Hn.
  assert (Hne : FifoBuf.front b <> FifoBuf.back b).
  { destruct (Z.leb_spec (FifoBuf.front b) (FifoBuf.back b)); lia. }
  split.
  - unfold fifoBufPop, c_mod.
    destruct (Z.eqb_spec (FifoBuf.front b) (FifoBuf.back b)); [lia|]. simpl.
    specialize (Hk 0%nat ltac:(simpl; lia)). simpl in Hk.
    rewrite Z.add_0_r, Z.mod_small in Hk by lia.
    assert (Hld : load (FifoBuf.buf b) (FifoBuf.front b) = Ok c).
    { apply load_Ok. split; [lia|exact Hk]. }
    rewrite Hld. simpl.
    destruct (Z.eqb_spec (FifoBuf.size b) 0); [lia|]. simpl.
    rewrite u16_small by lia. reflexivity.
  - unfold fifo_holds, advance; simpl.
    rewrite (mod_wrap (FifoBuf.front b + 1)) by lia.
    destruct (Z.leb_spec (FifoBuf.front b) (FifoBuf.back b)),
             (Z.ltb_spec (FifoBuf.front b + 1) (FifoBuf.size b)).
    all: repeat split; try lia.
    all: try (unfold len; rewrite mod_diff by lia;
              match goal with |- context [?x <=? ?y] =>
                destruct (Z.leb_spec x y) end; lia).
    all: intros k Hk'; specialize (Hk (S k) ltac:(simpl; lia));
      simpl in Hk; rewrite <- Hk; f_equal; f_equal;
      rewrite (mod_wrap (FifoBuf.front b + Z.of_nat (S k))) by lia;
      rewrite mod_wrap by lia;
      repeat match goal with |- context [?x <? ?y] =>
               destruct (Z.ltb_spec x y) end; lia.
Qed.

(** ** The editor leaves the ring buffer alone *)

Ltac split_ok :=
  repeat (first
    [ progress inv_res
    | match goal with
      | H : match ?x with _ => _ end = Ok _ |- _ => destruct x eqn:?
      end ]).

Notation "'rxOf' cli" := (Impl.rxBuffer (_impl cli))
  (at level 10, cli at level 9, only parsing).

Lemma writeChar_rx cli c cli' :
  writeChar cli c = Ok cli' -> rxOf cli' = rxOf cli.
Proof. unfold writeChar. intros H. split_ok. reflexivity. Qed.

Lemma writeChars_rx s : forall cli cli',
  writeChars cli s = Ok cli' -> rxOf cli' = rxOf cli.
Proof.
  induction s as [|c s IH]; simpl; intros cli cli' H; split_ok; [reflexivity|].
  apply IH in H. apply writeChar_rx in Hm. congruence.
Qed.

Lemma writeToOutput_rx cli s cli' :
  writeToOutput cli s = Ok cli' -> rxOf cli' = rxOf cli.
Proof.
  unfold writeToOutput. intros H. split_ok; [reflexivity|].
  eapply writeChars_rx; eauto.
Qed.

Lemma writeToOutput_at_rx cli m p cli' :
  writeToOutput_at cli m p = Ok cli' -> rxOf cli' = rxOf cli.
Proof.
  unfold writeToOutput_at. intros H. split_ok.
  eapply writeToOutput_rx; eauto.
Qed.

Ltac rx_fwd0 :=
  repeat match goal with
         | H : writeChar _ _ = Ok _ |- _ => apply writeChar_rx in H
         | H : writeChars _ _ = Ok _ |- _ => apply writeChars_rx in H
         | H : writeToOutput _ _ = Ok _ |- _ => apply writeToOutput_rx in H
         | H : writeToOutput_at _ _ _ = Ok _ |- _ =>
             apply writeToOutput_at_rx in H
         end.

Ltac rx_done := simpl in *; congruence.

Lemma clearCurrentLine_rx cli cli' :
  clearCurrentLine cli = Ok cli' -> rxOf cli' = rxOf cli.
Proof. unfold clearCurrentLine. intros H. split_ok. rx_fwd0. rx_done. Qed.

Lemma getAutocompletedCommand_rx impl prefix cmd impl' :
  getAutocompletedCommand impl prefix = Ok (cmd, impl') ->
  Impl.rxBuffer impl' = Impl.rxBuffer impl.
Proof.
  unfold getAutocompletedCommand. intros H. split_ok; reflexivity.
Qed.

Lemma writeCandidateTail_rx n first : forall cli i cli',
  writeCandidateTail n cli first i = Ok cli' -> rxOf cli' = rxOf cli.
Proof.
  induction n as [|n IH]; simpl; intros cli i cli' H; split_ok;
    [reflexivity|].
  apply IH in H. rx_fwd0. congruence.
Qed.

Lemma printLiveAutocompletion_rx cli cli' :
  printLiveAutocompletion cli = Ok cli' -> rxOf cli' = rxOf cli.
Proof.
  unfold printLiveAutocompletion. intros H. split_ok; [reflexivity|].
  apply getAutocompletedCommand_rx in Hm.
  apply writeCandidateTail_rx in Hm0. rx_fwd0. rx_done.
Qed.

Lemma printCandidates_rx bs fl : forall i cli cli',
  printCandidates bs i fl cli = Ok cli' -> rxOf cli' = rxOf cli.
Proof.
  induction bs as [|b bs IH]; simpl; intros i cli cli' H; split_ok;
    try reflexivity; apply IH in H; rx_fwd0; congruence.
Qed.

Lemma onAutocompleteRequest_rx cli cli' :
  onAutocompleteRequest cli = Ok cli' -> rxOf cli' = rxOf cli.
Proof.
  unfold onAutocompleteRequest. intros H. split_ok;
    repeat match goal with
           | H : getAutocompletedCommand _ _ = Ok _ |- _ =>
               apply getAutocompletedCommand_rx in H
           | H : clearCurrentLine _ = Ok _ |- _ =>
               apply clearCurrentLine_rx in H
           | H : printCandidates _ _ _ _ = Ok _ |- _ =>
               apply printCandidates_rx in H
           end; rx_fwd0; rx_done.
Qed.

Lemma navigateHistory_rx cli up cli' :
  navigateHistory cli up = Ok cli' -> rxOf cli' = rxOf cli.
Proof.
  unfold navigateHistory. intros H. split_ok; try reflexivity;
    repeat match goal with
           | H : clearCurrentLine _ = Ok _ |- _ =>
               apply clearCurrentLine_rx in H
           | H : printLiveAutocompletion _ = Ok _ |- _ =>
               apply printLiveAutocompletion_rx in H
           end; rx_fwd0; rx_done.
Qed.

Lemma onEscapedInput_rx cli c cli' :
  onEscapedInput cli c = Ok cli' -> rxOf cli' = rxOf cli.
Proof.
  unfold onEscapedInput. intros H. split_ok; try reflexivity.
  apply navigateHistory_rx in H. rx_done.
Qed.

Lemma onCharInput_rx cli c cli' :
  onCharInput cli c = Ok cli' -> rxOf cli' = rxOf cli.
Proof. unfold onCharInput. intros H. split_ok; rx_fwd0; rx_done. Qed.

Lemma onUnknownCommand_rx cli m p cli' :
  onUnknownCommand cli m p = Ok cli' -> rxOf cli' = rxOf cli.
Proof. unfold onUnknownCommand. intros H. split_ok; rx_fwd0; rx_done. Qed.

Lemma invokeBinding_rx cli buf a d h i b f cli' buf' :
  invokeBinding cli buf a d h i b f = Ok (cli', buf') -> rxOf cli' = rxOf cli.
Proof.
  unfold invokeBinding. intros H. split_ok;
    destruct d; simpl; destruct (EmbeddedCli.postCommand cli); reflexivity.
Qed.

Lemma _parseCommand_rx cli buf n d h r cli' buf' :
  _parseCommand cli buf n d h = Ok (r, cli', buf') -> rxOf cli' = rxOf cli.
Proof.
  unfold _parseCommand. intros H. split_ok; try reflexivity;
    repeat match goal with
           | H : invokeBinding _ _ _ _ _ _ _ _ = Ok ?r |- _ =>
               destruct r; apply invokeBinding_rx in H
           | H : onUnknownCommand _ _ _ = Ok _ |- _ =>
               apply onUnknownCommand_rx in H
           end;
    repeat match goal with
           | |- context [if ?b then _ else _] => destruct b
           end; rx_done.
Qed.

Lemma parseCommand_rx cli h cli' :
  parseCommand cli h = Ok cli' -> rxOf cli' = rxOf cli.
Proof.
  unfold parseCommand. intros H. split_ok.
  destruct a as [[r c] b]. apply _parseCommand_rx in Hm. rx_done.
Qed.

Lemma onControlInput_rx cli c h cli' :
  onControlInput cli c h = Ok cli' -> rxOf cli' = rxOf cli.
Proof.
  unfold onControlInput, onControlInput_newline. intros H.
  split_ok; try reflexivity;
    repeat match goal with
           | H : onAutocompleteRequest _ = Ok _ |- _ =>
               apply onAutocompleteRequest_rx in H
           | H : parseCommand _ _ = Ok _ |- _ => apply parseCommand_rx in H
           end; rx_fwd0; rx_done.
Qed.

Lemma processByte_rx cli c h cli' :
  processByte cli c h = Ok cli' -> rxOf cli' = rxOf cli.
Proof.
  unfold processByte. intros H. split_ok;
    repeat match goal with
           | H : onEscapedInput _ _ = Ok _ |- _ => apply onEscapedInput_rx in H
           | H : onControlInput _ _ _ = Ok _ |- _ =>
               apply onControlInput_rx in H
           | H : onCharInput _ _ = Ok _ |- _ => apply onCharInput_rx in H
           | H : printLiveAutocompletion _ = Ok _ |- _ =>
               apply printLiveAutocompletion_rx in H
           end; rx_done.
Qed.

Lemma receiveChars_holds bs : forall cli bs0,
  fifo_holds (rx cli) bs0 ->
  len bs0 + len bs <= FifoBuf.size (rx cli) - 1 ->
  exists b',
    receiveChars cli bs = Ok (upd_impl (Impl.set_rxBuffer b') cli)
    /\ fifo_holds b' (bs0 ++ bs)
    /\ FifoBuf.size b' = FifoBuf.size (rx cli).
Proof.
  induction bs as [|c bs IH]; intros cli bs0 Hh Hl.
  - exists (rx cli). rewrite app_nil_r. simpl.
    split; [|split; [exact Hh|reflexivity]].
    destruct cli as [w s o p i t]. destruct i. reflexivity.
  - unfold len in Hl. rewrite length_cons in Hl.
    destruct (fifoBufPush_holds _ _ c Hh) as (b1 & Hp & Hh1);
      [unfold len; lia|].
    assert (Hsz : FifoBuf.size b1 = FifoBuf.size (rx cli)).
    { unfold fifoBufPush in Hp. split_ok. reflexivity. }
    simpl. unfold embeddedCliReceiveChar. fold (rx cli). rewrite Hp. simpl.
    destruct (IH (set_impl (Impl.set_rxBuffer b1 (_impl cli)) cli)
                 (bs0 ++ [c])) as (b' & Hr & Hh' & Hsz').
    + exact Hh1.
    + unfold rx in *; simpl. unfold len in *. rewrite length_app.
      simpl length. lia.
    + exists b'. rewrite Hr. rewrite <- app_assoc in Hh'. simpl in Hh'.
      split; [reflexivity|]. split; [exact Hh'|].
      unfold rx in *; simpl in *. congruence.
Qed.

Lemma process_loop_feed handle bs : forall fuel cli,
  fifo_holds (rx cli) bs -> (length bs <= fuel)%nat ->
  process_loop fuel cli handle = feed cli bs handle.
Proof.
  induction bs as [|c bs IH]; intros fuel cli Hh Hf.
  - destruct fuel; simpl; fold (rx cli);
      rewrite (fifo_holds_available _ _ Hh); reflexivity.
  - destruct fuel as [|fuel]; [simpl in Hf; lia|].
    simpl. fold (rx cli). rewrite (fifo_holds_available _ _ Hh).
    unfold len. rewrite length_cons.
    destruct (Z.eqb_spec (Z.of_nat (S (length bs))) 0); [lia|].
    destruct (fifoBufPop_holds _ _ _ Hh) as [Hp Hh']. rewrite Hp. simpl.
    destruct (processByte _ c handle) as [cli'| |] eqn:Hstep;
      simpl; try reflexivity.
    apply IH.
    + apply processByte_rx in Hstep. unfold rx. rewrite Hstep. exact Hh'.
    + simpl in Hf. lia.
Qed.

Lemma fifo_empty_holds b : fifo_empty b -> fifo_holds b [].
Proof.
  intros (Hs & Hl & Hf & Hb). unfold fifo_holds. rewrite Hb.
  rewrite Z.sub_diag, Z.mod_0_l by lia.
  repeat split; try lia. simpl. intros k Hk. lia.
Qed.

(** C1, amended: for every byte sequence of length at most
    [rx-buffer-size - 1] delivered one byte at a time through
    [embeddedCliReceiveChar] into an empty ring buffer, ingestion changes
    nothing but the ring buffer (the overflow flag is not set), all the bytes
    are available, and one [embeddedCliProcess] call runs the editor pipeline
    on exactly these bytes, in the order received. *)
Theorem receive_then_process_keeps_bytes
        (cli : EmbeddedCli.t) (bs : list Z) (handle : Z) :
  fifo_empty (rx cli) ->
  len bs <= FifoBuf.size (rx cli) - 1 ->
  exists cli1,
    receiveChars cli bs = Ok cli1
    /\ Impl.flags (_impl cli1) = Impl.flags (_impl cli)
    /\ fifoBufAvailable (rx cli1) = len bs
    /\ embeddedCliProcess cli1 handle = process_feeding bs cli1 handle.
Proof.
  intros He Hl. apply fifo_empty_holds in He.
  destruct (receiveChars_holds bs cli [] He) as (b' & Hr & Hh & Hsz).
  { unfold len at 1. simpl. lia. }
  simpl in Hh. eexists. split; [exact Hr|]. split; [reflexivity|].
  split; [exact (fifo_holds_available _ _ Hh)|].
  unfold embeddedCliProcess, process_feeding. simpl.
  destruct (EmbeddedCli.writeChar cli); simpl; [|reflexivity].
  match goal with
  | |- bind ?m _ = bind ?m _ => destruct m as [cli2| |] eqn:Hinit
  end; simpl; try reflexivity.
  assert (Hrx : rx cli2 = b').
  { destruct (IS_FLAG_SET _ _) in Hinit; simpl in Hinit.
    - injection Hinit as <-. reflexivity.
    - apply writeToOutput_rx in Hinit. exact Hinit. }
  fold (rx cli2). rewrite Hrx.
  rewrite (process_loop_feed handle bs); [reflexivity| |].
  - rewrite Hrx. exact Hh.
  - pose proof (fifo_holds_bound _ _ Hh) as Hb. unfold len in Hb. lia.
Qed.

Lemma receive_then_process_keeps_bytes_witness :
  fifo_empty (rx (sample_cli 64 64))
  /\ len [104; 105] <= FifoBuf.size (rx (sample_cli 64 64)) - 1
  /\ exists cli1,
      receiveChars (sample_cli 64 64) [104; 105] = Ok cli1
      /\ Impl.flags (_impl cli1) = Impl.flags (_impl (sample_cli 64 64))
      /\ fifoBufAvailable (rx cli1) = len [104; 105]
      /\ embeddedCliProcess cli1 0 = process_feeding [104; 105] cli1 0.
Proof.
  assert (He : fifo_empty (rx (sample_cli 64 64))).
  { unfold fifo_empty. simpl. unfold len. simpl. lia. }
  assert (Hl : len [104; 105] <= FifoBuf.size (rx (sample_cli 64 64)) - 1).
  { unfold len. simpl. lia. }
  split; [exact He|]. split; [exact Hl|].
  exact (receive_then_process_keeps_bytes (sample_cli 64 64) [104; 105] 0
                                          He Hl).
Defined.

(** C1 as stated fails at length [rx-buffer-size]: with a ring buffer of 4
    bytes, the fourth byte of [abcd] is dropped, the overflow flag is set and
    only three bytes are available to [embeddedCliProcess]. *)
Lemma receive_full_size_overflows :
  fifo_empty (rx (sample_cli 4 64))
  /\ len [97; 98; 99; 100] <= FifoBuf.size (rx (sample_cli 4 64))
  /\ IS_FLAG_SET (Impl.flags (_impl (sample_cli 4 64))) CLI_FLAG_OVERFLOW
     = false
  /\ exists cli1,
      receiveChars (sample_cli 4 64) [97; 98; 99; 100] = Ok cli1
      /\ IS_FLAG_SET (Impl.flags (_impl cli1)) CLI_FLAG_OVERFLOW = true
      /\ fifoBufAvailable (rx cli1) = 3
      /\ embeddedCliProcess cli1 0 = process_feeding [97; 98; 99] cli1 0.
Proof.
  split; [unfold fifo_empty; simpl; unfold len; simpl; lia|].
  split; [unfold len; simpl; lia|].
  split; [reflexivity|].
  eexists. split; [vm_compute; reflexivity|].
  split; [reflexivity|]. split; [reflexivity|]. vm_compute. reflexivity.
Qed.

(** ** Tokenizer (C10, C3) *)

Lemma load_in_range (m : list Z) (i : Z) :
  0 <= i < len m -> exists v, load m i = Ok v /\ m !! Z.to_nat i = Some v.
Proof.
  intros H. unfold len in H.
  destruct (lookup_lt_is_Some_2 m (Z.to_nat i) ltac:(lia)) as [v Hv].
  exists v. split; [|exact Hv]. apply load_Ok. split; [lia|exact Hv].
Qed.

Lemma tokenize_emit_spec (st : Tok.state) (c : Z) :
  0 <= Tok.insertPos st < len (Tok.args st) ->
  exists st',
    tokenize_emit st c = Ok (Some st')
    /\ Tok.i st' = Tok.i st
    /\ (st' = st
        \/ (Tok.args st' = <[Z.to_nat (Tok.insertPos st) := c]> (Tok.args st)
            /\ Tok.insertPos st' = Tok.insertPos st + 1)).
Proof.
  intros Hip. unfold tokenize_emit.
  assert (Hst : forall b : bool,
             exists st',
               (if b
                then a <- store (Tok.args st) (Tok.insertPos st) c ;;
                     Ok (Some (Tok.mk a (Tok.i st) (Tok.insertPos st + 1)
                                      (Tok.quotesEnabled st)
                                      (Tok.escapeActivated st)))
                else Ok (Some st)) = Ok (Some st')
               /\ Tok.i st' = Tok.i st
               /\ (st' = st
                   \/ (Tok.args st'
                       = <[Z.to_nat (Tok.insertPos st) := c]> (Tok.args st)
                       /\ Tok.insertPos st' = Tok.insertPos st + 1))).
  { intros [|].
    - rewrite store_in_range by lia. simpl. eexists. split; [reflexivity|].
      simpl. auto.
    - eexists. split; [reflexivity|]. auto. }
  destruct (c =? 0); simpl; [|apply (Hst true)].
  destruct (Z.ltb_spec 0 (Tok.insertPos st)); simpl; [|apply (Hst false)].
  destruct (load_in_range (Tok.args st) (Tok.insertPos st - 1))
    as (v & Hv & _); [lia|].
  rewrite Hv. simpl. apply (Hst (negb (v =? 0))).
Qed.

Section TokenizerScan.
Variables (s slack : list Z).
Hypothesis s_nonzero : Forall (fun c => c <> 0) s.

Let buf := s ++ 0 :: slack.
Let L := len s.

Lemma buf_lookup_string (j : nat) :
  Z.of_nat j < L -> exists c, buf !! j = Some c /\ c <> 0.
Proof.
  intros Hj. unfold L, len in Hj.
  destruct (lookup_lt_is_Some_2 s j ltac:(lia)) as [c Hc].
  exists c. split.
  - unfold buf. rewrite lookup_app_l by lia. exact Hc.
  - exact (Forall_lookup_1 _ _ _ _ s_nonzero Hc).
Qed.

Lemma buf_lookup_terminator : buf !! Z.to_nat L = Some 0.
Proof.
  unfold buf, L, len. rewrite Nat2Z.id.
  rewrite lookup_app_r by lia. rewrite Nat.sub_diag. reflexivity.
Qed.

Lemma buf_length : len buf = L + 1 + len slack.
Proof. unfold buf, L, len. rewrite length_app. simpl. lia. Qed.

Lemma tok_inv_init : tok_inv buf L (tokenize_init buf).
Proof.
  unfold tok_inv, tokenize_init; simpl. unfold L, len.
  repeat split; try lia.
Qed.

(** One turn of the loop from a state that satisfies the invariant: it
    does not fault; it stops exactly on the terminator and otherwise
    reads one byte and keeps the invariant. *)
Lemma tokenize_iter_inv (st : Tok.state) :
  tok_inv buf L st ->
  (Tok.i st = L /\ tokenize_iter st = Ok None)
  \/ (Tok.i st < L
      /\ exists st', tokenize_iter st = Ok (Some st')
                     /\ Tok.i st' = Tok.i st + 1
                     /\ tok_inv buf L st').
Proof.
  intros (Hip & Hi & Hlen & Hun).
  pose proof buf_length as Hbl. unfold len in Hbl.
  assert (Hread : Tok.args st !! Z.to_nat (Tok.i st)
                  = buf !! Z.to_nat (Tok.i st)).
  { apply Hun. lia. }
  destruct (Z.eq_dec (Tok.i st) L) as [HiL|HiL].
  - left. split; [exact HiL|]. unfold tokenize_iter.
    assert (Hld : load (Tok.args st) (Tok.i st) = Ok 0).
    { apply load_Ok. split; [lia|].
      rewrite Hread, HiL. apply buf_lookup_terminator. }
    rewrite Hld. reflexivity.
  - right. split; [lia|].
    destruct (buf_lookup_string (Z.to_nat (Tok.i st))) as (c & Hc & Hc0);
      [lia|].
    unfold tokenize_iter.
    assert (Hld : load (Tok.args st) (Tok.i st) = Ok c).
    { apply load_Ok. split; [lia|]. rewrite Hread. exact Hc. }
    rewrite Hld. simpl.
    destruct (Z.eqb_spec c 0); [contradiction|].
    (* every branch ends in the same shape *)
    assert (Hemit : forall q e c',
               exists st',
                 tokenize_emit (Tok.mk (Tok.args st) (Tok.i st + 1)
                                       (Tok.insertPos st) q e) c'
                 = Ok (Some st')
                 /\ Tok.i st' = Tok.i st + 1 /\ tok_inv buf L st').
    { intros q e c'.
      destruct (tokenize_emit_spec
                  (Tok.mk (Tok.args st) (Tok.i st + 1)
                          (Tok.insertPos st) q e) c')
        as (st' & He & Hi' & Hcase).
      { simpl. unfold len. lia. }
      exists st'. split; [exact He|]. split; [exact Hi'|].
      destruct Hcase as [->|[Ha Hp]].
      - unfold tok_inv; simpl. repeat split; try lia.
        intros j Hj. apply Hun. lia.
      - unfold tok_inv. rewrite Hi', Ha, Hp. simpl.
        rewrite length_insert. repeat split; try lia.
        intros j Hj. rewrite list_lookup_insert_ne by lia.
        apply Hun. lia. }
    destruct (Tok.escapeActivated st); [apply Hemit|].
    destruct (c =? 92).
    { eexists. split; [reflexivity|]. split; [reflexivity|].
      unfold tok_inv; simpl. repeat split; try lia.
      intros j Hj. apply Hun. lia. }
    destruct (c =? 34); [apply Hemit|].
    destruct (negb (Tok.quotesEnabled st) && is_separator c);
      apply Hemit.
Qed.

Lemma tok_reach_inv (st : Tok.state) : tok_reach buf st -> tok_inv buf L st.
Proof.
  induction 1 as [|st st' _ IH Hstep]; [apply tok_inv_init|].
  destruct (tokenize_iter_inv st IH) as [[_ Hn]|(_ & st2 & Hs & _ & Hinv)].
  - congruence.
  - congruence.
Qed.

(** The loop ends on the terminator, without running out of fuel. *)
Lemma tokenize_loop_ends (fuel : nat) : forall st,
  tok_reach buf st ->
  L - Tok.i st < Z.of_nat fuel ->
  exists st', tokenize_loop fuel st = Ok st'
              /\ tok_reach buf st' /\ Tok.i st' = L.
Proof.
  induction fuel as [|fuel IH]; intros st Hr Hf.
  - pose proof (tok_reach_inv st Hr) as (_ & Hi & _). lia.
  - simpl.
    destruct (tokenize_iter_inv st (tok_reach_inv st Hr))
      as [[HiL Hn]|(Hlt & st2 & Hs & Hi2 & Hinv)].
    + rewrite Hn. simpl. eauto.
    + rewrite Hs. simpl. apply IH.
      * eapply tok_reach_step; eauto.
      * lia.
Qed.
End TokenizerScan.

(** The whole run of the tokenizer on a string with room after it. *)
Lemma tokenize_run (s slack : list Z) :
  Forall (fun c => c <> 0) s ->
  slack <> [] ->
  let buf := s ++ 0 :: slack in
  let L := len s in
  (forall st, tok_reach buf st -> tok_inv buf L st)
  /\ exists st out,
      tokenize_loop (S (length buf)) (tokenize_init buf) = Ok st
      /\ tok_reach buf st
      /\ 0 <= Tok.insertPos st <= L
      /\ embeddedCliTokenizeArgs (Some buf) = Ok (Some out)
      /\ out = <[Z.to_nat (Tok.insertPos st + 1) := 0]>
                 (<[Z.to_nat (Tok.insertPos st) := 0]> (Tok.args st))
      /\ length out = length buf
      /\ forall j : nat, L + 2 <= Z.of_nat j -> out !! j = buf !! j.
Proof.
  intros Hs Hslack buf L.
  split; [intros st; apply tok_reach_inv; exact Hs|].
  pose proof (buf_length s slack) as Hbl. fold buf L in Hbl.
  assert (Hsl : 1 <= len slack).
  { destruct slack; [contradiction|]. unfold len. simpl. lia. }
  destruct (tokenize_loop_ends s slack Hs (S (length buf))
                               (tokenize_init buf))
    as (st & Hloop & Hreach & HiL).
  { apply tok_reach_init. }
  { fold L. simpl Tok.i. unfold len in *. lia. }
  fold buf in Hloop, Hreach. fold L in HiL.
  pose proof (tok_reach_inv s slack Hs st Hreach) as (Hip & Hi & Hlen & Hun).
  fold buf L in Hip, Hi, Hlen, Hun.
  exists st. eexists. split; [exact Hloop|]. split; [exact Hreach|].
  split; [lia|].
  unfold embeddedCliTokenizeArgs. rewrite Hloop. simpl.
  rewrite store_in_range by (unfold len in *; lia). simpl.
  rewrite store_in_range
    by (unfold len in *; rewrite length_insert; lia).
  simpl. split; [reflexivity|]. split; [reflexivity|].
  split; [rewrite !length_insert; exact Hlen|].
  intros j Hj. rewrite !list_lookup_insert_ne by lia. apply Hun. lia.
Qed.

(** C10: for every NUL-terminated input string of length [L] followed by at
    least one more byte, [embeddedCliTokenizeArgs] writes only at indices
    [0 .. L+1]: in every state of the scan the write position is not ahead
    of the read position and nothing at or after the read position has been
    written; the scan ends, and the two terminating NULs land at
    [insertPos <= L] and [insertPos + 1 <= L + 1], so that the bytes from
    index [L + 2] on are untouched. *)
Theorem tokenize_writes_within_two_bytes (s slack : list Z) :
  Forall (fun c => c <> 0) s ->
  slack <> [] ->
  let buf := s ++ 0 :: slack in
  let L := len s in
  (forall st, tok_reach buf st -> tok_inv buf L st)
  /\ exists st out,
      tokenize_loop (S (length buf)) (tokenize_init buf) = Ok st
      /\ tok_reach buf st
      /\ 0 <= Tok.insertPos st <= L
      /\ embeddedCliTokenizeArgs (Some buf) = Ok (Some out)
      /\ out = <[Z.to_nat (Tok.insertPos st + 1) := 0]>
                 (<[Z.to_nat (Tok.insertPos st) := 0]> (Tok.args st))
      /\ length out = length buf
      /\ forall j : nat, L + 2 <= Z.of_nat j -> out !! j = buf !! j.
Proof. exact (tokenize_run s slack). Qed.

Lemma tokenize_writes_within_two_bytes_witness :
  Forall (fun c => c <> 0) [97; 32; 98; 32; 99]
  /\ [255] <> []
  /\ let buf := [97; 32; 98; 32; 99] ++ 0 :: [255] in
     let L := len [97; 32; 98; 32; 99] in
     (forall st, tok_reach buf st -> tok_inv buf L st)
     /\ exists st out,
         tokenize_loop (S (length buf)) (tokenize_init buf) = Ok st
         /\ tok_reach buf st
         /\ 0 <= Tok.insertPos st <= L
         /\ embeddedCliTokenizeArgs (Some buf) = Ok (Some out)
         /\ out = <[Z.to_nat (Tok.insertPos st + 1) := 0]>
                    (<[Z.to_nat (Tok.insertPos st) := 0]> (Tok.args st))
         /\ length out = length buf
         /\ forall j : nat, L + 2 <= Z.of_nat j -> out !! j = buf !! j.
Proof.
  assert (H1 : Forall (fun c => c <> 0) [97; 32; 98; 32; 99])
    by (repeat constructor; lia).
  assert (H2 : [255] <> ([] : list Z)) by discriminate.
  split; [exact H1|]. split; [exact H2|].
  exact (tokenize_writes_within_two_bytes [97; 32; 98; 32; 99] [255] H1 H2).
Defined.

(** C3, amended: on the buffer ["a b c"] (with its terminator and one more
    byte) [embeddedCliTokenizeArgs] produces exactly the tokens
    ["a"; "b"; "c"], double-NUL-terminated; a second run on that buffer is
    not a no-op: it reads the buffer as the string ["a"], overwrites index 2
    with NUL, and leaves the single token ["a"]. *)
Theorem tokenize_a_b_c :
  let buf := [97; 32; 98; 32; 99; 0; 255] in
  let once := [97; 0; 98; 0; 99; 0; 0] in
  let twice := [97; 0; 0; 0; 99; 0; 0] in
  embeddedCliTokenizeArgs (Some buf) = Ok (Some once)
  /\ embeddedCliGetTokenCount (Some once) = Ok 3
  /\ tokens_of once = Ok [[97]; [98]; [99]]
  /\ embeddedCliTokenizeArgs (Some once) = Ok (Some twice)
  /\ tokens_of twice = Ok [[97]].
Proof. repeat split; reflexivity. Qed.

(** C3 as stated fails: the second run changes the buffer and its token
    list. *)
Lemma tokenize_twice_is_not_a_noop :
  let once := [97; 0; 98; 0; 99; 0; 0] in
  embeddedCliTokenizeArgs (Some [97; 32; 98; 32; 99; 0; 255]) = Ok (Some once)
  /\ embeddedCliTokenizeArgs (Some once) <> Ok (Some once)
  /\ (forall twice, embeddedCliTokenizeArgs (Some once) = Ok (Some twice) ->
                    tokens_of twice <> tokens_of once).
Proof.
  split; [reflexivity|]. split; [discriminate|].
  intros twice H. vm_compute in H. injection H as <-. discriminate.
Qed.

(** ** History (C4, C5) *)

Lemma load_app_head (pre rest : list Z) (x : Z) :
  load (pre ++ x :: rest) (len pre) = Ok x.
Proof.
  unfold len. apply load_Ok. split; [lia|].
  rewrite Nat2Z.id. rewrite lookup_app_r by lia.
  rewrite Nat.sub_diag. reflexivity.
Qed.

Lemma load_app_next (pre rest : list Z) (x y : Z) :
  load (pre ++ x :: y :: rest) (len pre + 1) = Ok y.
Proof.
  unfold len. apply load_Ok. split; [lia|].
  rewrite lookup_app_r by lia.
  replace (Z.to_nat (Z.of_nat (length pre) + 1) - length pre)%nat
    with 1%nat by lia.
  reflexivity.
Qed.

Lemma len_app (a b : list Z) : len (a ++ b) = len a + len b.
Proof. unfold len. rewrite length_app. lia. Qed.

Lemma len_cons (x : Z) (a : list Z) : len (x :: a) = len a + 1.
Proof. unfold len. simpl. lia. Qed.

Lemma len_nonneg (a : list Z) : 0 <= len a.
Proof. unfold len. lia. Qed.

Lemma len_nil : len [] = 0.
Proof. reflexivity. Qed.

Ltac len_lia :=
  unfold len in *;
  repeat rewrite ?length_app, ?length_cons, ?length_nil, ?length_insert,
    ?length_take, ?length_drop, ?length_replicate in *;
  simpl length in *; lia.

Lemma strlen_from_string (it post : list Z) :
  Forall (fun c => c <> 0) it -> strlen_from (it ++ 0 :: post) = Ok (len it).
Proof.
  induction 1 as [|x it Hx _ IH]; simpl; [reflexivity|].
  destruct (Z.eqb_spec x 0); [contradiction|].
  rewrite IH. simpl. rewrite len_cons. reflexivity.
Qed.

Lemma strlen_string (pre it post : list Z) :
  Forall (fun c => c <> 0) it ->
  strlen (pre ++ it ++ 0 :: post) (len pre) = Ok (len it).
Proof.
  intros H. unfold strlen.
  pose proof (len_nonneg pre). pose proof (len_nonneg (it ++ 0 :: post)).
  rewrite len_app.
  destruct (Z.ltb_spec (len pre) 0); [lia|].
  destruct (Z.ltb_spec (len pre + len (it ++ 0 :: post)) (len pre)); [lia|].
  simpl. unfold len at 1. rewrite Nat2Z.id, drop_app_length.
  apply strlen_from_string. exact H.
Qed.

Lemma cstr_string (pre it post : list Z) :
  Forall (fun c => c <> 0) it ->
  cstr (pre ++ it ++ 0 :: post) (len pre) = Ok it.
Proof.
  intros H. unfold cstr. rewrite strlen_string by exact H. simpl.
  unfold len. rewrite !Nat2Z.id, drop_app_length, take_app_length.
  reflexivity.
Qed.

Lemma getTokenPosition_loop_S fuel str pos i tc :
  getTokenPosition_loop (S fuel) str pos i tc
  = if tc =? pos then Ok i
    else
      c <- load str i ;;
      if c =? 0 then
        c1 <- load str (i + 1) ;;
        if c1 =? 0 then Ok i
        else getTokenPosition_loop fuel str pos (u16 (i + 1)) (u16 (tc + 1))
      else getTokenPosition_loop fuel str pos (u16 (i + 1)) tc.
Proof. reflexivity. Qed.

(** The position loop walks over one item and its terminator when another
    item follows. *)
Lemma getTokenPosition_loop_skip (it : list Z) :
  forall (pre post : list Z) (fuel : nat) (pos tc c : Z),
    Forall (fun c => c <> 0) it -> tc <> pos -> c <> 0 ->
    len pre + len it + 1 < 65536 ->
    getTokenPosition_loop (length it + 1 + fuel) (pre ++ it ++ 0 :: c :: post)
                          pos (len pre) tc
    = getTokenPosition_loop fuel (pre ++ it ++ 0 :: c :: post) pos
                            (len pre + len it + 1) (u16 (tc + 1)).
Proof.
  induction it as [|x it IH]; intros pre post fuel pos tc c Hit Htc Hc Hb.
  - change (length [] + 1 + fuel)%nat with (S fuel).
    rewrite getTokenPosition_loop_S.
    destruct (Z.eqb_spec tc pos); [contradiction|].
    simpl app. rewrite load_app_head. simpl.
    rewrite load_app_next. simpl.
    destruct (Z.eqb_spec c 0); [contradiction|].
    rewrite u16_small by len_lia.
    rewrite len_nil, Z.add_0_r. reflexivity.
  - inversion Hit as [|? ? Hx Hit']; subst.
    change (length (x :: it) + 1 + fuel)%nat
      with (S (length it + 1 + fuel)).
    rewrite getTokenPosition_loop_S.
    destruct (Z.eqb_spec tc pos); [contradiction|].
    simpl app. rewrite load_app_head. simpl.
    destruct (Z.eqb_spec x 0); [contradiction|].
    rewrite u16_small by len_lia.
    replace (pre ++ x :: it ++ 0 :: c :: post)
      with ((pre ++ [x]) ++ it ++ 0 :: c :: post)
      by (rewrite <- app_assoc; reflexivity).
    replace (len pre + 1) with (len (pre ++ [x])) by len_lia.
    rewrite IH by (try assumption; len_lia).
    f_equal. len_lia.
Qed.

Lemma item_ok_head (it rest : list Z) :
  item_ok it -> exists c tl, it ++ rest = c :: tl /\ c <> 0.
Proof.
  intros [Hne Hnz]. destruct it as [|c it]; [contradiction|].
  inversion Hnz; subst. exists c, (it ++ rest). auto.
Qed.

(** What follows the items [pre] when an item [it] comes after them starts
    with a byte that is not NUL. *)
Lemma hist_flat_head (pre : list (list Z)) (it post : list Z) :
  Forall item_ok pre -> item_ok it ->
  exists c tl, hist_flat pre ++ it ++ 0 :: post = c :: tl /\ c <> 0.
Proof.
  intros Hpre Hit. destruct pre as [|p pre]; simpl.
  - apply item_ok_head. exact Hit.
  - inversion Hpre; subst. rewrite <- app_assoc. apply item_ok_head.
    assumption.
Qed.

Lemma len_hist_flat_cons (p : list Z) (pre : list (list Z)) :
  len (hist_flat (p :: pre)) = len p + 1 + len (hist_flat pre).
Proof. simpl. len_lia. Qed.

Lemma getTokenPosition_loop_walk (pre : list (list Z)) :
  forall (done it post : list Z) (fuel : nat) (pos tc : Z),
    Forall item_ok pre -> item_ok it ->
    tc + Z.of_nat (length pre) = pos -> 0 <= tc -> pos < 65536 ->
    len done + len (hist_flat pre) + len it + 1 < 65536 ->
    (length (hist_flat pre) < fuel)%nat ->
    getTokenPosition_loop fuel (done ++ hist_flat pre ++ it ++ 0 :: post)
                          pos (len done) tc
    = Ok (len done + len (hist_flat pre)).
Proof.
  induction pre as [|p pre IH];
    intros done it post fuel pos tc Hpre Hit Hpos Htc Hlt Hb Hf.
  - destruct fuel as [|fuel]; [simpl in Hf; lia|].
    rewrite getTokenPosition_loop_S. simpl in Hpos.
    destruct (Z.eqb_spec tc pos); [|lia].
    simpl. rewrite len_nil, Z.add_0_r. reflexivity.
  - inversion Hpre as [|? ? Hp Hpre']; subst.
    destruct (hist_flat_head pre it post Hpre' Hit) as (c & tl & Htl & Hc).
    rewrite len_hist_flat_cons in Hb.
    assert (Hfl : (length (hist_flat (p :: pre))
                   = length p + 1 + length (hist_flat pre))%nat).
    { simpl. rewrite length_app. simpl. lia. }
    replace fuel with (length p + 1 + (fuel - length p - 1))%nat by lia.
    simpl hist_flat. rewrite <- !app_assoc. simpl app. rewrite Htl.
    destruct Hp as [_ Hpz].
    rewrite getTokenPosition_loop_skip;
      [|exact Hpz|rewrite length_cons in *; lia|exact Hc
       |pose proof (len_nonneg (hist_flat pre));
        pose proof (len_nonneg it); lia].
    rewrite <- Htl.
    replace (done ++ p ++ 0 :: hist_flat pre ++ it ++ 0 :: post)
      with ((done ++ p ++ [0]) ++ hist_flat pre ++ it ++ 0 :: post)
      by (rewrite <- !app_assoc; reflexivity).
    replace (len done + len p + 1) with (len (done ++ p ++ [0])) by len_lia.
    rewrite length_cons in *.
    rewrite u16_small by lia.
    rewrite IH; try assumption; try lia.
    + f_equal. len_lia.
    + replace (len (done ++ p ++ [0])) with (len done + len p + 1)
        by len_lia.
      lia.
Qed.

(** The accessors find item [length pre + 1] at the offset where the items
    before it end. *)
Lemma getTokenPosition_item (pre : list (list Z)) (it post : list Z) :
  Forall item_ok pre -> item_ok it ->
  len (hist_flat pre) + len it + 1 < 65536 ->
  getTokenPosition (Some (hist_flat pre ++ it ++ 0 :: post))
                   (Z.of_nat (length pre) + 1)
  = Ok (len (hist_flat pre)).
Proof.
  intros Hpre Hit Hb. unfold getTokenPosition.
  destruct (Z.eqb_spec (Z.of_nat (length pre) + 1) 0); [lia|].
  assert (Hcnt : Z.of_nat (length pre) <= len (hist_flat pre)).
  { clear. induction pre as [|p pre IH]; simpl; len_lia. }
  pose proof (len_nonneg it).
  pose proof (getTokenPosition_loop_walk pre [] it post
                (S (length (hist_flat pre ++ it ++ 0 :: post)))
                (Z.of_nat (length pre) + 1) 1 Hpre Hit) as Hw.
  cbn [app] in Hw. rewrite len_nil, !Z.add_0_l in Hw. rewrite Hw.
  - simpl.
    destruct (item_ok_head it (0 :: post) Hit) as (c & tl & Htl & Hc).
    rewrite Htl, load_app_head. simpl.
    destruct (Z.eqb_spec c 0); [contradiction|]. reflexivity.
  - lia.
  - lia.
  - lia.
  - lia.
  - rewrite length_app. lia.
Qed.

Lemma embeddedCliGetToken_item (pre : list (list Z)) (it post : list Z) :
  Forall item_ok pre -> item_ok it ->
  len (hist_flat pre) + len it + 1 < 65536 ->
  embeddedCliGetToken (Some (hist_flat pre ++ it ++ 0 :: post))
                      (Z.of_nat (length pre) + 1)
  = Ok (Some (len (hist_flat pre))).
Proof.
  intros Hpre Hit Hb. unfold embeddedCliGetToken.
  rewrite getTokenPosition_item by assumption. simpl.
  pose proof (len_nonneg it).
  destruct (Z.eqb_spec (len (hist_flat pre)) CLI_TOKEN_NPOS) as [E|]; auto.
  unfold CLI_TOKEN_NPOS in E. lia.
Qed.

Lemma hist_flat_app (a b : list (list Z)) :
  hist_flat (a ++ b) = hist_flat a ++ hist_flat b.
Proof.
  induction a as [|x a IH]; simpl; [reflexivity|].
  rewrite IH, <- app_assoc. reflexivity.
Qed.

Lemma length_le_hist_flat (items : list (list Z)) :
  Z.of_nat (length items) <= len (hist_flat items).
Proof. induction items as [|p items IH]; simpl; len_lia. Qed.

Lemma item_ok_len (it : list Z) : item_ok it -> 1 <= len it.
Proof. intros [Hne _]. destruct it; [contradiction|]. len_lia. Qed.

Lemma historyRemove_find_S fuel h str itemPosition :
  historyRemove_find (S fuel) h str itemPosition
  = if itemPosition <=? CliHistory.itemsCount h then
      item <- embeddedCliGetTokenVariable (Some (CliHistory.buf h))
                                          itemPosition ;;
      match item with
      | None => Fault
      | Some off =>
          s <- cstr (CliHistory.buf h) off ;;
          if list_eqb s str then Ok (Some off, itemPosition)
          else historyRemove_find fuel h str (u16 (itemPosition + 1))
      end
    else Ok (None, itemPosition).
Proof. reflexivity. Qed.

Lemma historyRemove_find_spec (h : CliHistory.t) (s : list Z)
      (items : list (list Z)) (remaining : list (list Z)) :
  forall (checked : list (list Z)) (fuel : nat),
    hist_repr h items ->
    items = checked ++ remaining ->
    (length remaining < fuel)%nat ->
    historyRemove_find fuel h s (Z.of_nat (length checked) + 1)
    = Ok (find_from s remaining (len (hist_flat checked))
                    (Z.of_nat (length checked) + 1)).
Proof.
  induction remaining as [|it remaining IH];
    intros checked fuel Hr Hitems Hf;
    (destruct fuel as [|fuel]; [simpl in Hf; lia|]);
    rewrite historyRemove_find_S;
    pose proof Hr as (Hbs & Hbl & Hcnt & Hok & Hfit & rest & Hbuf);
    subst items; rewrite length_app in Hcnt.
  - simpl in Hcnt.
    destruct (Z.leb_spec (Z.of_nat (length checked) + 1)
                         (CliHistory.itemsCount h)); [lia|].
    reflexivity.
  - rewrite length_cons in Hcnt.
    destruct (Z.leb_spec (Z.of_nat (length checked) + 1)
                         (CliHistory.itemsCount h)); [|lia].
    apply Forall_app in Hok as [Hck Hrem].
    inversion Hrem as [|? ? Hit Hrem']; subst.
    rewrite hist_flat_app in Hbuf, Hfit. simpl in Hbuf, Hfit.
    rewrite <- !app_assoc in Hbuf. simpl in Hbuf.
    unfold embeddedCliGetTokenVariable.
    fold (embeddedCliGetToken (Some (CliHistory.buf h))
                              (Z.of_nat (length checked) + 1)).
    assert (Htok : embeddedCliGetToken (Some (CliHistory.buf h))
                                       (Z.of_nat (length checked) + 1)
                   = Ok (Some (len (hist_flat checked)))).
    { rewrite Hbuf. apply embeddedCliGetToken_item; try assumption.
      pose proof (len_nonneg (hist_flat remaining)). len_lia. }
    rewrite Htok. simpl.
    rewrite Hbuf, cstr_string by (destruct Hit; assumption). simpl.
    destruct (list_eqb it s); [reflexivity|].
    pose proof (length_le_hist_flat checked).
    pose proof (length_le_hist_flat remaining).
    pose proof (item_ok_len it Hit).
    rewrite u16_small by len_lia.
    specialize (IH (checked ++ [it]) fuel Hr).
    rewrite length_app, hist_flat_app in IH. simpl in IH.
    replace (Z.of_nat (length checked + 1) + 1)
      with (Z.of_nat (length checked) + 1 + 1) in IH by lia.
    replace (len (hist_flat checked ++ it ++ [0]))
      with (len (hist_flat checked) + len it + 1) in IH by len_lia.
    apply IH.
    + rewrite <- app_assoc. reflexivity.
    + simpl in Hf. lia.
Qed.

Lemma list_eqb_true (a b : list Z) : list_eqb a b = true <-> a = b.
Proof. unfold list_eqb. apply bool_decide_eq_true. Qed.

Lemma list_eqb_false (a b : list Z) : list_eqb a b = false <-> a <> b.
Proof. unfold list_eqb. apply bool_decide_eq_false. Qed.

Lemma find_from_cases (s : list Z) (items : list (list Z)) :
  forall off pos,
    (find_from s items off pos = (None, pos + Z.of_nat (length items))
     /\ remove_first s items = items /\ s ∉ items)
    \/ (exists pre post,
          items = pre ++ s :: post
          /\ find_from s items off pos
             = (Some (off + len (hist_flat pre)), pos + Z.of_nat (length pre))
          /\ remove_first s items = pre ++ post).
Proof.
  induction items as [|it items IH]; intros off pos; simpl.
  - left. rewrite Z.add_0_r. split; [reflexivity|]. split; [reflexivity|].
    apply not_elem_of_nil.
  - destruct (list_eqb it s) eqn:E.
    + apply list_eqb_true in E. subst it. right. exists [], items.
      simpl. rewrite len_nil, !Z.add_0_r. auto.
    + apply list_eqb_false in E.
      destruct (IH (off + len it + 1) (pos + 1))
        as [(Hf & Hr & Hn)|(pre & post & Hi & Hf & Hr)].
      * left. rewrite Hf, Hr. split; [f_equal; lia|]. split; [reflexivity|].
        apply not_elem_of_cons. auto.
      * right. exists (it :: pre), post. subst items. rewrite Hf, Hr.
        split; [reflexivity|]. split; [|reflexivity].
        simpl. f_equal; [f_equal; len_lia|len_lia].
Qed.

Lemma memmove_length (m : list Z) (dst src n : Z) (m' : list Z) :
  memmove m dst src n = Ok m' -> length m' = length m.
Proof.
  unfold memmove.
  destruct (Z.leb_spec 0 dst), (Z.leb_spec 0 src), (Z.leb_spec 0 n),
    (Z.leb_spec (dst + n) (len m)), (Z.leb_spec (src + n) (len m));
    simpl; intros Hres; try discriminate.
  injection Hres as <-. unfold len in *.
  rewrite !length_app, !length_take, length_drop, length_drop. lia.
Qed.

Lemma memmove_in_range (m : list Z) (dst src n : Z) :
  0 <= dst -> 0 <= src -> 0 <= n -> dst + n <= len m -> src + n <= len m ->
  memmove m dst src n
  = Ok (take (Z.to_nat dst) m ++ take (Z.to_nat n) (drop (Z.to_nat src) m)
        ++ drop (Z.to_nat (dst + n)) m).
Proof.
  intros. unfold memmove.
  destruct (Z.leb_spec 0 dst), (Z.leb_spec 0 src), (Z.leb_spec 0 n),
    (Z.leb_spec (dst + n) (len m)), (Z.leb_spec (src + n) (len m));
    simpl; try lia. reflexivity.
Qed.

Lemma memcpy_in_range (m : list Z) (dst : Z) (data : list Z) :
  0 <= dst -> dst + len data <= len m ->
  memcpy m dst data
  = Ok (take (Z.to_nat dst) m ++ data ++ drop (Z.to_nat (dst + len data)) m).
Proof.
  intros. unfold memcpy.
  destruct (Z.leb_spec 0 dst), (Z.leb_spec (dst + len data) (len m));
    simpl; try lia. reflexivity.
Qed.

Lemma size_t_small (x : Z) : 0 <= x < 65536 -> size_t x = x.
Proof. intros. unfold size_t. apply Z.mod_small. lia. Qed.

Lemma hist_repr_item_ok h items s :
  hist_repr h items -> s ∈ items -> item_ok s.
Proof.
  intros (_ & _ & _ & Hok & _) Hin.
  rewrite Forall_forall in Hok. auto.
Qed.

Lemma historyRemove_spec (h : CliHistory.t) (items : list (list Z))
      (s : list Z) :
  hist_repr h items ->
  exists h',
    historyRemove h s = Ok h'
    /\ hist_repr h' (remove_first s items)
    /\ CliHistory.bufferSize h' = CliHistory.bufferSize h
    /\ CliHistory.current h' = CliHistory.current h.
Proof.
  intros Hr. pose proof Hr as (Hbs & Hbl & Hcnt & Hok & Hfit & rest & Hbuf).
  unfold historyRemove.
  destruct (Z.eqb_spec (CliHistory.itemsCount h) 0) as [E|E].
  { exists h. destruct items; [|simpl in Hcnt; lia]. simpl. auto. }
  pose proof (historyRemove_find_spec h s items items []
                (S (Z.to_nat (CliHistory.itemsCount h))) Hr eq_refl
                ltac:(lia)) as Hfind.
  change (Z.of_nat (length (@nil (list Z))) + 1) with 1 in Hfind.
  change (len (hist_flat [])) with 0 in Hfind.
  rewrite Hfind. simpl.
  destruct (find_from_cases s items 0 1)
    as [(Hf & Hrm & Hn)|(pre & post & Hi & Hf & Hrm)];
    rewrite Hf, Hrm.
  { exists h. auto. }
  subst items. rewrite length_app, length_cons in Hcnt.
  apply Forall_app in Hok as [Hpre Hsp].
  inversion Hsp as [|? ? Hs Hpost]; subst.
  pose proof (length_le_hist_flat pre). pose proof (length_le_hist_flat post).
  pose proof (item_ok_len s Hs).
  rewrite hist_flat_app in Hbuf, Hfit. simpl in Hbuf, Hfit.
  rewrite <- !app_assoc in Hbuf. simpl in Hbuf.
  assert (Hfl : len (hist_flat pre) + len s + 1 + len (hist_flat post)
                <= CliHistory.bufferSize h) by len_lia.
  pose proof (len_nonneg (hist_flat pre)).
  pose proof (len_nonneg (hist_flat post)).
  rewrite u16_small by lia.
  simpl CliHistory.itemsCount.
  destruct (Z.eqb_spec (1 + Z.of_nat (length pre))
                       (CliHistory.itemsCount h - 1 + 1)) as [E1|E1].
  - (* the item was the last one *)
    assert (post = []) by (destruct post; [reflexivity|simpl in *; lia]).
    subst post. rewrite app_nil_r.
    eexists. split; [reflexivity|].
    split; [|split; reflexivity].
    unfold hist_repr; simpl.
    split; [lia|]. split; [lia|]. split; [lia|]. split; [assumption|].
    split; [lia|]. eexists. exact Hbuf.
  - (* the items after it move down *)
    simpl CliHistory.buf. simpl CliHistory.bufferSize.
    rewrite Z.add_0_l.
    assert (Hsl : strlen (CliHistory.buf h) (len (hist_flat pre))
                  = Ok (len s)).
    { rewrite Hbuf. apply strlen_string. destruct Hs; assumption. }
    rewrite Hsl. simpl.
    rewrite size_t_small by lia.
    rewrite memmove_in_range by lia. simpl.
    eexists. split; [reflexivity|].
    split; [|split; reflexivity].
    unfold hist_repr; simpl.
    split; [lia|]. split.
    { unfold len. rewrite !length_app, !length_take, !length_drop.
      unfold len in *. lia. }
    split; [rewrite length_app; lia|].
    split; [apply Forall_app; auto|].
    split; [rewrite hist_flat_app; len_lia|].
    rewrite hist_flat_app.
    assert (E2 : take (Z.to_nat (len (hist_flat pre))) (CliHistory.buf h)
                 = hist_flat pre).
    { rewrite Hbuf. apply take_app_length'. len_lia. }
    assert (E3 : drop (Z.to_nat (len (hist_flat pre) + len s + 1))
                      (CliHistory.buf h)
                 = hist_flat post ++ rest).
    { replace (CliHistory.buf h)
        with ((hist_flat pre ++ s ++ [0]) ++ hist_flat post ++ rest)
        by (rewrite Hbuf, <- !app_assoc; reflexivity).
      apply drop_app_length'. len_lia. }
    rewrite E2, E3, take_app_ge by len_lia.
    eexists. rewrite <- !app_assoc. reflexivity.
Qed.

Lemma historyPut_evict_S fuel h l usedSize :
  historyPut_evict (S fuel) h l usedSize
  = if 0 <? CliHistory.itemsCount h then
      item <- historyGet h (CliHistory.itemsCount h) ;;
      match item with
      | None => Fault
      | Some off =>
          itemLen <- strlen (CliHistory.buf h) off ;;
          let usedSize := off + itemLen + 1 in
          let freeSpace := size_t (CliHistory.bufferSize h - usedSize) in
          if l + 1 <=? freeSpace then Ok (h, usedSize)
          else
            historyPut_evict fuel
              (set_itemsCount (u16 (CliHistory.itemsCount h - 1)) h)
              l usedSize
      end
    else Ok (h, usedSize).
Proof. reflexivity. Qed.

(** The eviction loop keeps the longest prefix of the items that leaves
    room for [l + 1] more bytes. *)
Lemma historyPut_evict_spec (l : Z) (items : list (list Z)) :
  forall (h : CliHistory.t) (fuel : nat) (u0 : Z),
    hist_repr h items -> 0 <= l ->
    (length items < fuel)%nat ->
    exists kept dropped used,
      items = kept ++ dropped
      /\ historyPut_evict fuel h l u0
         = Ok (set_itemsCount (Z.of_nat (length kept)) h, used)
      /\ (kept <> [] ->
          used = len (hist_flat kept)
          /\ used + l + 1 <= CliHistory.bufferSize h)
      /\ (len (hist_flat items) + l + 1 <= CliHistory.bufferSize h ->
          dropped = []).
Proof.
  induction items as [|last init IH] using rev_ind;
    intros h fuel u0 Hr Hl Hf;
    (destruct fuel as [|fuel]; [simpl in Hf; lia|]);
    rewrite historyPut_evict_S;
    pose proof Hr as (Hbs & Hbl & Hcnt & Hok & Hfit & rest & Hbuf).
  - simpl in Hcnt. rewrite Hcnt. simpl.
    exists [], [], u0. split; [reflexivity|].
    split; [|split; [intros Hk; contradiction|reflexivity]].
    destruct h; unfold set_itemsCount; simpl in *. subst. reflexivity.
  - rewrite length_app in Hcnt. simpl in Hcnt.
    destruct (Z.ltb_spec 0 (CliHistory.itemsCount h)); [|lia].
    apply Forall_app in Hok as [Hinit Hlast].
    inversion Hlast as [|? ? Hlok _]; subst.
    rewrite hist_flat_app in Hbuf, Hfit. simpl in Hbuf, Hfit.
    rewrite <- !app_assoc in Hbuf. simpl in Hbuf.
    pose proof (length_le_hist_flat init).
    pose proof (item_ok_len last Hlok).
    pose proof (len_nonneg (hist_flat init)).
    assert (Hfl : len (hist_flat init) + len last + 1
                  <= CliHistory.bufferSize h) by len_lia.
    unfold historyGet.
    destruct (Z.eqb_spec (CliHistory.itemsCount h) 0); [lia|].
    rewrite Z.ltb_irrefl. simpl.
    assert (Htok : embeddedCliGetToken (Some (CliHistory.buf h))
                                       (CliHistory.itemsCount h)
                   = Ok (Some (len (hist_flat init)))).
    { rewrite Hbuf, Hcnt.
      replace (Z.of_nat (length init + 1)) with (Z.of_nat (length init) + 1)
        by lia.
      apply embeddedCliGetToken_item; try assumption. lia. }
    assert (Hsl : strlen (CliHistory.buf h) (len (hist_flat init))
                  = Ok (len last)).
    { rewrite Hbuf. apply strlen_string. destruct Hlok; assumption. }
    rewrite Htok. simpl. rewrite Hsl. simpl.
    rewrite size_t_small by lia.
    destruct (Z.leb_spec (l + 1)
                (CliHistory.bufferSize h
                 - (len (hist_flat init) + len last + 1))) as [Hroom|Hroom].
    + exists (init ++ [last]), [], (len (hist_flat init) + len last + 1).
      rewrite app_nil_r. split; [reflexivity|]. split.
      * f_equal. f_equal. destruct h; unfold set_itemsCount; simpl in *.
        f_equal. rewrite length_app. simpl. lia.
      * split; [|reflexivity]. intros _.
        rewrite hist_flat_app. simpl.
        split; [len_lia|lia].
    + rewrite u16_small by lia.
      set (h1 := set_itemsCount (CliHistory.itemsCount h - 1) h).
      assert (Hr1 : hist_repr h1 init).
      { unfold hist_repr, h1; simpl.
        split; [lia|]. split; [lia|]. split; [lia|].
        split; [assumption|]. split; [lia|].
        eexists. exact Hbuf. }
      destruct (IH h1 fuel (len (hist_flat init) + len last + 1) Hr1 Hl)
        as (kept & dropped & used & Hi & He & Hk & Hd);
        [rewrite length_app in Hf; simpl in Hf; lia|].
      exists kept, (dropped ++ [last]), used.
      split; [rewrite Hi, <- app_assoc; reflexivity|].
      split; [rewrite He; reflexivity|].
      split; [exact Hk|].
      intros Hall. exfalso.
      rewrite hist_flat_app in Hall. simpl in Hall. len_lia.
Qed.

Lemma hist_repr_kept (h : CliHistory.t) (kept dropped : list (list Z)) :
  hist_repr h (kept ++ dropped) ->
  hist_repr (set_itemsCount (Z.of_nat (length kept)) h) kept.
Proof.
  intros (Hbs & Hbl & Hcnt & Hok & Hfit & rest & Hbuf).
  apply Forall_app in Hok as [Hk _].
  rewrite hist_flat_app in Hfit, Hbuf.
  unfold hist_repr; simpl.
  split; [lia|]. split; [lia|]. split; [reflexivity|].
  split; [assumption|]. split; [len_lia|].
  eexists. rewrite Hbuf, <- app_assoc. reflexivity.
Qed.

(** [historyPut] on a well-formed history: the string becomes the first
    item, in front of the longest prefix of the other items that fits. *)
Lemma historyPut_spec (h : CliHistory.t) (items : list (list Z))
      (s : list Z) :
  hist_repr h items -> item_ok s ->
  len s + 1 <= CliHistory.bufferSize h ->
  exists h' kept dropped,
    historyPut h s = Ok (true, h')
    /\ hist_repr h' (s :: kept)
    /\ remove_first s items = kept ++ dropped
    /\ (len (hist_flat (remove_first s items)) + len s + 1
        <= CliHistory.bufferSize h -> dropped = [])
    /\ CliHistory.bufferSize h' = CliHistory.bufferSize h
    /\ CliHistory.current h' = CliHistory.current h.
Proof.
  intros Hr Hs Hfits. unfold historyPut.
  destruct (Z.ltb_spec (CliHistory.bufferSize h) (len s + 1)); [lia|].
  destruct (historyRemove_spec h items s Hr) as (h1 & Hrm & Hr1 & Hbs1 & Hc1).
  rewrite Hrm. cbn [bind].
  pose proof Hr1 as (Hbs & Hbl & Hcnt & Hok & Hfit & rest & Hbuf).
  pose proof (len_nonneg s).
  destruct (historyPut_evict_spec (len s) (remove_first s items) h1
              (S (Z.to_nat (CliHistory.itemsCount h1))) 0 Hr1)
    as (kept & dropped & used & Hi & He & Hk & Hd); [lia|lia|].
  rewrite He. cbn [bind].
  rewrite Hi in Hr1. apply hist_repr_kept in Hr1.
  pose proof Hr1 as (_ & _ & _ & Hokk & Hfitk & restk & Hbufk).
  simpl in Hbufk.
  pose proof (length_le_hist_flat kept).
  pose proof (len_nonneg (hist_flat kept)).
  exists (set_itemsCount (u16 (Z.of_nat (length kept) + 1))
            (set_historyBuf
               (s ++ [0] ++ hist_flat kept
                ++ drop (Z.to_nat (len s + 1 + len (hist_flat kept)))
                        (CliHistory.buf h1))
               (set_itemsCount (Z.of_nat (length kept)) h1))),
    kept, dropped.
  assert (Hput : exists b1,
    (if 0 <? Z.of_nat (length kept)
     then memmove (CliHistory.buf h1) (len s + 1) 0 used
     else Ok (CliHistory.buf h1)) = Ok b1
    /\ memcpy b1 0 (s ++ [0])
       = Ok (s ++ [0] ++ hist_flat kept
             ++ drop (Z.to_nat (len s + 1 + len (hist_flat kept)))
                     (CliHistory.buf h1))).
  { destruct kept as [|k0 kept].
    - eexists. split; [reflexivity|].
      rewrite memcpy_in_range by len_lia. simpl.
      rewrite len_nil, Z.add_0_r.
      replace (0 + len (s ++ [0])) with (len s + 1) by len_lia.
      rewrite <- app_assoc. reflexivity.
    - destruct Hk as [Hu Hroom]; [discriminate|].
      destruct (Z.ltb_spec 0 (Z.of_nat (length (k0 :: kept))));
        [|simpl in *; lia].
      rewrite memmove_in_range by lia.
      eexists. split; [reflexivity|].
      rewrite memcpy_in_range;
        [|lia
         |unfold len in *;
          rewrite !length_app, !length_take, !length_drop; simpl length;
          lia].
      f_equal. simpl take at 1. simpl app at 1.
      rewrite <- app_assoc. f_equal. f_equal.
      replace (Z.to_nat (0 + len (s ++ [0])))
        with (length (take (Z.to_nat (len s + 1)) (CliHistory.buf h1)))
        by (rewrite length_take; len_lia).
      rewrite drop_app_length.
      change (Z.to_nat 0) with 0%nat. rewrite drop_0, Hu.
      f_equal. rewrite Hbufk. apply take_app_length'. len_lia. }
  destruct Hput as (b1 & Hmv & Hcp).
  split.
  { simpl CliHistory.itemsCount. simpl CliHistory.buf.
    rewrite Hmv. cbn [bind]. rewrite Hcp. reflexivity. }
  split.
  { unfold hist_repr; simpl.
    assert (Hroom : kept <> [] ->
                    len (hist_flat kept) + len s + 1
                    <= CliHistory.bufferSize h1).
    { intros Hne. destruct (Hk Hne). lia. }
    assert (Hfl : len s + 1 + len (hist_flat kept)
                  <= CliHistory.bufferSize h1).
    { destruct kept; [simpl; rewrite len_nil; lia|].
      specialize (Hroom ltac:(discriminate)). lia. }
    split; [lia|].
    split.
    { len_lia. }
    split; [rewrite u16_small; lia|].
    split; [constructor; assumption|].
    split; [len_lia|].
    eexists. rewrite <- !app_assoc. reflexivity. }
  split; [exact Hi|].
  split; [rewrite <- Hbs1; exact Hd|].
  split; [exact Hbs1|exact Hc1].
Qed.

Lemma remove_first_present (s : list Z) (items : list (list Z)) :
  s ∈ items ->
  len (hist_flat (remove_first s items)) + len s + 1 = len (hist_flat items)
  /\ (length (remove_first s items) + 1 = length items)%nat.
Proof.
  induction items as [|it items IH]; intros Hin.
  - apply elem_of_nil in Hin. contradiction.
  - simpl. destruct (list_eqb it s) eqn:E.
    + apply list_eqb_true in E. subst it. split; [len_lia|lia].
    + apply list_eqb_false in E. apply elem_of_cons in Hin as [->|Hin];
        [contradiction|].
      destruct (IH Hin) as [IH1 IH2]. simpl. split; [len_lia|lia].
Qed.

Lemma historyGet_first (h : CliHistory.t) (s : list Z)
      (kept : list (list Z)) :
  hist_repr h (s :: kept) ->
  historyGet h 1 = Ok (Some 0) /\ cstr (CliHistory.buf h) 0 = Ok s.
Proof.
  intros (Hbs & Hbl & Hcnt & Hok & Hfit & rest & Hbuf).
  inversion Hok as [|? ? Hs Hk]; subst.
  simpl in Hbuf, Hfit, Hcnt. rewrite <- app_assoc in Hbuf. simpl in Hbuf.
  pose proof (len_nonneg (hist_flat kept)).
  split.
  - unfold historyGet. simpl.
    destruct (Z.ltb_spec (CliHistory.itemsCount h) 1); [lia|].
    rewrite Hbuf.
    exact (embeddedCliGetToken_item [] s (hist_flat kept ++ rest)
             (Forall_nil_2 _) Hs ltac:(simpl; len_lia)).
  - rewrite Hbuf.
    exact (cstr_string [] s (hist_flat kept ++ rest) (proj2 Hs)).
Qed.

(** C4: for every well-formed history and every command string [s] (a
    non-empty string) with [|s| + 1 <= bufferSize], [historyPut] succeeds,
    [s] is the first item of the resulting history, and [historyGet] of
    item 1 returns offset 0, where the bytes of [s] are stored. *)
Theorem historyPut_is_item_1 (h : CliHistory.t) (items : list (list Z))
        (s : list Z) :
  hist_repr h items -> item_ok s ->
  len s + 1 <= CliHistory.bufferSize h ->
  exists h' kept,
    historyPut h s = Ok (true, h')
    /\ hist_repr h' (s :: kept)
    /\ historyGet h' 1 = Ok (Some 0)
    /\ cstr (CliHistory.buf h') 0 = Ok s.
Proof.
  intros Hr Hs Hfits.
  destruct (historyPut_spec h items s Hr Hs Hfits)
    as (h' & kept & dropped & Hput & Hr' & _).
  exists h', kept. split; [exact Hput|]. split; [exact Hr'|].
  exact (historyGet_first h' s kept Hr').
Qed.

Lemma sample_history_repr : hist_repr sample_history [[98]; [97]].
Proof.
  unfold hist_repr, sample_history, item_ok; simpl.
  split; [lia|]. split; [unfold len; simpl; lia|]. split; [reflexivity|].
  split; [repeat constructor; (discriminate || lia)|].
  split; [unfold len; simpl; lia|].
  exists [0; 0; 0; 0]. reflexivity.
Qed.

Lemma historyPut_is_item_1_witness :
  hist_repr sample_history [[98]; [97]]
  /\ item_ok [99; 100]
  /\ len [99; 100] + 1 <= CliHistory.bufferSize sample_history
  /\ exists h' kept,
      historyPut sample_history [99; 100] = Ok (true, h')
      /\ hist_repr h' ([99; 100] :: kept)
      /\ historyGet h' 1 = Ok (Some 0)
      /\ cstr (CliHistory.buf h') 0 = Ok [99; 100].
Proof.
  assert (H2 : item_ok [99; 100]).
  { split; [discriminate|]. repeat constructor; lia. }
  assert (H3 : len [99; 100] + 1 <= CliHistory.bufferSize sample_history).
  { unfold len. simpl. lia. }
  split; [exact sample_history_repr|]. split; [exact H2|].
  split; [exact H3|].
  exact (historyPut_is_item_1 sample_history [[98]; [97]] [99; 100]
                              sample_history_repr H2 H3).
Defined.

(** C5: for every well-formed history and every string [s] already present
    in it, [historyPut] leaves [itemsCount] unchanged: the existing copy is
    removed and [s] is put in front of all the other items, none of which
    is evicted. *)
Theorem historyPut_present_keeps_count (h : CliHistory.t)
        (items : list (list Z)) (s : list Z) :
  hist_repr h items -> s ∈ items ->
  len s + 1 <= CliHistory.bufferSize h
  /\ exists h',
      historyPut h s = Ok (true, h')
      /\ CliHistory.itemsCount h' = CliHistory.itemsCount h
      /\ hist_repr h' (s :: remove_first s items).
Proof.
  intros Hr Hin.
  pose proof (hist_repr_item_ok h items s Hr Hin) as Hs.
  destruct (remove_first_present s items Hin) as [Hlen Hcnt].
  pose proof Hr as (Hbs & Hbl & Hc & Hok & Hfit & _).
  pose proof (len_nonneg (hist_flat (remove_first s items))).
  assert (Hfits : len s + 1 <= CliHistory.bufferSize h) by lia.
  split; [exact Hfits|].
  destruct (historyPut_spec h items s Hr Hs Hfits)
    as (h' & kept & dropped & Hput & Hr' & Hsplit & Hd & _).
  specialize (Hd ltac:(lia)). subst dropped.
  rewrite app_nil_r in Hsplit. subst kept.
  exists h'. split; [exact Hput|]. split; [|exact Hr'].
  destruct Hr' as (_ & _ & Hc' & _). rewrite Hc', Hc. simpl length. lia.
Qed.

Lemma historyPut_present_keeps_count_witness :
  hist_repr sample_history [[98]; [97]]
  /\ [97] ∈ [[98]; [97]]
  /\ len [97] + 1 <= CliHistory.bufferSize sample_history
  /\ exists h',
      historyPut sample_history [97] = Ok (true, h')
      /\ CliHistory.itemsCount h' = CliHistory.itemsCount sample_history
      /\ hist_repr h' ([97] :: remove_first [97] [[98]; [97]]).
Proof.
  assert (H2 : [97] ∈ [[98]; [97]]).
  { apply elem_of_cons. right. apply elem_of_cons. left. reflexivity. }
  split; [exact sample_history_repr|]. split; [exact H2|].
  exact (historyPut_present_keeps_count sample_history [[98]; [97]] [97]
                                        sample_history_repr H2).
Defined.

(** ** Autocompletion (C2, C9) *)

Lemma str_get_Some (s : list Z) (j : nat) (v : Z) :
  s !! j = Some v -> str_get s (Z.of_nat j) = Ok v.
Proof.
  intros H. unfold str_get.
  destruct (Z.ltb_spec (Z.of_nat j) 0); [lia|].
  rewrite Nat2Z.id, H. reflexivity.
Qed.

Lemma lookup_take_eq (a b : list Z) (n j : nat) :
  take n a = take n b -> (j < n)%nat -> a !! j = b !! j.
Proof.
  intros H Hj.
  rewrite <- (lookup_take_lt a n j Hj), <- (lookup_take_lt b n j Hj), H.
  reflexivity.
Qed.

Lemma take_S_eq (a b : list Z) (n : nat) (x : Z) :
  take n a = take n b -> a !! n = Some x -> b !! n = Some x ->
  take (S n) a = take (S n) b.
Proof.
  intros H Ha Hb.
  rewrite (take_S_r a n x Ha), (take_S_r b n x Hb), H. reflexivity.
Qed.

Lemma take_eq_le (a b : list Z) (n m : nat) :
  take n a = take n b -> (m <= n)%nat -> take m a = take m b.
Proof.
  intros H Hm.
  replace m with (m `min` n)%nat by lia.
  rewrite <- !take_take, H. reflexivity.
Qed.

(** The candidate test: the first [|p|] bytes of the name are compared
    with the command buffer. *)
Lemma isCandidate_loop_spec (p rest name : list Z) (n : nat) :
  forall j : nat,
    (j + n = length p)%nat -> (length p <= length name)%nat ->
    take j name = take j p ->
    isCandidate_loop n (p ++ 0 :: rest) name (Z.of_nat j)
    = Ok (bool_decide (take (length p) name = p)).
Proof.
  induction n as [|n IH]; intros j Hj Hl Hpre; simpl.
  - rewrite Nat.add_0_r in Hj. subst j.
    rewrite firstn_all in Hpre. rewrite bool_decide_eq_true_2; auto.
  - destruct (lookup_lt_is_Some_2 p j ltac:(lia)) as [a Ha].
    destruct (lookup_lt_is_Some_2 name j ltac:(lia)) as [b Hb].
    rewrite (load_Some (p ++ 0 :: rest) j a)
      by (rewrite lookup_app_l by lia; exact Ha).
    simpl. rewrite (str_get_Some name j b Hb). simpl.
    destruct (Z.eqb_spec a b) as [->|Hne]; simpl.
    + replace (Z.of_nat j + 1) with (Z.of_nat (S j)) by lia.
      apply IH; [lia|lia|]. apply take_S_eq with b; assumption.
    + rewrite bool_decide_eq_false_2; [reflexivity|].
      intros E. apply Hne.
      assert (Hx : name !! j = p !! j).
      { rewrite <- (lookup_take_lt name (length p) j) by lia.
        rewrite E. reflexivity. }
      congruence.
Qed.

(** The comparison with the first candidate, from index [j] up to the
    current [autocompletedLen]. *)
Lemma commonLen_loop_spec (f name : list Z) (A : nat) (n : nat) :
  forall j : nat,
    (j + n = A)%nat -> (A <= length f)%nat -> (A <= length name)%nat ->
    Z.of_nat A < 65536 ->
    take j f = take j name ->
    exists a : nat,
      commonLen_loop n (Some f) name (Z.of_nat j) (Z.of_nat A)
      = Ok (Z.of_nat a)
      /\ (j <= a <= A)%nat
      /\ take a f = take a name
      /\ ((a < A)%nat -> name !! a <> f !! a).
Proof.
  induction n as [|n IH]; intros j Hj Hf Hn Hb Hpre; simpl.
  - exists A. rewrite Nat.add_0_r in Hj. subst j.
    split; [reflexivity|]. split; [lia|]. split; [exact Hpre|]. lia.
  - destruct (lookup_lt_is_Some_2 f j ltac:(lia)) as [a Ha].
    destruct (lookup_lt_is_Some_2 name j ltac:(lia)) as [b Hb'].
    rewrite (str_get_Some f j a Ha). simpl.
    rewrite (str_get_Some name j b Hb'). simpl.
    destruct (Z.eqb_spec a b) as [->|Hne]; simpl.
    + replace (Z.of_nat j + 1) with (Z.of_nat (S j)) by lia.
      destruct (IH (S j)) as (a' & He & Hr & Ht & Hm);
        [lia|lia|lia|lia|apply take_S_eq with b; assumption|].
      exists a'. split; [exact He|]. split; [lia|]. auto.
    + exists j. rewrite u16_small by lia.
      split; [reflexivity|]. split; [lia|]. split; [exact Hpre|].
      intros _. congruence.
Qed.

Lemma candidates_snoc_no (p : list Z) (seen : list CliCommandBinding.t)
      (b : CliCommandBinding.t) :
  take (length p) (CliCommandBinding.name b) <> p ->
  candidates p (seen ++ [b]) = candidates p seen.
Proof.
  intros H. unfold candidates. rewrite map_app, filter_app. simpl.
  rewrite filter_cons_False by exact H. rewrite filter_nil, app_nil_r.
  reflexivity.
Qed.

Lemma candidates_snoc_yes (p : list Z) (seen : list CliCommandBinding.t)
      (b : CliCommandBinding.t) :
  take (length p) (CliCommandBinding.name b) = p ->
  candidates p (seen ++ [b])
  = candidates p seen ++ [CliCommandBinding.name b].
Proof.
  intros H. unfold candidates. rewrite map_app, filter_app. simpl.
  rewrite filter_cons_True by exact H. rewrite filter_nil. reflexivity.
Qed.

Lemma candidates_length (p : list Z) (bs : list CliCommandBinding.t) :
  (length (candidates p bs) <= length bs)%nat.
Proof.
  unfold candidates.
  rewrite <- (length_map CliCommandBinding.name bs). apply length_filter.
Qed.

Lemma candidates_prefix (p c : list Z) (bs : list CliCommandBinding.t) :
  c ∈ candidates p bs -> take (length p) c = p /\ (length p <= length c)%nat.
Proof.
  unfold candidates. intros H. apply list_elem_of_filter in H as [H _].
  split; [exact H|].
  rewrite <- H at 1. rewrite length_take. lia.
Qed.

Lemma autocomplete_inv_skip (p : list Z) (seen : list CliCommandBinding.t)
      (b : CliCommandBinding.t) (cmd : AutocompletedCommand.t) :
  take (length p) (CliCommandBinding.name b) <> p ->
  autocomplete_inv p seen cmd -> autocomplete_inv p (seen ++ [b]) cmd.
Proof.
  intros H Hinv. unfold autocomplete_inv.
  rewrite candidates_snoc_no by exact H. exact Hinv.
Qed.

(** The first candidate: it is recorded with its whole length. *)
Lemma autocomplete_inv_first (p : list Z) (seen : list CliCommandBinding.t)
      (b : CliCommandBinding.t) :
  take (length p) (CliCommandBinding.name b) = p ->
  candidates p seen = [] ->
  autocomplete_inv p (seen ++ [b])
    (AutocompletedCommand.mk (Some (CliCommandBinding.name b))
                             (len (CliCommandBinding.name b)) 1).
Proof.
  intros H Hnone. unfold autocomplete_inv.
  rewrite candidates_snoc_yes by exact H. rewrite Hnone. simpl.
  split; [reflexivity|]. split; [reflexivity|].
  exists (length (CliCommandBinding.name b)).
  split; [reflexivity|].
  split; [rewrite <- H at 1; rewrite length_take; lia|].
  split.
  - intros c Hc. apply list_elem_of_singleton in Hc. subst c. auto.
  - exists (CliCommandBinding.name b).
    split; [apply list_elem_of_singleton; reflexivity|]. auto.
Qed.

(** A further candidate: the common length shrinks to what it shares with
    the first one. *)
Lemma autocomplete_inv_next (p : list Z) (seen : list CliCommandBinding.t)
      (b : CliCommandBinding.t) (f : list Z) (cs : list (list Z))
      (a a' : nat) (k : Z) :
  take (length p) (CliCommandBinding.name b) = p ->
  candidates p seen = f :: cs ->
  common_prefix_len a f (f :: cs) ->
  prefix_len_maximal a f (f :: cs) ->
  (length p <= a')%nat ->
  (a' <= a `min` length (CliCommandBinding.name b))%nat ->
  take a' f = take a' (CliCommandBinding.name b) ->
  ((a' < a `min` length (CliCommandBinding.name b))%nat ->
   CliCommandBinding.name b !! a' <> f !! a') ->
  k = Z.of_nat (length (f :: cs)) + 1 ->
  autocomplete_inv p (seen ++ [b])
    (AutocompletedCommand.mk (Some f) (Z.of_nat a') k).
Proof.
  intros H Hcs Hcommon Hmax Hp Ha Ht Hd Hk. unfold autocomplete_inv.
  rewrite candidates_snoc_yes by exact H. rewrite Hcs. simpl.
  split; [rewrite length_app; simpl in *; lia|].
  split; [reflexivity|].
  exists a'. split; [reflexivity|]. split; [exact Hp|].
  change (f :: cs ++ [CliCommandBinding.name b])
    with ((f :: cs) ++ [CliCommandBinding.name b]).
  split.
  - intros c Hc. apply elem_of_app in Hc as [Hc|Hc].
    + destruct (Hcommon c Hc) as [Hl He].
      split; [lia|]. apply take_eq_le with a; [exact He|lia].
    + apply list_elem_of_singleton in Hc. subst c. split; [lia|]. auto.
  - destruct (decide (a' < a `min` length (CliCommandBinding.name b))%nat)
      as [Hlt|Hge].
    + exists (CliCommandBinding.name b).
      split; [apply elem_of_app; right; apply list_elem_of_singleton;
              reflexivity|].
      right. apply Hd. exact Hlt.
    + destruct (decide (a' = length (CliCommandBinding.name b))) as [E|E].
      * exists (CliCommandBinding.name b).
        split; [apply elem_of_app; right; apply list_elem_of_singleton;
                reflexivity|].
        left. auto.
      * assert (a' = a) by lia. subst a'.
        destruct Hmax as (c & Hc & Hw).
        exists c. split; [apply elem_of_app; left; exact Hc|exact Hw].
Qed.

Lemma getAutocompletedCommand_loop_spec (p rest : list Z)
      (bs : list CliCommandBinding.t) :
  forall (seen : list CliCommandBinding.t) (flags : list Z)
         (cmd : AutocompletedCommand.t),
    autocomplete_inv p seen cmd ->
    Z.of_nat (length (seen ++ bs)) < 65536 ->
    Forall (fun b => len (CliCommandBinding.name b) < 65536) bs ->
    (length (seen ++ bs) <= length flags)%nat ->
    exists cmd' flags',
      getAutocompletedCommand_loop bs (Z.of_nat (length seen))
        (p ++ 0 :: rest) (len p) (len p) flags cmd = Ok (cmd', flags')
      /\ autocomplete_inv p (seen ++ bs) cmd'
      /\ length flags' = length flags.
Proof.
  induction bs as [|b bs IH]; intros seen flags cmd Hinv Hn Hnames Hfl.
  - simpl. rewrite app_nil_r. eauto.
  - cbn [getAutocompletedCommand_loop].
    rewrite length_app in Hn, Hfl. simpl in Hn, Hfl.
    inversion Hnames as [|? ? Hname Hnames']; subst.
    set (name := CliCommandBinding.name b) in *.
    destruct (load_in_range flags (Z.of_nat (length seen)))
      as (f0 & Hld & _); [len_lia|].
    rewrite Hld. cbn [bind].
    rewrite store_in_range by len_lia. cbn [bind].
    set (flags1 := <[Z.to_nat (Z.of_nat (length seen)) :=
                      UNSET_U8FLAG f0 BINDING_FLAG_AUTOCOMPLETE]> flags).
    assert (Hfl1 : length flags1 = length flags)
      by (unfold flags1; apply length_insert).
    assert (Hcont : forall cmd1 flags2,
               autocomplete_inv p (seen ++ [b]) cmd1 ->
               length flags2 = length flags ->
               exists cmd' flags',
                 getAutocompletedCommand_loop bs (Z.of_nat (length seen) + 1)
                   (p ++ 0 :: rest) (len p) (len p) flags2 cmd1
                 = Ok (cmd', flags')
                 /\ autocomplete_inv p (seen ++ b :: bs) cmd'
                 /\ length flags' = length flags).
    { intros cmd1 flags2 Hinv1 Hl2.
      replace (Z.of_nat (length seen) + 1)
        with (Z.of_nat (length (seen ++ [b])))
        by (rewrite length_app; simpl; lia).
      replace (seen ++ b :: bs) with ((seen ++ [b]) ++ bs)
        by (rewrite <- app_assoc; reflexivity).
      destruct (IH (seen ++ [b]) flags2 cmd1 Hinv1) as (c' & f' & He & Hi & Hl);
        [rewrite !length_app; simpl; lia|exact Hnames'
        |rewrite !length_app; simpl; lia|].
      exists c', f'. split; [exact He|]. split; [exact Hi|]. congruence. }
    destruct (Z.ltb_spec (len name) (len p)) as [Hshort|Hlong].
    { apply Hcont; [|exact Hfl1].
      apply autocomplete_inv_skip; [|exact Hinv]. fold name. intros E.
      assert (length (take (length p) name) = length p) by (rewrite E; auto).
      rewrite length_take in *. unfold len in *. lia. }
    replace (Z.to_nat (len p)) with (length p) by (unfold len; lia).
    pose proof (isCandidate_loop_spec p rest name (length p) 0%nat
                  ltac:(lia) ltac:(unfold len in *; lia) eq_refl) as Hcand.
    change (Z.of_nat 0) with 0 in Hcand. rewrite Hcand. clear Hcand.
    cbn [bind].
    destruct (decide (take (length p) name = p)) as [Hyes|Hno].
    2:{ rewrite bool_decide_eq_false_2 by exact Hno. simpl negb. cbv iota.
        apply Hcont; [|exact Hfl1].
        apply autocomplete_inv_skip; [exact Hno|exact Hinv]. }
    rewrite bool_decide_eq_true_2 by exact Hyes. simpl negb. cbv iota.
    destruct (load_in_range flags1 (Z.of_nat (length seen)))
      as (f1 & Hld1 & _); [len_lia|].
    rewrite Hld1. cbn [bind].
    rewrite store_in_range by len_lia. cbn [bind].
    match goal with
    | |- context [getAutocompletedCommand_loop _ _ _ _ _ ?fl _] =>
        assert (Hfl2 : length fl = length flags)
          by (rewrite length_insert; exact Hfl1)
    end.
    pose proof (candidates_length p seen) as Hcl.
    destruct Hinv as [Hcount Hshape].
    destruct (candidates p seen) as [|f cs] eqn:Hcs.
    + (* the first candidate *)
      destruct Hshape as [Hfirst Halen].
      change (candidateCount cmd = 0) in Hcount. rewrite Hcount.
      change (0 =? 0) with true. cbn [orb].
      change (u16 (0 + 1)) with 1. change (1 =? 1) with true. cbv iota.
      rewrite u16_small by (unfold len in *; lia).
      apply Hcont; [|exact Hfl2].
      apply autocomplete_inv_first; assumption.
    + (* a further candidate *)
      destruct Hshape as (Hfirst & a & Halen & Hpa & Hcommon & Hmax).
      assert (Hfin : f ∈ f :: cs) by (apply elem_of_cons; auto).
      destruct (Hcommon f Hfin) as [Haf _].
      assert (Hfp : take (length p) f = p).
      { apply (candidates_prefix p f seen). rewrite Hcs. exact Hfin. }
      rewrite Hcount, Halen, Hfirst.
      simpl length in *.
      destruct (Z.eqb_spec (Z.of_nat (S (length cs))) 0); [lia|].
      cbn [orb].
      rewrite (u16_small (Z.of_nat (S (length cs)) + 1)) by lia.
      destruct (Z.eqb_spec (Z.of_nat (S (length cs)) + 1) 1); [lia|].
      set (A := (a `min` length name)%nat).
      assert (HA : (if len name <? Z.of_nat a then u16 (len name)
                    else Z.of_nat a) = Z.of_nat A).
      { unfold A, len in *.
        destruct (Z.ltb_spec (Z.of_nat (length name)) (Z.of_nat a)).
        - rewrite u16_small by lia. lia.
        - lia. }
      rewrite HA.
      replace (Z.to_nat (Z.of_nat A - len p)) with (A - length p)%nat
        by (unfold len; lia).
      replace (len p) with (Z.of_nat (length p)) by reflexivity.
      destruct (commonLen_loop_spec f name A (A - length p) (length p))
        as (a' & Hloop & Hr & Ht & Hm);
        [unfold A, len in *; lia|unfold A; lia|unfold A; lia
        |unfold A, len in *; lia|rewrite Hfp, Hyes; reflexivity|].
      * rewrite Hloop. cbn [bind].
        apply Hcont; [|exact Hfl2].
        apply (autocomplete_inv_next p seen b f cs a a' _
                 Hyes Hcs Hcommon Hmax);
          [lia|fold name; fold A; lia|exact Ht
          |fold name; fold A; exact Hm|reflexivity].
Qed.

Lemma getAutocompletedCommand_spec (impl : Impl.t) (p : list Z) :
  cmd_holds impl p -> bindings_ok impl ->
  exists cmd fl,
    getAutocompletedCommand impl (Impl.cmdBuffer impl)
    = Ok (cmd, Impl.set_bindingsFlags fl impl)
    /\ (p = [] -> candidateCount cmd = 0)
    /\ (p <> [] -> autocomplete_inv p (Impl.bindings impl) cmd).
Proof.
  intros (Hp & Hsize & rest & Hbuf) (Hn & Hnames & Hfl).
  unfold getAutocompletedCommand. rewrite Hbuf.
  pose proof (strlen_string [] p rest Hp) as Hs. simpl in Hs.
  rewrite len_nil in Hs. rewrite Hs. cbn [bind].
  assert (Hinv0 : autocomplete_inv p [] (AutocompletedCommand.mk None 0 0)).
  { unfold autocomplete_inv. simpl. auto. }
  assert (Hsame : Impl.set_bindingsFlags (Impl.bindingsFlags impl) impl
                  = impl) by (destruct impl; reflexivity).
  destruct (Z.eqb_spec (Impl.bindingsCount impl) 0) as [Hb0|Hb0].
  { exists (AutocompletedCommand.mk None 0 0), (Impl.bindingsFlags impl).
    rewrite Hsame. split; [reflexivity|]. split; [reflexivity|].
    intros _. unfold Impl.bindingsCount in Hb0.
    destruct (Impl.bindings impl); [exact Hinv0|simpl in Hb0; lia]. }
  destruct (Z.eqb_spec (len p) 0) as [Hp0|Hp0].
  { exists (AutocompletedCommand.mk None 0 0), (Impl.bindingsFlags impl).
    rewrite Hsame. simpl. split; [reflexivity|]. split; [reflexivity|].
    intros Hne. destruct p; [contradiction|]. rewrite len_cons in Hp0.
    pose proof (len_nonneg p). lia. }
  simpl orb. cbv iota.
  destruct (getAutocompletedCommand_loop_spec p rest (Impl.bindings impl) []
              (Impl.bindingsFlags impl) (AutocompletedCommand.mk None 0 0)
              Hinv0 Hn Hnames Hfl) as (cmd & fl & Hloop & Hinv & _).
  rewrite Hsize. change (Z.of_nat (length [])) with 0 in Hloop.
  rewrite Hloop. cbn [bind]. simpl fst. simpl snd.
  exists cmd, fl. split; [reflexivity|].
  split; [intros ->; rewrite len_nil in Hp0; lia|].
  intros _. exact Hinv.
Qed.

(** C2: for every binding table and every non-empty prefix [p] held by the
    command buffer, the autocompletion computation returns a result whose
    [candidateCount] is the number of bindings that start with [p]; when
    there are at least 2 candidates, [autocompletedLen >= |p|],
    [autocompletedLen <= |c|] for every candidate [c], the first
    [autocompletedLen] bytes of every candidate are those of the first
    candidate, and [autocompletedLen] is the longest such length: one
    candidate ends there or differs from the first candidate there. *)
Theorem autocomplete_longest_common_prefix (impl : Impl.t) (p : list Z) :
  cmd_holds impl p -> p <> [] -> bindings_ok impl ->
  exists cmd impl',
    getAutocompletedCommand impl (Impl.cmdBuffer impl) = Ok (cmd, impl')
    /\ candidateCount cmd
       = Z.of_nat (length (candidates p (Impl.bindings impl)))
    /\ (2 <= candidateCount cmd ->
        exists (f : list Z) (a : nat),
          firstCandidate cmd = Some f
          /\ autocompletedLen cmd = Z.of_nat a
          /\ (length p <= a)%nat
          /\ (forall c, c ∈ candidates p (Impl.bindings impl) ->
                        (a <= length c)%nat /\ take a c = take a f)
          /\ prefix_len_maximal a f (candidates p (Impl.bindings impl))).
Proof.
  intros Hcmd Hne Hok.
  destruct (getAutocompletedCommand_spec impl p Hcmd Hok)
    as (cmd & fl & Hrun & _ & Hinv).
  specialize (Hinv Hne). destruct Hinv as [Hcount Hshape].
  exists cmd, (Impl.set_bindingsFlags fl impl).
  split; [exact Hrun|]. split; [exact Hcount|].
  intros H2.
  destruct (candidates p (Impl.bindings impl)) as [|f cs];
    [simpl in Hcount; lia|].
  destruct Hshape as (Hfirst & a & Ha & Hpa & Hcommon & Hmax).
  exists f, a. auto.
Qed.

Lemma writeCandidateTail_in_bounds (f : list Z) (n : nat) :
  forall (cli : EmbeddedCli.t) (i : nat),
    EmbeddedCli.writeChar cli = true ->
    (i + n <= length f)%nat ->
    exists cli', writeCandidateTail n cli (Some f) (Z.of_nat i) = Ok cli'
                 /\ EmbeddedCli.writeChar cli' = true
                 /\ _impl cli' = _impl cli.
Proof.
  induction n as [|n IH]; intros cli i Hw Hb; simpl; [eauto|].
  destruct (lookup_lt_is_Some_2 f i ltac:(lia)) as [v Hv].
  rewrite (str_get_Some f i v Hv). cbn [bind].
  unfold writeChar. rewrite Hw. cbn [bind].
  replace (Z.of_nat i + 1) with (Z.of_nat (S i)) by lia.
  destruct (IH (emit (EvWriteChar v) cli) (S i)) as (cli' & He & Hw' & Hi);
    [exact Hw|lia|].
  exists cli'. auto.
Qed.

(** The bounds of the result, shared by the live repaint and its proofs. *)
Lemma getAutocompletedCommand_bounds (impl : Impl.t)
        (p : list Z) :
  cmd_holds impl p -> bindings_ok impl ->
  exists cmd impl',
    getAutocompletedCommand impl (Impl.cmdBuffer impl) = Ok (cmd, impl')
    /\ (0 < candidateCount cmd ->
        exists f : list Z,
          firstCandidate cmd = Some f
          /\ Impl.cmdSize impl <= autocompletedLen cmd <= len f
          /\ (forall i : Z,
                 Impl.cmdSize impl <= i < autocompletedLen cmd ->
                 exists v, str_get f i = Ok v /\ f !! Z.to_nat i = Some v)
          /\ (forall cli : EmbeddedCli.t,
                 EmbeddedCli.writeChar cli = true ->
                 exists cli',
                   writeCandidateTail
                     (Z.to_nat (autocompletedLen cmd - Impl.cmdSize impl))
                     cli (firstCandidate cmd) (Impl.cmdSize impl)
                   = Ok cli')).
Proof.
  intros Hcmd Hok.
  destruct (getAutocompletedCommand_spec impl p Hcmd Hok)
    as (cmd & fl & Hrun & H0 & Hinv).
  exists cmd, (Impl.set_bindingsFlags fl impl). split; [exact Hrun|].
  intros Hpos.
  destruct (decide (p = [])) as [E|Hne]; [specialize (H0 E); lia|].
  destruct (Hinv Hne) as [Hcount Hshape].
  destruct (candidates p (Impl.bindings impl)) as [|f cs];
    [simpl in Hcount; lia|].
  destruct Hshape as (Hfirst & a & Ha & Hpa & Hcommon & Hmax).
  destruct (Hcommon f ltac:(apply elem_of_cons; auto)) as [Haf _].
  destruct Hcmd as (_ & Hsize & _).
  exists f. split; [exact Hfirst|].
  split; [rewrite Hsize, Ha; unfold len; lia|].
  split.
  - intros i [Hi1 Hi2]. rewrite Hsize, Ha in *.
    pose proof (len_nonneg p).
    destruct (lookup_lt_is_Some_2 f (Z.to_nat i) ltac:(lia)) as [v Hv].
    exists v. split; [|exact Hv].
    rewrite <- (Z2Nat.id i) by lia. apply str_get_Some. exact Hv.
  - intros cli Hw. rewrite Hfirst, Hsize, Ha.
    destruct (writeCandidateTail_in_bounds f
                (Z.to_nat (Z.of_nat a - len p)) cli (length p) Hw)
      as (cli' & He & _); [unfold len; lia|].
    exists cli'. exact He.
Qed.

(** C9: whenever the autocompletion computation over the command buffer
    returns [candidateCount > 0], [firstCandidate] is not NULL and
    [cmdSize <= autocompletedLen <= |firstCandidate|]; so every read
    [firstCandidate[i]] with [cmdSize <= i < autocompletedLen] is a byte of
    that name, and the loop of the live repaint that performs these reads
    does not fault. *)
Theorem autocomplete_first_candidate_in_bounds (impl : Impl.t)
        (p : list Z) :
  cmd_holds impl p -> bindings_ok impl ->
  exists cmd impl',
    getAutocompletedCommand impl (Impl.cmdBuffer impl) = Ok (cmd, impl')
    /\ (0 < candidateCount cmd ->
        exists f : list Z,
          firstCandidate cmd = Some f
          /\ Impl.cmdSize impl <= autocompletedLen cmd <= len f
          /\ (forall i : Z,
                 Impl.cmdSize impl <= i < autocompletedLen cmd ->
                 exists v, str_get f i = Ok v /\ f !! Z.to_nat i = Some v)
          /\ (forall cli : EmbeddedCli.t,
                 EmbeddedCli.writeChar cli = true ->
                 exists cli',
                   writeCandidateTail
                     (Z.to_nat (autocompletedLen cmd - Impl.cmdSize impl))
                     cli (firstCandidate cmd) (Impl.cmdSize impl)
                   = Ok cli')).
Proof. exact (getAutocompletedCommand_bounds impl p). Qed.

Lemma sample_cmd_holds :
  cmd_holds sample_impl_g [103].
Proof.
  unfold cmd_holds. split; [repeat constructor; lia|].
  split; [reflexivity|]. exists (replicate 62 0). reflexivity.
Qed.

Lemma sample_bindings_ok :
  bindings_ok sample_impl_g.
Proof.
  unfold bindings_ok. simpl.
  split; [lia|]. split; [|lia].
  repeat constructor; unfold len; simpl; lia.
Qed.

Lemma autocomplete_longest_common_prefix_witness :
  cmd_holds sample_impl_g [103] /\ [103] <> [] /\ bindings_ok sample_impl_g
  /\ exists cmd impl',
      getAutocompletedCommand sample_impl_g (Impl.cmdBuffer sample_impl_g)
      = Ok (cmd, impl')
      /\ candidateCount cmd
         = Z.of_nat (length (candidates [103] (Impl.bindings sample_impl_g)))
      /\ (2 <= candidateCount cmd ->
          exists (f : list Z) (a : nat),
            firstCandidate cmd = Some f
            /\ autocompletedLen cmd = Z.of_nat a
            /\ (length [103] <= a)%nat
            /\ (forall c,
                   c ∈ candidates [103] (Impl.bindings sample_impl_g) ->
                          (a <= length c)%nat /\ take a c = take a f)
            /\ prefix_len_maximal a f
                 (candidates [103] (Impl.bindings sample_impl_g))).
Proof.
  assert (H2 : [103] <> ([] : list Z)) by discriminate.
  split; [exact sample_cmd_holds|]. split; [exact H2|].
  split; [exact sample_bindings_ok|].
  exact (autocomplete_longest_common_prefix
           sample_impl_g [103] sample_cmd_holds H2
                                            sample_bindings_ok).
Defined.

Lemma autocomplete_first_candidate_in_bounds_witness :
  cmd_holds sample_impl_g [103] /\ bindings_ok sample_impl_g
  /\ exists cmd impl',
      getAutocompletedCommand sample_impl_g (Impl.cmdBuffer sample_impl_g)
      = Ok (cmd, impl')
      /\ (0 < candidateCount cmd ->
          exists f : list Z,
            firstCandidate cmd = Some f
            /\ Impl.cmdSize sample_impl_g <= autocompletedLen cmd <= len f
            /\ (forall i : Z,
                   Impl.cmdSize sample_impl_g <= i < autocompletedLen cmd ->
                   exists v, str_get f i = Ok v /\ f !! Z.to_nat i = Some v)
            /\ (forall cli : EmbeddedCli.t,
                   EmbeddedCli.writeChar cli = true ->
                   exists cli',
                     writeCandidateTail
                       (Z.to_nat (autocompletedLen cmd
                                  - Impl.cmdSize sample_impl_g))
                       cli (firstCandidate cmd) (Impl.cmdSize sample_impl_g)
                     = Ok cli')).
Proof.
  split; [exact sample_cmd_holds|]. split; [exact sample_bindings_ok|].
  exact (autocomplete_first_candidate_in_bounds
           sample_impl_g [103] sample_cmd_holds
                                                sample_bindings_ok).
Defined.

(** On the sample table the prefix ["g"] has the two candidates [get-led]
    and [get-adc], and the computed length is that of ["get-"]. *)
Example autocomplete_g :
  exists impl',
    getAutocompletedCommand sample_impl_g (Impl.cmdBuffer sample_impl_g)
    = Ok (AutocompletedCommand.mk (Some [103; 101; 116; 45; 108; 101; 100])
                                  4 2, impl').
Proof. eexists. vm_compute. reflexivity. Qed.

(** ** Line editor (C6, C7) *)

Lemma repaint_only_refl (cli : EmbeddedCli.t) : repaint_only cli cli.
Proof.
  unfold repaint_only.
  split_and!; try reflexivity; try (destruct (_impl cli); reflexivity).
  exists []. rewrite app_nil_r. split; [reflexivity|constructor].
Qed.

Lemma repaint_only_trans (a b c : EmbeddedCli.t) :
  repaint_only a b -> repaint_only b c -> repaint_only a c.
Proof.
  intros (H1 & H2 & H3 & H4 & H5 & H6 & o1 & H7 & H8)
         (K1 & K2 & K3 & K4 & K5 & K6 & o2 & K7 & K8).
  unfold repaint_only. split_and!; try congruence.
  - destruct (_impl a), (_impl b), (_impl c).
    unfold Impl.set_inputLineLength, Impl.set_bindingsFlags in *.
    simpl in *. congruence.
  - exists (o1 ++ o2). rewrite K7, H7, app_assoc. split; [reflexivity|].
    apply Forall_app. auto.
Qed.

Lemma repaint_only_emit (cli : EmbeddedCli.t) (e : event) :
  is_write e -> repaint_only cli (emit e cli).
Proof.
  intros He. unfold repaint_only, emit. simpl.
  split_and!; try reflexivity; try (destruct (_impl cli); reflexivity).
  exists [e]. split; [reflexivity|]. constructor; [exact He|constructor].
Qed.

Lemma repaint_only_inputLineLength (cli : EmbeddedCli.t) (n : Z) :
  repaint_only cli (upd_impl (Impl.set_inputLineLength n) cli).
Proof.
  unfold repaint_only, upd_impl, set_impl. simpl.
  split_and!; try reflexivity; try (destruct (_impl cli); reflexivity).
  exists []. rewrite app_nil_r. split; [reflexivity|constructor].
Qed.

Lemma repaint_only_bindingsFlags (cli : EmbeddedCli.t) (fl : list Z) :
  length fl = length (Impl.bindingsFlags (_impl cli)) ->
  repaint_only cli (set_impl (Impl.set_bindingsFlags fl (_impl cli)) cli).
Proof.
  intros Hl. unfold repaint_only, set_impl. simpl.
  split_and!; try reflexivity; try exact Hl;
    try (destruct (_impl cli); simpl in *; first [reflexivity|exact Hl]).
  exists []. rewrite app_nil_r. split; [reflexivity|constructor].
Qed.

Lemma writeChar_repaint cli c cli' :
  writeChar cli c = Ok cli' -> repaint_only cli cli'.
Proof.
  unfold writeChar. intros H. split_ok.
  apply repaint_only_emit. exact I.
Qed.

Lemma writeChars_repaint s : forall cli cli',
  writeChars cli s = Ok cli' -> repaint_only cli cli'.
Proof.
  induction s as [|c s IH]; simpl; intros cli cli' H; split_ok.
  - apply repaint_only_refl.
  - eapply repaint_only_trans; [eapply writeChar_repaint; eauto|eauto].
Qed.

Lemma writeToOutput_repaint cli s cli' :
  writeToOutput cli s = Ok cli' -> repaint_only cli cli'.
Proof.
  unfold writeToOutput. intros H. split_ok.
  - apply repaint_only_emit. exact I.
  - eapply writeChars_repaint; eauto.
Qed.

Lemma writeToOutput_at_repaint cli m p cli' :
  writeToOutput_at cli m p = Ok cli' -> repaint_only cli cli'.
Proof.
  unfold writeToOutput_at. intros H. split_ok.
  eapply writeToOutput_repaint; eauto.
Qed.

Lemma writeCandidateTail_repaint n first : forall cli i cli',
  writeCandidateTail n cli first i = Ok cli' -> repaint_only cli cli'.
Proof.
  induction n as [|n IH]; simpl; intros cli i cli' H; split_ok.
  - apply repaint_only_refl.
  - eapply repaint_only_trans; [eapply writeChar_repaint; eauto|eauto].
Qed.

Lemma getAutocompletedCommand_loop_flags bs : forall i prefix pl cs fl cmd r,
  getAutocompletedCommand_loop bs i prefix pl cs fl cmd = Ok r ->
  length (snd r) = length fl.
Proof.
  induction bs as [|b bs IH]; simpl; intros i prefix pl cs fl cmd r H.
  - split_ok. reflexivity.
  - split_ok;
      repeat match goal with
             | H : store _ _ _ = Ok _ |- _ =>
                 apply store_Ok in H; destruct H as [_ ->]
             end;
      apply IH in H; rewrite H, ?length_insert; reflexivity.
Qed.

Lemma getAutocompletedCommand_flags impl prefix cmd impl' :
  getAutocompletedCommand impl prefix = Ok (cmd, impl') ->
  impl' = Impl.set_bindingsFlags (Impl.bindingsFlags impl') impl
  /\ length (Impl.bindingsFlags impl') = length (Impl.bindingsFlags impl).
Proof.
  unfold getAutocompletedCommand. intros H. split_ok.
  - split; [destruct impl'; reflexivity|reflexivity].
  - simpl. split; [reflexivity|].
    eapply getAutocompletedCommand_loop_flags; eauto.
Qed.

(** The live repaint writes output and nothing else of consequence. *)
Lemma printLiveAutocompletion_repaint cli cli' :
  printLiveAutocompletion cli = Ok cli' -> repaint_only cli cli'.
Proof.
  unfold printLiveAutocompletion. intros H. split_ok.
  { apply repaint_only_refl. }
  apply getAutocompletedCommand_flags in Hm as [Hi Hl].
  eapply repaint_only_trans.
  { pose proof (repaint_only_bindingsFlags cli _ Hl) as Hr0.
    rewrite <- Hi in Hr0. exact Hr0. }
  eapply repaint_only_trans.
  { eapply writeCandidateTail_repaint; eauto. }
  eapply repaint_only_trans.
  { eapply writeChars_repaint; eauto. }
  eapply repaint_only_trans.
  { apply repaint_only_inputLineLength. }
  eapply repaint_only_trans.
  { eapply writeChar_repaint; eauto. }
  eapply repaint_only_trans.
  { eapply writeToOutput_repaint; eauto. }
  eapply writeToOutput_at_repaint; eauto.
Qed.

Lemma writeChar_total cli c :
  EmbeddedCli.writeChar cli = true ->
  writeChar cli c = Ok (emit (EvWriteChar c) cli).
Proof. intros H. unfold writeChar. rewrite H. reflexivity. Qed.

Lemma writeChars_total s : forall cli,
  EmbeddedCli.writeChar cli = true -> exists cli', writeChars cli s = Ok cli'.
Proof.
  induction s as [|c s IH]; intros cli H; simpl; [eauto|].
  rewrite writeChar_total by exact H. cbn [bind]. apply IH. exact H.
Qed.

Lemma writeToOutput_total cli s :
  EmbeddedCli.writeChar cli = true ->
  exists cli', writeToOutput cli s = Ok cli'.
Proof.
  intros H. unfold writeToOutput.
  destruct (EmbeddedCli.writeString cli); [eauto|].
  apply writeChars_total. exact H.
Qed.

Lemma writeToOutput_at_total cli m p s :
  EmbeddedCli.writeChar cli = true -> cstr m p = Ok s ->
  exists cli', writeToOutput_at cli m p = Ok cli'.
Proof.
  intros H Hs. unfold writeToOutput_at. rewrite Hs. cbn [bind].
  apply writeToOutput_total. exact H.
Qed.

Lemma cmd_holds_cstr impl p :
  cmd_holds impl p -> cstr (Impl.cmdBuffer impl) 0 = Ok p.
Proof.
  intros (Hp & _ & rest & Hbuf). rewrite Hbuf.
  exact (cstr_string [] p rest Hp).
Qed.

(** The live repaint runs to completion on a state that holds a
    well-formed command. *)
Lemma printLiveAutocompletion_total cli p :
  EmbeddedCli.writeChar cli = true ->
  cmd_holds (_impl cli) p -> bindings_ok (_impl cli) ->
  exists cli', printLiveAutocompletion cli = Ok cli'.
Proof.
  intros Hw Hcmd Hok. unfold printLiveAutocompletion.
  destruct (negb (IS_FLAG_SET _ _)); [eauto|].
  destruct (getAutocompletedCommand_bounds (_impl cli) p Hcmd Hok)
    as (cmd & impl' & Hrun & Hb).
  rewrite Hrun. cbn [bind].
  pose proof (getAutocompletedCommand_flags _ _ _ _ Hrun) as [Hi Hl].
  assert (Hsz : Impl.cmdSize impl' = Impl.cmdSize (_impl cli))
    by (rewrite Hi; destruct (_impl cli); reflexivity).
  assert (Hbuf : Impl.cmdBuffer impl' = Impl.cmdBuffer (_impl cli))
    by (rewrite Hi; destruct (_impl cli); reflexivity).
  assert (Hw0 : EmbeddedCli.writeChar (set_impl impl' cli) = true)
    by exact Hw.
  assert (Htail : exists cli1,
             writeCandidateTail
               (Z.to_nat
                  ((if candidateCount cmd =? 0 then Impl.cmdSize impl'
                    else autocompletedLen cmd) - Impl.cmdSize impl'))
               (set_impl impl' cli) (firstCandidate cmd) (Impl.cmdSize impl')
             = Ok cli1).
  { destruct (Z.eqb_spec (candidateCount cmd) 0) as [E|E].
    - rewrite Z.sub_diag. simpl. eauto.
    - assert (Hpos : 0 < candidateCount cmd).
      { destruct (getAutocompletedCommand_spec (_impl cli) p Hcmd Hok)
          as (cmd2 & fl & Hrun2 & H0 & Hinv).
        rewrite Hrun in Hrun2. injection Hrun2 as <- _.
        destruct (decide (p = [])) as [Ep|Ep]; [specialize (H0 Ep); lia|].
        destruct (Hinv Ep) as [Hc _]. lia. }
      destruct (Hb Hpos) as (f & _ & _ & _ & Ht).
      rewrite Hsz. apply Ht. exact Hw0. }
  destruct Htail as (cli1 & Htail). rewrite Htail. cbn [bind].
  pose proof (writeCandidateTail_repaint _ _ _ _ _ Htail) as (Hw1 & _).
  rewrite Hw0 in Hw1.
  match goal with
  | |- context [writeChars cli1 ?s] =>
      destruct (writeChars_total s cli1 Hw1) as (cli2 & H2)
  end.
  rewrite H2. cbn [bind].
  pose proof (writeChars_repaint _ _ _ H2) as (Hw2 & _). rewrite Hw1 in Hw2.
  rewrite writeChar_total by exact Hw2. cbn [bind].
  match goal with
  | |- context [writeToOutput ?c ?s] =>
      destruct (writeToOutput_total c s Hw2) as (cli3 & H3)
  end.
  rewrite H3. cbn [bind].
  pose proof (writeToOutput_repaint _ _ _ H3) as (Hw3 & _).
  simpl in Hw3. rewrite Hw2 in Hw3.
  apply writeToOutput_at_total with p; [exact Hw3|].
  rewrite Hbuf. apply cmd_holds_cstr. exact Hcmd.
Qed.

Lemma repaint_only_typing cli cli' p :
  repaint_only cli cli' -> typing cli p -> typing cli' p.
Proof.
  intros (H1 & _ & _ & _ & H5 & H6 & _)
         (Hw & Hcap & Hok & Hcmd & Hesc & Hlast).
  unfold typing, cmd_capacity_ok, bindings_ok, cmd_holds in *.
  rewrite H1, H5. destruct (_impl cli); simpl in *.
  rewrite H6. auto 10.
Qed.

(** [onCharInput]: the byte is appended and echoed when two more bytes
    fit, and dropped without echo otherwise. *)
Lemma onCharInput_spec cli c :
  EmbeddedCli.writeChar cli = true ->
  cmd_capacity_ok (_impl cli) -> 0 <= Impl.cmdSize (_impl cli) ->
  onCharInput cli c
  = if Impl.cmdSize (_impl cli) + 2 <? Impl.cmdMaxSize (_impl cli)
    then Ok (char_appended cli c) else Ok cli.
Proof.
  intros Hw [Hmax Hlen] Hsz. unfold onCharInput.
  destruct (Z.leb_spec (Impl.cmdMaxSize (_impl cli))
                       (Impl.cmdSize (_impl cli) + 2)),
           (Z.ltb_spec (Impl.cmdSize (_impl cli) + 2)
                       (Impl.cmdMaxSize (_impl cli))); try lia;
    [reflexivity|].
  rewrite store_in_range by lia. cbn [bind].
  rewrite u16_small by lia.
  rewrite store_in_range by (unfold len in *; rewrite length_insert; lia).
  cbn [bind]. rewrite writeChar_total by exact Hw. reflexivity.
Qed.

Lemma char_appended_typing cli p c :
  typing cli p -> isDisplayableChar c = true ->
  len p + 2 < Impl.cmdMaxSize (_impl cli) ->
  typing (char_appended cli c) (p ++ [c]).
Proof.
  intros (Hw & Hcap & Hok & (Hp & Hsz & rest & Hbuf) & Hesc & Hlast) Hc Hfit.
  unfold isDisplayableChar in Hc. apply andb_true_iff in Hc as [Hc1 Hc2].
  apply Z.leb_le in Hc1. apply Z.leb_le in Hc2.
  destruct Hcap as [Hmax Hlen]. rewrite Hbuf in Hlen.
  destruct rest as [|r0 rest]; [len_lia|].
  assert (Hnew : <[Z.to_nat (len p + 1) := 0]>
                   (<[Z.to_nat (len p) := c]> (p ++ 0 :: r0 :: rest))
                 = (p ++ [c]) ++ 0 :: rest).
  { unfold len. replace (Z.to_nat (Z.of_nat (length p))) with (length p + 0)%nat
      by lia.
    rewrite insert_app_r. simpl.
    replace (Z.to_nat (Z.of_nat (length p) + 1)) with (length p + 1)%nat
      by lia.
    rewrite insert_app_r. simpl. rewrite <- app_assoc. reflexivity. }
  unfold typing, char_appended, cmd_capacity_ok, bindings_ok, cmd_holds.
  simpl. rewrite Hsz, Hbuf, Hnew.
  destruct (_impl cli) eqn:Ei; simpl in *.
  split; [exact Hw|]. split; [split; [lia|len_lia]|].
  split; [exact Hok|].
  split; [|split; [exact Hesc|exact Hlast]].
  split; [apply Forall_app; split; [exact Hp|repeat constructor; lia]|].
  split; [len_lia|]. exists rest. reflexivity.
Qed.

Lemma displayable_not_control c :
  isDisplayableChar c = true -> isControlChar c = false /\ c <> 27 /\ c <> 0.
Proof.
  unfold isDisplayableChar, isControlChar. intros H.
  apply andb_true_iff in H as [H1 H2].
  apply Z.leb_le in H1. apply Z.leb_le in H2.
  repeat match goal with
         | |- context [?x =? ?y] => destruct (Z.eqb_spec x y); try lia
         end.
  all: simpl; repeat split; lia.
Qed.

Lemma processByte_displayable cli c handle :
  IS_FLAG_SET (Impl.flags (_impl cli)) CLI_FLAG_ESCAPE_MODE = false ->
  Impl.lastChar (_impl cli) <> 27 ->
  isDisplayableChar c = true ->
  processByte cli c handle
  = (cli1 <- onCharInput cli c ;;
     cli2 <- printLiveAutocompletion cli1 ;;
     Ok (upd_impl (Impl.set_lastChar c) cli2)).
Proof.
  intros Hesc Hlast Hc. unfold processByte. rewrite Hesc.
  destruct (Z.eqb_spec (Impl.lastChar (_impl cli)) 27); [contradiction|].
  simpl andb. cbv iota.
  destruct (displayable_not_control c Hc) as [-> _]. rewrite Hc.
  reflexivity.
Qed.

Lemma typing_step cli p c handle :
  typing cli p -> isDisplayableChar c = true ->
  len p + 2 < Impl.cmdMaxSize (_impl cli) ->
  exists cli',
    processByte cli c handle = Ok cli'
    /\ typing cli' (p ++ [c])
    /\ Impl.cmdMaxSize (_impl cli') = Impl.cmdMaxSize (_impl cli).
Proof.
  intros Ht Hc Hfit.
  pose proof Ht as (Hw & Hcap & Hok & Hcmd & Hesc & Hlast).
  pose proof Hcmd as (_ & Hsz & _).
  rewrite processByte_displayable by assumption.
  rewrite onCharInput_spec by (try assumption; rewrite Hsz; apply len_nonneg).
  rewrite Hsz.
  destruct (Z.ltb_spec (len p + 2) (Impl.cmdMaxSize (_impl cli))); [|lia].
  cbn [bind].
  pose proof (char_appended_typing cli p c Ht Hc Hfit) as Ht1.
  pose proof Ht1 as (Hw1 & _ & Hok1 & Hcmd1 & _).
  destruct (printLiveAutocompletion_total _ _ Hw1 Hcmd1 Hok1) as (cli2 & H2).
  rewrite H2. cbn [bind].
  pose proof (printLiveAutocompletion_repaint _ _ H2) as Hr.
  pose proof (repaint_only_typing _ _ _ Hr Ht1)
    as (Hw2 & Hcap2 & Hok2 & Hcmd2 & Hesc2 & _).
  eexists. split; [reflexivity|].
  destruct (displayable_not_control c Hc) as (_ & Hc27 & _).
  destruct Hr as (_ & _ & _ & _ & Hi & _).
  split.
  - unfold typing, cmd_capacity_ok, bindings_ok, cmd_holds in *.
    simpl. split_and!; tauto.
  - simpl. rewrite Hi. unfold char_appended. simpl.
    destruct (_impl cli). reflexivity.
Qed.

Lemma typing_bytes handle bs : forall cli p,
  typing cli p ->
  Forall (fun c => isDisplayableChar c = true) bs ->
  len p + len bs + 1 < Impl.cmdMaxSize (_impl cli) ->
  exists cli', processBytes cli bs handle = Ok cli' /\ typing cli' (p ++ bs).
Proof.
  induction bs as [|c bs IH]; intros cli p Ht Hd Hfit; simpl.
  - exists cli. rewrite app_nil_r. auto.
  - inversion Hd as [|? ? Hc Hd']; subst. rewrite len_cons in Hfit.
    pose proof (len_nonneg bs).
    destruct (typing_step cli p c handle Ht Hc ltac:(lia))
      as (cli1 & Hstep & Ht1 & Hmax).
    rewrite Hstep. cbn [bind].
    destruct (IH cli1 (p ++ [c]) Ht1 Hd') as (cli' & Hrun & Ht').
    + rewrite Hmax, len_app, len_cons, len_nil. lia.
    + exists cli'. rewrite <- app_assoc in Ht'. auto.
Qed.

(** C6: for every sequence of displayable bytes of length less than
    [cmd-buffer-size - 1] typed into an empty command buffer, the command
    buffer afterwards holds exactly these bytes followed by NUL, and
    [cmdSize] is their number; and in every state [onCharInput] appends and
    echoes the byte when [cmdSize + 2 < cmdMaxSize] and otherwise drops it,
    changing nothing. *)
Theorem typed_bytes_fill_command_buffer
        (cli : EmbeddedCli.t) (bs : list Z) (handle : Z) :
  typing cli [] ->
  Forall (fun c => isDisplayableChar c = true) bs ->
  len bs < Impl.cmdMaxSize (_impl cli) - 1 ->
  (exists cli',
      processBytes cli bs handle = Ok cli'
      /\ Impl.cmdSize (_impl cli') = len bs
      /\ exists rest, Impl.cmdBuffer (_impl cli') = bs ++ 0 :: rest)
  /\ (forall cli0 c,
         EmbeddedCli.writeChar cli0 = true ->
         cmd_capacity_ok (_impl cli0) -> 0 <= Impl.cmdSize (_impl cli0) ->
         onCharInput cli0 c
         = if Impl.cmdSize (_impl cli0) + 2 <? Impl.cmdMaxSize (_impl cli0)
           then Ok (char_appended cli0 c) else Ok cli0).
Proof.
  intros Ht Hd Hfit. split; [|exact onCharInput_spec].
  destruct (typing_bytes handle bs cli [] Ht Hd) as (cli' & Hrun & Ht').
  { rewrite len_nil. lia. }
  exists cli'. split; [exact Hrun|].
  destruct Ht' as (_ & _ & _ & (_ & Hsz & Hbuf) & _). auto.
Qed.

Lemma sample_typing : typing sample_cli_with_bindings [].
Proof.
  unfold typing, cmd_capacity_ok, bindings_ok, cmd_holds. simpl.
  split; [reflexivity|].
  split; [split; [lia|unfold len; simpl; lia]|].
  split; [split; [lia|split; [repeat constructor; unfold len; simpl; lia
                             |lia]]|].
  split; [split; [constructor|split; [reflexivity|]]|].
  { exists (replicate 63 0). reflexivity. }
  split; [reflexivity|lia].
Qed.

Lemma typed_bytes_fill_command_buffer_witness :
  typing sample_cli_with_bindings []
  /\ Forall (fun c => isDisplayableChar c = true) [104; 105]
  /\ len [104; 105] < Impl.cmdMaxSize (_impl sample_cli_with_bindings) - 1
  /\ (exists cli',
         processBytes sample_cli_with_bindings [104; 105] 0 = Ok cli'
         /\ Impl.cmdSize (_impl cli') = len [104; 105]
         /\ exists rest, Impl.cmdBuffer (_impl cli') = [104; 105] ++ 0 :: rest)
  /\ (forall cli0 c,
         EmbeddedCli.writeChar cli0 = true ->
         cmd_capacity_ok (_impl cli0) -> 0 <= Impl.cmdSize (_impl cli0) ->
         onCharInput cli0 c
         = if Impl.cmdSize (_impl cli0) + 2 <? Impl.cmdMaxSize (_impl cli0)
           then Ok (char_appended cli0 c) else Ok cli0).
Proof.
  assert (H2 : Forall (fun c => isDisplayableChar c = true) [104; 105])
    by (repeat constructor).
  assert (H3 : len [104; 105]
               < Impl.cmdMaxSize (_impl sample_cli_with_bindings) - 1)
    by (unfold len; simpl; lia).
  split; [exact sample_typing|]. split; [exact H2|]. split; [exact H3|].
  exact (typed_bytes_fill_command_buffer sample_cli_with_bindings [104; 105]
                                         0 sample_typing H2 H3).
Defined.





(** With [set] typed on the sample engine, either pair calls the handler of
    [set] once and nothing else. *)
Example set_then_terminator_pair :
  (exists cli',
      processBytes (with_cmd [115; 101; 116] sample_cli_with_bindings)
                   [13; 10] 7 = Ok cli'
      /\ dispatches (EmbeddedCli.trace cli') = [EvBinding 3 7 None 0])
  /\ (exists cli',
         processBytes (with_cmd [115; 101; 116] sample_cli_with_bindings)
                      [10; 13] 7 = Ok cli'
         /\ dispatches (EmbeddedCli.trace cli') = [EvBinding 3 7 None 0]).
Proof.
  split; eexists; (split; [vm_compute; reflexivity|reflexivity]).
Qed.


(** Two empty lines ended by [\r\n]: the [\r] of the second pair follows
    the [\n] of the first and is ignored as well.  The second pair writes
    no line break: each of its bytes only repaints the prompt. *)
Example two_empty_lines_collapse :
  exists a b,
    processBytes sample_cli_with_bindings [13; 10] 7 = Ok a
    /\ processBytes sample_cli_with_bindings [13; 10; 13; 10] 7 = Ok b
    /\ EmbeddedCli.trace b
       = EmbeddedCli.trace a
         ++ [EvWriteChar 13; EvWriteChar 62; EvWriteChar 32;
             EvWriteChar 13; EvWriteChar 62; EvWriteChar 32].
Proof.
  eexists. eexists. split; [vm_compute; reflexivity|].
  split; [vm_compute; reflexivity|]. reflexivity.
Qed.

(** ** Dispatcher (C8) *)

Lemma strlen_from_split (m : list Z) (n : Z) :
  strlen_from m = Ok n ->
  0 <= n
  /\ exists s rest, m = s ++ 0 :: rest /\ len s = n
                    /\ Forall (fun c => c <> 0) s.
Proof.
  revert n. induction m as [|c m IH]; simpl; intros n H; [discriminate|].
  destruct (Z.eqb_spec c 0) as [->|Hc].
  - injection H as <-. split; [lia|]. exists [], m. auto.
  - split_ok. destruct (IH _ Hm) as (Hn & s & rest & -> & Hl & Hs).
    split; [lia|]. exists (c :: s), rest.
    split; [reflexivity|]. split; [rewrite len_cons; lia|].
    constructor; assumption.
Qed.

Lemma strlen_from_total (m : list Z) (k : nat) :
  m !! k = Some 0 ->
  exists n, strlen_from m = Ok n /\ 0 <= n <= Z.of_nat k.
Proof.
  revert k. induction m as [|c m IH]; intros k Hk; [discriminate|].
  simpl. destruct (Z.eqb_spec c 0) as [->|Hc].
  - exists 0. split; [reflexivity|lia].
  - destruct k as [|k]; [simpl in Hk; congruence|].
    destruct (IH k Hk) as (n & Hn & Hb). rewrite Hn. simpl.
    exists (n + 1). split; [reflexivity|lia].
Qed.

(** A string starts at [p] whenever a NUL lies at or after [p]. *)
Lemma cstr_total (m : list Z) (p k : Z) :
  0 <= p <= k -> m !! Z.to_nat k = Some 0 ->
  exists s rest,
    cstr m p = Ok s
    /\ drop (Z.to_nat p) m = s ++ 0 :: rest
    /\ Forall (fun c => c <> 0) s
    /\ p + len s <= k.
Proof.
  intros Hp Hk.
  assert (Hlen : k < len m).
  { apply lookup_lt_Some in Hk. unfold len. lia. }
  assert (Hd : drop (Z.to_nat p) m !! (Z.to_nat k - Z.to_nat p)%nat = Some 0).
  { rewrite lookup_drop. rewrite <- Hk. f_equal. lia. }
  destruct (strlen_from_total _ _ Hd) as (n & Hn & Hb).
  destruct (strlen_from_split _ _ Hn) as (_ & s & rest & Hs & Hl & Hnz).
  exists s, rest. unfold cstr, strlen.
  destruct (Z.ltb_spec p 0); [lia|].
  destruct (Z.ltb_spec (len m) p); [lia|].
  simpl. rewrite Hn. simpl. rewrite Hs, <- Hl.
  unfold len. rewrite Nat2Z.id, take_app_length.
  split; [reflexivity|]. split; [reflexivity|]. split; [exact Hnz|].
  unfold len in *. lia.
Qed.

Lemma strcmp_eq_from_string (nm : list Z) :
  forall (rest s : list Z),
    Forall (fun c => c <> 0) nm -> Forall (fun c => c <> 0) s ->
    strcmp_eq_from (nm ++ 0 :: rest) s = Ok (bool_decide (nm = s)).
Proof.
  induction nm as [|c nm IH]; intros rest s Hnm Hs;
    cbn [app strcmp_eq_from].
  - destruct s as [|x s]; [reflexivity|].
    inversion Hs; subst.
    destruct (Z.eqb_spec 0 x); [congruence|].
    rewrite bool_decide_eq_false_2 by discriminate. reflexivity.
  - inversion Hnm as [|? ? Hc Hnm']; subst.
    destruct s as [|x s].
    + destruct (Z.eqb_spec c 0); [contradiction|].
      rewrite bool_decide_eq_false_2 by discriminate. reflexivity.
    + inversion Hs; subst.
      destruct (Z.eqb_spec c x) as [->|Hne].
      * destruct (Z.eqb_spec x 0); [contradiction|].
        rewrite IH by assumption.
        destruct (decide (nm = s)) as [->|Hd].
        -- rewrite !bool_decide_eq_true_2; reflexivity.
        -- rewrite !bool_decide_eq_false_2; [reflexivity|congruence|exact Hd].
      * rewrite bool_decide_eq_false_2; [reflexivity|congruence].
Qed.

Lemma strcmp_eq_string (m : list Z) (p : Z) (nm rest s : list Z) :
  0 <= p ->
  drop (Z.to_nat p) m = nm ++ 0 :: rest ->
  Forall (fun c => c <> 0) nm -> Forall (fun c => c <> 0) s ->
  strcmp_eq m p s = Ok (bool_decide (nm = s)).
Proof.
  intros Hp Hd Hnm Hs. unfold strcmp_eq.
  destruct (Z.ltb_spec p 0); [lia|].
  destruct (Z.ltb_spec (len m) p) as [Hlt|].
  - rewrite drop_ge in Hd by (unfold len in Hlt; lia).
    destruct nm; discriminate.
  - simpl. rewrite Hd. apply strcmp_eq_from_string; assumption.
Qed.

(** The search finds the first binding that bears the name. *)
Lemma findBinding_spec (buf : list Z) (n : Z) (nm rest : list Z)
      (bs : list CliCommandBinding.t) :
  forall i : nat,
    0 <= n ->
    drop (Z.to_nat n) buf = nm ++ 0 :: rest ->
    Forall (fun c => c <> 0) nm ->
    Forall (fun b => Forall (fun c => c <> 0) (CliCommandBinding.name b)) bs ->
    findBinding bs i buf n
    = Ok (match list_find (fun b => CliCommandBinding.name b = nm) bs with
          | Some (k, b) => Some ((i + k)%nat, b)
          | None => None
          end).
Proof.
  induction bs as [|b bs IH]; intros i Hn Hd Hnm Hbs; simpl; [reflexivity|].
  inversion Hbs as [|? ? Hb Hbs']; subst.
  rewrite (strcmp_eq_string buf n nm rest _ Hn Hd Hnm Hb). cbn [bind].
  destruct (decide (CliCommandBinding.name b = nm)) as [E|E].
  - rewrite bool_decide_eq_true_2 by (symmetry; exact E).
    rewrite Nat.add_0_r. reflexivity.
  - rewrite bool_decide_eq_false_2 by (intros E'; apply E; auto).
    rewrite (IH (S i) Hn Hd Hnm Hbs').
    destruct (list_find _ bs) as [[k b']|]; simpl; [|reflexivity].
    do 3 f_equal. lia.
Qed.




(** The loop that separates name and arguments stays inside the command:
    it reads and writes below [command_size] only, and its two pointers
    point below [command_size]. *)
Lemma splitNameArgs_loop_total (n : nat) :
  forall (buf : list Z) (i : Z) (cn ca : option Z) (nf : bool),
    0 <= i -> i + Z.of_nat n <= len buf ->
    (forall x, cn = Some x -> 0 <= x < i) ->
    (forall x, ca = Some x -> 0 <= x < i) ->
    exists buf' cn' ca',
      splitNameArgs_loop n buf i cn ca nf = Ok (buf', cn', ca')
      /\ length buf' = length buf
      /\ (forall j : nat, i + Z.of_nat n <= Z.of_nat j -> buf' !! j = buf !! j)
      /\ (forall x, cn' = Some x -> 0 <= x < i + Z.of_nat n)
      /\ (forall x, ca' = Some x -> 0 <= x < i + Z.of_nat n).
Proof.
  induction n as [|n IH]; intros buf i cn ca nf Hi Hl Hcn Hca.
  - simpl. exists buf, cn, ca. split; [reflexivity|].
    split; [reflexivity|]. split; [auto|].
    split; intros x Hx; [specialize (Hcn x Hx)|specialize (Hca x Hx)]; lia.
  - cbn [splitNameArgs_loop].
    destruct (load_in_range buf i) as (c & Hc & _); [lia|].
    rewrite Hc. cbn [bind].
    assert (Hnext : forall buf1 cn1 ca1 nf1,
               length buf1 = length buf ->
               (forall j : nat, i + 1 <= Z.of_nat j -> buf1 !! j = buf !! j) ->
               (forall x, cn1 = Some x -> 0 <= x < i + 1) ->
               (forall x, ca1 = Some x -> 0 <= x < i + 1) ->
               exists buf' cn' ca',
                 splitNameArgs_loop n buf1 (i + 1) cn1 ca1 nf1
                 = Ok (buf', cn', ca')
                 /\ length buf' = length buf
                 /\ (forall j : nat, i + Z.of_nat (S n) <= Z.of_nat j ->
                                     buf' !! j = buf !! j)
                 /\ (forall x, cn' = Some x -> 0 <= x < i + Z.of_nat (S n))
                 /\ (forall x, ca' = Some x -> 0 <= x < i + Z.of_nat (S n))).
    { intros buf1 cn1 ca1 nf1 Hl1 Hsame Hcn1 Hca1.
      destruct (IH buf1 (i + 1) cn1 ca1 nf1)
        as (b' & cn' & ca' & He & Hl' & Hs' & Hcn' & Hca');
        [lia|unfold len in *; lia|exact Hcn1|exact Hca1|].
      exists b', cn', ca'. split; [exact He|]. split; [congruence|].
      split; [intros j Hj; rewrite Hs' by lia; apply Hsame; lia|].
      split; intros x Hx;
        [specialize (Hcn' x Hx)|specialize (Hca' x Hx)]; lia. }
    assert (Hcn1 : forall x, cn = Some x -> 0 <= x < i + 1)
      by (intros x Hx; specialize (Hcn x Hx); lia).
    assert (Hca1 : forall x, ca = Some x -> 0 <= x < i + 1)
      by (intros x Hx; specialize (Hca x Hx); lia).
    assert (Hi1 : forall x, Some i = Some x -> 0 <= x < i + 1)
      by (intros x Hx; injection Hx as <-; lia).
    destruct (c =? 32).
    + destruct ca as [a|].
      * cbn [bind]. apply Hnext; auto.
      * rewrite store_in_range by lia. cbn [bind]. apply Hnext; auto.
        -- apply length_insert.
        -- intros j Hj. apply list_lookup_insert_ne. lia.
    + destruct cn as [x|]; [|apply Hnext; auto].
      destruct ca as [a|]; [apply Hnext; auto|].
      destruct nf; apply Hnext; auto.
Qed.

Lemma with_events_nil (cli : EmbeddedCli.t) : with_events [] cli = cli.
Proof. destruct cli. unfold with_events. simpl. rewrite app_nil_r. auto. Qed.




Lemma with_events_history (out : list event) (cli : EmbeddedCli.t) :
  Impl.history (_impl (with_events out cli)) = Impl.history (_impl cli).
Proof. reflexivity. Qed.



Lemma sample_names_ok : names_ok (_impl sample_cli_with_bindings).
Proof. unfold names_ok. apply (bool_decide_unpack _). vm_compute. exact I. Qed.


(** [foo], the name of no binding of the sample engine, submitted in direct
    mode: the name the dispatcher finds is [foo], the call returns 1, and
    the engine is the one before. *)
Example direct_foo :
  (r <- direct_buffer [102; 111; 111] 3 170 ;; parsed_name r 3)
  = Ok (Some [102; 111; 111])
  /\ Forall (fun b => CliCommandBinding.name b <> [102; 111; 111])
            (Impl.bindings (_impl sample_cli_with_bindings))
  /\ embeddedCliParseDirectCommand sample_cli_with_bindings
                                   [102; 111; 111] 3 7 170
     = Ok (1, sample_cli_with_bindings).
Proof.
  split; [vm_compute; reflexivity|].
  split; [apply (bool_decide_unpack _); vm_compute; exact I|].
  vm_compute. reflexivity.
Qed.

(** [set a b] submitted in direct mode: binding 3 is called with the handle
    and the two tokens, nothing else is called, and the call returns 0. *)
Example direct_set_a_b :
  embeddedCliParseDirectCommand sample_cli_with_bindings
                                [115; 101; 116; 32; 97; 32; 98] 7 7 170
  = Ok (0, with_events [EvBinding 3 7 (Some [97; 0; 98; 0; 0]) 0]
                       sample_cli_with_bindings).
Proof. vm_compute. reflexivity. Qed.

(** * Token accessors *)

Lemma getTokenCount_loop_S fuel str i tc :
  getTokenCount_loop (S fuel) str i tc
  = (c <- load str i ;;
     if c =? 0 then
       c1 <- load str (i + 1) ;;
       if c1 =? 0 then Ok tc
       else getTokenCount_loop fuel str (i + 1) (u16 (tc + 1))
     else getTokenCount_loop fuel str (i + 1) tc).
Proof. reflexivity. Qed.

(** The counting loop on a string and its terminator: [nxt] is the byte
    after the terminator. *)
Lemma getTokenCount_loop_item (it : list Z) :
  forall (pre post : list Z) (fuel : nat) (tc nxt : Z),
    Forall (fun c => c <> 0) it ->
    getTokenCount_loop (length it + 1 + fuel) (pre ++ it ++ 0 :: nxt :: post)
                       (len pre) tc
    = if nxt =? 0 then Ok tc
      else getTokenCount_loop fuel (pre ++ it ++ 0 :: nxt :: post)
                              (len pre + len it + 1) (u16 (tc + 1)).
Proof.
  induction it as [|x it IH]; intros pre post fuel tc nxt Hit.
  - change (length [] + 1 + fuel)%nat with (S fuel).
    rewrite getTokenCount_loop_S.
    simpl app. rewrite load_app_head. simpl.
    rewrite load_app_next. simpl.
    rewrite len_nil, Z.add_0_r. reflexivity.
  - inversion Hit as [|? ? Hx Hit']; subst.
    change (length (x :: it) + 1 + fuel)%nat
      with (S (length it + 1 + fuel)).
    rewrite getTokenCount_loop_S.
    simpl app. rewrite load_app_head. simpl.
    destruct (Z.eqb_spec x 0); [contradiction|].
    replace (pre ++ x :: it ++ 0 :: nxt :: post)
      with ((pre ++ [x]) ++ it ++ 0 :: nxt :: post)
      by (rewrite <- app_assoc; reflexivity).
    replace (len pre + 1) with (len (pre ++ [x])) by len_lia.
    rewrite IH by assumption.
    replace (len (pre ++ [x]) + len it + 1)
      with (len pre + len (x :: it) + 1) by len_lia.
    reflexivity.
Qed.

Lemma hist_flat_length_cons (p : list Z) (items : list (list Z)) :
  length (hist_flat (p :: items))
  = (length p + 1 + length (hist_flat items))%nat.
Proof. simpl. rewrite length_app. simpl. lia. Qed.

(** The byte after the terminator of an item: the first byte of the next
    item, or the second NUL. *)
Lemma hist_flat_next (items : list (list Z)) (rest : list Z) :
  Forall item_ok items ->
  exists nxt tl, hist_flat items ++ 0 :: rest = nxt :: tl
                 /\ (nxt = 0 <-> items = []).
Proof.
  intros Hok. destruct items as [|it items]; simpl.
  - exists 0, rest. split; [reflexivity|]. split; auto.
  - inversion Hok as [|? ? Hit _]; subst.
    destruct (item_ok_head it (0 :: hist_flat items ++ 0 :: rest) Hit)
      as (c & tl & Htl & Hc).
    exists c, tl. rewrite <- app_assoc. simpl. split; [exact Htl|].
    split; [contradiction|discriminate].
Qed.

Lemma hist_flat_cons_app (it : list Z) (items : list (list Z))
      (rest : list Z) :
  hist_flat (it :: items) ++ rest = it ++ 0 :: (hist_flat items ++ rest).
Proof. simpl. rewrite <- app_assoc. reflexivity. Qed.

Lemma getTokenCount_loop_items (items : list (list Z)) :
  forall (done it rest : list Z) (fuel : nat) (tc : Z),
    Forall item_ok items -> item_ok it ->
    0 <= tc -> tc + Z.of_nat (length items) < 65536 ->
    (length (hist_flat (it :: items)) <= fuel)%nat ->
    getTokenCount_loop fuel (done ++ hist_flat (it :: items) ++ 0 :: rest)
                       (len done) tc
    = Ok (tc + Z.of_nat (length items)).
Proof.
  induction items as [|it2 items IH];
    intros done it rest fuel tc Hok Hit Htc Hb Hf.
  - rewrite hist_flat_length_cons in Hf. simpl in Hf.
    replace fuel with (length it + 1 + (fuel - length it - 1))%nat by lia.
    rewrite hist_flat_cons_app. cbn [hist_flat app].
    rewrite getTokenCount_loop_item by apply Hit.
    simpl. f_equal. lia.
  - inversion Hok as [|? ? Hit2 Hok']; subst.
    rewrite hist_flat_length_cons in Hf.
    replace fuel with (length it + 1 + (fuel - length it - 1))%nat by lia.
    rewrite (hist_flat_cons_app it).
    destruct (hist_flat_next (it2 :: items) rest Hok)
      as (nxt & tl & Htl & Hnxt).
    rewrite Htl. rewrite getTokenCount_loop_item by apply Hit.
    destruct (Z.eqb_spec nxt 0) as [H0|_];
      [apply Hnxt in H0; discriminate|].
    rewrite <- Htl.
    replace (done ++ it ++ 0 :: (hist_flat (it2 :: items) ++ 0 :: rest))
      with ((done ++ it ++ [0]) ++ hist_flat (it2 :: items) ++ 0 :: rest)
      by (rewrite <- !app_assoc; reflexivity).
    replace (len done + len it + 1) with (len (done ++ it ++ [0]))
      by len_lia.
    rewrite length_cons in Hb.
    rewrite u16_small by lia.
    rewrite IH; try assumption; try lia.
    rewrite length_cons. f_equal. lia.
Qed.

Lemma tokenized_count (str : list Z) (items : list (list Z)) :
  tokenized str items -> Z.of_nat (length items) < 65536 ->
  embeddedCliGetTokenCount (Some str) = Ok (Z.of_nat (length items)).
Proof.
  intros (Hok & rest & -> & Hnil) Hb. unfold embeddedCliGetTokenCount.
  destruct items as [|it items].
  - simpl. reflexivity.
  - inversion Hok as [|? ? Hit Hok']; subst.
    destruct (hist_flat_next (it :: items) rest Hok)
      as (nxt & tl & Htl & Hnxt).
    rewrite Htl.
    change (load (nxt :: tl) 0) with (Ok nxt : result Z). cbn [bind].
    destruct (Z.eqb_spec nxt 0) as [H0|_];
      [apply Hnxt in H0; discriminate|].
    rewrite <- Htl.
    pose proof (getTokenCount_loop_items items [] it rest
                  (S (length (hist_flat (it :: items) ++ 0 :: rest))) 1
                  Hok' Hit) as Hw.
    cbn [app] in Hw. rewrite len_nil in Hw. rewrite Hw.
    + rewrite length_cons. f_equal. lia.
    + lia.
    + rewrite length_cons in Hb. lia.
    + rewrite length_app. lia.
Qed.

(** The position loop on the last item, when its number is not the one
    looked for: it stops on the terminator of the item. *)
Lemma getTokenPosition_loop_last (it : list Z) :
  forall (pre post : list Z) (fuel : nat) (pos tc : Z),
    Forall (fun c => c <> 0) it -> tc <> pos ->
    len pre + len it + 1 < 65536 ->
    getTokenPosition_loop (length it + 1 + fuel) (pre ++ it ++ 0 :: 0 :: post)
                          pos (len pre) tc
    = Ok (len pre + len it).
Proof.
  induction it as [|x it IH]; intros pre post fuel pos tc Hit Htc Hb.
  - change (length [] + 1 + fuel)%nat with (S fuel).
    rewrite getTokenPosition_loop_S.
    destruct (Z.eqb_spec tc pos); [contradiction|].
    simpl app. rewrite load_app_head. simpl.
    rewrite load_app_next. simpl.
    rewrite len_nil, Z.add_0_r. reflexivity.
  - inversion Hit as [|? ? Hx Hit']; subst.
    change (length (x :: it) + 1 + fuel)%nat
      with (S (length it + 1 + fuel)).
    rewrite getTokenPosition_loop_S.
    destruct (Z.eqb_spec tc pos); [contradiction|].
    simpl app. rewrite load_app_head. simpl.
    destruct (Z.eqb_spec x 0); [contradiction|].
    rewrite u16_small by len_lia.
    replace (pre ++ x :: it ++ 0 :: 0 :: post)
      with ((pre ++ [x]) ++ it ++ 0 :: 0 :: post)
      by (rewrite <- app_assoc; reflexivity).
    replace (len pre + 1) with (len (pre ++ [x])) by len_lia.
    rewrite IH by (try assumption; len_lia).
    f_equal. len_lia.
Qed.

(** The position loop walks over all the items when none of them has the
    number looked for, and stops on the terminator of the last one. *)
Lemma getTokenPosition_loop_past (items : list (list Z)) :
  forall (done it rest : list Z) (fuel : nat) (pos tc : Z),
    Forall item_ok items -> item_ok it ->
    0 <= tc -> tc + Z.of_nat (length items) < pos -> pos < 65536 ->
    len done + len (hist_flat (it :: items)) < 65536 ->
    (length (hist_flat (it :: items)) <= fuel)%nat ->
    getTokenPosition_loop fuel
      (done ++ hist_flat (it :: items) ++ 0 :: rest) pos (len done) tc
    = Ok (len done + len (hist_flat (it :: items)) - 1).
Proof.
  induction items as [|it2 items IH];
    intros done it rest fuel pos tc Hok Hit Htc Hlt Hpos Hb Hf.
  - rewrite hist_flat_length_cons in Hf. simpl in Hf.
    replace fuel with (length it + 1 + (fuel - length it - 1))%nat by lia.
    rewrite hist_flat_cons_app. cbn [hist_flat app].
    simpl in Hlt.
    rewrite getTokenPosition_loop_last;
      [|apply Hit|lia
       |rewrite len_hist_flat_cons in Hb; cbn [hist_flat] in Hb;
        rewrite len_nil in Hb; lia].
    f_equal. rewrite len_app, len_cons, len_nil. lia.
  - inversion Hok as [|? ? Hit2 Hok']; subst.
    rewrite hist_flat_length_cons in Hf.
    rewrite length_cons in Hlt.
    pose proof (len_nonneg (hist_flat (it2 :: items))).
    rewrite len_hist_flat_cons in Hb.
    replace fuel with (length it + 1 + (fuel - length it - 1))%nat by lia.
    rewrite (hist_flat_cons_app it).
    destruct (hist_flat_next (it2 :: items) rest Hok)
      as (nxt & tl & Htl & Hnxt).
    rewrite Htl.
    rewrite getTokenPosition_loop_skip;
      [|apply Hit|lia|intros H0; apply Hnxt in H0; discriminate|lia].
    rewrite <- Htl.
    replace (done ++ it ++ 0 :: (hist_flat (it2 :: items) ++ 0 :: rest))
      with ((done ++ it ++ [0]) ++ hist_flat (it2 :: items) ++ 0 :: rest)
      by (rewrite <- !app_assoc; reflexivity).
    replace (len done + len it + 1) with (len (done ++ it ++ [0]))
      by len_lia.
    rewrite u16_small by lia.
    rewrite IH; try assumption; try lia.
    + f_equal. rewrite (len_hist_flat_cons it). len_lia.
    + replace (len (done ++ it ++ [0])) with (len done + len it + 1)
        by len_lia.
      lia.
Qed.

Lemma hist_flat_ends_nul (it : list Z) (items : list (list Z)) :
  exists pre, hist_flat (it :: items) = pre ++ [0].
Proof.
  revert it. induction items as [|b l IH]; intros a.
  - exists a. reflexivity.
  - destruct (IH b) as (pre & Hpre).
    exists (a ++ 0 :: pre).
    change (hist_flat (a :: b :: l)) with (a ++ 0 :: hist_flat (b :: l)).
    rewrite Hpre, <- app_assoc. reflexivity.
Qed.

Lemma tokenized_get_none (str : list Z) (items : list (list Z)) (pos : Z) :
  tokenized str items -> len (hist_flat items) < 65536 ->
  pos = 0 \/ Z.of_nat (length items) < pos < 65536 ->
  embeddedCliGetToken (Some str) pos = Ok None.
Proof.
  intros (Hok & rest & -> & Hnil) Hb Hpos.
  unfold embeddedCliGetToken, getTokenPosition.
  destruct (Z.eqb_spec pos 0) as [->|Hp0]; [reflexivity|].
  destruct Hpos as [?|Hpos]; [contradiction|].
  destruct items as [|it items].
  - destruct (Hnil eq_refl) as (r & ->). simpl hist_flat. cbn [app].
    cbn [length]. rewrite getTokenPosition_loop_S.
    simpl length in Hpos.
    destruct (Z.eqb_spec 1 pos); [reflexivity|].
    change (load (0 :: 0 :: r) 0) with (Ok 0 : result Z). cbn [bind].
    change (0 =? 0) with true. cbv iota.
    change (load (0 :: 0 :: r) (0 + 1)) with (Ok 0 : result Z). cbn [bind].
    reflexivity.
  - inversion Hok as [|? ? Hit Hok']; subst.
    pose proof (getTokenPosition_loop_past items [] it rest
                  (S (length (hist_flat (it :: items) ++ 0 :: rest)))
                  pos 1 Hok' Hit) as Hw.
    cbn [app] in Hw. rewrite len_nil in Hw. rewrite Hw.
    + cbn [bind].
      assert (Hload : load (hist_flat (it :: items) ++ 0 :: rest)
                           (0 + len (hist_flat (it :: items)) - 1) = Ok 0).
      { destruct (hist_flat_ends_nul it items) as (pre & ->).
        rewrite <- app_assoc. simpl app.
        replace (0 + len (pre ++ [0]) - 1) with (len pre) by len_lia.
        apply load_app_head. }
      rewrite Hload. cbn [bind]. reflexivity.
    + lia.
    + rewrite length_cons in Hpos. lia.
    + lia.
    + lia.
    + rewrite length_app. lia.
Qed.

Lemma tokenized_get_some (str : list Z) (items : list (list Z)) (k : nat)
      (it : list Z) :
  tokenized str items -> len (hist_flat items) < 65536 ->
  items !! k = Some it ->
  embeddedCliGetToken (Some str) (Z.of_nat k + 1)
  = Ok (Some (len (hist_flat (take k items))))
  /\ cstr str (len (hist_flat (take k items))) = Ok it.
Proof.
  intros (Hok & rest & -> & _) Hb Hk.
  pose proof (take_drop_middle items k it Hk) as Hsplit.
  assert (Hpre : Forall item_ok (take k items))
    by (apply Forall_take; exact Hok).
  assert (Hit : item_ok it)
    by (exact (Forall_lookup_1 _ _ _ _ Hok Hk)).
  assert (Hlen : length (take k items) = k).
  { rewrite length_take. apply lookup_lt_Some in Hk. lia. }
  rewrite <- Hsplit at 1 3.
  rewrite hist_flat_app, <- app_assoc, hist_flat_cons_app.
  assert (Hbound : len (hist_flat (take k items)) + len it + 1 < 65536).
  { rewrite <- Hsplit in Hb. rewrite hist_flat_app, len_app in Hb.
    rewrite len_hist_flat_cons in Hb.
    pose proof (len_nonneg (hist_flat (drop (S k) items))). lia. }
  split.
  - replace (Z.of_nat k) with (Z.of_nat (length (take k items)))
      by (rewrite Hlen; reflexivity).
    apply embeddedCliGetToken_item; assumption.
  - apply cstr_string. apply Hit.
Qed.

Lemma tokenized_drop (str : list Z) (items : list (list Z)) (k : nat)
      (it : list Z) :
  tokenized str items -> items !! k = Some it ->
  exists rest,
    drop (Z.to_nat (len (hist_flat (take k items)))) str = it ++ 0 :: rest.
Proof.
  intros (Hok & rest & -> & _) Hk.
  pose proof (take_drop_middle items k it Hk) as Hsplit.
  exists (hist_flat (drop (S k) items) ++ 0 :: rest).
  rewrite <- Hsplit at 2.
  rewrite hist_flat_app, <- app_assoc, hist_flat_cons_app.
  unfold len. rewrite Nat2Z.id. apply drop_app_length.
Qed.

Lemma first_index_none (token : list Z) (items : list (list Z)) :
  Forall (fun it => it <> token) items -> first_index token items = 0.
Proof.
  intros H. unfold first_index.
  destruct (list_find (fun it => it = token) items) as [[k it]|] eqn:Hf;
    [|reflexivity].
  apply list_find_Some in Hf. destruct Hf as (Hk & Heq & _).
  exfalso. exact (Forall_lookup_1 _ _ _ _ H Hk Heq).
Qed.

Lemma first_index_found (token : list Z) (checked remaining : list (list Z)) :
  Forall (fun it => it <> token) checked ->
  first_index token (checked ++ token :: remaining)
  = Z.of_nat (length checked) + 1.
Proof.
  intros H. unfold first_index.
  destruct (list_find (fun it => it = token) (checked ++ token :: remaining))
    as [[k it]|] eqn:Hf.
  - apply list_find_Some in Hf. destruct Hf as (Hk & Heq & Hbefore).
    destruct (Nat.lt_trichotomy k (length checked)) as [Hlt|[->|Hgt]].
    + rewrite lookup_app_l in Hk by exact Hlt.
      exfalso. exact (Forall_lookup_1 _ _ _ _ H Hk Heq).
    + reflexivity.
    + exfalso. apply (Hbefore (length checked) token); [|exact Hgt|reflexivity].
      rewrite lookup_app_r by lia. rewrite Nat.sub_diag. reflexivity.
  - apply list_find_None in Hf.
    apply Forall_app in Hf. destruct Hf as [_ Hf].
    inversion Hf; subst. contradiction.
Qed.

Lemma findToken_loop_spec (str token : list Z) (items : list (list Z))
      (remaining : list (list Z)) :
  forall (checked : list (list Z)) (fuel : nat),
    tokenized str items -> len (hist_flat items) < 65535 ->
    Forall (fun c => c <> 0) token ->
    items = checked ++ remaining ->
    Forall (fun it => it <> token) checked ->
    (length remaining < fuel)%nat ->
    findToken_loop fuel str token (Z.of_nat (length items))
                   (Z.of_nat (length checked) + 1)
    = Ok (first_index token items).
Proof.
  induction remaining as [|it remaining IH];
    intros checked fuel Htok Hb Htoken Hsplit Hchecked Hfuel.
  - rewrite app_nil_r in Hsplit. subst checked.
    destruct fuel as [|fuel]; [simpl in Hfuel; lia|].
    cbn [findToken_loop].
    destruct (Z.leb_spec (Z.of_nat (length items) + 1)
                         (Z.of_nat (length items))); [lia|].
    rewrite first_index_none by exact Hchecked. reflexivity.
  - destruct fuel as [|fuel]; [simpl in Hfuel; lia|].
    cbn [findToken_loop].
    assert (Hk : items !! length checked = Some it).
    { rewrite Hsplit, lookup_app_r by lia.
      rewrite Nat.sub_diag. reflexivity. }
    assert (Hn : (length checked < length items)%nat)
      by (apply lookup_lt_Some in Hk; exact Hk).
    pose proof (length_le_hist_flat items) as Hcount.
    destruct (Z.leb_spec (Z.of_nat (length checked) + 1)
                         (Z.of_nat (length items))); [|lia].
    destruct (tokenized_get_some str items (length checked) it Htok
                ltac:(lia) Hk) as [Hget _].
    rewrite Hget. cbn [bind].
    destruct (tokenized_drop str items (length checked) it Htok Hk)
      as (rest & Hdrop).
    assert (Hit : item_ok it).
    { destruct Htok as (Hok & _). exact (Forall_lookup_1 _ _ _ _ Hok Hk). }
    rewrite (strcmp_eq_string str _ it rest token);
      [|apply len_nonneg|exact Hdrop|apply Hit|exact Htoken].
    cbn [bind].
    destruct (decide (it = token)) as [->|Hne].
    + rewrite bool_decide_eq_true_2 by reflexivity.
      rewrite Hsplit. rewrite first_index_found by exact Hchecked.
      reflexivity.
    + rewrite bool_decide_eq_false_2 by exact Hne.
      rewrite u16_small by lia.
      replace (Z.of_nat (length checked) + 1 + 1)
        with (Z.of_nat (length (checked ++ [it])) + 1)
        by (rewrite length_app; simpl; lia).
      apply IH; try assumption.
      * rewrite <- app_assoc. exact Hsplit.
      * apply Forall_app. split; [exact Hchecked|].
        constructor; [exact Hne|constructor].
      * simpl in Hfuel. lia.
Qed.

Lemma tokenized_find (str token : list Z) (items : list (list Z)) :
  tokenized str items -> len (hist_flat items) < 65535 ->
  Forall (fun c => c <> 0) token ->
  embeddedCliFindToken (Some str) (Some token)
  = Ok (first_index token items).
Proof.
  intros Htok Hb Htoken. unfold embeddedCliFindToken.
  pose proof (length_le_hist_flat items) as Hcount.
  rewrite (tokenized_count str items Htok) by lia. cbn [bind].
  rewrite Nat2Z.id.
  apply (findToken_loop_spec str token items items [] _ Htok Hb Htoken);
    [reflexivity|constructor|lia].
Qed.

(** * Tokenizer: words *)

Lemma store_app_head (pre rest : list Z) (x v : Z) :
  store (pre ++ x :: rest) (len pre) v = Ok (pre ++ v :: rest).
Proof.
  rewrite store_in_range by len_lia.
  unfold len. rewrite Nat2Z.id.
  rewrite insert_app_r_alt by lia. rewrite Nat.sub_diag. reflexivity.
Qed.

(** The decision of the tail of the loop body on a NUL: it is copied when
    a token is being copied, and only then. *)
Lemma tok_out_last (ts : list (list Z)) (cur rest : list Z) :
  Forall item_ok ts -> Forall (fun c => c <> 0) cur ->
  (if 0 <? len (tok_out ts cur) then
     p <- load (tok_out ts cur ++ rest) (len (tok_out ts cur) - 1) ;;
     Ok (negb (p =? 0))
   else Ok false)
  = Ok (if cur is [] then false else true).
Proof.
  intros Hts Hcur. unfold tok_out.
  induction cur as [|x cur' _] using rev_ind.
  - rewrite app_nil_r.
    destruct ts as [|t ts].
    + reflexivity.
    + destruct (hist_flat_ends_nul t ts) as (pre & ->).
      destruct (Z.ltb_spec 0 (len (pre ++ [0]))); [|len_lia].
      replace (len (pre ++ [0]) - 1) with (len pre) by len_lia.
      rewrite <- app_assoc. cbn [app]. rewrite load_app_head. reflexivity.
  - apply Forall_app in Hcur. destruct Hcur as [_ Hx].
    inversion Hx; subst.
    destruct (Z.ltb_spec 0 (len (hist_flat ts ++ cur' ++ [x]))); [|len_lia].
    replace (len (hist_flat ts ++ cur' ++ [x]) - 1)
      with (len (hist_flat ts ++ cur')) by len_lia.
    replace ((hist_flat ts ++ cur' ++ [x]) ++ rest)
      with ((hist_flat ts ++ cur') ++ x :: rest)
      by (rewrite <- !app_assoc; reflexivity).
    rewrite load_app_head. cbn [bind].
    destruct (Z.eqb_spec x 0); [contradiction|].
    destruct cur'; reflexivity.
Qed.

Lemma snoc_is_cons (junk : list Z) (c : Z) :
  exists x J, junk ++ [c] = x :: J /\ length J = length junk.
Proof.
  destruct junk as [|j junk].
  - exists c, []. auto.
  - exists j, (junk ++ [c]). split; [reflexivity|].
    rewrite length_app. simpl. lia.
Qed.

Lemma tok_out_snoc (ts : list (list Z)) (cur : list Z) (c : Z) :
  tok_out ts (cur ++ [c]) = tok_out ts cur ++ [c].
Proof. unfold tok_out. rewrite app_assoc. reflexivity. Qed.

Lemma tok_out_close (ts : list (list Z)) (cur : list Z) :
  cur <> [] -> tok_out (ts ++ close_token cur) [] = tok_out ts cur ++ [0].
Proof.
  intros Hne. destruct cur as [|c0 cur]; [contradiction|].
  unfold tok_out. cbn [close_token]. rewrite hist_flat_app. cbn [hist_flat].
  rewrite !app_nil_r, <- app_assoc. reflexivity.
Qed.

(** The tail of the loop body on a byte that is not NUL: the byte is
    written at the write position. *)
Lemma tokenize_emit_char (ts : list (list Z)) (cur J r : list Z)
      (x c i : Z) (q e : bool) :
  c <> 0 ->
  tokenize_emit (Tok.mk (tok_out ts cur ++ x :: J ++ r) i
                        (len (tok_out ts cur)) q e) c
  = Ok (Some (Tok.mk (tok_out ts (cur ++ [c]) ++ J ++ r) i
                     (len (tok_out ts (cur ++ [c]))) q e)).
Proof.
  intros Hc. unfold tokenize_emit.
  cbn [Tok.args Tok.i Tok.insertPos Tok.quotesEnabled Tok.escapeActivated].
  destruct (Z.eqb_spec c 0); [contradiction|].
  cbn [negb bind]. rewrite store_app_head. cbn [bind].
  rewrite tok_out_snoc. do 3 f_equal.
  - rewrite <- app_assoc. reflexivity.
  - len_lia.
Qed.

(** The tail of the loop body on NUL: the token being copied, if any, is
    terminated. *)
Lemma tokenize_emit_nul (ts : list (list Z)) (cur J r : list Z)
      (x i : Z) (q e : bool) :
  Forall item_ok ts -> Forall (fun c => c <> 0) cur ->
  tokenize_emit (Tok.mk (tok_out ts cur ++ x :: J ++ r) i
                        (len (tok_out ts cur)) q e) 0
  = Ok (Some (if cur is [] then
                Tok.mk (tok_out ts cur ++ x :: J ++ r) i
                       (len (tok_out ts cur)) q e
              else
                Tok.mk (tok_out (ts ++ close_token cur) [] ++ J ++ r) i
                       (len (tok_out (ts ++ close_token cur) [])) q e)).
Proof.
  intros Hts Hcur. unfold tokenize_emit.
  cbn [Tok.args Tok.i Tok.insertPos Tok.quotesEnabled Tok.escapeActivated].
  change (negb (0 =? 0)) with false. cbv iota.
  rewrite (tok_out_last ts cur (x :: J ++ r) Hts Hcur). cbn [bind].
  destruct cur as [|c0 cur]; [reflexivity|].
  rewrite store_app_head. cbn [bind].
  rewrite tok_out_close by discriminate. do 3 f_equal.
  - rewrite <- app_assoc. reflexivity.
  - len_lia.
Qed.

(** One turn of the scanning loop on a byte of the string: [junk] is the
    stretch between the write position and the read position. *)
Lemma tokenize_iter_args (ts : list (list Z)) (cur junk r : list Z)
      (c : Z) (q e : bool) :
  Forall item_ok ts -> Forall (fun c => c <> 0) cur -> c <> 0 ->
  exists ts' cur' junk' q' e',
    tokenize_iter (Tok.mk (tok_out ts cur ++ junk ++ c :: r)
                          (len (tok_out ts cur) + len junk)
                          (len (tok_out ts cur)) q e)
    = Ok (Some (Tok.mk (tok_out ts' cur' ++ junk' ++ r)
                       (len (tok_out ts' cur') + len junk')
                       (len (tok_out ts' cur')) q' e'))
    /\ Forall item_ok ts' /\ Forall (fun c => c <> 0) cur'
    /\ len (tok_out ts' cur') + len junk'
       = len (tok_out ts cur) + len junk + 1
    /\ forall s, ts ++ args_of q e cur (c :: s) = ts' ++ args_of q' e' cur' s.
Proof.
  intros Hts Hcur Hc0.
  destruct (snoc_is_cons junk c) as (x & J & HJ & HJlen).
  assert (Hargs : tok_out ts cur ++ junk ++ c :: r
                  = tok_out ts cur ++ x :: J ++ r).
  { replace (junk ++ c :: r) with ((junk ++ [c]) ++ r)
      by (rewrite <- app_assoc; reflexivity).
    rewrite HJ. reflexivity. }
  assert (Hload : load (tok_out ts cur ++ junk ++ c :: r)
                        (len (tok_out ts cur) + len junk) = Ok c).
  { replace (tok_out ts cur ++ junk ++ c :: r)
      with ((tok_out ts cur ++ junk) ++ c :: r)
      by (rewrite <- app_assoc; reflexivity).
    replace (len (tok_out ts cur) + len junk)
      with (len (tok_out ts cur ++ junk)) by len_lia.
    apply load_app_head. }
  (* the three outcomes of a turn *)
  assert (Hchar : forall q',
             exists ts' cur' junk',
               tokenize_emit
                 (Tok.mk (tok_out ts cur ++ junk ++ c :: r)
                         (len (tok_out ts cur) + len junk + 1)
                         (len (tok_out ts cur)) q' false) c
               = Ok (Some (Tok.mk (tok_out ts' cur' ++ junk' ++ r)
                                  (len (tok_out ts' cur') + len junk')
                                  (len (tok_out ts' cur')) q' false))
               /\ Forall item_ok ts' /\ Forall (fun c => c <> 0) cur'
               /\ len (tok_out ts' cur') + len junk'
                  = len (tok_out ts cur) + len junk + 1
               /\ ts' = ts /\ cur' = cur ++ [c]).
  { intros q'. exists ts, (cur ++ [c]), J.
    rewrite Hargs, tokenize_emit_char by exact Hc0.
    split; [do 3 f_equal; rewrite tok_out_snoc; len_lia|].
    split; [exact Hts|]. split.
    - apply Forall_app. split; [exact Hcur|]. constructor; [exact Hc0|].
      constructor.
    - split; [rewrite tok_out_snoc; len_lia|auto]. }
  assert (Hnul : forall q',
             exists ts' junk',
               tokenize_emit
                 (Tok.mk (tok_out ts cur ++ junk ++ c :: r)
                         (len (tok_out ts cur) + len junk + 1)
                         (len (tok_out ts cur)) q' false) 0
               = Ok (Some (Tok.mk (tok_out ts' [] ++ junk' ++ r)
                                  (len (tok_out ts' []) + len junk')
                                  (len (tok_out ts' [])) q' false))
               /\ Forall item_ok ts'
               /\ len (tok_out ts' []) + len junk'
                  = len (tok_out ts cur) + len junk + 1
               /\ ts' = ts ++ close_token cur).
  { intros q'. rewrite Hargs, tokenize_emit_nul by assumption.
    destruct cur as [|c0 cur].
    - exists ts, (junk ++ [c]). cbn [close_token]. rewrite app_nil_r.
      split; [|split; [exact Hts|split; [len_lia|reflexivity]]].
      do 3 f_equal; [rewrite HJ; reflexivity|len_lia].
    - exists (ts ++ close_token (c0 :: cur)), J.
      split; [do 3 f_equal; rewrite tok_out_close by discriminate; len_lia|].
      split.
      + apply Forall_app. split; [exact Hts|].
        constructor; [|constructor]. split; [discriminate|exact Hcur].
      + split; [|reflexivity].
        rewrite tok_out_close by discriminate. len_lia. }
  unfold tokenize_iter.
  cbn [Tok.args Tok.i Tok.insertPos Tok.quotesEnabled Tok.escapeActivated].
  rewrite Hload. cbn [bind].
  destruct (Z.eqb_spec c 0); [contradiction|].
  destruct e.
  { destruct (Hchar q) as (ts' & cur' & junk' & He & H1 & H2 & H3 & -> & ->).
    exists ts, (cur ++ [c]), junk', q, false.
    split; [exact He|]. split; [exact H1|]. split; [exact H2|].
    split; [exact H3|]. intros s. reflexivity. }
  destruct (Z.eqb_spec c 92) as [->|H92].
  { exists ts, cur, (junk ++ [92]), q, true.
    split; [|split; [exact Hts|split; [exact Hcur|split; [len_lia|]]]].
    - do 3 f_equal; [rewrite <- app_assoc; reflexivity|len_lia].
    - intros s. reflexivity. }
  destruct (Z.eqb_spec c 34) as [->|H34].
  { destruct (Hnul (negb q)) as (ts' & junk' & He & H1 & H3 & ->).
    exists (ts ++ close_token cur), [], junk', (negb q), false.
    split; [exact He|]. split; [exact H1|]. split; [constructor|].
    split; [exact H3|]. intros s. cbn [args_of].
    change (34 =? 92) with false. change (34 =? 34) with true. cbv iota.
    rewrite app_assoc. reflexivity. }
  unfold is_separator.
  destruct (Z.eqb_spec c 0); [contradiction|]. rewrite orb_false_r.
  destruct (negb q && (c =? 32)) eqn:Hsep.
  { destruct (Hnul q) as (ts' & junk' & He & H1 & H3 & ->).
    exists (ts ++ close_token cur), [], junk', q, false.
    split; [exact He|]. split; [exact H1|]. split; [constructor|].
    split; [exact H3|]. intros s. cbn [args_of].
    destruct (Z.eqb_spec c 92); [contradiction|].
    destruct (Z.eqb_spec c 34); [contradiction|].
    rewrite Hsep. rewrite app_assoc. reflexivity. }
  destruct (Hchar q) as (ts' & cur' & junk' & He & H1 & H2 & H3 & -> & ->).
  exists ts, (cur ++ [c]), junk', q, false.
  split; [exact He|]. split; [exact H1|]. split; [exact H2|].
  split; [exact H3|]. intros s. cbn [args_of].
  destruct (Z.eqb_spec c 92); [contradiction|].
  destruct (Z.eqb_spec c 34); [contradiction|].
  rewrite Hsep. reflexivity.
Qed.

Lemma tokenize_loop_args (r : list Z) :
  forall (ts : list (list Z)) (cur junk slack : list Z) (q e : bool)
         (fuel : nat),
    Forall (fun c => c <> 0) r ->
    Forall item_ok ts -> Forall (fun c => c <> 0) cur ->
    (length r < fuel)%nat ->
    exists ts' cur' junk' q' e',
      tokenize_loop fuel
        (Tok.mk (tok_out ts cur ++ junk ++ r ++ 0 :: slack)
                (len (tok_out ts cur) + len junk)
                (len (tok_out ts cur)) q e)
      = Ok (Tok.mk (tok_out ts' cur' ++ junk' ++ 0 :: slack)
                   (len (tok_out ts' cur') + len junk')
                   (len (tok_out ts' cur')) q' e')
      /\ Forall item_ok ts' /\ Forall (fun c => c <> 0) cur'
      /\ len (tok_out ts' cur') + len junk'
         = len (tok_out ts cur) + len junk + len r
      /\ ts ++ args_of q e cur r = ts' ++ close_token cur'.
Proof.
  induction r as [|c r IH];
    intros ts cur junk slack q e fuel Hr Hts Hcur Hfuel;
    (destruct fuel as [|fuel]; [simpl in Hfuel; lia|]).
  - exists ts, cur, junk, q, e. cbn [tokenize_loop app].
    assert (Hit : tokenize_iter
                    (Tok.mk (tok_out ts cur ++ junk ++ 0 :: slack)
                            (len (tok_out ts cur) + len junk)
                            (len (tok_out ts cur)) q e)
                  = Ok None).
    { unfold tokenize_iter. cbn [Tok.args Tok.i].
      replace (tok_out ts cur ++ junk ++ 0 :: slack)
        with ((tok_out ts cur ++ junk) ++ 0 :: slack)
        by (rewrite <- app_assoc; reflexivity).
      replace (len (tok_out ts cur) + len junk)
        with (len (tok_out ts cur ++ junk)) by len_lia.
      rewrite load_app_head. reflexivity. }
    rewrite Hit. cbn [bind].
    split; [reflexivity|]. split; [exact Hts|]. split; [exact Hcur|].
    split; [rewrite len_nil; lia|reflexivity].
  - inversion Hr as [|? ? Hc Hr']; subst.
    destruct (tokenize_iter_args ts cur junk (r ++ 0 :: slack) c q e
                Hts Hcur Hc)
      as (ts1 & cur1 & junk1 & q1 & e1 & Hstep & Hts1 & Hcur1 & Hlen1 & Hw1).
    cbn [tokenize_loop]. cbn [app]. rewrite Hstep. cbn [bind].
    destruct (IH ts1 cur1 junk1 slack q1 e1 fuel Hr' Hts1 Hcur1)
      as (ts2 & cur2 & junk2 & q2 & e2 & Hrun & Hts2 & Hcur2 & Hlen2 & Hw2);
      [simpl in Hfuel; lia|].
    exists ts2, cur2, junk2, q2, e2.
    split; [exact Hrun|]. split; [exact Hts2|]. split; [exact Hcur2|].
    split; [rewrite len_cons; lia|].
    rewrite Hw1. exact Hw2.
Qed.

(** The tokenizer on a string: the buffer afterwards holds the arguments
    of the string as tokens, in at most one byte more than the string. *)
Lemma tokenize_args_run (s slack : list Z) :
  Forall (fun c => c <> 0) s -> slack <> [] ->
  exists out,
    embeddedCliTokenizeArgs (Some (s ++ 0 :: slack)) = Ok (Some out)
    /\ tokenized out (args_of false false [] s)
    /\ length out = length (s ++ 0 :: slack)
    /\ len (hist_flat (args_of false false [] s)) <= len s + 1.
Proof.
  intros Hs Hslack. unfold embeddedCliTokenizeArgs, tokenize_init.
  destruct (tokenize_loop_args s [] [] [] slack false false
              (S (length (s ++ 0 :: slack))) Hs)
    as (ts & cur & junk & q & e & Hrun & Hts & Hcur & Hlen & Hw);
    [constructor|constructor|rewrite length_app; lia|].
  change (tok_out [] [] ++ [] ++ s ++ 0 :: slack) with (s ++ 0 :: slack)
    in Hrun.
  change (len (tok_out [] []) + len []) with 0 in Hrun.
  change (len (tok_out [] [])) with 0 in Hrun, Hlen.
  rewrite Hrun. cbn [bind Tok.args Tok.insertPos].
  destruct slack as [|y slack]; [contradiction|].
  destruct (snoc_is_cons junk 0) as (x & J & HJ & HJlen).
  assert (Htail : exists z tl, J ++ y :: slack = z :: tl
                               /\ length tl = (length J + length slack)%nat).
  { destruct J as [|j J]; [exists y, slack; auto|].
    exists j, (J ++ y :: slack). split; [reflexivity|].
    rewrite length_app. simpl. lia. }
  destruct Htail as (z & tl & Htl & Htllen).
  assert (Hargs : tok_out ts cur ++ junk ++ 0 :: y :: slack
                  = tok_out ts cur ++ x :: z :: tl).
  { replace (junk ++ 0 :: y :: slack) with ((junk ++ [0]) ++ y :: slack)
      by (rewrite <- app_assoc; reflexivity).
    rewrite HJ. cbn [app]. rewrite Htl. reflexivity. }
  rewrite Hargs, store_app_head. cbn [bind].
  replace (tok_out ts cur ++ 0 :: z :: tl)
    with ((tok_out ts cur ++ [0]) ++ z :: tl)
    by (rewrite <- app_assoc; reflexivity).
  replace (len (tok_out ts cur) + 1) with (len (tok_out ts cur ++ [0]))
    by len_lia.
  rewrite store_app_head. cbn [bind].
  exists ((tok_out ts cur ++ [0]) ++ 0 :: tl).
  cbn [app] in Hw. rewrite Hw.
  split; [reflexivity|]. split; [|split].
  - unfold tokenized.
    destruct cur as [|c0 cur]; cbn [close_token].
    + rewrite app_nil_r. split; [exact Hts|].
      exists (0 :: tl). unfold tok_out. rewrite app_nil_r.
      split; [rewrite <- app_assoc; reflexivity|]. eauto.
    + split.
      * apply Forall_app. split; [exact Hts|].
        constructor; [|constructor]. split; [discriminate|exact Hcur].
      * exists tl. split.
        -- unfold tok_out. rewrite hist_flat_app. cbn [hist_flat].
           rewrite <- !app_assoc. reflexivity.
        -- intros Hnil. apply app_eq_nil in Hnil.
           destruct Hnil as [_ Hnil]. discriminate.
  - unfold len in Hlen. rewrite !length_app in *. simpl length in *. lia.
  - pose proof (len_nonneg junk).
    destruct cur as [|c0 cur]; cbn [close_token].
    + rewrite app_nil_r. unfold tok_out in Hlen. rewrite app_nil_r in Hlen.
      len_lia.
    + rewrite hist_flat_app. cbn [hist_flat]. unfold tok_out in Hlen.
      len_lia.
Qed.

Lemma tokens_from_tokenized (str : list Z) (items : list (list Z))
      (n : nat) :
  forall k : nat,
    tokenized str items -> len (hist_flat items) < 65536 ->
    (k + n = length items)%nat ->
    tokens_from n str (Z.of_nat k + 1) = Ok (drop k items).
Proof.
  induction n as [|n IH]; intros k Htok Hb Hk.
  - rewrite drop_ge by lia. reflexivity.
  - destruct (lookup_lt_is_Some_2 items k ltac:(lia)) as [it Hit].
    destruct (tokenized_get_some str items k it Htok Hb Hit) as [Hget Hstr].
    cbn [tokens_from]. rewrite Hget. cbn [bind]. rewrite Hstr. cbn [bind].
    replace (Z.of_nat k + 1 + 1) with (Z.of_nat (S k) + 1) by lia.
    rewrite IH by (try assumption; lia). cbn [bind].
    rewrite (drop_S items it k Hit). reflexivity.
Qed.

Lemma tokens_of_tokenized (str : list Z) (items : list (list Z)) :
  tokenized str items -> len (hist_flat items) < 65536 ->
  tokens_of str = Ok items.
Proof.
  intros Htok Hb. unfold tokens_of.
  pose proof (length_le_hist_flat items).
  rewrite (tokenized_count str items Htok) by lia. cbn [bind].
  rewrite Nat2Z.id.
  exact (tokens_from_tokenized str items (length items) 0 Htok Hb eq_refl).
Qed.

(** Without double quotes and backslashes the arguments of a string are
    its words. *)
Lemma args_of_words (s : list Z) : forall cur : list Z,
  Forall (fun c => plain_byte c \/ c = 32) s ->
  args_of false false cur s = words_acc cur s.
Proof.
  induction s as [|c s IH]; intros cur Hs; [reflexivity|].
  inversion Hs as [|? ? Hc Hs']; subst. cbn [args_of words_acc negb andb].
  assert (H92 : c <> 92) by (destruct Hc as [Hp| ->]; [apply Hp|lia]).
  assert (H34 : c <> 34) by (destruct Hc as [Hp| ->]; [apply Hp|lia]).
  destruct (Z.eqb_spec c 92); [contradiction|].
  destruct (Z.eqb_spec c 34); [contradiction|].
  destruct (c =? 32); rewrite IH by exact Hs'; reflexivity.
Qed.

(** X1: on a tokenized string the token count is the number of tokens. *)
Theorem token_count_is_number_of_tokens (str : list Z)
        (items : list (list Z)) :
  tokenized str items -> Z.of_nat (length items) < 65536 ->
  embeddedCliGetTokenCount (Some str) = Ok (Z.of_nat (length items)).
Proof. exact (tokenized_count str items). Qed.

Lemma sample_tokenized :
  tokenized [97; 0; 98; 99; 0; 0] [[97]; [98; 99]].
Proof.
  split.
  - repeat constructor; (discriminate || lia).
  - exists []. split; [reflexivity|discriminate].
Qed.

Lemma token_count_is_number_of_tokens_witness :
  tokenized [97; 0; 98; 99; 0; 0] [[97]; [98; 99]]
  /\ Z.of_nat (length [[97]; [98; 99]]) < 65536
  /\ embeddedCliGetTokenCount (Some [97; 0; 98; 99; 0; 0])
     = Ok (Z.of_nat (length [[97]; [98; 99]])).
Proof.
  assert (H2 : Z.of_nat (length [[97]; [98; 99]]) < 65536)
    by (simpl length; lia).
  split; [exact sample_tokenized|]. split; [exact H2|].
  exact (token_count_is_number_of_tokens _ _ sample_tokenized H2).
Defined.

(** X2: on a tokenized string, [embeddedCliGetToken] and
    [embeddedCliGetTokenVariable] with position [k + 1] return the place
    where token [k] of the list starts, and the string read there is that
    token; with position 0, or a position after the last token, they
    return NULL. *)
Theorem token_lookup_by_position (str : list Z) (items : list (list Z)) :
  tokenized str items -> len (hist_flat items) < 65536 ->
  (forall (k : nat) (it : list Z),
      items !! k = Some it ->
      exists off,
        embeddedCliGetToken (Some str) (Z.of_nat k + 1) = Ok (Some off)
        /\ embeddedCliGetTokenVariable (Some str) (Z.of_nat k + 1)
           = Ok (Some off)
        /\ cstr str off = Ok it)
  /\ (forall pos,
         pos = 0 \/ Z.of_nat (length items) < pos < 65536 ->
         embeddedCliGetToken (Some str) pos = Ok None
         /\ embeddedCliGetTokenVariable (Some str) pos = Ok None).
Proof.
  intros Htok Hb. split.
  - intros k it Hk.
    destruct (tokenized_get_some str items k it Htok Hb Hk) as [Hget Hstr].
    exists (len (hist_flat (take k items))).
    split; [exact Hget|]. split; [exact Hget|exact Hstr].
  - intros pos Hpos.
    pose proof (tokenized_get_none str items pos Htok Hb Hpos) as Hnone.
    split; exact Hnone.
Qed.

Lemma token_lookup_by_position_witness :
  tokenized [97; 0; 98; 99; 0; 0] [[97]; [98; 99]]
  /\ len (hist_flat [[97]; [98; 99]]) < 65536
  /\ (forall (k : nat) (it : list Z),
         [[97]; [98; 99]] !! k = Some it ->
         exists off,
           embeddedCliGetToken (Some [97; 0; 98; 99; 0; 0]) (Z.of_nat k + 1)
           = Ok (Some off)
           /\ embeddedCliGetTokenVariable (Some [97; 0; 98; 99; 0; 0])
                                          (Z.of_nat k + 1)
              = Ok (Some off)
           /\ cstr [97; 0; 98; 99; 0; 0] off = Ok it)
  /\ (forall pos,
         pos = 0 \/ Z.of_nat (length [[97]; [98; 99]]) < pos < 65536 ->
         embeddedCliGetToken (Some [97; 0; 98; 99; 0; 0]) pos = Ok None
         /\ embeddedCliGetTokenVariable (Some [97; 0; 98; 99; 0; 0]) pos
            = Ok None).
Proof.
  assert (H2 : len (hist_flat [[97]; [98; 99]]) < 65536)
    by (unfold len; simpl; lia).
  split; [exact sample_tokenized|]. split; [exact H2|].
  exact (token_lookup_by_position _ _ sample_tokenized H2).
Defined.

(** X3: on a tokenized string, [embeddedCliFindToken] returns the
    position, counted from 1, of the first token equal to the string
    looked for, and 0 when no token is equal to it. *)
Theorem find_token_returns_first_match (str token : list Z)
        (items : list (list Z)) :
  tokenized str items -> len (hist_flat items) < 65535 ->
  Forall (fun c => c <> 0) token ->
  embeddedCliFindToken (Some str) (Some token)
  = Ok (first_index token items)
  /\ (first_index token items = 0 <-> token ∉ items)
  /\ (forall k : nat,
         first_index token items = Z.of_nat k + 1 ->
         items !! k = Some token
         /\ forall j it, items !! j = Some it -> (j < k)%nat -> it <> token).
Proof.
  intros Htok Hb Htoken.
  split; [exact (tokenized_find str token items Htok Hb Htoken)|].
  unfold first_index.
  destruct (list_find (fun it => it = token) items) as [[k0 it0]|] eqn:Hf.
  - apply list_find_Some in Hf. destruct Hf as (Hk & -> & Hbefore).
    split.
    + split; [lia|]. intros Hnot. exfalso. apply Hnot.
      apply list_elem_of_lookup. eauto.
    + intros k Hk1. assert (k = k0) by lia. subst k.
      split; [exact Hk|]. intros j it Hj Hlt. exact (Hbefore j it Hj Hlt).
  - apply list_find_None in Hf. split.
    + split; [|reflexivity]. intros _ Hin.
      rewrite Forall_forall in Hf. exact (Hf token Hin eq_refl).
    + intros k Hk. lia.
Qed.

Lemma find_token_returns_first_match_witness :
  tokenized [97; 0; 98; 99; 0; 0] [[97]; [98; 99]]
  /\ len (hist_flat [[97]; [98; 99]]) < 65535
  /\ Forall (fun c => c <> 0) [98; 99]
  /\ embeddedCliFindToken (Some [97; 0; 98; 99; 0; 0]) (Some [98; 99])
     = Ok (first_index [98; 99] [[97]; [98; 99]])
  /\ (first_index [98; 99] [[97]; [98; 99]] = 0
      <-> [98; 99] ∉ [[97]; [98; 99]])
  /\ (forall k : nat,
         first_index [98; 99] [[97]; [98; 99]] = Z.of_nat k + 1 ->
         [[97]; [98; 99]] !! k = Some [98; 99]
         /\ forall j it, [[97]; [98; 99]] !! j = Some it -> (j < k)%nat ->
                         it <> [98; 99]).
Proof.
  assert (H2 : len (hist_flat [[97]; [98; 99]]) < 65535)
    by (unfold len; simpl; lia).
  assert (H3 : Forall (fun c => c <> 0) [98; 99])
    by (repeat constructor; lia).
  split; [exact sample_tokenized|]. split; [exact H2|]. split; [exact H3|].
  exact (find_token_returns_first_match _ _ _ sample_tokenized H2 H3).
Defined.

(** [bc] is token 2 of the sample, and [x] is not a token of it. *)
Example find_token_sample :
  embeddedCliFindToken (Some [97; 0; 98; 99; 0; 0]) (Some [98; 99]) = Ok 2
  /\ embeddedCliFindToken (Some [97; 0; 98; 99; 0; 0]) (Some [120]) = Ok 0
  /\ embeddedCliFindToken None (Some [120]) = Ok 0
  /\ embeddedCliFindToken (Some [97; 0; 98; 99; 0; 0]) None = Ok 0.
Proof. repeat split. Qed.

(** X4: the tokenizer splits a string into its arguments.  For every
    string without NUL, in a buffer with room for one more byte, the
    buffer afterwards is a tokenized string whose tokens, read back with
    the accessors, are the arguments of the string: backslash escapes
    taken, quoted stretches kept whole, no empty token. *)
Theorem tokenize_then_read_back_gives_args (s slack : list Z) :
  Forall (fun c => c <> 0) s -> slack <> [] -> len s < 65534 ->
  exists out,
    embeddedCliTokenizeArgs (Some (s ++ 0 :: slack)) = Ok (Some out)
    /\ tokenized out (args_of false false [] s)
    /\ embeddedCliGetTokenCount (Some out)
       = Ok (Z.of_nat (length (args_of false false [] s)))
    /\ tokens_of out = Ok (args_of false false [] s).
Proof.
  intros Hs Hslack Hlen.
  destruct (tokenize_args_run s slack Hs Hslack)
    as (out & Hrun & Htok & _ & Hb).
  pose proof (length_le_hist_flat (args_of false false [] s)).
  exists out. split; [exact Hrun|]. split; [exact Htok|].
  split; [apply tokenized_count; [exact Htok|lia]|].
  apply tokens_of_tokenized; [exact Htok|lia].
Qed.

Lemma tokenize_then_read_back_gives_args_witness :
  Forall (fun c => c <> 0) [97; 32; 34; 98; 32; 99; 34]
  /\ [0; 0] <> []
  /\ len [97; 32; 34; 98; 32; 99; 34] < 65534
  /\ exists out,
      embeddedCliTokenizeArgs
        (Some ([97; 32; 34; 98; 32; 99; 34] ++ 0 :: [0; 0])) = Ok (Some out)
      /\ tokenized out (args_of false false [] [97; 32; 34; 98; 32; 99; 34])
      /\ embeddedCliGetTokenCount (Some out)
         = Ok (Z.of_nat
                 (length (args_of false false []
                                  [97; 32; 34; 98; 32; 99; 34])))
      /\ tokens_of out
         = Ok (args_of false false [] [97; 32; 34; 98; 32; 99; 34]).
Proof.
  assert (H1 : Forall (fun c => c <> 0) [97; 32; 34; 98; 32; 99; 34])
    by (repeat constructor; lia).
  assert (H2 : [0; 0] <> ([] : list Z)) by discriminate.
  assert (H3 : len [97; 32; 34; 98; 32; 99; 34] < 65534)
    by (unfold len; simpl; lia).
  split; [exact H1|]. split; [exact H2|]. split; [exact H3|].
  exact (tokenize_then_read_back_gives_args _ _ H1 H2 H3).
Defined.

(** The arguments of [a "b c"] are [a] and [b c]; those of [a\ b] are the
    one argument [a b]. *)
Example args_of_samples :
  args_of false false [] [97; 32; 34; 98; 32; 99; 34]
  = [[97]; [98; 32; 99]]
  /\ args_of false false [] [97; 92; 32; 98] = [[97; 32; 98]]
  /\ args_of false false [] [32; 32; 97; 32; 32; 98; 32] = [[97]; [98]]
  /\ args_of false false [] [34; 34] = [].
Proof. repeat split. Qed.

(** X5: a string without double quotes and backslashes is split into its
    words: the tokens read back after tokenizing are the maximal runs of
    bytes other than the space, in order; leading, trailing and repeated
    spaces produce no token. *)
Theorem tokenize_plain_string_gives_words (s slack : list Z) :
  Forall (fun c => plain_byte c \/ c = 32) s -> slack <> [] ->
  len s < 65534 ->
  exists out,
    embeddedCliTokenizeArgs (Some (s ++ 0 :: slack)) = Ok (Some out)
    /\ tokens_of out = Ok (words s)
    /\ Forall (fun w => w <> [] /\ Forall plain_byte w) (words s).
Proof.
  intros Hs Hslack Hlen.
  assert (Hs0 : Forall (fun c => c <> 0) s).
  { eapply Forall_impl; [exact Hs|]. intros c [Hp| ->]; [apply Hp|lia]. }
  destruct (tokenize_args_run s slack Hs0 Hslack)
    as (out & Hrun & Htok & _ & Hb).
  pose proof (length_le_hist_flat (args_of false false [] s)).
  exists out. split; [exact Hrun|]. split.
  - unfold words. rewrite <- (args_of_words s [] Hs).
    apply tokens_of_tokenized; [exact Htok|lia].
  - unfold words. clear - Hs.
    assert (Hgen : forall cur,
               Forall plain_byte cur ->
               Forall (fun w => w <> [] /\ Forall plain_byte w)
                      (words_acc cur s)).
    { induction s as [|c s IH]; intros cur Hcur.
      - cbn [words_acc]. destruct cur as [|c0 cur]; [constructor|].
        constructor; [|constructor]. split; [discriminate|exact Hcur].
      - inversion Hs as [|? ? Hc Hs']; subst. cbn [words_acc].
        destruct (Z.eqb_spec c 32) as [->|H32].
        + apply Forall_app. split; [|apply IH; [exact Hs'|constructor]].
          destruct cur as [|c0 cur]; [constructor|].
          constructor; [|constructor]. split; [discriminate|exact Hcur].
        + apply IH; [exact Hs'|]. apply Forall_app. split; [exact Hcur|].
          constructor; [|constructor].
          destruct Hc as [Hp|?]; [exact Hp|contradiction]. }
    apply Hgen. constructor.
Qed.

Lemma tokenize_plain_string_gives_words_witness :
  Forall (fun c => plain_byte c \/ c = 32) [32; 97; 32; 32; 98; 99]
  /\ [0; 0] <> []
  /\ len [32; 97; 32; 32; 98; 99] < 65534
  /\ exists out,
      embeddedCliTokenizeArgs
        (Some ([32; 97; 32; 32; 98; 99] ++ 0 :: [0; 0])) = Ok (Some out)
      /\ tokens_of out = Ok (words [32; 97; 32; 32; 98; 99])
      /\ Forall (fun w => w <> [] /\ Forall plain_byte w)
                (words [32; 97; 32; 32; 98; 99]).
Proof.
  assert (H1 : Forall (fun c => plain_byte c \/ c = 32)
                      [32; 97; 32; 32; 98; 99]).
  { unfold plain_byte. repeat constructor; lia. }
  assert (H2 : [0; 0] <> ([] : list Z)) by discriminate.
  assert (H3 : len [32; 97; 32; 32; 98; 99] < 65534)
    by (unfold len; simpl; lia).
  split; [exact H1|]. split; [exact H2|]. split; [exact H3|].
  exact (tokenize_plain_string_gives_words _ _ H1 H2 H3).
Defined.

Example words_sample :
  words [32; 97; 32; 32; 98; 99] = [[97]; [98; 99]].
Proof. reflexivity. Qed.

(** * History: lookup, uniqueness, eviction *)

Lemma hist_repr_get (h : CliHistory.t) (items : list (list Z)) (k : nat)
      (it : list Z) :
  hist_repr h items -> items !! k = Some it ->
  historyGet h (Z.of_nat k + 1)
  = Ok (Some (len (hist_flat (take k items))))
  /\ cstr (CliHistory.buf h) (len (hist_flat (take k items))) = Ok it.
Proof.
  intros (Hbs & Hbl & Hcnt & Hok & Hfit & rest & Hbuf) Hk.
  pose proof (take_drop_middle items k it Hk) as Hsplit.
  assert (Hpre : Forall item_ok (take k items))
    by (apply Forall_take; exact Hok).
  assert (Hit : item_ok it) by (exact (Forall_lookup_1 _ _ _ _ Hok Hk)).
  assert (Hlen : length (take k items) = k).
  { rewrite length_take. apply lookup_lt_Some in Hk. lia. }
  assert (Hshape : CliHistory.buf h
                   = hist_flat (take k items)
                     ++ it ++ 0 :: (hist_flat (drop (S k) items) ++ rest)).
  { rewrite Hbuf. rewrite <- Hsplit at 1.
    rewrite hist_flat_app, <- app_assoc, hist_flat_cons_app. reflexivity. }
  assert (Hbound : len (hist_flat (take k items)) + len it + 1 < 65536).
  { rewrite <- Hsplit in Hfit. rewrite hist_flat_app, len_app in Hfit.
    rewrite len_hist_flat_cons in Hfit.
    pose proof (len_nonneg (hist_flat (drop (S k) items))). lia. }
  split.
  - unfold historyGet. apply lookup_lt_Some in Hk.
    destruct (Z.eqb_spec (Z.of_nat k + 1) 0); [lia|].
    destruct (Z.ltb_spec (CliHistory.itemsCount h) (Z.of_nat k + 1)); [lia|].
    cbn [orb]. rewrite Hshape.
    replace (Z.of_nat k) with (Z.of_nat (length (take k items)))
      by (rewrite Hlen; reflexivity).
    apply embeddedCliGetToken_item; assumption.
  - rewrite Hshape. apply cstr_string. apply Hit.
Qed.

(** X6: [historyGet] with item number [k + 1] returns the place of item
    [k] of the history, most recent first, and the string read there is
    that item; with item number 0, or a number above [itemsCount], it
    returns NULL. *)
Theorem history_get_returns_kth_item (h : CliHistory.t)
        (items : list (list Z)) :
  hist_repr h items ->
  (forall (k : nat) (it : list Z),
      items !! k = Some it ->
      exists off,
        historyGet h (Z.of_nat k + 1) = Ok (Some off)
        /\ cstr (CliHistory.buf h) off = Ok it)
  /\ (forall item,
         item = 0 \/ Z.of_nat (length items) < item ->
         historyGet h item = Ok None).
Proof.
  intros Hr. split.
  - intros k it Hk. destruct (hist_repr_get h items k it Hr Hk) as [H1 H2].
    eauto.
  - intros item Hitem. destruct Hr as (_ & _ & Hcnt & _).
    unfold historyGet. rewrite Hcnt.
    destruct Hitem as [->|Hlt]; [reflexivity|].
    destruct (Z.ltb_spec (Z.of_nat (length items)) item); [|lia].
    rewrite orb_true_r. reflexivity.
Qed.

Lemma history_get_returns_kth_item_witness :
  hist_repr sample_history [[98]; [97]]
  /\ (forall (k : nat) (it : list Z),
         [[98]; [97]] !! k = Some it ->
         exists off,
           historyGet sample_history (Z.of_nat k + 1) = Ok (Some off)
           /\ cstr (CliHistory.buf sample_history) off = Ok it)
  /\ (forall item,
         item = 0 \/ Z.of_nat (length [[98]; [97]]) < item ->
         historyGet sample_history item = Ok None).
Proof.
  split; [exact sample_history_repr|].
  exact (history_get_returns_kth_item _ _ sample_history_repr).
Defined.

Lemma remove_first_elem (s it : list Z) (items : list (list Z)) :
  it ∈ remove_first s items -> it ∈ items.
Proof.
  induction items as [|x items IH]; simpl; [auto|].
  destruct (list_eqb x s).
  - intros H. apply elem_of_cons. auto.
  - intros H. apply elem_of_cons in H as [->|H];
      apply elem_of_cons; auto.
Qed.

Lemma remove_first_NoDup (s : list Z) (items : list (list Z)) :
  NoDup items -> NoDup (remove_first s items) /\ s ∉ remove_first s items.
Proof.
  induction 1 as [|x items Hx Hnd IH]; simpl.
  - split; [constructor|]. apply not_elem_of_nil.
  - destruct (list_eqb x s) eqn:E.
    + apply list_eqb_true in E. subst x. auto.
    + apply list_eqb_false in E. destruct IH as [IH1 IH2]. split.
      * constructor; [|exact IH1].
        intros Hin. apply Hx. exact (remove_first_elem s x items Hin).
      * intros Hin. apply elem_of_cons in Hin as [->|Hin]; auto.
Qed.

(** The eviction loop gives up an item only when the items before it and
    the new string do not fit together with it. *)
Lemma historyPut_evict_max (l : Z) (items : list (list Z)) :
  forall (h : CliHistory.t) (fuel : nat) (u0 : Z),
    hist_repr h items -> 0 <= l ->
    (length items < fuel)%nat ->
    exists kept dropped used,
      items = kept ++ dropped
      /\ historyPut_evict fuel h l u0
         = Ok (set_itemsCount (Z.of_nat (length kept)) h, used)
      /\ (forall d ds,
             dropped = d :: ds ->
             CliHistory.bufferSize h
             < len (hist_flat (kept ++ [d])) + l + 1).
Proof.
  induction items as [|last init IH] using rev_ind;
    intros h fuel u0 Hr Hl Hf;
    (destruct fuel as [|fuel]; [simpl in Hf; lia|]);
    rewrite historyPut_evict_S;
    pose proof Hr as (Hbs & Hbl & Hcnt & Hok & Hfit & rest & Hbuf).
  - simpl in Hcnt. rewrite Hcnt. simpl.
    exists [], [], u0. split; [reflexivity|].
    split; [|intros d ds Hd; discriminate].
    destruct h; unfold set_itemsCount; simpl in *. subst. reflexivity.
  - rewrite length_app in Hcnt. simpl in Hcnt.
    destruct (Z.ltb_spec 0 (CliHistory.itemsCount h)); [|lia].
    apply Forall_app in Hok as [Hinit Hlast].
    inversion Hlast as [|? ? Hlok _]; subst.
    rewrite hist_flat_app in Hbuf, Hfit. simpl in Hbuf, Hfit.
    rewrite <- !app_assoc in Hbuf. simpl in Hbuf.
    pose proof (length_le_hist_flat init).
    pose proof (item_ok_len last Hlok).
    pose proof (len_nonneg (hist_flat init)).
    assert (Hfl : len (hist_flat init) + len last + 1
                  <= CliHistory.bufferSize h) by len_lia.
    unfold historyGet.
    destruct (Z.eqb_spec (CliHistory.itemsCount h) 0); [lia|].
    rewrite Z.ltb_irrefl. simpl.
    assert (Htok : embeddedCliGetToken (Some (CliHistory.buf h))
                                       (CliHistory.itemsCount h)
                   = Ok (Some (len (hist_flat init)))).
    { rewrite Hbuf, Hcnt.
      replace (Z.of_nat (length init + 1)) with (Z.of_nat (length init) + 1)
        by lia.
      apply embeddedCliGetToken_item; try assumption. lia. }
    assert (Hsl : strlen (CliHistory.buf h) (len (hist_flat init))
                  = Ok (len last)).
    { rewrite Hbuf. apply strlen_string. destruct Hlok; assumption. }
    rewrite Htok. simpl. rewrite Hsl. simpl.
    rewrite size_t_small by lia.
    destruct (Z.leb_spec (l + 1)
                (CliHistory.bufferSize h
                 - (len (hist_flat init) + len last + 1))) as [Hroom|Hroom].
    + exists (init ++ [last]), [], (len (hist_flat init) + len last + 1).
      rewrite app_nil_r. split; [reflexivity|]. split.
      * f_equal. f_equal. destruct h; unfold set_itemsCount; simpl in *.
        f_equal. rewrite length_app. simpl. lia.
      * intros d ds Hd. discriminate.
    + rewrite u16_small by lia.
      set (h1 := set_itemsCount (CliHistory.itemsCount h - 1) h).
      assert (Hr1 : hist_repr h1 init).
      { unfold hist_repr, h1; simpl.
        split; [lia|]. split; [lia|]. split; [lia|].
        split; [assumption|]. split; [lia|].
        eexists. exact Hbuf. }
      destruct (IH h1 fuel (len (hist_flat init) + len last + 1) Hr1 Hl)
        as (kept & dropped & used & Hi & He & Hmax);
        [rewrite length_app in Hf; simpl in Hf; lia|].
      exists kept, (dropped ++ [last]), used.
      split; [rewrite Hi, <- app_assoc; reflexivity|].
      split; [rewrite He; reflexivity|].
      intros d ds Hd. destruct dropped as [|d0 dropped].
      * simpl in Hd. injection Hd as <- <-.
        rewrite app_nil_r in Hi. subst kept.
        rewrite hist_flat_app. cbn [hist_flat]. revert Hroom. len_lia.
      * simpl in Hd. injection Hd as <- <-.
        exact (Hmax d0 dropped eq_refl).
Qed.

Lemma hist_flat_two_per_item (items : list (list Z)) :
  Forall item_ok items -> 2 * Z.of_nat (length items) <= len (hist_flat items).
Proof.
  induction 1 as [|it items Hit _ IH]; [simpl; len_lia|].
  rewrite len_hist_flat_cons, length_cons.
  pose proof (item_ok_len it Hit). lia.
Qed.

(** The items [historyPut] keeps are the longest prefix of the other
    items that fits with the new string. *)
Lemma historyPut_kept_maximal (h : CliHistory.t) (items : list (list Z))
      (s : list Z) :
  hist_repr h items -> item_ok s ->
  len s + 1 <= CliHistory.bufferSize h ->
  exists h' kept dropped,
    historyPut h s = Ok (true, h')
    /\ hist_repr h' (s :: kept)
    /\ remove_first s items = kept ++ dropped
    /\ (forall d ds,
           dropped = d :: ds ->
           CliHistory.bufferSize h < len (hist_flat (s :: kept ++ [d]))).
Proof.
  intros Hr Hs Hfits.
  destruct (historyPut_spec h items s Hr Hs Hfits)
    as (h' & kept & dropped & Hput & Hr' & Hsplit & _ & Hbs' & _).
  exists h', kept, dropped.
  split; [exact Hput|]. split; [exact Hr'|]. split; [exact Hsplit|].
  destruct (historyRemove_spec h items s Hr) as (h1 & Hrm & Hr1 & Hbs1 & _).
  pose proof Hr1 as (Hb1 & _ & Hcnt1 & Hok1 & Hfit1 & _).
  pose proof (len_nonneg s).
  destruct (historyPut_evict_max (len s) (remove_first s items) h1
              (S (Z.to_nat (CliHistory.itemsCount h1))) 0 Hr1)
    as (kept2 & dropped2 & used & Hsplit2 & Hev & Hmax); [lia|lia|].
  (* the count of [h'] is that of the eviction loop, plus one *)
  assert (Hcount : length kept = length kept2).
  { unfold historyPut in Hput.
    destruct (Z.ltb_spec (CliHistory.bufferSize h) (len s + 1)); [lia|].
    rewrite Hrm in Hput. cbn [bind] in Hput. rewrite Hev in Hput.
    cbn [bind] in Hput.
    destruct Hr' as (_ & _ & Hcnt' & _).
    pose proof (hist_flat_two_per_item (remove_first s items) Hok1) as Hle.
    rewrite Hsplit2 in Hle at 1. rewrite length_app in Hle.
    split_ok; simpl in Hcnt'; rewrite u16_small in Hcnt' by lia; lia. }
  assert (Hkept : kept = kept2).
  { rewrite Hsplit in Hsplit2.
    apply (f_equal (take (length kept))) in Hsplit2.
    rewrite take_app_length in Hsplit2.
    rewrite Hcount, take_app_length in Hsplit2. exact Hsplit2. }
  subst kept2. rewrite Hsplit in Hsplit2.
  apply app_inv_head in Hsplit2. subst dropped2.
  intros d ds Hd. specialize (Hmax d ds Hd).
  rewrite len_hist_flat_cons. lia.
Qed.

(** X7: [historyPut] keeps the history well formed and free of
    duplicates: after a string that fits is put into a history whose items
    are pairwise different, the items are again pairwise different, the
    string is the first of them, and every other item was an item
    before. *)
Theorem history_put_keeps_items_unique (h : CliHistory.t)
        (items : list (list Z)) (s : list Z) :
  hist_repr h items -> NoDup items -> item_ok s ->
  len s + 1 <= CliHistory.bufferSize h ->
  exists h' items',
    historyPut h s = Ok (true, h')
    /\ hist_repr h' items'
    /\ NoDup items'
    /\ items' !! 0%nat = Some s
    /\ forall it, it ∈ items' -> it = s \/ (it ∈ items /\ it <> s).
Proof.
  intros Hr Hnd Hs Hfits.
  destruct (historyPut_spec h items s Hr Hs Hfits)
    as (h' & kept & dropped & Hput & Hr' & Hsplit & _).
  destruct (remove_first_NoDup s items Hnd) as [Hnd1 Hnot].
  rewrite Hsplit in Hnd1, Hnot.
  apply NoDup_app in Hnd1 as (Hndk & _ & _).
  exists h', (s :: kept).
  split; [exact Hput|]. split; [exact Hr'|]. split.
  - constructor; [|exact Hndk].
    intros Hin. apply Hnot. apply elem_of_app. auto.
  - split; [reflexivity|].
    intros it Hin. apply elem_of_cons in Hin as [->|Hin]; [auto|].
    right. split.
    + apply (remove_first_elem s). rewrite Hsplit.
      apply elem_of_app. auto.
    + intros ->. apply Hnot. apply elem_of_app. auto.
Qed.

Lemma history_put_keeps_items_unique_witness :
  hist_repr sample_history [[98]; [97]]
  /\ NoDup [[98]; [97]]
  /\ item_ok [97]
  /\ len [97] + 1 <= CliHistory.bufferSize sample_history
  /\ exists h' items',
      historyPut sample_history [97] = Ok (true, h')
      /\ hist_repr h' items'
      /\ NoDup items'
      /\ items' !! 0%nat = Some [97]
      /\ forall it, it ∈ items' ->
                    it = [97] \/ (it ∈ [[98]; [97]] /\ it <> [97]).
Proof.
  assert (H2 : NoDup [[98]; [97]]).
  { apply (bool_decide_unpack _). vm_compute. exact I. }
  assert (H3 : item_ok [97]).
  { split; [discriminate|]. repeat constructor. lia. }
  assert (H4 : len [97] + 1 <= CliHistory.bufferSize sample_history)
    by (unfold len; simpl; lia).
  split; [exact sample_history_repr|]. split; [exact H2|].
  split; [exact H3|]. split; [exact H4|].
  exact (history_put_keeps_items_unique _ _ _ sample_history_repr H2 H3 H4).
Defined.

(** X8: [historyPut] makes room by giving up the oldest items, and no
    more of them than it has to.  A string that cannot fit at all is
    refused and the history is left as it was.  Otherwise the items kept
    behind the new string are a prefix of the other items, in their
    order, and when an item was given up, the new string, the items kept
    and that item do not fit in the buffer together. *)
Theorem history_put_evicts_oldest_as_needed (h : CliHistory.t)
        (items : list (list Z)) (s : list Z) :
  hist_repr h items -> item_ok s ->
  (CliHistory.bufferSize h < len s + 1 -> historyPut h s = Ok (false, h))
  /\ (len s + 1 <= CliHistory.bufferSize h ->
      exists h' kept dropped,
        historyPut h s = Ok (true, h')
        /\ hist_repr h' (s :: kept)
        /\ remove_first s items = kept ++ dropped
        /\ len (hist_flat (s :: kept)) <= CliHistory.bufferSize h
        /\ (forall d ds,
               dropped = d :: ds ->
               CliHistory.bufferSize h
               < len (hist_flat (s :: kept ++ [d])))).
Proof.
  intros Hr Hs. split.
  - intros Hlong. unfold historyPut.
    destruct (Z.ltb_spec (CliHistory.bufferSize h) (len s + 1)); [|lia].
    reflexivity.
  - intros Hfits.
    destruct (historyPut_kept_maximal h items s Hr Hs Hfits)
      as (h' & kept & dropped & Hput & Hr' & Hsplit & Hmax).
    exists h', kept, dropped.
    split; [exact Hput|]. split; [exact Hr'|]. split; [exact Hsplit|].
    split; [|exact Hmax].
    destruct (historyPut_spec h items s Hr Hs Hfits)
      as (h2 & kept2 & dropped2 & Hput2 & Hr2 & _ & _ & Hbs & _).
    rewrite Hput in Hput2. injection Hput2 as <-.
    destruct Hr' as (_ & _ & _ & _ & Hfit & _). lia.
Qed.

(** A history of capacity 8 that holds ["b"] and ["a"]: putting ["cdef"]
    gives up ["a"], the oldest item, and keeps ["b"]. *)
Lemma history_put_evicts_oldest_as_needed_witness :
  hist_repr sample_history [[98]; [97]]
  /\ item_ok [99; 100; 101; 102]
  /\ (CliHistory.bufferSize sample_history < len [99; 100; 101; 102] + 1 ->
      historyPut sample_history [99; 100; 101; 102]
      = Ok (false, sample_history))
  /\ (len [99; 100; 101; 102] + 1 <= CliHistory.bufferSize sample_history ->
      exists h' kept dropped,
        historyPut sample_history [99; 100; 101; 102] = Ok (true, h')
        /\ hist_repr h' ([99; 100; 101; 102] :: kept)
        /\ remove_first [99; 100; 101; 102] [[98]; [97]] = kept ++ dropped
        /\ len (hist_flat ([99; 100; 101; 102] :: kept))
           <= CliHistory.bufferSize sample_history
        /\ (forall d ds,
               dropped = d :: ds ->
               CliHistory.bufferSize sample_history
               < len (hist_flat ([99; 100; 101; 102] :: kept ++ [d])))).
Proof.
  assert (H2 : item_ok [99; 100; 101; 102]).
  { split; [discriminate|]. repeat constructor; lia. }
  split; [exact sample_history_repr|]. split; [exact H2|].
  exact (history_put_evicts_oldest_as_needed _ _ _ sample_history_repr H2).
Defined.

Example history_put_evicts_sample :
  historyPut sample_history [99; 100; 101; 102]
  = Ok (true, CliHistory.mk [99; 100; 101; 102; 0; 98; 0; 0] 8 0 2).
Proof. vm_compute. reflexivity. Qed.

(** * Construction and registration *)



(** With the default capacity of 8, the ninth binding is refused; a
    configured capacity of 65535 wraps to a table of none, which refuses
    even [help]. *)
Example binding_table_capacity_samples :
  fst (addBindings (embeddedCliNewDefault (fun _ _ _ => 0))
                   (replicate 9 (sample_binding [120] false)))
  = replicate 8 true ++ [false]
  /\ Impl.bindings
       (_impl (embeddedCliNew
                 (EmbeddedCliConfig.mk 64 64 128 65535 true [62; 32])
                 true (fun _ _ _ => 0))) = [].
Proof. split; reflexivity. Qed.



(** * Line editor: backspace, escape sequences, completion *)

Lemma processByte_control cli c handle :
  IS_FLAG_SET (Impl.flags (_impl cli)) CLI_FLAG_ESCAPE_MODE = false ->
  Impl.lastChar (_impl cli) <> 27 ->
  isControlChar c = true ->
  processByte cli c handle
  = (cli1 <- onControlInput cli c handle ;;
     cli2 <- printLiveAutocompletion cli1 ;;
     Ok (upd_impl (Impl.set_lastChar c) cli2)).
Proof.
  intros Hesc Hlast Hc. unfold processByte. rewrite Hesc.
  destruct (Z.eqb_spec (Impl.lastChar (_impl cli)) 27); [contradiction|].
  simpl andb. cbv iota. rewrite Hc. reflexivity.
Qed.

Lemma onControlInput_backspace cli c handle q x :
  typing cli (q ++ [x]) -> len q < 65535 -> c = 8 \/ c = 127 ->
  onControlInput cli c handle = Ok (char_removed cli)
  /\ typing (char_removed cli) q.
Proof.
  intros (Hw & [Hmax Hlen] & Hok & (Hp & Hsz & rest & Hbuf) & Hesc & Hlast)
         Hu16 Hc.
  assert (Hsz1 : Impl.cmdSize (_impl cli) = len q + 1) by (rewrite Hsz; len_lia).
  pose proof (len_nonneg q) as Hq.
  split.
  - unfold onControlInput.
    assert (Hpair : ((Impl.lastChar (_impl cli) =? 13) && (c =? 10))
                    || ((Impl.lastChar (_impl cli) =? 10) && (c =? 13))
                    = false).
    { destruct Hc as [-> | ->]; rewrite !andb_false_r; reflexivity. }
    rewrite Hpair.
    assert (Hnl : (c =? 13) || (c =? 10) = false)
      by (destruct Hc as [-> | ->]; reflexivity).
    rewrite Hnl.
    assert (Hbs : (c =? 8) || (c =? 127) = true)
      by (destruct Hc as [-> | ->]; reflexivity).
    rewrite Hbs.
    destruct (Z.ltb_spec 0 (Impl.cmdSize (_impl cli))); [|lia].
    cbn [andb].
    rewrite writeChar_total by exact Hw. cbn [bind].
    rewrite writeChar_total by exact Hw. cbn [bind].
    rewrite writeChar_total by exact Hw. cbn [bind].
    cbn [emit _impl].
    rewrite u16_small by lia.
    rewrite store_in_range by (rewrite Hbuf; len_lia).
    cbn [bind]. reflexivity.
  - assert (Hnew : <[Z.to_nat (Impl.cmdSize (_impl cli) - 1) := 0]>
                     (Impl.cmdBuffer (_impl cli))
                   = q ++ 0 :: 0 :: rest).
    { rewrite Hbuf, Hsz1, <- app_assoc. cbn [app].
      replace (Z.to_nat (len q + 1 - 1)) with (length q + 0)%nat by len_lia.
      rewrite insert_app_r. reflexivity. }
    apply Forall_app in Hp as [Hq0 _].
    unfold typing, char_removed, cmd_capacity_ok, bindings_ok, cmd_holds.
    cbn [emit upd_impl set_impl _impl EmbeddedCli.writeChar].
    rewrite Hnew. rewrite Hbuf in Hlen. destruct (_impl cli) eqn:Ei.
    cbn in *.
    split; [exact Hw|]. split; [split; [lia|len_lia]|].
    split; [exact Hok|].
    split; [|split; [exact Hesc|exact Hlast]].
    split; [exact Hq0|]. split; [lia|]. eauto.
Qed.

(** The end of a turn of the processing loop: the live repaint runs, and
    the byte is recorded. *)
Lemma processByte_finish cli1 p c :
  typing cli1 p -> c <> 27 ->
  exists cli2,
    printLiveAutocompletion cli1 = Ok cli2
    /\ repaint_only cli1 cli2
    /\ typing (upd_impl (Impl.set_lastChar c) cli2) p.
Proof.
  intros Ht Hc.
  pose proof Ht as (Hw & _ & Hok & Hcmd & _).
  destruct (printLiveAutocompletion_total _ _ Hw Hcmd Hok) as (cli2 & H2).
  pose proof (printLiveAutocompletion_repaint _ _ H2) as Hr.
  pose proof (repaint_only_typing _ _ _ Hr Ht)
    as (Hw2 & Hcap2 & Hok2 & Hcmd2 & Hesc2 & _).
  exists cli2. split; [exact H2|]. split; [exact Hr|].
  unfold typing, cmd_capacity_ok, bindings_ok, cmd_holds in *.
  simpl. split_and!; tauto.
Qed.

Lemma repaint_only_history cli cli' :
  repaint_only cli cli' ->
  Impl.history (_impl cli') = Impl.history (_impl cli).
Proof.
  intros (_ & _ & _ & _ & Hi & _). rewrite Hi.
  destruct (_impl cli). reflexivity.
Qed.

(** X11: backspace (or DEL) takes the last byte off the command line.
    When the command buffer holds a string of at least one byte, the byte
    is processed to completion, the buffer afterwards holds the string
    without its last byte, the three bytes BS, space, BS are written
    before the repaint, and the history is untouched; on an empty command
    line the byte changes neither the command line nor the history. *)
Theorem backspace_removes_last_byte (cli : EmbeddedCli.t) (q : list Z)
        (x c handle : Z) :
  typing cli (q ++ [x]) -> len q < 65535 -> c = 8 \/ c = 127 ->
  (exists cli',
      processByte cli c handle = Ok cli'
      /\ typing cli' q
      /\ Impl.history (_impl cli') = Impl.history (_impl cli)
      /\ exists out,
          EmbeddedCli.trace cli'
          = EmbeddedCli.trace cli
            ++ [EvWriteChar 8; EvWriteChar 32; EvWriteChar 8] ++ out
          /\ Forall is_write out)
  /\ (forall cli0,
         typing cli0 [] ->
         exists cli',
           processByte cli0 c handle = Ok cli'
           /\ typing cli' []
           /\ Impl.history (_impl cli') = Impl.history (_impl cli0)
           /\ exists out,
               EmbeddedCli.trace cli' = EmbeddedCli.trace cli0 ++ out
               /\ Forall is_write out).
Proof.
  intros Ht Hq Hc.
  assert (Hctl : isControlChar c = true)
    by (destruct Hc as [-> | ->]; reflexivity).
  assert (Hc27 : c <> 27) by (destruct Hc as [-> | ->]; lia).
  split.
  - pose proof Ht as (_ & _ & _ & _ & Hesc & Hlast).
    rewrite processByte_control by assumption.
    destruct (onControlInput_backspace cli c handle q x Ht Hq Hc)
      as [Hrun Ht1].
    rewrite Hrun. cbn [bind].
    destruct (processByte_finish _ q c Ht1 Hc27) as (cli2 & H2 & Hr & Ht2).
    rewrite H2. cbn [bind]. eexists. split; [reflexivity|].
    split; [exact Ht2|].
    pose proof (repaint_only_history _ _ Hr) as Hh.
    destruct Hr as (_ & _ & _ & _ & _ & _ & out & Htr & Hout).
    split.
    + cbn [upd_impl set_impl _impl Impl.set_lastChar Impl.history].
      destruct (_impl cli2) eqn:E2. cbn in *. rewrite Hh.
      unfold char_removed. cbn. destruct (_impl cli). reflexivity.
    + exists out. split; [|exact Hout].
      cbn [upd_impl set_impl EmbeddedCli.trace]. rewrite Htr.
      unfold char_removed. cbn [upd_impl set_impl emit EmbeddedCli.trace].
      rewrite <- !app_assoc. reflexivity.
  - intros cli0 Ht0.
    pose proof Ht0 as (_ & _ & _ & (_ & Hsz & _) & Hesc & Hlast).
    rewrite processByte_control by assumption.
    assert (Hrun : onControlInput cli0 c handle = Ok cli0).
    { unfold onControlInput.
      assert (Hpair : ((Impl.lastChar (_impl cli0) =? 13) && (c =? 10))
                      || ((Impl.lastChar (_impl cli0) =? 10) && (c =? 13))
                      = false).
      { destruct Hc as [-> | ->]; rewrite !andb_false_r; reflexivity. }
      rewrite Hpair, Hsz.
      destruct Hc as [-> | ->]; reflexivity. }
    rewrite Hrun. cbn [bind].
    destruct (processByte_finish _ [] c Ht0 Hc27) as (cli2 & H2 & Hr & Ht2).
    rewrite H2. cbn [bind]. eexists. split; [reflexivity|].
    split; [exact Ht2|].
    pose proof (repaint_only_history _ _ Hr) as Hh.
    destruct Hr as (_ & _ & _ & _ & _ & _ & out & Htr & Hout).
    split.
    + cbn [upd_impl set_impl _impl Impl.set_lastChar Impl.history].
      destruct (_impl cli2) eqn:E2. cbn in *. exact Hh.
    + exists out. split; [exact Htr|exact Hout].
Qed.

(** The sample engine with [set] typed. *)
Lemma sample_typing_set :
  typing (with_cmd [115; 101; 116] sample_cli_with_bindings)
         ([115; 101] ++ [116]).
Proof.
  unfold typing, cmd_capacity_ok, bindings_ok, cmd_holds. simpl.
  split; [reflexivity|].
  split; [split; [lia|unfold len; simpl; lia]|].
  split; [split; [lia|split; [repeat constructor; unfold len; simpl; lia
                             |lia]]|].
  split; [split; [repeat constructor; lia|split; [reflexivity|]]|].
  { exists (replicate 60 0). reflexivity. }
  split; [reflexivity|lia].
Qed.

Lemma backspace_removes_last_byte_witness :
  typing (with_cmd [115; 101; 116] sample_cli_with_bindings)
         ([115; 101] ++ [116])
  /\ len [115; 101] < 65535
  /\ (8 = 8 \/ 8 = 127)
  /\ exists cli',
      processByte (with_cmd [115; 101; 116] sample_cli_with_bindings) 8 0
      = Ok cli'
      /\ typing cli' [115; 101].
Proof.
  assert (H2 : len [115; 101] < 65535) by (unfold len; simpl; lia).
  assert (H3 : 8 = 8 \/ 8 = 127) by (left; reflexivity).
  split; [exact sample_typing_set|]. split; [exact H2|]. split; [exact H3|].
  destruct (backspace_removes_last_byte _ [115; 101] 116 8 0
              sample_typing_set H2 H3) as [(cli' & Hrun & Ht & _) _].
  exists cli'. split; [exact Hrun|exact Ht].
Defined.

(** * Dispatcher in interactive mode *)

Lemma with_events_app (a b : list event) (cli : EmbeddedCli.t) :
  with_events b (with_events a cli) = with_events (a ++ b) cli.
Proof. unfold with_events. simpl. rewrite app_assoc. reflexivity. Qed.

Lemma writeChars_events (s : list Z) : forall cli,
  EmbeddedCli.writeChar cli = true ->
  writeChars cli s = Ok (with_events (map EvWriteChar s) cli).
Proof.
  induction s as [|c s IH]; intros cli Hw.
  - simpl. rewrite with_events_nil. reflexivity.
  - cbn [writeChars]. rewrite writeChar_total by exact Hw. cbn [bind].
    rewrite IH by exact Hw.
    change (emit (EvWriteChar c) cli) with (with_events [EvWriteChar c] cli).
    rewrite with_events_app. reflexivity.
Qed.

Lemma writeToOutput_events (cli : EmbeddedCli.t) (s : list Z) :
  EmbeddedCli.writeChar cli = true ->
  writeToOutput cli s = Ok (with_events (written cli s) cli).
Proof.
  intros Hw. unfold writeToOutput, written.
  destruct (EmbeddedCli.writeString cli); [reflexivity|].
  apply writeChars_events. exact Hw.
Qed.

(** Setting the direct-print flag and clearing it again gives back the
    flags there were, when the flag was clear. *)
Lemma direct_print_cycle (f : Z) :
  0 <= f < 256 -> IS_FLAG_SET f CLI_FLAG_DIRECT_PRINT = false ->
  UNSET_U8FLAG (SET_FLAG f CLI_FLAG_DIRECT_PRINT) CLI_FLAG_DIRECT_PRINT = f.
Proof.
  intros Hf Hclear.
  assert (Hall : Forall (fun n : nat =>
                    IS_FLAG_SET (Z.of_nat n) CLI_FLAG_DIRECT_PRINT = false ->
                    UNSET_U8FLAG (SET_FLAG (Z.of_nat n) CLI_FLAG_DIRECT_PRINT)
                                 CLI_FLAG_DIRECT_PRINT = Z.of_nat n)
                 (seq 0 256)).
  { apply (bool_decide_unpack _). vm_compute. exact I. }
  rewrite Forall_forall in Hall.
  specialize (Hall (Z.to_nat f)).
  rewrite Z2Nat.id in Hall by lia.
  apply Hall; [|exact Hclear].
  apply elem_of_seq. lia.
Qed.

Lemma isEmpty_loop_blank (p : list Z) : forall (pre post : list Z),
  isEmpty_loop (length p) (pre ++ p ++ post) (len pre) = Ok (blank p).
Proof.
  induction p as [|c p IH]; intros pre post; [reflexivity|].
  cbn [length isEmpty_loop blank forallb app].
  rewrite load_app_head. cbn [bind].
  destruct (Z.eqb_spec c 32) as [->|Hc]; cbn [negb andb]; [|reflexivity].
  replace (pre ++ 32 :: p ++ post) with ((pre ++ [32]) ++ p ++ post)
    by (rewrite <- app_assoc; reflexivity).
  replace (len pre + 1) with (len (pre ++ [32])) by len_lia.
  apply IH.
Qed.

(** The tokenizer runs on the arguments of a command: their terminator is
    at index [k] at the latest, and at least one more byte follows. *)
Lemma args_buffer_total (b : CliCommandBinding.t) (buf : list Z)
      (ca : option Z) (k : Z) :
  (forall x, ca = Some x -> 0 <= x <= k) ->
  buf !! Z.to_nat k = Some 0 -> k + 2 <= len buf ->
  exists buf', args_buffer b buf ca = Ok buf' /\ length buf' = length buf.
Proof.
  intros Hca Hk Hl. unfold args_buffer.
  destruct (CliCommandBinding.tokenizeArgs b); [|eauto].
  destruct ca as [off|]; [|eauto].
  specialize (Hca off eq_refl).
  destruct (cstr_total buf off k Hca Hk) as (s & rest & _ & Hd & Hs & Hb).
  cbn [view]. rewrite Hd.
  assert (Hlen : length (drop (Z.to_nat off) buf) = length (s ++ 0 :: rest))
    by (rewrite Hd; reflexivity).
  rewrite length_drop, length_app in Hlen. simpl in Hlen.
  assert (Hrest : rest <> []).
  { intros ->. simpl in Hlen. unfold len in *. lia. }
  destruct (tokenize_args_run s rest Hs Hrest) as (out & Hrun & _ & Hout & _).
  rewrite Hrun. cbn [bind from_option id]. eexists. split; [reflexivity|].
  rewrite length_app, length_take, Hout, length_app. simpl.
  unfold len in *. lia.
Qed.

Lemma set_flag_with_events (flag : Z) (out : list event) cli :
  set_flag flag (with_events out cli) = with_events out (set_flag flag cli).
Proof. reflexivity. Qed.

Lemma direct_print_cycle_cli (cli : EmbeddedCli.t) :
  0 <= Impl.flags (_impl cli) < 256 ->
  IS_FLAG_SET (Impl.flags (_impl cli)) CLI_FLAG_DIRECT_PRINT = false ->
  unset_flag CLI_FLAG_DIRECT_PRINT (set_flag CLI_FLAG_DIRECT_PRINT cli) = cli.
Proof.
  intros Hf Hc. unfold unset_flag, set_flag, upd_impl, set_impl.
  destruct cli as [? ? ? ? impl ?]. destruct impl. cbn in *.
  rewrite direct_print_cycle by assumption. reflexivity.
Qed.

(** The call of a handler, in either mode. *)
Lemma invokeBinding_run cli buf ca direct handle i b h buf' :
  args_buffer b buf ca = Ok buf' ->
  0 <= Impl.flags (_impl cli) < 256 ->
  IS_FLAG_SET (Impl.flags (_impl cli)) CLI_FLAG_DIRECT_PRINT = false ->
  invokeBinding cli buf ca direct handle i b h
  = Ok (with_events (binding_events cli handle i b h (view buf' ca)) cli,
        buf').
Proof.
  intros Hargs Hf Hc. unfold invokeBinding.
  unfold args_buffer in Hargs. rewrite Hargs. cbn [bind].
  f_equal. f_equal.
  destruct direct; cbn [negb].
  - unfold binding_events, with_events, emit.
    destruct cli as [w ws oc pc impl tr]. cbn.
    destruct pc; cbn; rewrite <- ?app_assoc; reflexivity.
  - pose proof (direct_print_cycle_cli cli Hf Hc) as Hcycle.
    unfold binding_events, with_events, emit, set_flag, unset_flag,
      upd_impl, set_impl in *.
    destruct cli as [w ws oc pc impl tr]. cbn in *.
    injection Hcycle as Hcycle.
    destruct pc; cbn; rewrite Hcycle, <- ?app_assoc; reflexivity.
Qed.

Lemma historyPut_total (h : CliHistory.t) (items : list (list Z))
      (s : list Z) :
  hist_repr h items -> item_ok s ->
  exists ok h', historyPut h s = Ok (ok, h').
Proof.
  intros Hr Hs.
  destruct (Z.le_gt_cases (len s + 1) (CliHistory.bufferSize h)) as [Hfit|Hno].
  - destruct (historyPut_spec h items s Hr Hs Hfit) as (h' & _ & _ & Hput & _).
    eauto.
  - exists false, h. unfold historyPut.
    destruct (Z.ltb_spec (CliHistory.bufferSize h) (len s + 1)); [|lia].
    reflexivity.
Qed.

Lemma blank_false_nonempty (p : list Z) : blank p = false -> p <> [].
Proof. intros H ->. discriminate. Qed.

Lemma onUnknownCommand_events cli m n name :
  EmbeddedCli.writeChar cli = true -> cstr m n = Ok name ->
  onUnknownCommand cli m n
  = Ok (with_events (written cli Literal.unknownHead ++ written cli name
                     ++ written cli Literal.unknownTail
                     ++ written cli lineBreak) cli).
Proof.
  intros Hw Hname. unfold onUnknownCommand, writeToOutput_at.
  rewrite writeToOutput_events by exact Hw. cbn [bind].
  rewrite Hname. cbn [bind].
  rewrite writeToOutput_events by exact Hw. cbn [bind].
  rewrite writeToOutput_events by exact Hw. cbn [bind].
  rewrite writeToOutput_events by exact Hw.
  rewrite !with_events_app. rewrite <- !app_assoc. reflexivity.
Qed.

(** [_parseCommand] in interactive mode on a command line that is not
    blank. *)
Lemma _parseCommand_repl (cli : EmbeddedCli.t) (p : list Z)
      (items : list (list Z)) (handle : Z) :
  submitting cli p items -> blank p = false ->
  exists ok h' buf1 cn ca,
    historyPut (Impl.history (_impl cli)) p = Ok (ok, h')
    /\ splitNameArgs_loop (length p) (Impl.cmdBuffer (_impl cli)) 0
                          None None false = Ok (buf1, cn, ca)
    /\ length buf1 = length (Impl.cmdBuffer (_impl cli))
    /\ let buf2 := <[Z.to_nat (len p + 1) := 0]> buf1 in
       let cliH := upd_impl (Impl.set_history h') cli in
       let run := _parseCommand cli (Impl.cmdBuffer (_impl cli)) (len p)
                                false handle in
       match cn with
       | None => run = Ok (1, cliH, buf2)
       | Some n =>
           exists name,
             cstr buf2 n = Ok name
             /\ match handler_of (_impl cli) name with
                | Some (i, b, h) =>
                    exists buf',
                      args_buffer b buf2 ca = Ok buf'
                      /\ length buf' = length buf2
                      /\ run = Ok (0,
                                   with_events
                                     (binding_events cli handle i b h
                                                     (view buf' ca)) cliH,
                                   buf')
                | None =>
                    run = Ok (1,
                              with_events
                                (fallback_events cli handle buf2 n name ca)
                                cliH,
                              buf2)
                end
       end.
Proof.
  intros (Hw & Hcmd & Hroom & Hhist & Hnames & Hflags & Hdp) Hblank.
  pose proof Hcmd as (Hp0 & Hsz & rest & Hbuf).
  pose proof (len_nonneg p) as Hlenp.
  assert (Hitem : item_ok p)
    by (split; [apply blank_false_nonempty; exact Hblank|exact Hp0]).
  destruct (historyPut_total _ items p Hhist Hitem) as (ok & h' & Hput).
  destruct (splitNameArgs_loop_total (length p) (Impl.cmdBuffer (_impl cli))
                                     0 None None false)
    as (buf1 & cn & ca & Hsplit & Hl1 & Hsame & Hcn & Hca);
    [lia|unfold len in *; lia|discriminate|discriminate|].
  exists ok, h', buf1, cn, ca.
  split; [exact Hput|]. split; [exact Hsplit|]. split; [exact Hl1|].
  intros buf2 cliH run.
  assert (Hlen1 : len buf1 = len (Impl.cmdBuffer (_impl cli)))
    by (unfold len; rewrite Hl1; reflexivity).
  assert (Hlen2 : len buf2 = len (Impl.cmdBuffer (_impl cli)))
    by (unfold buf2, len; rewrite length_insert, Hl1; reflexivity).
  assert (Hnul : Impl.cmdBuffer (_impl cli) !! Z.to_nat (len p) = Some 0).
  { rewrite Hbuf. unfold len. rewrite Nat2Z.id.
    rewrite lookup_app_r by lia. rewrite Nat.sub_diag. reflexivity. }
  assert (Hnul2 : buf2 !! Z.to_nat (len p) = Some 0).
  { unfold buf2. rewrite list_lookup_insert_ne by lia.
    rewrite Hsame by (unfold len; lia). exact Hnul. }
  (* the run up to the search for a binding *)
  assert (Hrun : run
                 = match cn with
                   | None => Ok (1, cliH, buf2)
                   | Some name =>
                       found <- findBinding (Impl.bindings (_impl cliH)) 0
                                            buf2 name ;;
                       match (if found is Some (i, b)
                              then if CliCommandBinding.binding b
                                     is Some handler
                                   then Some (i, b, handler) else None
                              else None) with
                       | Some (i, b, handler) =>
                           r <- invokeBinding cliH buf2 ca false handle
                                              i b handler ;;
                           Ok (0, fst r, snd r)
                       | None =>
                           if EmbeddedCli.onCommand cliH then
                             let c1 := set_flag CLI_FLAG_DIRECT_PRINT cliH in
                             let c2 := emit (EvOnCommand
                                               (drop (Z.to_nat name) buf2)
                                               (view buf2 ca)) c1 in
                             let c3 := unset_flag CLI_FLAG_DIRECT_PRINT c2 in
                             Ok (1, c3, buf2)
                           else
                             c1 <- onUnknownCommand cliH buf2 name ;;
                             let c2 := if EmbeddedCli.postCommand c1
                                       then emit (EvPostCommand handle 1) c1
                                       else c1 in
                             Ok (1, c2, buf2)
                       end
                   end).
  { unfold run, _parseCommand.
    replace (Z.to_nat (len p)) with (length p) by (unfold len; lia).
    pose proof (isEmpty_loop_blank p [] (0 :: rest)) as He.
    cbn [app] in He. rewrite len_nil in He. rewrite Hbuf at 1.
    rewrite He, Hblank. cbn [bind negb].
    rewrite (cmd_holds_cstr _ _ Hcmd). cbn [bind].
    rewrite Hput. cbn [bind snd]. fold cliH.
    rewrite Hsplit. cbn [bind].
    rewrite store_in_range by lia. cbn [bind]. fold buf2.
    destruct cn; reflexivity. }
  rewrite Hrun. clear Hrun.
  destruct cn as [n|]; [|reflexivity].
  specialize (Hcn n eq_refl).
  destruct (cstr_total buf2 n (len p))
    as (name & rest2 & Hname & Hdrop & Hn0 & _);
    [unfold len; lia|exact Hnul2|].
  exists name. split; [exact Hname|].
  change (Impl.bindings (_impl cliH)) with (Impl.bindings (_impl cli)).
  rewrite (findBinding_spec buf2 n name rest2 (Impl.bindings (_impl cli)) 0%nat)
    by (try lia; auto).
  cbn [bind]. unfold handler_of.
  assert (HflagsH : 0 <= Impl.flags (_impl cliH) < 256)
    by exact Hflags.
  assert (HdpH : IS_FLAG_SET (Impl.flags (_impl cliH)) CLI_FLAG_DIRECT_PRINT
                 = false)
    by exact Hdp.
  assert (Hfallback :
            (if EmbeddedCli.onCommand cliH then
               let c1 := set_flag CLI_FLAG_DIRECT_PRINT cliH in
               let c2 := emit (EvOnCommand (drop (Z.to_nat n) buf2)
                                           (view buf2 ca)) c1 in
               let c3 := unset_flag CLI_FLAG_DIRECT_PRINT c2 in
               Ok (1, c3, buf2)
             else
               c1 <- onUnknownCommand cliH buf2 n ;;
               let c2 := if EmbeddedCli.postCommand c1
                         then emit (EvPostCommand handle 1) c1 else c1 in
               Ok (1, c2, buf2))
            = Ok (1, with_events (fallback_events cli handle buf2 n name ca)
                                 cliH, buf2)).
  { unfold fallback_events.
    change (EmbeddedCli.onCommand cliH) with (EmbeddedCli.onCommand cli).
    destruct (EmbeddedCli.onCommand cli) eqn:Hoc.
    - cbv zeta. f_equal. f_equal. f_equal.
      pose proof (direct_print_cycle_cli cliH HflagsH HdpH) as Hcycle.
      unfold with_events, emit, set_flag, unset_flag, upd_impl, set_impl
        in *.
      destruct cliH as [w ws oc pc impl tr]. cbn in *.
      injection Hcycle as Hcycle. rewrite Hcycle. reflexivity.
    - rewrite (onUnknownCommand_events cliH buf2 n name) by assumption.
      cbn [bind]. cbv zeta. f_equal. f_equal. f_equal.
      change (written cliH) with (written cli).
      change (EmbeddedCli.postCommand (with_events _ cliH))
        with (EmbeddedCli.postCommand cli).
      destruct (EmbeddedCli.postCommand cli).
      + change (emit (EvPostCommand handle 1) ?c)
          with (with_events [EvPostCommand handle 1] c).
        rewrite with_events_app, <- !app_assoc. reflexivity.
      + rewrite !app_nil_r. reflexivity. }
  destruct (list_find (fun b => CliCommandBinding.name b = name)
                      (Impl.bindings (_impl cli))) as [[k b]|] eqn:Hfind;
    [|exact Hfallback].
  destruct (CliCommandBinding.binding b) as [h|] eqn:Hh; [|exact Hfallback].
  destruct (args_buffer_total b buf2 ca (len p)) as (buf' & Hargs & Hlen');
    [intros x Hx; specialize (Hca x Hx); unfold len; lia|exact Hnul2|lia|].
  exists buf'. split; [exact Hargs|]. split; [exact Hlen'|].
  rewrite (invokeBinding_run cliH buf2 ca false handle (0 + k)%nat b h buf'
             Hargs HflagsH HdpH).
  cbn [bind fst snd]. reflexivity.
Qed.

(** [parseCommand] in interactive mode, summed up: what the history
    becomes, what is called, and that nothing else of the engine changes
    but the command buffer. *)
Lemma parseCommand_repl (cli : EmbeddedCli.t) (p : list Z)
      (items : list (list Z)) (handle : Z) :
  submitting cli p items -> blank p = false ->
  exists ok h' buf' out,
    historyPut (Impl.history (_impl cli)) p = Ok (ok, h')
    /\ parseCommand cli handle
       = Ok (with_events out
               (upd_impl (fun i => Impl.set_cmdBuffer buf'
                                     (Impl.set_history h' i)) cli))
    /\ length buf' = length (Impl.cmdBuffer (_impl cli))
    /\ forall name,
        parsed_name (Impl.cmdBuffer (_impl cli)) (len p) = Ok (Some name) ->
        match handler_of (_impl cli) name with
        | Some (i, b, h) =>
            exists args, out = binding_events cli handle i b h args
        | None =>
            exists n buf2 ca,
              out = fallback_events cli handle buf2 n name ca
              /\ cstr buf2 n = Ok name
        end.
Proof.
  intros Hsub Hblank.
  destruct (_parseCommand_repl cli p items handle Hsub Hblank)
    as (ok & h' & buf1 & cn & ca & Hput & Hsplit & Hl1 & Hrun).
  cbv zeta in Hrun.
  exists ok, h'. unfold parseCommand.
  destruct Hsub as (_ & (_ & Hsz & _) & _). rewrite Hsz.
  assert (Hname : forall nm,
             parsed_name (Impl.cmdBuffer (_impl cli)) (len p) = Ok (Some nm) ->
             exists n, cn = Some n
                       /\ cstr (<[Z.to_nat (len p + 1) := 0]> buf1) n
                          = Ok nm).
  { intros nm Hp. unfold parsed_name in Hp.
    replace (Z.to_nat (len p)) with (length p) in Hp by (unfold len; lia).
    rewrite Hsplit in Hp. cbn [bind] in Hp.
    destruct (store buf1 (len p + 1) 0) as [b2| |] eqn:Hst;
      cbn [bind] in Hp; try discriminate.
    apply store_Ok in Hst. destruct Hst as [_ ->].
    destruct cn as [n|]; [|discriminate].
    exists n. split; [reflexivity|].
    destruct (cstr _ n) as [s| |]; cbn [bind] in Hp; try discriminate.
    injection Hp as ->. reflexivity. }
  destruct cn as [n|].
  - destruct Hrun as (name & Hcstr & Hrun).
    destruct (handler_of (_impl cli) name) as [[[i b] h]|] eqn:Hh.
    + destruct Hrun as (buf' & Hargs & Hlen' & Hrun).
      rewrite Hrun. cbn [bind fst snd].
      exists buf', (binding_events cli handle i b h (view buf' ca)).
      split; [exact Hput|]. split; [reflexivity|].
      split; [rewrite Hlen', length_insert; exact Hl1|].
      intros nm Hnm. destruct (Hname nm Hnm) as (n' & Hn' & Hc').
      injection Hn' as <-. rewrite Hcstr in Hc'. injection Hc' as <-.
      rewrite Hh. eauto.
    + rewrite Hrun. cbn [bind fst snd].
      exists (<[Z.to_nat (len p + 1) := 0]> buf1),
        (fallback_events cli handle (<[Z.to_nat (len p + 1) := 0]> buf1)
                         n name ca).
      split; [exact Hput|]. split; [reflexivity|].
      split; [rewrite length_insert; exact Hl1|].
      intros nm Hnm. destruct (Hname nm Hnm) as (n' & Hn' & Hc').
      injection Hn' as <-. rewrite Hcstr in Hc'. injection Hc' as <-.
      rewrite Hh. eauto.
  - rewrite Hrun. cbn [bind fst snd].
    exists (<[Z.to_nat (len p + 1) := 0]> buf1), [].
    split; [exact Hput|]. split; [rewrite with_events_nil; reflexivity|].
    split; [rewrite length_insert; exact Hl1|].
    intros nm Hnm. destruct (Hname nm Hnm) as (n' & Hn' & _). discriminate.
Qed.

Lemma upd_impl_same_cmdBuffer (cli : EmbeddedCli.t) :
  upd_impl (Impl.set_cmdBuffer (Impl.cmdBuffer (_impl cli))) cli = cli.
Proof. destruct cli as [? ? ? ? impl ?]. destruct impl. reflexivity. Qed.

(** X12: in interactive mode a submitted command line is put into the
    history before it is dispatched, whatever the dispatch does.  A line
    of spaces only is dropped: the engine is left as it was.  For any other
    line [parseCommand] runs to completion; when the line fits in the
    history buffer it is the most recent item afterwards, in front of a
    prefix of the other items; when it does not fit the history is the one
    before; and the flags and the size of the command are unchanged. *)
Theorem submitted_line_is_recorded (cli : EmbeddedCli.t) (p : list Z)
        (items : list (list Z)) (handle : Z) :
  submitting cli p items ->
  (blank p = true -> parseCommand cli handle = Ok cli)
  /\ (blank p = false ->
      exists cli',
        parseCommand cli handle = Ok cli'
        /\ (len p + 1 <= CliHistory.bufferSize (Impl.history (_impl cli)) ->
            exists kept dropped,
              hist_repr (Impl.history (_impl cli')) (p :: kept)
              /\ remove_first p items = kept ++ dropped)
        /\ (CliHistory.bufferSize (Impl.history (_impl cli)) < len p + 1 ->
            Impl.history (_impl cli') = Impl.history (_impl cli))
        /\ Impl.flags (_impl cli') = Impl.flags (_impl cli)
        /\ Impl.cmdSize (_impl cli') = Impl.cmdSize (_impl cli)).
Proof.
  intros Hsub. split.
  - intros Hblank.
    destruct Hsub as (_ & Hcmd & _). pose proof Hcmd as (_ & Hsz & rest & Hbuf).
    unfold parseCommand, _parseCommand. rewrite Hsz.
    replace (Z.to_nat (len p)) with (length p) by (unfold len; lia).
    pose proof (isEmpty_loop_blank p [] (0 :: rest)) as He.
    cbn [app] in He. rewrite len_nil in He. rewrite Hbuf at 1.
    rewrite He, Hblank. cbn [bind fst snd].
    rewrite upd_impl_same_cmdBuffer. reflexivity.
  - intros Hblank.
    destruct (parseCommand_repl cli p items handle Hsub Hblank)
      as (ok & h' & buf' & out & Hput & Hrun & _).
    eexists. split; [exact Hrun|].
    destruct Hsub as (_ & (Hp0 & _) & _ & Hhist & _).
    assert (Hitem : item_ok p)
      by (split; [apply blank_false_nonempty; exact Hblank|exact Hp0]).
    assert (Hh : Impl.history
                   (_impl (with_events out
                             (upd_impl (fun i => Impl.set_cmdBuffer buf'
                                                   (Impl.set_history h' i))
                                       cli))) = h')
      by (destruct cli as [? ? ? ? impl ?]; destruct impl; reflexivity).
    rewrite Hh. split; [|split; [|split]].
    + intros Hfit.
      destruct (historyPut_spec _ items p Hhist Hitem Hfit)
        as (h2 & kept & dropped & Hput2 & Hr2 & Hsplit & _).
      rewrite Hput in Hput2. injection Hput2 as _ <-.
      exists kept, dropped. auto.
    + intros Hlong. unfold historyPut in Hput.
      destruct (Z.ltb_spec (CliHistory.bufferSize (Impl.history (_impl cli)))
                           (len p + 1)); [|lia].
      injection Hput as _ <-. reflexivity.
    + destruct cli as [? ? ? ? impl ?]; destruct impl; reflexivity.
    + destruct cli as [? ? ? ? impl ?]; destruct impl; reflexivity.
Qed.

Lemma cstr_drop (m : list Z) (n : Z) (s : list Z) :
  0 <= n -> cstr m n = Ok s -> cstr (drop (Z.to_nat n) m) 0 = Ok s.
Proof.
  intros Hn. unfold cstr, strlen.
  destruct (Z.ltb_spec n 0); [lia|].
  destruct (Z.ltb_spec (len m) n); [discriminate|].
  cbn [orb]. change (0 <? 0) with false.
  destruct (Z.ltb_spec (len (drop (Z.to_nat n) m)) 0);
    [pose proof (len_nonneg (drop (Z.to_nat n) m)); lia|].
  cbn [orb]. change (Z.to_nat 0) with 0%nat. rewrite !drop_0. auto.
Qed.

(** X13: in interactive mode a command that no binding handles goes to
    the fallback.  When the name of the submitted command is the name of
    no binding with a handler, [parseCommand] runs to completion and calls
    exactly this: with the [onCommand] hook set, that hook, once, with the
    name; without it, the message [Unknown command: "name". Write "help"
    for a list of available commands] and a line break through the output
    hooks, then the [postCommand] hook, if set, with result 1. *)
Theorem unknown_command_goes_to_fallback (cli : EmbeddedCli.t)
        (p name : list Z) (items : list (list Z)) (handle : Z) :
  submitting cli p items -> blank p = false ->
  parsed_name (Impl.cmdBuffer (_impl cli)) (len p) = Ok (Some name) ->
  handler_of (_impl cli) name = None ->
  exists cli' out,
    parseCommand cli handle = Ok cli'
    /\ EmbeddedCli.trace cli' = EmbeddedCli.trace cli ++ out
    /\ (EmbeddedCli.onCommand cli = false ->
        out = written cli Literal.unknownHead ++ written cli name
              ++ written cli Literal.unknownTail ++ written cli lineBreak
              ++ (if EmbeddedCli.postCommand cli
                  then [EvPostCommand handle 1] else []))
    /\ (EmbeddedCli.onCommand cli = true ->
        exists nm args, out = [EvOnCommand nm args] /\ cstr nm 0 = Ok name).
Proof.
  intros Hsub Hblank Hname Hnone.
  destruct (parseCommand_repl cli p items handle Hsub Hblank)
    as (ok & h' & buf' & out & _ & Hrun & _ & Hout).
  specialize (Hout name Hname). rewrite Hnone in Hout.
  destruct Hout as (n & buf2 & ca & -> & Hcstr).
  eexists. eexists. split; [exact Hrun|]. split; [reflexivity|].
  unfold fallback_events. split.
  - intros ->. reflexivity.
  - intros ->. eexists. eexists. split; [reflexivity|].
    apply cstr_drop; [|exact Hcstr].
    unfold cstr, strlen in Hcstr.
    destruct (Z.ltb_spec n 0); [discriminate|lia].
Qed.

(** The sample engine with [foo], a name of no binding, typed. *)
Lemma sample_submitting_foo :
  submitting (with_cmd [102; 111; 111] sample_cli_with_bindings)
             [102; 111; 111] [].
Proof.
  unfold submitting.
  split; [reflexivity|].
  split.
  { unfold cmd_holds. split; [repeat constructor; lia|].
    split; [reflexivity|]. exists (replicate 60 0). reflexivity. }
  split; [vm_compute; discriminate|].
  split.
  { unfold hist_repr.
    split; [vm_compute; reflexivity|].
    split; [vm_compute; discriminate|]. split; [reflexivity|].
    split; [constructor|]. split; [vm_compute; discriminate|].
    eexists. reflexivity. }
  split; [exact sample_names_ok|].
  split; [split; [vm_compute; discriminate|vm_compute; reflexivity]
         |reflexivity].
Qed.

Lemma submitted_line_is_recorded_witness :
  submitting (with_cmd [102; 111; 111] sample_cli_with_bindings)
             [102; 111; 111] []
  /\ exists cli',
      parseCommand (with_cmd [102; 111; 111] sample_cli_with_bindings) 7
      = Ok cli'
      /\ exists kept dropped,
          hist_repr (Impl.history (_impl cli')) ([102; 111; 111] :: kept)
          /\ remove_first [102; 111; 111] [] = kept ++ dropped.
Proof.
  split; [exact sample_submitting_foo|].
  destruct (submitted_line_is_recorded _ _ _ 7 sample_submitting_foo)
    as [_ H].
  destruct (H eq_refl) as (cli' & Hrun & Hfit & _).
  exists cli'. split; [exact Hrun|].
  apply Hfit. vm_compute. discriminate.
Defined.

Lemma unknown_command_goes_to_fallback_witness :
  submitting (with_cmd [102; 111; 111] sample_cli_with_bindings)
             [102; 111; 111] []
  /\ blank [102; 111; 111] = false
  /\ parsed_name
       (Impl.cmdBuffer (_impl (with_cmd [102; 111; 111]
                                        sample_cli_with_bindings)))
       (len [102; 111; 111]) = Ok (Some [102; 111; 111])
  /\ handler_of (_impl (with_cmd [102; 111; 111] sample_cli_with_bindings))
                [102; 111; 111] = None
  /\ exists cli' out,
      parseCommand (with_cmd [102; 111; 111] sample_cli_with_bindings) 7
      = Ok cli'
      /\ EmbeddedCli.trace cli'
         = EmbeddedCli.trace (with_cmd [102; 111; 111]
                                       sample_cli_with_bindings) ++ out
      /\ out = map EvWriteChar
                   (Literal.unknownHead ++ [102; 111; 111]
                    ++ Literal.unknownTail ++ lineBreak).
Proof.
  assert (H2 : blank [102; 111; 111] = false) by reflexivity.
  assert (H3 : parsed_name
                 (Impl.cmdBuffer (_impl (with_cmd [102; 111; 111]
                                                  sample_cli_with_bindings)))
                 (len [102; 111; 111]) = Ok (Some [102; 111; 111]))
    by (vm_compute; reflexivity).
  assert (H4 : handler_of
                 (_impl (with_cmd [102; 111; 111] sample_cli_with_bindings))
                 [102; 111; 111] = None)
    by (vm_compute; reflexivity).
  split; [exact sample_submitting_foo|]. split; [exact H2|].
  split; [exact H3|]. split; [exact H4|].
  destruct (unknown_command_goes_to_fallback _ _ _ _ 7
              sample_submitting_foo H2 H3 H4)
    as (cli' & out & Hrun & Htr & Hmsg & _).
  exists cli', out. split; [exact Hrun|]. split; [exact Htr|].
  rewrite (Hmsg eq_refl). reflexivity.
Defined.

(** ** The loop that finds name and arguments, phase by phase *)


















(** * Escape sequences and the arrow keys *)

Lemma repaint_only_with_last (c f : Z) (a b : EmbeddedCli.t) :
  repaint_only a b -> repaint_only (with_last c f a) (with_last c f b).
Proof.
  intros (H1 & H2 & H3 & H4 & H5 & H6 & out & H7 & H8).
  unfold repaint_only, with_last, upd_impl, set_impl.
  destruct a as [aw aws aoc apc ai atr], b as [bw bws boc bpc bi btr].
  cbn in *. split_and!; try assumption.
  - destruct ai, bi.
    unfold Impl.set_inputLineLength, Impl.set_bindingsFlags,
      Impl.set_lastChar, Impl.set_flags in *.
    cbn in *. congruence.
  - exists out. split; assumption.
Qed.

Lemma with_last_with_last (c f c' f' : Z) (cli : EmbeddedCli.t) :
  with_last c' f' (with_last c f cli) = with_last c' f' cli.
Proof. destruct cli as [w ws oc pc i tr]. destruct i. reflexivity. Qed.

Lemma with_last_same (cli : EmbeddedCli.t) :
  with_last (Impl.lastChar (_impl cli)) (Impl.flags (_impl cli)) cli = cli.
Proof. destruct cli as [w ws oc pc i tr]. destruct i. reflexivity. Qed.

(** What a state that differs from [with_last c f cli0] by a repaint shares
    with [cli0]. *)
Lemma repaint_only_with_last_inv (c f : Z) (cli0 cli : EmbeddedCli.t)
      (p : list Z) :
  EmbeddedCli.writeChar cli0 = true -> cmd_holds (_impl cli0) p ->
  bindings_ok (_impl cli0) ->
  repaint_only (with_last c f cli0) cli ->
  EmbeddedCli.writeChar cli = true /\ cmd_holds (_impl cli) p
  /\ bindings_ok (_impl cli)
  /\ Impl.lastChar (_impl cli) = c /\ Impl.flags (_impl cli) = f.
Proof.
  intros Hw Hcmd Hok (H1 & _ & _ & _ & H5 & H6 & _).
  unfold with_last, upd_impl, set_impl, cmd_holds, bindings_ok in *.
  destruct cli0 as [w ws oc pc i0 tr0], cli as [w' ws' oc' pc' i tr].
  cbn in *. rewrite H5. destruct i0, i. cbn in *.
  split; [congruence|]. split; [exact Hcmd|].
  split; [|split; reflexivity].
  destruct Hok as (Hb1 & Hb2 & Hb3). split; [exact Hb1|].
  split; [exact Hb2|]. rewrite H6. exact Hb3.
Qed.

(** A turn of the processing loop in which the byte changes the flags at
    most: the live repaint runs, and the byte is recorded. *)
Lemma quiet_step (cli0 cli : EmbeddedCli.t) (p : list Z) (c f c' f' : Z)
      (handle : Z) :
  EmbeddedCli.writeChar cli0 = true -> cmd_holds (_impl cli0) p ->
  bindings_ok (_impl cli0) ->
  repaint_only (with_last c f cli0) cli ->
  (if IS_FLAG_SET (Impl.flags (_impl cli)) CLI_FLAG_ESCAPE_MODE then
     onEscapedInput cli c'
   else if (Impl.lastChar (_impl cli) =? 27) && (c' =? 91) then
     Ok (set_flag CLI_FLAG_ESCAPE_MODE cli)
   else if isControlChar c' then onControlInput cli c' handle
   else if isDisplayableChar c' then onCharInput cli c'
   else Ok cli) = Ok (upd_impl (Impl.set_flags f') cli) ->
  exists cli',
    processByte cli c' handle = Ok cli'
    /\ repaint_only (with_last c' f' cli0) cli'.
Proof.
  intros Hw Hcmd Hok Hr Hrun.
  unfold processByte. cbv zeta. rewrite Hrun. cbn [bind].
  pose proof (repaint_only_with_last c' f' _ _ Hr) as Hr1.
  rewrite with_last_with_last in Hr1.
  destruct (repaint_only_with_last_inv c' f' cli0 _ p Hw Hcmd Hok Hr1)
    as (Hw1 & Hcmd1 & Hok1 & _ & _).
  assert (Hw2 : EmbeddedCli.writeChar (upd_impl (Impl.set_flags f') cli)
                = true) by exact Hw1.
  assert (Hcmd2 : cmd_holds (_impl (upd_impl (Impl.set_flags f') cli)) p).
  { revert Hcmd1. clear. unfold cmd_holds, with_last, upd_impl, set_impl.
    destruct cli as [w ws oc pc i tr]; destruct i. exact (fun H => H). }
  assert (Hok2 : bindings_ok (_impl (upd_impl (Impl.set_flags f') cli))).
  { revert Hok1. clear. unfold bindings_ok, with_last, upd_impl, set_impl.
    destruct cli as [w ws oc pc i tr]; destruct i. exact (fun H => H). }
  destruct (printLiveAutocompletion_total _ p Hw2 Hcmd2 Hok2)
    as (cli2 & H2).
  rewrite H2. cbn [bind]. eexists. split; [reflexivity|].
  pose proof (printLiveAutocompletion_repaint _ _ H2) as Hr2.
  assert (Hfl2 : Impl.flags (_impl cli2) = f').
  { destruct Hr2 as (_ & _ & _ & _ & H5 & _). rewrite H5. clear.
    destruct cli as [w ws oc pc i tr]; destruct i. reflexivity. }
  apply (repaint_only_with_last c' f') in Hr2.
  eapply repaint_only_trans; [exact Hr1|].
  assert (E1 : with_last c' f' (upd_impl (Impl.set_flags f') cli)
               = with_last c' f' cli).
  { destruct cli as [w ws oc pc i tr]; destruct i; reflexivity. }
  rewrite E1 in Hr2.
  assert (E2 : with_last c' f' cli2 = upd_impl (Impl.set_lastChar c') cli2).
  { revert Hfl2. clear. destruct cli2 as [w2 ws2 oc2 pc2 i2 tr2].
    destruct i2. cbn. intros <-. reflexivity. }
  rewrite E2 in Hr2. exact Hr2.
Qed.

Lemma same_flags (cli : EmbeddedCli.t) :
  upd_impl (Impl.set_flags (Impl.flags (_impl cli))) cli = cli.
Proof. destruct cli as [w ws oc pc i tr]. destruct i. reflexivity. Qed.

(** Setting the escape flag and clearing it again gives back the flags
    there were, when the flag was clear. *)
Lemma escape_cycle (f : Z) :
  0 <= f < 256 -> IS_FLAG_SET f CLI_FLAG_ESCAPE_MODE = false ->
  IS_FLAG_SET (SET_FLAG f CLI_FLAG_ESCAPE_MODE) CLI_FLAG_ESCAPE_MODE = true
  /\ UNSET_U8FLAG (SET_FLAG f CLI_FLAG_ESCAPE_MODE) CLI_FLAG_ESCAPE_MODE = f.
Proof.
  intros Hf Hclear.
  assert (Hall : Forall (fun n : nat =>
                    IS_FLAG_SET (Z.of_nat n) CLI_FLAG_ESCAPE_MODE = false ->
                    IS_FLAG_SET (SET_FLAG (Z.of_nat n) CLI_FLAG_ESCAPE_MODE)
                                CLI_FLAG_ESCAPE_MODE = true
                    /\ UNSET_U8FLAG
                         (SET_FLAG (Z.of_nat n) CLI_FLAG_ESCAPE_MODE)
                         CLI_FLAG_ESCAPE_MODE = Z.of_nat n)
                 (seq 0 256)).
  { apply (bool_decide_unpack _). vm_compute. exact I. }
  rewrite Forall_forall in Hall.
  specialize (Hall (Z.to_nat f)).
  rewrite Z2Nat.id in Hall by lia.
  apply Hall; [|exact Hclear].
  apply elem_of_seq. lia.
Qed.

(** The first two bytes of an escape sequence: ESC is recorded, and the
    bracket after it opens escape mode. *)
Lemma escape_sequence_opens (cli : EmbeddedCli.t) (p : list Z)
      (handle : Z) :
  typing cli p ->
  exists cli2,
    processBytes cli [27; 91] handle = Ok cli2
    /\ repaint_only
         (with_last 91 (SET_FLAG (Impl.flags (_impl cli))
                                 CLI_FLAG_ESCAPE_MODE) cli) cli2.
Proof.
  intros (Hw & _ & Hok & Hcmd & Hesc & Hlast).
  destruct (quiet_step cli cli p (Impl.lastChar (_impl cli))
              (Impl.flags (_impl cli)) 27 (Impl.flags (_impl cli)) handle
              Hw Hcmd Hok) as (cli1 & H1 & Hr1).
  { rewrite with_last_same. apply repaint_only_refl. }
  { rewrite Hesc.
    destruct (Z.eqb_spec (Impl.lastChar (_impl cli)) 27); [contradiction|].
    cbn. rewrite same_flags. reflexivity. }
  destruct (repaint_only_with_last_inv _ _ _ _ p Hw Hcmd Hok Hr1)
    as (_ & _ & _ & Hl1 & Hf1).
  destruct (quiet_step cli cli1 p 27 (Impl.flags (_impl cli)) 91
              (SET_FLAG (Impl.flags (_impl cli)) CLI_FLAG_ESCAPE_MODE)
              handle Hw Hcmd Hok Hr1) as (cli2 & H2 & Hr2).
  { rewrite Hf1, Hesc, Hl1. cbn. unfold set_flag, upd_impl, set_impl.
    rewrite Hf1.
    reflexivity. }
  exists cli2. split; [|exact Hr2].
  cbn [processBytes]. rewrite H1. cbn [bind]. rewrite H2. reflexivity.
Qed.

(** In escape mode, bytes that are not final bytes are swallowed. *)
Lemma escape_sequence_params (cli0 : EmbeddedCli.t) (p : list Z)
      (f handle : Z) (params : list Z) : forall (c : Z) (cli : EmbeddedCli.t),
  EmbeddedCli.writeChar cli0 = true -> cmd_holds (_impl cli0) p ->
  bindings_ok (_impl cli0) ->
  IS_FLAG_SET f CLI_FLAG_ESCAPE_MODE = true ->
  Forall (fun c => c < 64 \/ 126 < c) params ->
  repaint_only (with_last c f cli0) cli ->
  exists cli',
    processBytes cli params handle = Ok cli'
    /\ repaint_only (with_last (List.last (c :: params) 0) f cli0) cli'.
Proof.
  induction params as [|x params IH]; intros c cli Hw Hcmd Hok Hf Hps Hr.
  - exists cli. split; [reflexivity|exact Hr].
  - inversion Hps as [|? ? Hx Hps']; subst.
    destruct (repaint_only_with_last_inv _ _ _ _ p Hw Hcmd Hok Hr)
      as (_ & _ & _ & Hl & Hfl).
    destruct (quiet_step cli0 cli p c f x f handle Hw Hcmd Hok Hr)
      as (cli1 & H1 & Hr1).
    { rewrite Hfl, Hf. unfold onEscapedInput.
      assert (Hout : (64 <=? x) && (x <=? 126) = false).
      { destruct (Z.leb_spec 64 x), (Z.leb_spec x 126); try reflexivity.
        lia. }
      rewrite Hout. rewrite <- Hfl. rewrite same_flags. reflexivity. }
    destruct (IH x cli1 Hw Hcmd Hok Hf Hps' Hr1) as (cli' & Hrun & Hr').
    exists cli'. split.
    + cbn [processBytes]. rewrite H1. cbn [bind]. exact Hrun.
    + exact Hr'.
Qed.

Lemma processBytes_app (a b : list Z) (handle : Z) : forall cli,
  processBytes cli (a ++ b) handle
  = (cli1 <- processBytes cli a handle ;; processBytes cli1 b handle).
Proof.
  induction a as [|c a IH]; intros cli; [reflexivity|].
  cbn [app processBytes]. destruct (processByte cli c handle); cbn [bind];
    [apply IH|reflexivity|reflexivity].
Qed.

Lemma escape_sequence_swallowed (cli : EmbeddedCli.t) (p params : list Z)
      (fin handle : Z) :
  typing cli p -> 0 <= Impl.flags (_impl cli) < 256 ->
  Forall (fun c => c < 64 \/ 126 < c) params ->
  64 <= fin <= 126 -> fin <> 65 -> fin <> 66 ->
  exists cli',
    processBytes cli (27 :: 91 :: params ++ [fin]) handle = Ok cli'
    /\ repaint_only (upd_impl (Impl.set_lastChar fin) cli) cli'.
Proof.
  intros Ht Hfl Hps Hfin H65 H66.
  pose proof Ht as (Hw & _ & Hok & Hcmd & Hesc & Hlast).
  destruct (escape_sequence_opens cli p handle Ht) as (cli2 & H2 & Hr2).
  destruct (escape_cycle _ Hfl Hesc) as [Hset Hunset].
  destruct (escape_sequence_params cli p _ handle params 91 cli2
              Hw Hcmd Hok Hset Hps Hr2) as (cli3 & H3 & Hr3).
  destruct (repaint_only_with_last_inv _ _ _ _ p Hw Hcmd Hok Hr3)
    as (_ & _ & _ & Hl3 & Hf3).
  destruct (quiet_step cli cli3 p _ _ fin (Impl.flags (_impl cli)) handle
              Hw Hcmd Hok Hr3) as (cli4 & H4 & Hr4).
  { rewrite Hf3, Hset. unfold onEscapedInput.
    destruct (Z.leb_spec 64 fin), (Z.leb_spec fin 126); try lia.
    destruct (Z.eqb_spec fin 65), (Z.eqb_spec fin 66); try lia.
    cbn [orb]. unfold upd_impl, set_impl. rewrite Hf3, Hunset. reflexivity. }
  exists cli4. split.
  - change (27 :: 91 :: params ++ [fin]) with ([27; 91] ++ params ++ [fin]).
    rewrite processBytes_app, H2. cbn [bind].
    rewrite processBytes_app, H3. cbn [bind processBytes].
    rewrite H4. reflexivity.
  - assert (E : with_last fin (Impl.flags (_impl cli)) cli
                = upd_impl (Impl.set_lastChar fin) cli).
    { destruct cli as [w ws oc pc i tr]. destruct i. reflexivity. }
    rewrite E in Hr4. exact Hr4.
Qed.

Lemma typing_editing (cli : EmbeddedCli.t) (p : list Z) :
  typing cli p
  <-> editing cli p
      /\ IS_FLAG_SET (Impl.flags (_impl cli)) CLI_FLAG_ESCAPE_MODE = false
      /\ Impl.lastChar (_impl cli) <> 27.
Proof. unfold typing, editing. tauto. Qed.

Lemma repaint_only_editing (a b : EmbeddedCli.t) (p : list Z) :
  repaint_only a b -> editing a p ->
  editing b p
  /\ Impl.flags (_impl b) = Impl.flags (_impl a)
  /\ Impl.lastChar (_impl b) = Impl.lastChar (_impl a)
  /\ Impl.history (_impl b) = Impl.history (_impl a)
  /\ Impl.invitation (_impl b) = Impl.invitation (_impl a)
  /\ Impl.cmdBuffer (_impl b) = Impl.cmdBuffer (_impl a)
  /\ Impl.cmdMaxSize (_impl b) = Impl.cmdMaxSize (_impl a).
Proof.
  intros (H1 & _ & _ & _ & H5 & H6 & _) (Hw & Hcap & Hok & Hcmd).
  unfold editing, cmd_capacity_ok, bindings_ok, cmd_holds in *.
  rewrite H1, H5. destruct (_impl a); simpl in *.
  rewrite H6. auto 15.
Qed.

Lemma repaint_only_trace (a b : EmbeddedCli.t) :
  repaint_only a b ->
  exists out, EmbeddedCli.trace b = EmbeddedCli.trace a ++ out
              /\ Forall is_write out.
Proof. intros (_ & _ & _ & _ & _ & _ & H). exact H. Qed.

Lemma clearCurrentLine_run (cli : EmbeddedCli.t) :
  EmbeddedCli.writeChar cli = true ->
  exists cli', clearCurrentLine cli = Ok cli' /\ repaint_only cli cli'.
Proof.
  intros Hw. unfold clearCurrentLine. cbv zeta.
  pose proof (writeChar_total cli 13 Hw) as H1.
  pose proof (writeChar_repaint _ _ _ H1) as R1.
  rewrite H1. cbn [bind].
  match goal with
  | |- context [writeChars ?c ?s] =>
      pose proof (writeChars_events s c Hw) as H2
  end.
  pose proof (writeChars_repaint _ _ _ H2) as R2.
  rewrite H2. cbn [bind].
  match goal with
  | |- context [writeChar ?c 13] =>
      pose proof (writeChar_total c 13 Hw) as H3
  end.
  pose proof (writeChar_repaint _ _ _ H3) as R3.
  rewrite H3. cbn [bind].
  eexists. split; [reflexivity|].
  eapply repaint_only_trans; [exact R1|].
  eapply repaint_only_trans; [exact R2|].
  eapply repaint_only_trans; [exact R3|].
  apply repaint_only_inputLineLength.
Qed.

Lemma writeToOutput_run (cli : EmbeddedCli.t) (s : list Z) :
  EmbeddedCli.writeChar cli = true ->
  exists cli', writeToOutput cli s = Ok cli' /\ repaint_only cli cli'.
Proof.
  intros Hw. destruct (writeToOutput_total cli s Hw) as (cli' & H).
  exists cli'. split; [exact H|]. eapply writeToOutput_repaint; eauto.
Qed.

(** [navigateHistory] when it moves: the line is replaced by the string
    [s] of the item it moves to, or by the empty string at position 0. *)
Lemma navigateHistory_load (cli : EmbeddedCli.t) (p : list Z)
      (items : list (list Z)) (up : bool) (n : Z) (s : list Z) :
  editing cli p ->
  hist_repr (Impl.history (_impl cli)) items ->
  (CliHistory.itemsCount (Impl.history (_impl cli)) =? 0)
  || (up && (CliHistory.current (Impl.history (_impl cli))
             =? CliHistory.itemsCount (Impl.history (_impl cli))))
  || (negb up && (CliHistory.current (Impl.history (_impl cli)) =? 0))
  = false ->
  n = (if up then CliHistory.current (Impl.history (_impl cli)) + 1
       else CliHistory.current (Impl.history (_impl cli)) - 1) ->
  (n = 0 /\ s = []) \/ (exists k : nat, n = Z.of_nat k + 1
                                        /\ items !! k = Some s) ->
  len s < Impl.cmdMaxSize (_impl cli) ->
  exists cli',
    navigateHistory cli up = Ok cli'
    /\ editing cli' s
    /\ Impl.flags (_impl cli') = Impl.flags (_impl cli)
    /\ Impl.history (_impl cli')
       = set_current n (Impl.history (_impl cli))
    /\ exists out, EmbeddedCli.trace cli' = EmbeddedCli.trace cli ++ out
                   /\ Forall is_write out.
Proof.
  intros He Hr Hcond Hn Hs Hfit.
  pose proof He as (Hw & [Hmax Hlen] & Hok & Hcmd).
  unfold navigateHistory. cbv zeta. rewrite Hcond.
  destruct (clearCurrentLine_run cli Hw) as (c1 & H1 & R1).
  rewrite H1. cbn [bind].
  destruct (repaint_only_editing _ _ p R1 He)
    as (He1 & Hf1 & _ & Hh1 & _ & Hb1 & Hm1).
  destruct (writeToOutput_run c1 (Impl.invitation (_impl c1)) (proj1 He1))
    as (c2 & H2 & R2).
  rewrite H2. cbn [bind].
  destruct (repaint_only_editing _ _ p R2 He1)
    as (He2 & Hf2 & _ & Hh2 & _ & Hb2 & Hm2).
  pose proof (repaint_only_trans _ _ _ R1 R2) as R12.
  set (h := Impl.history (_impl cli)) in *.
  assert (Hn16 : 0 <= n < 65536 /\ 0 <= len s < 65536).
  { destruct Hr as (Hbs & _ & Hcnt & Hitems & Hflat & _).
    pose proof (length_le_hist_flat items) as Hll.
    pose proof (len_nonneg s).
    destruct Hs as [[-> ->]|(k & -> & Hk)].
    - rewrite len_nil. lia.
    - apply lookup_lt_Some in Hk. unfold len in *. lia. }
  assert (Hnew : (if up then u16 (CliHistory.current h + 1)
                  else u16 (CliHistory.current h - 1)) = n).
  { rewrite Hn. destruct up; apply u16_small; rewrite <- Hn; lia. }
  rewrite Hnew.
  set (h' := set_current n h).
  assert (Hr' : hist_repr h' items) by exact Hr.
  assert (Hitem : exists item,
             historyGet h' (CliHistory.current h') = Ok item
             /\ match item with
                | None => Ok []
                | Some off => cstr (CliHistory.buf h') off
                end = Ok s
             /\ Forall (fun c => c <> 0) s).
  { change (CliHistory.current h') with n.
    destruct Hs as [[-> ->]|(k & -> & Hk)].
    - exists None. split; [reflexivity|]. split; [reflexivity|constructor].
    - destruct (hist_repr_get h' items k s Hr' Hk) as [Hg Hc].
      eexists. split; [exact Hg|]. split; [exact Hc|].
      destruct Hr as (_ & _ & _ & Hitems & _).
      exact (proj2 (Forall_lookup_1 _ _ _ _ Hitems Hk)). }
  destruct Hitem as (item & Hget & Hstr & Hs0).
  rewrite Hget. cbn [bind]. rewrite Hstr. cbn [bind].
  rewrite u16_small by lia.
  cbn [upd_impl set_impl _impl Impl.set_history Impl.cmdBuffer].
  rewrite Hb2, Hb1.
  set (m := Impl.cmdBuffer (_impl cli)) in *.
  assert (Htake : take (Z.to_nat (len s)) s = s).
  { apply take_ge. unfold len. lia. }
  rewrite Htake.
  rewrite memcpy_in_range by lia. cbn [bind].
  replace (Z.to_nat 0) with 0%nat by reflexivity. rewrite take_0.
  cbn [app]. rewrite Z.add_0_l.
  assert (Hdrop : exists x rest, drop (Z.to_nat (len s)) m = x :: rest).
  { destruct (drop (Z.to_nat (len s)) m) as [|x rest] eqn:E; [|eauto].
    apply (f_equal length) in E. rewrite length_drop in E.
    simpl in E. unfold len in *. lia. }
  destruct Hdrop as (x & rest & Hdrop). rewrite Hdrop.
  rewrite store_in_range by len_lia. cbn [bind].
  assert (Hb : <[Z.to_nat (len s) := 0]> (s ++ x :: rest) = s ++ 0 :: rest).
  { unfold len. rewrite Nat2Z.id.
    replace (length s) with (length s + 0)%nat at 1 by lia.
    rewrite insert_app_r. reflexivity. }
  rewrite Hb.
  assert (Hcs : cstr (s ++ 0 :: rest) 0 = Ok s)
    by exact (cstr_string [] s rest Hs0).
  unfold writeToOutput_at. rewrite Hcs. cbn [bind].
  match goal with
  | |- context [writeToOutput ?c s] =>
      set (c3 := c);
      destruct (writeToOutput_run c3 s (proj1 He2)) as (c4 & H4 & R4)
  end.
  rewrite H4. cbn [bind].
  assert (Hlenm : len (s ++ 0 :: rest) = len m).
  { apply (f_equal length) in Hdrop. rewrite length_drop in Hdrop.
    simpl in Hdrop. len_lia. }
  assert (He3 : editing c3 s).
  { destruct He2 as (Hw2 & [Hmax2 Hlen2] & Hok2 & _).
    unfold editing, cmd_capacity_ok, bindings_ok, cmd_holds, c3 in *.
    cbn [upd_impl set_impl _impl EmbeddedCli.writeChar].
    destruct (_impl c2) eqn:E2. cbn in *.
    split; [exact Hw2|]. split; [split; [lia|]|].
    { rewrite Hlenm. rewrite <- Hb1, <- Hb2. exact Hlen2. }
    split; [exact Hok2|]. split; [exact Hs0|].
    split; [reflexivity|]. eauto. }
  pose proof (repaint_only_trans _ _ _ R4
                (repaint_only_inputLineLength c4 (len s))) as R5.
  destruct (repaint_only_editing _ _ s R5 He3)
    as (He5 & Hf5 & _ & Hh5 & _).
  destruct He5 as (Hw5 & Hcap5 & Hok5 & Hcmd5).
  destruct (printLiveAutocompletion_total _ s Hw5 Hcmd5 Hok5)
    as (c6 & H6).
  rewrite H6. exists c6. split; [reflexivity|].
  pose proof (printLiveAutocompletion_repaint _ _ H6) as R6.
  pose proof (repaint_only_trans _ _ _ R5 R6) as R36.
  destruct (repaint_only_editing _ _ s R36 He3)
    as (He6 & Hf6 & _ & Hh6 & _).
  split; [exact He6|].
  split.
  { rewrite Hf6. unfold c3. cbn. rewrite <- Hf1, <- Hf2.
    destruct (_impl c2). reflexivity. }
  split.
  { rewrite Hh6. unfold c3. cbn. destruct (_impl c2). reflexivity. }
  destruct (repaint_only_trace _ _ R12) as (o1 & Ht1 & Ho1).
  destruct (repaint_only_trace _ _ R36) as (o2 & Ht2 & Ho2).
  exists (o1 ++ o2). split; [|apply Forall_app; auto].
  rewrite Ht2. unfold c3. cbn [upd_impl set_impl EmbeddedCli.trace].
  rewrite Ht1, app_assoc. reflexivity.
Qed.

Lemma editing_with_last (c f : Z) (cli : EmbeddedCli.t) (p : list Z) :
  editing cli p -> editing (with_last c f cli) p.
Proof.
  unfold editing, cmd_capacity_ok, bindings_ok, cmd_holds, with_last,
    upd_impl, set_impl.
  destruct cli as [w ws oc pc i tr]. destruct i. exact (fun H => H).
Qed.

Lemma editing_lastChar (c : Z) (cli : EmbeddedCli.t) (p : list Z) :
  editing cli p -> editing (upd_impl (Impl.set_lastChar c) cli) p.
Proof.
  unfold editing, cmd_capacity_ok, bindings_ok, cmd_holds, upd_impl,
    set_impl.
  destruct cli as [w ws oc pc i tr]. destruct i. exact (fun H => H).
Qed.

(** An escape sequence that ends in A or B, when [navigateHistory] moves
    to position [n] of the history. *)
Lemma arrow_key (cli : EmbeddedCli.t) (p params : list Z)
      (items : list (list Z)) (up : bool) (n : Z) (s : list Z)
      (handle : Z) :
  typing cli p -> 0 <= Impl.flags (_impl cli) < 256 ->
  Forall (fun c => c < 64 \/ 126 < c) params ->
  hist_repr (Impl.history (_impl cli)) items ->
  (CliHistory.itemsCount (Impl.history (_impl cli)) =? 0)
  || (up && (CliHistory.current (Impl.history (_impl cli))
             =? CliHistory.itemsCount (Impl.history (_impl cli))))
  || (negb up && (CliHistory.current (Impl.history (_impl cli)) =? 0))
  = false ->
  n = (if up then CliHistory.current (Impl.history (_impl cli)) + 1
       else CliHistory.current (Impl.history (_impl cli)) - 1) ->
  (n = 0 /\ s = []) \/ (exists k : nat, n = Z.of_nat k + 1
                                        /\ items !! k = Some s) ->
  len s < Impl.cmdMaxSize (_impl cli) ->
  exists cli',
    processBytes cli (27 :: 91 :: params ++ [if up then 65 else 66]) handle
    = Ok cli'
    /\ typing cli' s
    /\ Impl.history (_impl cli')
       = set_current n (Impl.history (_impl cli))
    /\ exists out, EmbeddedCli.trace cli' = EmbeddedCli.trace cli ++ out
                   /\ Forall is_write out.
Proof.
  intros Ht Hfl Hps Hr Hcond Hn Hs Hfit.
  pose proof Ht as (Hw & Hcap & Hok & Hcmd & Hesc & Hlast).
  assert (He : editing cli p) by (unfold editing; auto).
  destruct (escape_sequence_opens cli p handle Ht) as (cli2 & H2 & Hr2).
  destruct (escape_cycle _ Hfl Hesc) as [Hset Hunset].
  destruct (escape_sequence_params cli p _ handle params 91 cli2
              Hw Hcmd Hok Hset Hps Hr2) as (cli3 & H3 & Hr3).
  set (c := List.last (91 :: params) 0) in *.
  set (f1 := SET_FLAG (Impl.flags (_impl cli)) CLI_FLAG_ESCAPE_MODE) in *.
  destruct (repaint_only_editing _ _ p Hr3 (editing_with_last c f1 cli p He))
    as (He3 & Hf3 & _ & Hh3 & _ & _ & Hm3).
  assert (Hf3' : Impl.flags (_impl cli3) = f1)
    by (rewrite Hf3; clear; destruct cli as [w ws oc pc i tr]; destruct i;
        reflexivity).
  assert (Hh3' : Impl.history (_impl cli3) = Impl.history (_impl cli))
    by (rewrite Hh3; clear; destruct cli as [w ws oc pc i tr]; destruct i;
        reflexivity).
  assert (Hm3' : Impl.cmdMaxSize (_impl cli3) = Impl.cmdMaxSize (_impl cli))
    by (rewrite Hm3; clear; destruct cli as [w ws oc pc i tr]; destruct i;
        reflexivity).
  set (cliU := upd_impl (Impl.set_flags (Impl.flags (_impl cli))) cli3).
  assert (HeU : editing cliU p).
  { revert He3. clear. unfold cliU, editing, cmd_capacity_ok, bindings_ok,
      cmd_holds, upd_impl, set_impl.
    destruct cli3 as [w ws oc pc i tr]. destruct i. exact (fun H => H). }
  assert (HhU : Impl.history (_impl cliU) = Impl.history (_impl cli)).
  { rewrite <- Hh3'. clear. unfold cliU.
    destruct cli3 as [w ws oc pc i tr]. destruct i. reflexivity. }
  assert (HmU : Impl.cmdMaxSize (_impl cliU) = Impl.cmdMaxSize (_impl cli)).
  { rewrite <- Hm3'. clear. unfold cliU.
    destruct cli3 as [w ws oc pc i tr]. destruct i. reflexivity. }
  assert (HfU : Impl.flags (_impl cliU) = Impl.flags (_impl cli)).
  { clear. unfold cliU.
    destruct cli3 as [w ws oc pc i tr]. destruct i. reflexivity. }
  assert (HtrU : EmbeddedCli.trace cliU = EmbeddedCli.trace cli3)
    by reflexivity.
  destruct (navigateHistory_load cliU p items up n s HeU)
    as (cliG & HG & HeG & HfG & HhG & outG & HtG & HoG).
  { rewrite HhU. exact Hr. }
  { rewrite HhU. exact Hcond. }
  { rewrite HhU. exact Hn. }
  { exact Hs. }
  { rewrite HmU. exact Hfit. }
  set (key := if up then 65 else 66) in *.
  assert (Hkey : onEscapedInput cli3 key = Ok cliG).
  { unfold onEscapedInput.
    assert (E1 : (64 <=? key) && (key <=? 126) = true)
      by (unfold key; destruct up; reflexivity).
    assert (E2 : (key =? 65) || (key =? 66) = true)
      by (unfold key; destruct up; reflexivity).
    assert (E3 : (key =? 65) = up) by (unfold key; destruct up; reflexivity).
    rewrite E1, E2, E3.
    assert (EU : upd_impl
                   (fun i => Impl.set_flags
                               (UNSET_U8FLAG (Impl.flags i)
                                             CLI_FLAG_ESCAPE_MODE) i) cli3
                 = cliU).
    { unfold cliU, upd_impl, set_impl. rewrite Hf3', Hunset.
      reflexivity. }
    rewrite EU. exact HG. }
  destruct HeG as (HwG & HcapG & HokG & HcmdG).
  destruct (printLiveAutocompletion_total _ s HwG HcmdG HokG)
    as (cliH & HH).
  pose proof (printLiveAutocompletion_repaint _ _ HH) as RH.
  destruct (repaint_only_editing cliG cliH s RH)
    as (HeH & HfH & _ & HhH & _); [unfold editing; auto|].
  exists (upd_impl (Impl.set_lastChar key) cliH).
  split.
  { change (27 :: 91 :: params ++ [key]) with ([27; 91] ++ params ++ [key]).
    rewrite processBytes_app, H2. cbn [bind].
    rewrite processBytes_app, H3. cbn [bind processBytes].
    unfold processByte. cbv zeta. rewrite Hf3', Hset, Hkey. cbn [bind].
    rewrite HH. reflexivity. }
  split.
  { apply typing_editing. split; [apply editing_lastChar; exact HeH|].
    split.
    - replace (Impl.flags (_impl (upd_impl (Impl.set_lastChar key) cliH)))
        with (Impl.flags (_impl cli)); [exact Hesc|].
      rewrite <- HfU, <- HfG, <- HfH. clear.
      destruct cliH as [w ws oc pc i tr]. destruct i. reflexivity.
    - replace (Impl.lastChar
                 (_impl (upd_impl (Impl.set_lastChar key) cliH)))
        with key
        by (clear; destruct cliH as [w ws oc pc i tr]; destruct i;
            reflexivity).
      unfold key. destruct up; lia. }
  split.
  { rewrite <- HhU, <- HhG, <- HhH. clear.
    destruct cliH as [w ws oc pc i tr]. destruct i. reflexivity. }
  destruct (repaint_only_trace _ _ Hr3) as (o3 & Ht3 & Ho3).
  destruct (repaint_only_trace _ _ RH) as (oH & HtH & HoH).
  exists (o3 ++ outG ++ oH). split.
  - cbn [upd_impl set_impl EmbeddedCli.trace].
    rewrite HtH, HtG, HtrU, Ht3. rewrite <- !app_assoc. reflexivity.
  - repeat (apply Forall_app; split); assumption.
Qed.

(** An escape sequence whose final byte does not move in the history:
    any final byte other than A and B, and A or B when [navigateHistory]
    returns at once. *)
Lemma escape_sequence_quiet (cli : EmbeddedCli.t) (p params : list Z)
      (fin handle : Z) :
  typing cli p -> 0 <= Impl.flags (_impl cli) < 256 ->
  Forall (fun c => c < 64 \/ 126 < c) params ->
  64 <= fin <= 126 ->
  (fin = 65 \/ fin = 66 ->
   (CliHistory.itemsCount (Impl.history (_impl cli)) =? 0)
   || ((fin =? 65) && (CliHistory.current (Impl.history (_impl cli))
                       =? CliHistory.itemsCount (Impl.history (_impl cli))))
   || (negb (fin =? 65)
       && (CliHistory.current (Impl.history (_impl cli)) =? 0))
   = true) ->
  exists cli',
    processBytes cli (27 :: 91 :: params ++ [fin]) handle = Ok cli'
    /\ repaint_only (upd_impl (Impl.set_lastChar fin) cli) cli'.
Proof.
  intros Ht Hfl Hps Hfin Hstay.
  pose proof Ht as (Hw & Hcap & Hok & Hcmd & Hesc & Hlast).
  assert (He : editing cli p) by (unfold editing; auto).
  destruct (escape_sequence_opens cli p handle Ht) as (cli2 & H2 & Hr2).
  destruct (escape_cycle _ Hfl Hesc) as [Hset Hunset].
  destruct (escape_sequence_params cli p _ handle params 91 cli2
              Hw Hcmd Hok Hset Hps Hr2) as (cli3 & H3 & Hr3).
  destruct (repaint_only_editing _ _ p Hr3 (editing_with_last _ _ cli p He))
    as (_ & Hf3 & _ & Hh3 & _).
  assert (Hf3' : Impl.flags (_impl cli3)
                 = SET_FLAG (Impl.flags (_impl cli)) CLI_FLAG_ESCAPE_MODE)
    by (rewrite Hf3; clear; destruct cli as [w ws oc pc i tr]; destruct i;
        reflexivity).
  assert (Hh3' : Impl.history (_impl cli3) = Impl.history (_impl cli))
    by (rewrite Hh3; clear; destruct cli as [w ws oc pc i tr]; destruct i;
        reflexivity).
  destruct (quiet_step cli cli3 p _ _ fin (Impl.flags (_impl cli)) handle
              Hw Hcmd Hok Hr3) as (cli4 & H4 & Hr4).
  { rewrite Hf3', Hset. unfold onEscapedInput.
    destruct (Z.leb_spec 64 fin), (Z.leb_spec fin 126); try lia.
    cbn [andb].
    assert (EU : upd_impl
                   (fun i => Impl.set_flags
                               (UNSET_U8FLAG (Impl.flags i)
                                             CLI_FLAG_ESCAPE_MODE) i) cli3
                 = upd_impl (Impl.set_flags (Impl.flags (_impl cli))) cli3).
    { unfold upd_impl, set_impl. rewrite Hf3', Hunset. reflexivity. }
    rewrite EU.
    destruct ((fin =? 65) || (fin =? 66)) eqn:Ekey; [|reflexivity].
    unfold navigateHistory. cbv zeta.
    assert (Hh : Impl.history
                   (_impl (upd_impl (Impl.set_flags (Impl.flags (_impl cli)))
                                    cli3))
                 = Impl.history (_impl cli)).
    { rewrite <- Hh3'. clear. destruct cli3 as [w ws oc pc i tr].
      destruct i. reflexivity. }
    rewrite Hh. rewrite Hstay; [reflexivity|].
    apply orb_true_iff in Ekey. destruct Ekey as [E|E];
      apply Z.eqb_eq in E; auto. }
  exists cli4. split.
  - change (27 :: 91 :: params ++ [fin]) with ([27; 91] ++ params ++ [fin]).
    rewrite processBytes_app, H2. cbn [bind].
    rewrite processBytes_app, H3. cbn [bind processBytes].
    rewrite H4. reflexivity.
  - assert (E : with_last fin (Impl.flags (_impl cli)) cli
                = upd_impl (Impl.set_lastChar fin) cli).
    { destruct cli as [w ws oc pc i tr]. destruct i. reflexivity. }
    rewrite E in Hr4. exact Hr4.
Qed.

(** X16: an escape sequence other than the two arrows leaves the line
    alone.  While a line is being typed, the bytes ESC, [, any bytes
    outside 64..126, and a final byte in 64..126 other than A and B are
    processed to completion; afterwards the engine differs from the one
    before by its last byte and by repainted output only: command line,
    history, queued input and flags are the same, and no handler or
    command hook has been called. *)
Theorem escape_sequence_leaves_line_alone (cli : EmbeddedCli.t)
        (p params : list Z) (fin handle : Z) :
  typing cli p -> 0 <= Impl.flags (_impl cli) < 256 ->
  Forall (fun c => c < 64 \/ 126 < c) params ->
  64 <= fin <= 126 -> fin <> 65 -> fin <> 66 ->
  exists cli',
    processBytes cli (27 :: 91 :: params ++ [fin]) handle = Ok cli'
    /\ repaint_only (upd_impl (Impl.set_lastChar fin) cli) cli'.
Proof.
  intros Ht Hfl Hps Hfin H65 H66.
  apply (escape_sequence_quiet cli p params fin handle Ht Hfl Hps Hfin).
  intros [E|E]; contradiction.
Qed.

Lemma sample_flags_set :
  0 <= Impl.flags (_impl (with_cmd [115; 101; 116]
                                   sample_cli_with_bindings)) < 256.
Proof. split; [vm_compute; discriminate|vm_compute; reflexivity]. Qed.

Lemma escape_sequence_leaves_line_alone_witness :
  typing (with_cmd [115; 101; 116] sample_cli_with_bindings)
         ([115; 101] ++ [116])
  /\ 0 <= Impl.flags (_impl (with_cmd [115; 101; 116]
                                      sample_cli_with_bindings)) < 256
  /\ Forall (fun c => c < 64 \/ 126 < c) [49; 59; 53]
  /\ 64 <= 67 <= 126 /\ 67 <> 65 /\ 67 <> 66
  /\ exists cli',
      processBytes (with_cmd [115; 101; 116] sample_cli_with_bindings)
                   (27 :: 91 :: [49; 59; 53] ++ [67]) 0 = Ok cli'
      /\ repaint_only
           (upd_impl (Impl.set_lastChar 67)
                     (with_cmd [115; 101; 116] sample_cli_with_bindings))
           cli'.
Proof.
  assert (H3 : Forall (fun c => c < 64 \/ 126 < c) [49; 59; 53])
    by (repeat constructor; lia).
  assert (H4 : 64 <= 67 <= 126) by lia.
  assert (H5 : 67 <> 65) by lia.
  assert (H6 : 67 <> 66) by lia.
  split; [exact sample_typing_set|]. split; [exact sample_flags_set|].
  split; [exact H3|]. split; [exact H4|]. split; [exact H5|].
  split; [exact H6|].
  exact (escape_sequence_leaves_line_alone _ _ [49; 59; 53] 67 0
           sample_typing_set sample_flags_set H3 H4 H5 H6).
Defined.

(** X17: arrow up recalls the next older item of the history.  While a
    line is being typed and the history stands at position [k], with the
    items short enough for the command buffer, the sequence ESC [ A is
    processed to completion.  When item [k] exists (counting from 0, most
    recent first), it becomes the command line and the position becomes
    [k + 1], the items themselves being untouched and nothing but output
    being written; at the oldest item the sequence changes nothing but the
    last byte and the output. *)
Theorem arrow_up_recalls_older_item (cli : EmbeddedCli.t)
        (p params : list Z) (items : list (list Z)) (k : nat)
        (handle : Z) :
  typing cli p -> 0 <= Impl.flags (_impl cli) < 256 ->
  Forall (fun c => c < 64 \/ 126 < c) params ->
  hist_repr (Impl.history (_impl cli)) items ->
  CliHistory.current (Impl.history (_impl cli)) = Z.of_nat k ->
  Forall (fun it => len it < Impl.cmdMaxSize (_impl cli)) items ->
  (forall it,
      items !! k = Some it ->
      exists cli',
        processBytes cli (27 :: 91 :: params ++ [65]) handle = Ok cli'
        /\ typing cli' it
        /\ Impl.history (_impl cli')
           = set_current (Z.of_nat k + 1) (Impl.history (_impl cli))
        /\ exists out,
            EmbeddedCli.trace cli' = EmbeddedCli.trace cli ++ out
            /\ Forall is_write out)
  /\ (k = length items ->
      exists cli',
        processBytes cli (27 :: 91 :: params ++ [65]) handle = Ok cli'
        /\ repaint_only (upd_impl (Impl.set_lastChar 65) cli) cli').
Proof.
  intros Ht Hfl Hps Hr Hcur Hfit. split.
  - intros it Hk.
    pose proof (lookup_lt_Some _ _ _ Hk) as Hlt.
    pose proof Hr as (_ & _ & Hcnt & _).
    apply (arrow_key cli p params items true (Z.of_nat k + 1) it handle
                     Ht Hfl Hps Hr).
    + rewrite Hcur, Hcnt.
      destruct (Z.eqb_spec (Z.of_nat (length items)) 0); [lia|].
      destruct (Z.eqb_spec (Z.of_nat k) (Z.of_nat (length items))); [lia|].
      reflexivity.
    + rewrite Hcur. reflexivity.
    + right. exists k. auto.
    + exact (Forall_lookup_1 _ _ _ _ Hfit Hk).
  - intros ->.
    apply (escape_sequence_quiet cli p params 65 handle Ht Hfl Hps);
      [lia|].
    intros _. destruct Hr as (_ & _ & Hcnt & _).
    rewrite Hcur, Hcnt, !Z.eqb_refl. cbn [negb andb].
    rewrite orb_true_r. reflexivity.
Qed.

(** X18: arrow down recalls the next newer item of the history.  While a
    line is being typed and the history stands at position [k] of its
    items, the sequence ESC [ B is processed to completion.  From
    position 1 the command line becomes empty and the position 0; from
    position [i + 2] item [i] becomes the command line and the position
    [i + 1]; the items are untouched and nothing but output is written.
    At position 0 the sequence changes nothing but the last byte and the
    output: the line that was being typed stays. *)
Theorem arrow_down_recalls_newer_item (cli : EmbeddedCli.t)
        (p params : list Z) (items : list (list Z)) (k : nat)
        (handle : Z) :
  typing cli p -> 0 <= Impl.flags (_impl cli) < 256 ->
  Forall (fun c => c < 64 \/ 126 < c) params ->
  hist_repr (Impl.history (_impl cli)) items ->
  CliHistory.current (Impl.history (_impl cli)) = Z.of_nat k ->
  (k <= length items)%nat ->
  Forall (fun it => len it < Impl.cmdMaxSize (_impl cli)) items ->
  (k = 1%nat ->
   exists cli',
     processBytes cli (27 :: 91 :: params ++ [66]) handle = Ok cli'
     /\ typing cli' []
     /\ Impl.history (_impl cli')
        = set_current 0 (Impl.history (_impl cli))
     /\ exists out,
         EmbeddedCli.trace cli' = EmbeddedCli.trace cli ++ out
         /\ Forall is_write out)
  /\ (forall (i : nat) it,
         k = S (S i) -> items !! i = Some it ->
         exists cli',
           processBytes cli (27 :: 91 :: params ++ [66]) handle = Ok cli'
           /\ typing cli' it
           /\ Impl.history (_impl cli')
              = set_current (Z.of_nat i + 1) (Impl.history (_impl cli))
           /\ exists out,
               EmbeddedCli.trace cli' = EmbeddedCli.trace cli ++ out
               /\ Forall is_write out)
  /\ (k = 0%nat ->
      exists cli',
        processBytes cli (27 :: 91 :: params ++ [66]) handle = Ok cli'
        /\ repaint_only (upd_impl (Impl.set_lastChar 66) cli) cli').
Proof.
  intros Ht Hfl Hps Hr Hcur Hk Hfit.
  pose proof Hr as (_ & _ & Hcnt & _).
  assert (Hmove : (0 < k)%nat ->
            (CliHistory.itemsCount (Impl.history (_impl cli)) =? 0)
            || (false && (CliHistory.current (Impl.history (_impl cli))
                          =? CliHistory.itemsCount
                               (Impl.history (_impl cli))))
            || (negb false
                && (CliHistory.current (Impl.history (_impl cli)) =? 0))
            = false).
  { intros Hpos. rewrite Hcur, Hcnt.
    destruct (Z.eqb_spec (Z.of_nat (length items)) 0); [lia|].
    destruct (Z.eqb_spec (Z.of_nat k) 0); [lia|]. reflexivity. }
  split; [|split].
  - intros ->.
    apply (arrow_key cli p params items false 0 [] handle Ht Hfl Hps Hr).
    + apply Hmove. lia.
    + rewrite Hcur. reflexivity.
    + left. auto.
    + destruct items as [|it items]; [simpl in Hk; lia|].
      inversion Hfit as [|? ? Hit _]; subst.
      pose proof (len_nonneg it). rewrite len_nil. lia.
  - intros i it -> Hi.
    apply (arrow_key cli p params items false (Z.of_nat i + 1) it handle
                     Ht Hfl Hps Hr).
    + apply Hmove. lia.
    + rewrite Hcur. cbn [negb]. lia.
    + right. exists i. auto.
    + exact (Forall_lookup_1 _ _ _ _ Hfit Hi).
  - intros ->.
    apply (escape_sequence_quiet cli p params 66 handle Ht Hfl Hps);
      [lia|].
    intros _. rewrite Hcur. cbn. apply orb_true_r.
Qed.

(** The sample engine with the sample history, standing at [current]. *)
Lemma sample_typing_history (current : Z) :
  typing (upd_impl (Impl.set_history (set_current current sample_history))
                   sample_cli_with_bindings) [].
Proof.
  unfold typing, cmd_capacity_ok, bindings_ok, cmd_holds. simpl.
  split; [reflexivity|].
  split; [split; [lia|unfold len; simpl; lia]|].
  split; [split; [lia|split; [repeat constructor; unfold len; simpl; lia
                             |lia]]|].
  split; [split; [constructor|split; [reflexivity|]]|].
  { exists (replicate 63 0). reflexivity. }
  split; [reflexivity|lia].
Qed.

Lemma sample_history_current (current : Z) :
  hist_repr (set_current current sample_history) [[98]; [97]].
Proof. exact sample_history_repr. Qed.

Lemma arrow_up_recalls_older_item_witness :
  typing (upd_impl (Impl.set_history (set_current 0 sample_history))
                   sample_cli_with_bindings) []
  /\ 0 <= Impl.flags
            (_impl (upd_impl
                      (Impl.set_history (set_current 0 sample_history))
                      sample_cli_with_bindings)) < 256
  /\ Forall (fun c => c < 64 \/ 126 < c) []
  /\ hist_repr (set_current 0 sample_history) [[98]; [97]]
  /\ CliHistory.current (set_current 0 sample_history) = Z.of_nat 0
  /\ Forall (fun it => len it < 64) [[98]; [97]]
  /\ exists cli',
      processBytes (upd_impl
                      (Impl.set_history (set_current 0 sample_history))
                      sample_cli_with_bindings)
                   (27 :: 91 :: [] ++ [65]) 0 = Ok cli'
      /\ typing cli' [98]
      /\ Impl.history (_impl cli') = set_current 1 sample_history.
Proof.
  assert (H2 : 0 <= Impl.flags
                      (_impl (upd_impl
                                (Impl.set_history
                                   (set_current 0 sample_history))
                                sample_cli_with_bindings)) < 256)
    by (split; [vm_compute; discriminate|vm_compute; reflexivity]).
  assert (H3 : Forall (fun c => c < 64 \/ 126 < c) []) by constructor.
  assert (H5 : CliHistory.current (set_current 0 sample_history)
               = Z.of_nat 0) by reflexivity.
  assert (H6 : Forall (fun it => len it < 64) [[98]; [97]])
    by (repeat constructor).
  split; [exact (sample_typing_history 0)|]. split; [exact H2|].
  split; [exact H3|]. split; [exact (sample_history_current 0)|].
  split; [exact H5|]. split; [exact H6|].
  destruct (arrow_up_recalls_older_item _ [] [] [[98]; [97]] 0 0
              (sample_typing_history 0) H2 H3 (sample_history_current 0)
              H5 H6) as [Hup _].
  destruct (Hup [98] eq_refl) as (cli' & Hrun & Ht & Hh & _).
  exists cli'. split; [exact Hrun|]. split; [exact Ht|exact Hh].
Defined.

Lemma arrow_down_recalls_newer_item_witness :
  typing (upd_impl (Impl.set_history (set_current 2 sample_history))
                   sample_cli_with_bindings) []
  /\ 0 <= Impl.flags
            (_impl (upd_impl
                      (Impl.set_history (set_current 2 sample_history))
                      sample_cli_with_bindings)) < 256
  /\ Forall (fun c => c < 64 \/ 126 < c) []
  /\ hist_repr (set_current 2 sample_history) [[98]; [97]]
  /\ CliHistory.current (set_current 2 sample_history) = Z.of_nat 2
  /\ (2 <= length [[98]; [97]])%nat
  /\ Forall (fun it => len it < 64) [[98]; [97]]
  /\ exists cli',
      processBytes (upd_impl
                      (Impl.set_history (set_current 2 sample_history))
                      sample_cli_with_bindings)
                   (27 :: 91 :: [] ++ [66]) 0 = Ok cli'
      /\ typing cli' [98]
      /\ Impl.history (_impl cli') = set_current 1 sample_history.
Proof.
  assert (H2 : 0 <= Impl.flags
                      (_impl (upd_impl
                                (Impl.set_history
                                   (set_current 2 sample_history))
                                sample_cli_with_bindings)) < 256)
    by (split; [vm_compute; discriminate|vm_compute; reflexivity]).
  assert (H3 : Forall (fun c => c < 64 \/ 126 < c) []) by constructor.
  assert (H5 : CliHistory.current (set_current 2 sample_history)
               = Z.of_nat 2) by reflexivity.
  assert (H6 : (2 <= length [[98]; [97]])%nat) by (simpl; lia).
  assert (H7 : Forall (fun it => len it < 64) [[98]; [97]])
    by (repeat constructor).
  split; [exact (sample_typing_history 2)|]. split; [exact H2|].
  split; [exact H3|]. split; [exact (sample_history_current 2)|].
  split; [exact H5|]. split; [exact H6|]. split; [exact H7|].
  destruct (arrow_down_recalls_newer_item _ [] [] [[98]; [97]] 2 0
              (sample_typing_history 2) H2 H3 (sample_history_current 2)
              H5 H6 H7) as (_ & Hdown & _).
  destruct (Hdown 0%nat [98] eq_refl eq_refl)
    as (cli' & Hrun & Ht & Hh & _).
  exists cli'. split; [exact Hrun|]. split; [exact Ht|exact Hh].
Defined.
(** * Completion with the TAB key *)

Lemma candidate_flag_cleared (f : Z) :
  Z.land (UNSET_U8FLAG f BINDING_FLAG_AUTOCOMPLETE) BINDING_FLAG_AUTOCOMPLETE
  = 0.
Proof.
  unfold UNSET_U8FLAG, BINDING_FLAG_AUTOCOMPLETE.
  change (u8 (Z.lnot 1)) with 254.
  rewrite <- Z.land_assoc. change (Z.land 254 1) with 0.
  apply Z.land_0_r.
Qed.

Lemma candidate_flag_set (f : Z) :
  Z.land (u8 (Z.lor f BINDING_FLAG_AUTOCOMPLETE)) BINDING_FLAG_AUTOCOMPLETE
  <> 0.
Proof.
  unfold u8, BINDING_FLAG_AUTOCOMPLETE.
  change 256 with (2 ^ 8). rewrite <- Z.land_ones by lia.
  rewrite <- Z.land_assoc. change (Z.land (Z.ones 8) 1) with 1.
  rewrite Z.land_lor_distr_l. change (Z.land 1 1) with 1.
  intros E. apply Z.lor_eq_0_iff in E. lia.
Qed.

(** The candidate flags after the scan: the flag of a binding is set when
    its name starts with the prefix, and clear otherwise; the flags before
    the scanned bindings are untouched. *)
Lemma getAutocompletedCommand_loop_marks (p rest : list Z)
      (bs : list CliCommandBinding.t) :
  forall (i : nat) (cmdSize : Z) (flags : list Z)
         (cmd cmd' : AutocompletedCommand.t) (flags' : list Z),
    getAutocompletedCommand_loop bs (Z.of_nat i) (p ++ 0 :: rest) (len p)
                                 cmdSize flags cmd = Ok (cmd', flags') ->
    (forall j : nat, (j < i)%nat -> flags' !! j = flags !! j)
    /\ (forall (j : nat) (b : CliCommandBinding.t),
           bs !! j = Some b ->
           exists v,
             flags' !! (i + j)%nat = Some v
             /\ (Z.land v BINDING_FLAG_AUTOCOMPLETE =? 0)
                = negb (bool_decide
                          (take (length p) (CliCommandBinding.name b) = p))).
Proof.
  induction bs as [|b bs IH];
    intros i cmdSize flags cmd cmd' flags' H.
  - cbn in H. injection H as _ <-. split; [reflexivity|].
    intros j b Hj. rewrite lookup_nil in Hj. discriminate.
  - cbn [getAutocompletedCommand_loop] in H.
    set (name := CliCommandBinding.name b) in *.
    apply bind_Ok in H as (f & Hld & H).
    apply bind_Ok in H as (flags1 & Hst & H).
    apply store_Ok in Hst as [Hi ->].
    rewrite Nat2Z.id in H.
    assert (Hil : (i < length flags)%nat) by (unfold len in Hi; lia).
    replace (Z.of_nat i + 1) with (Z.of_nat (S i)) in H by lia.
    (* what remains to be shown once the flag of [b] is known *)
    assert (Hgoal : forall (v : Z) (flags2 : list Z) cs2 cmd2,
               getAutocompletedCommand_loop bs (Z.of_nat (S i))
                 (p ++ 0 :: rest) (len p) cs2 flags2 cmd2
               = Ok (cmd', flags') ->
               flags2 !! i = Some v ->
               (forall j : nat, (j < i)%nat -> flags2 !! j = flags !! j) ->
               (Z.land v BINDING_FLAG_AUTOCOMPLETE =? 0)
               = negb (bool_decide (take (length p) name = p)) ->
               (forall j : nat, (j < i)%nat -> flags' !! j = flags !! j)
               /\ (forall (j : nat) (b0 : CliCommandBinding.t),
                      (b :: bs) !! j = Some b0 ->
                      exists v0,
                        flags' !! (i + j)%nat = Some v0
                        /\ (Z.land v0 BINDING_FLAG_AUTOCOMPLETE =? 0)
                           = negb (bool_decide
                                     (take (length p)
                                           (CliCommandBinding.name b0)
                                      = p)))).
    { intros v flags2 cs2 cmd2 Hrun Hv Hold Hbit.
      destruct (IH (S i) cs2 flags2 cmd2 cmd' flags' Hrun) as [Hlow Hhigh].
      split.
      - intros j Hj. rewrite Hlow by lia. apply Hold. exact Hj.
      - intros [|j] b0 Hj.
        + injection Hj as <-. exists v. rewrite Nat.add_0_r.
          rewrite Hlow by lia. auto.
        + replace (i + S j)%nat with (S i + j)%nat by lia.
          apply Hhigh. exact Hj. }
    assert (Hno : forall v, take (length p) name <> p ->
               (Z.land (UNSET_U8FLAG v BINDING_FLAG_AUTOCOMPLETE)
                       BINDING_FLAG_AUTOCOMPLETE =? 0)
               = negb (bool_decide (take (length p) name = p))).
    { intros v Hne. rewrite candidate_flag_cleared.
      rewrite bool_decide_eq_false_2 by exact Hne. reflexivity. }
    assert (Hold1 : forall j : nat, (j < i)%nat ->
               <[i := UNSET_U8FLAG f BINDING_FLAG_AUTOCOMPLETE]> flags !! j
               = flags !! j).
    { intros j Hj. apply list_lookup_insert_ne. lia. }
    assert (Hat1 : <[i := UNSET_U8FLAG f BINDING_FLAG_AUTOCOMPLETE]> flags
                   !! i
                   = Some (UNSET_U8FLAG f BINDING_FLAG_AUTOCOMPLETE)).
    { apply list_lookup_insert_eq. exact Hil. }
    destruct (Z.ltb_spec (len name) (len p)) as [Hshort|Hlong].
    { apply (Hgoal _ _ _ _ H Hat1 Hold1). apply Hno.
      intros E. apply (f_equal length) in E. rewrite length_take in E.
      unfold len in *. lia. }
    apply bind_Ok in H as (isC & HisC & H).
    replace (Z.to_nat (len p)) with (length p) in HisC
      by (unfold len; lia).
    pose proof (isCandidate_loop_spec p rest name (length p) 0%nat
                  ltac:(lia) ltac:(unfold len in *; lia) eq_refl) as Hc.
    change (Z.of_nat 0) with 0 in Hc. rewrite Hc in HisC.
    injection HisC as <-.
    destruct (decide (take (length p) name = p)) as [Hyes|Hnot].
    2:{ rewrite bool_decide_eq_false_2 in H by exact Hnot.
        cbn [negb] in H.
        apply (Hgoal _ _ _ _ H Hat1 Hold1). apply Hno. exact Hnot. }
    rewrite bool_decide_eq_true_2 in H by exact Hyes. cbn [negb] in H.
    apply bind_Ok in H as (f1 & Hld1 & H).
    apply bind_Ok in H as (flags2 & Hst2 & H).
    apply store_Ok in Hst2 as [Hi2 ->].
    rewrite Nat2Z.id in H.
    replace (Z.of_nat i + 1) with (Z.of_nat (S i)) in H by lia.
    assert (Hat2 : <[i := u8 (Z.lor f1 BINDING_FLAG_AUTOCOMPLETE)]>
                     (<[i := UNSET_U8FLAG f BINDING_FLAG_AUTOCOMPLETE]>
                        flags) !! i
                   = Some (u8 (Z.lor f1 BINDING_FLAG_AUTOCOMPLETE))).
    { apply list_lookup_insert_eq. rewrite length_insert. exact Hil. }
    assert (Hold2 : forall j : nat, (j < i)%nat ->
               <[i := u8 (Z.lor f1 BINDING_FLAG_AUTOCOMPLETE)]>
                 (<[i := UNSET_U8FLAG f BINDING_FLAG_AUTOCOMPLETE]> flags)
               !! j = flags !! j).
    { intros j Hj. rewrite list_lookup_insert_ne by lia.
      apply Hold1. exact Hj. }
    assert (Hbit : (Z.land (u8 (Z.lor f1 BINDING_FLAG_AUTOCOMPLETE))
                           BINDING_FLAG_AUTOCOMPLETE =? 0)
                   = negb (bool_decide (take (length p) name = p))).
    { rewrite bool_decide_eq_true_2 by exact Hyes.
      apply Z.eqb_neq. apply candidate_flag_set. }
    destruct (u16 (candidateCount cmd + 1) =? 1).
    + apply (Hgoal _ _ _ _ H Hat2 Hold2 Hbit).
    + apply bind_Ok in H as (aLen & _ & H).
      apply (Hgoal _ _ _ _ H Hat2 Hold2 Hbit).
Qed.

Lemma written_with_events (out : list event) (cli : EmbeddedCli.t)
      (s : list Z) :
  written (with_events out cli) s = written cli s.
Proof. reflexivity. Qed.

Lemma printCandidates_run (p : list Z) (bs : list CliCommandBinding.t) :
  forall (i : nat) (flags : list Z) (cli : EmbeddedCli.t),
    EmbeddedCli.writeChar cli = true ->
    (forall (j : nat) (b : CliCommandBinding.t),
        bs !! j = Some b ->
        exists v,
          flags !! (i + j)%nat = Some v
          /\ (Z.land v BINDING_FLAG_AUTOCOMPLETE =? 0)
             = negb (bool_decide
                       (take (length p) (CliCommandBinding.name b) = p))) ->
    printCandidates bs (Z.of_nat i) flags cli
    = Ok (with_events (candidate_lines cli (candidates p bs)) cli).
Proof.
  induction bs as [|b bs IH]; intros i flags cli Hw Hfl.
  - cbn. rewrite with_events_nil. reflexivity.
  - cbn [printCandidates].
    destruct (Hfl 0%nat b eq_refl) as (v & Hv & Hbit).
    rewrite Nat.add_0_r in Hv.
    rewrite (load_Some flags i v Hv). cbn [bind]. rewrite Hbit.
    replace (Z.of_nat i + 1) with (Z.of_nat (S i)) by lia.
    assert (Hfl' : forall (j : nat) (b0 : CliCommandBinding.t),
               bs !! j = Some b0 ->
               exists v0,
                 flags !! (S i + j)%nat = Some v0
                 /\ (Z.land v0 BINDING_FLAG_AUTOCOMPLETE =? 0)
                    = negb (bool_decide
                              (take (length p) (CliCommandBinding.name b0)
                               = p))).
    { intros j b0 Hj. replace (S i + j)%nat with (i + S j)%nat by lia.
      apply Hfl. exact Hj. }
    unfold candidates. cbn [map].
    destruct (decide (take (length p) (CliCommandBinding.name b) = p))
      as [Hyes|Hno].
    + rewrite bool_decide_eq_true_2 by exact Hyes. cbn [negb].
      rewrite filter_cons_True by exact Hyes.
      rewrite writeToOutput_events by exact Hw. cbn [bind].
      rewrite writeToOutput_events by exact Hw. cbn [bind].
      rewrite IH by (try exact Hfl'; exact Hw).
      rewrite !with_events_app. unfold candidate_lines. cbn [flat_map].
      rewrite !written_with_events. rewrite <- !app_assoc.
      reflexivity.
    + rewrite bool_decide_eq_false_2 by exact Hno. cbn [negb].
      rewrite filter_cons_False by exact Hno.
      apply IH; [exact Hw|exact Hfl'].
Qed.

Lemma getAutocompletedCommand_marks (impl : Impl.t) (p : list Z)
      (cmd : AutocompletedCommand.t) (impl' : Impl.t) :
  cmd_holds impl p -> p <> [] ->
  getAutocompletedCommand impl (Impl.cmdBuffer impl) = Ok (cmd, impl') ->
  forall (j : nat) (b : CliCommandBinding.t),
    Impl.bindings impl !! j = Some b ->
    exists v,
      Impl.bindingsFlags impl' !! (0 + j)%nat = Some v
      /\ (Z.land v BINDING_FLAG_AUTOCOMPLETE =? 0)
         = negb (bool_decide
                   (take (length p) (CliCommandBinding.name b) = p)).
Proof.
  intros (Hp & Hsize & rest & Hbuf) Hne Hrun j b Hj.
  unfold getAutocompletedCommand in Hrun. rewrite Hbuf in Hrun.
  pose proof (strlen_string [] p rest Hp) as Hs. simpl in Hs.
  rewrite len_nil in Hs. rewrite Hs in Hrun. cbn [bind] in Hrun.
  destruct (Z.eqb_spec (Impl.bindingsCount impl) 0) as [Hb0|Hb0].
  { unfold Impl.bindingsCount in Hb0.
    destruct (Impl.bindings impl); [|simpl in Hb0; lia].
    rewrite lookup_nil in Hj. discriminate. }
  destruct (Z.eqb_spec (len p) 0) as [Hp0|Hp0].
  { destruct p; [contradiction|]. rewrite len_cons in Hp0.
    pose proof (len_nonneg p). lia. }
  cbn [orb] in Hrun.
  apply bind_Ok in Hrun as ([cmd1 fl1] & Hloop & Hrun).
  injection Hrun as <- <-. cbn [snd Impl.set_bindingsFlags Impl.bindingsFlags].
  change 0 with (Z.of_nat 0) in Hloop.
  destruct (getAutocompletedCommand_loop_marks p rest _ _ _ _ _ _ _ Hloop)
    as [_ Hmarks].
  apply Hmarks. exact Hj.
Qed.

Lemma insert_after (q m : list Z) (x : Z) :
  (length q < length m)%nat ->
  <[length q := x]> (q ++ drop (length q) m)
  = (q ++ [x]) ++ drop (S (length q)) m.
Proof.
  intros Hl.
  destruct (drop (length q) m) as [|y rest] eqn:E.
  { apply (f_equal length) in E. rewrite length_drop in E. simpl in E. lia. }
  replace (length q) with (length q + 0)%nat at 1 by lia.
  rewrite insert_app_r. cbn [insert list_insert].
  rewrite <- app_assoc. cbn [app]. f_equal. f_equal.
  rewrite <- (Nat.add_1_r (length q)), <- drop_drop, E. reflexivity.
Qed.

Lemma candidates_names (p c : list Z) (impl : Impl.t) :
  names_ok impl -> c ∈ candidates p (Impl.bindings impl) ->
  Forall (fun x => x <> 0) c.
Proof.
  unfold names_ok, candidates. intros Hn Hc.
  apply list_elem_of_filter in Hc as [_ Hc].
  apply list_elem_of_fmap in Hc as (b & -> & Hb).
  rewrite Forall_forall in Hn. apply Hn. exact Hb.
Qed.

Lemma cstr_tail (p t rest : list Z) :
  Forall (fun x => x <> 0) (p ++ t) ->
  cstr ((p ++ t) ++ 0 :: rest) (len p) = Ok (drop (length p) (p ++ t)).
Proof.
  intros H. rewrite <- app_assoc, drop_app_length. apply cstr_string.
  apply Forall_app in H as [_ H]. exact H.
Qed.

(** [onAutocompleteRequest] with no candidate: only the candidate flags
    may change. *)
Lemma onAutocompleteRequest_none (cli : EmbeddedCli.t) (p : list Z) :
  editing cli p ->
  p = [] \/ candidates p (Impl.bindings (_impl cli)) = [] ->
  exists cli', onAutocompleteRequest cli = Ok cli' /\ repaint_only cli cli'.
Proof.
  intros (Hw & Hcap & Hok & Hcmd) Hnone.
  destruct (getAutocompletedCommand_spec (_impl cli) p Hcmd Hok)
    as (cmd & fl & Hrun & H0 & Hinv).
  pose proof (getAutocompletedCommand_flags _ _ _ _ Hrun) as [_ Hl].
  assert (Hcount : candidateCount cmd = 0).
  { destruct (decide (p = [])) as [E|E]; [exact (H0 E)|].
    destruct Hnone as [?|Hc]; [contradiction|].
    destruct (Hinv E) as [Hcnt _]. rewrite Hc in Hcnt. exact Hcnt. }
  unfold onAutocompleteRequest. rewrite Hrun. cbn [bind].
  rewrite Hcount. cbn. eexists. split; [reflexivity|].
  apply repaint_only_bindingsFlags. exact Hl.
Qed.

(** [onAutocompleteRequest] with candidates. *)
Lemma onAutocompleteRequest_some (cli : EmbeddedCli.t) (p f : list Z)
      (cs : list (list Z)) :
  editing cli p -> names_ok (_impl cli) -> p <> [] ->
  candidates p (Impl.bindings (_impl cli)) = f :: cs ->
  Forall (fun c => len c + 2 <= Impl.cmdMaxSize (_impl cli)) (f :: cs) ->
  exists (a : nat) (cli' : EmbeddedCli.t),
    onAutocompleteRequest cli = Ok cli'
    /\ (length p <= a)%nat
    /\ common_prefix_len a f (f :: cs)
    /\ prefix_len_maximal a f (f :: cs)
    /\ editing cli' (completed f cs a)
    /\ Impl.flags (_impl cli') = Impl.flags (_impl cli)
    /\ Impl.history (_impl cli') = Impl.history (_impl cli)
    /\ EmbeddedCli.trace cli'
       = EmbeddedCli.trace cli
         ++ (if decide (cs = [] \/ (length p < a)%nat)
             then written cli (drop (length p) (completed f cs a))
             else line_cleared cli ++ candidate_lines cli (f :: cs)
                  ++ written cli (Impl.invitation (_impl cli))
                  ++ written cli p).
Proof.
  intros He Hnames Hne Hcands Hfit.
  pose proof He as (Hw & [Hmax Hlen] & Hok & Hcmd).
  pose proof Hcmd as (Hp0 & Hsz & rest & Hbuf).
  destruct (getAutocompletedCommand_spec (_impl cli) p Hcmd Hok)
    as (cmd & fl & Hrun & _ & Hinv).
  pose proof (getAutocompletedCommand_flags _ _ _ _ Hrun) as [_ Hl].
  pose proof (getAutocompletedCommand_marks _ _ _ _ Hcmd Hne Hrun)
    as Hmarks.
  destruct (Hinv Hne) as [Hcount Hshape]. rewrite Hcands in Hcount, Hshape.
  destruct Hshape as (Hfirst & a & Ha & Hpa & Hcommon & Hmaxi).
  assert (Hfin : f ∈ f :: cs) by (apply elem_of_cons; auto).
  destruct (Hcommon f Hfin) as [Haf _].
  assert (Hfc : f ∈ candidates p (Impl.bindings (_impl cli)))
    by (rewrite Hcands; exact Hfin).
  destruct (candidates_prefix p f _ Hfc) as [Hfp Hpf].
  pose proof (candidates_names p f _ Hnames Hfc) as Hf0.
  inversion Hfit as [|? ? Hffit _]; subst.
  exists a.
  set (impl' := Impl.set_bindingsFlags fl (_impl cli)) in *.
  assert (Hbuf' : Impl.cmdBuffer impl' = Impl.cmdBuffer (_impl cli))
    by (unfold impl'; destruct (_impl cli); reflexivity).
  assert (Hsz' : Impl.cmdSize impl' = len p)
    by (rewrite <- Hsz; unfold impl'; destruct (_impl cli); reflexivity).
  assert (Hcli1 : repaint_only cli (set_impl impl' cli))
    by (apply repaint_only_bindingsFlags; exact Hl).
  destruct (repaint_only_editing _ _ p Hcli1 He)
    as (He1 & Hf1 & _ & Hh1 & Hinv1 & _ & Hm1).
  unfold onAutocompleteRequest. rewrite Hrun. cbn [bind]. cbv zeta.
  rewrite Hcount, Hfirst, Ha, Hsz', Hbuf'.
  destruct (Z.eqb_spec (Z.of_nat (length (f :: cs))) 0) as [E|_];
    [simpl in E; lia|].
  set (m := Impl.cmdBuffer (_impl cli)) in *.
  assert (Hlm : (length f + 2 <= length m)%nat) by (unfold len in *; lia).
  assert (Htake : take (Z.to_nat (Z.of_nat a)) (f ++ [0]) = take a f).
  { rewrite Nat2Z.id. apply take_app_le. exact Haf. }
  assert (Hcopy : memcpy m 0 (take a f) = Ok (take a f ++ drop a m)).
  { rewrite memcpy_in_range; [|lia|len_lia].
    cbn [Z.to_nat take app]. rewrite Z.add_0_l. unfold len.
    rewrite Nat2Z.id, length_take.
    replace (a `min` length f)%nat with a by lia. reflexivity. }
  assert (Hla : length (take a f) = a) by (rewrite length_take; lia).
  assert (Htail : exists t, take a f = p ++ t).
  { exists (drop (length p) (take a f)).
    rewrite <- (take_drop (length p) (take a f)) at 1.
    f_equal. rewrite take_take. replace (length p `min` a)%nat
      with (length p) by lia. exact Hfp. }
  destruct cs as [|c2 cs'].
  - (* the only candidate: its name and a space *)
    assert (Haf' : a = length f).
    { destruct Hmaxi as (c & Hc & Hw').
      apply list_elem_of_singleton in Hc. subst c.
      destruct Hw' as [Hw'|Hw']; [auto|]. contradiction. }
    subst a. rewrite firstn_all in *.
    change (Z.of_nat (length [f])) with 1. cbn [Z.eqb orb Pos.eqb].
    destruct (Z.leb_spec (Z.of_nat (length f)) (len f + 1));
      [|unfold len in *; lia].
    rewrite Htake, Hcopy. cbn [bind].
    rewrite store_in_range by len_lia. cbn [bind].
    rewrite Nat2Z.id, insert_after by lia.
    rewrite u16_small by (unfold len in *; lia).
    rewrite store_in_range by len_lia. cbn [bind].
    replace (Z.to_nat (Z.of_nat (length f) + 1)) with (length (f ++ [32]))
      by (rewrite length_app; simpl; lia).
    replace (S (length f)) with (length (f ++ [32]))
      by (rewrite length_app; simpl; lia).
    rewrite insert_after by (rewrite length_app; simpl; lia).
    rewrite <- (app_assoc (f ++ [32]) [0]). cbn [app].
    set (rest' := drop (S (length (f ++ [32]))) m).
    destruct Htail as (t & Ht).
    assert (Hq0 : Forall (fun x => x <> 0) (f ++ [32]))
      by (apply Forall_app; split; [exact Hf0|repeat constructor; lia]).
    assert (Hcs : cstr ((f ++ [32]) ++ 0 :: rest') (len p)
                  = Ok (drop (length p) (f ++ [32]))).
    { assert (E : f ++ [32] = p ++ (t ++ [32]))
        by (rewrite Ht at 1; rewrite <- app_assoc; reflexivity).
      rewrite E. apply cstr_tail. rewrite <- E. exact Hq0. }
    unfold writeToOutput_at. rewrite Hcs. cbn [bind].
    rewrite writeToOutput_events by exact Hw. cbn [bind].
    eexists. split; [reflexivity|].
    split; [lia|]. split; [exact Hcommon|]. split; [exact Hmaxi|].
    unfold completed.
    split.
    { destruct He1 as (Hw1 & [Hmax1 Hlen1] & Hok1 & _).
      unfold editing, cmd_capacity_ok, bindings_ok, cmd_holds.
      cbn [upd_impl set_impl _impl with_events EmbeddedCli.writeChar].
      unfold impl' in *. destruct (_impl cli) eqn:Ei. cbn in *.
      split; [exact Hw|]. split; [split; [lia|]|].
      { unfold rest'. len_lia. }
      split; [exact Hok1|]. split; [exact Hq0|].
      split; [len_lia|]. eauto. }
    split.
    { cbn. unfold impl'. destruct (_impl cli). reflexivity. }
    split.
    { cbn. unfold impl'. destruct (_impl cli). reflexivity. }
    rewrite decide_True by (left; reflexivity).
    reflexivity.
  - (* several candidates *)
    assert (Hcnt2 : (Z.of_nat (length (f :: c2 :: cs')) =? 1) = false).
    { apply Z.eqb_neq. simpl. lia. }
    rewrite Hcnt2. cbn [orb].
    destruct (Z.ltb_spec (len p) (Z.of_nat a)) as [Hprog|Hstay].
    + (* the line grows to the common prefix *)
      destruct (Z.leb_spec (Z.of_nat a) (len f + 1));
        [|unfold len in *; lia].
      rewrite Htake, Hcopy. cbn [bind].
      rewrite store_in_range by len_lia. cbn [bind].
      rewrite Nat2Z.id.
      assert (Hins : <[a := 0]> (take a f ++ drop a m)
                     = take a f ++ 0 :: drop (S a) m).
      { pose proof (insert_after (take a f) m 0) as Hi.
        rewrite Hla in Hi. rewrite Hi by lia.
        rewrite <- app_assoc. reflexivity. }
      rewrite Hins.
      set (rest' := drop (S a) m).
      destruct Htail as (t & Ht).
      assert (Hq0 : Forall (fun x => x <> 0) (take a f))
        by (apply Forall_take; exact Hf0).
      assert (Hcs : cstr (take a f ++ 0 :: rest') (len p)
                    = Ok (drop (length p) (take a f))).
      { rewrite Ht. apply cstr_tail. rewrite <- Ht. exact Hq0. }
      unfold writeToOutput_at. rewrite Hcs. cbn [bind].
      rewrite writeToOutput_events by exact Hw. cbn [bind].
      eexists. split; [reflexivity|].
      split; [lia|]. split; [exact Hcommon|]. split; [exact Hmaxi|].
      unfold completed.
      split.
      { destruct He1 as (Hw1 & [Hmax1 Hlen1] & Hok1 & _).
        unfold editing, cmd_capacity_ok, bindings_ok, cmd_holds.
        cbn [upd_impl set_impl _impl with_events EmbeddedCli.writeChar].
        unfold impl' in *. destruct (_impl cli) eqn:Ei. cbn in *.
        split; [exact Hw|]. split; [split; [lia|]|].
        { unfold rest'. len_lia. }
        split; [exact Hok1|]. split; [exact Hq0|].
        split; [len_lia|]. eauto. }
      split.
      { cbn. unfold impl'. destruct (_impl cli). reflexivity. }
      split.
      { cbn. unfold impl'. destruct (_impl cli). reflexivity. }
      rewrite decide_True by (right; unfold len in *; lia).
      reflexivity.
    + (* no progress: the candidates are listed *)
      assert (Hap : a = length p) by (unfold len in *; lia).
      unfold clearCurrentLine. cbv zeta.
      rewrite writeChar_total by exact Hw. cbn [bind].
      rewrite writeChars_events by exact Hw. cbn [bind].
      rewrite writeChar_total by exact Hw. cbn [bind].
      change 0 with (Z.of_nat 0) at 1.
      rewrite (printCandidates_run p) by (try exact Hmarks; exact Hw).
      cbn [bind].
      rewrite writeToOutput_events by exact Hw. cbn [bind].
      unfold writeToOutput_at.
      assert (Hcs : cstr m 0 = Ok p) by (apply cmd_holds_cstr; exact Hcmd).
      rewrite Hcs. cbn [bind].
      rewrite writeToOutput_events by exact Hw. cbn [bind].
      eexists. split; [reflexivity|].
      split; [lia|]. split; [exact Hcommon|]. split; [exact Hmaxi|].
      unfold completed. subst a.
      assert (Hq : take (length p) f = p) by exact Hfp.
      rewrite Hq.
      split.
      { destruct He1 as (Hw1 & [Hmax1 Hlen1] & Hok1 & Hcmd1).
        unfold editing, cmd_capacity_ok, bindings_ok, cmd_holds in *.
        cbn [upd_impl set_impl _impl with_events emit
             EmbeddedCli.writeChar] in *.
        unfold impl' in *. destruct (_impl cli) eqn:Ei. cbn in *.
        auto 10. }
      split.
      { cbn. unfold impl'. destruct (_impl cli). reflexivity. }
      split.
      { cbn. unfold impl'. destruct (_impl cli). reflexivity. }
      rewrite decide_False by (intros [?|?]; [discriminate|lia]).
      cbn [upd_impl set_impl with_events emit EmbeddedCli.trace _impl].
      unfold line_cleared, impl'.
      destruct (_impl cli) eqn:Ei.
      cbn [Impl.bindings Impl.set_bindingsFlags Impl.inputLineLength
           Impl.invitation] in *.
      rewrite Hcands. rewrite <- !app_assoc. reflexivity.
Qed.

Lemma processByte_tab (cli : EmbeddedCli.t) (p : list Z) (handle : Z) :
  typing cli p ->
  processByte cli 9 handle
  = (cli1 <- onAutocompleteRequest cli ;;
     cli2 <- printLiveAutocompletion cli1 ;;
     Ok (upd_impl (Impl.set_lastChar 9) cli2)).
Proof.
  intros (_ & _ & _ & _ & Hesc & Hlast).
  rewrite processByte_control by (try assumption; reflexivity).
  unfold onControlInput. cbv zeta.
  change (9 =? 10) with false. change (9 =? 13) with false.
  rewrite !andb_false_r. reflexivity.
Qed.

(** The end of a turn of the processing loop for a byte that left the
    line [q] in the command buffer. *)
Lemma processByte_close (cli0 cli1 : EmbeddedCli.t) (q : list Z) (c : Z)
      (out1 : list event) :
  editing cli1 q -> c <> 27 ->
  IS_FLAG_SET (Impl.flags (_impl cli1)) CLI_FLAG_ESCAPE_MODE = false ->
  Impl.history (_impl cli1) = Impl.history (_impl cli0) ->
  EmbeddedCli.trace cli1 = EmbeddedCli.trace cli0 ++ out1 ->
  exists cli2,
    printLiveAutocompletion cli1 = Ok cli2
    /\ typing (upd_impl (Impl.set_lastChar c) cli2) q
    /\ Impl.history (_impl (upd_impl (Impl.set_lastChar c) cli2))
       = Impl.history (_impl cli0)
    /\ exists out,
        EmbeddedCli.trace (upd_impl (Impl.set_lastChar c) cli2)
        = EmbeddedCli.trace cli0 ++ out1 ++ out
        /\ Forall is_write out.
Proof.
  intros He Hc Hesc Hh Htr.
  pose proof He as (Hw & _ & Hok & Hcmd).
  destruct (printLiveAutocompletion_total _ q Hw Hcmd Hok) as (cli2 & H2).
  pose proof (printLiveAutocompletion_repaint _ _ H2) as R.
  destruct (repaint_only_editing _ _ q R He) as (He2 & Hf2 & _ & Hh2 & _).
  destruct (repaint_only_trace _ _ R) as (out & Ht2 & Ho).
  exists cli2. split; [exact H2|].
  split.
  { apply typing_editing. split; [apply editing_lastChar; exact He2|].
    split.
    - change (IS_FLAG_SET (Impl.flags (_impl cli2)) CLI_FLAG_ESCAPE_MODE
              = false).
      rewrite Hf2. exact Hesc.
    - exact Hc. }
  split.
  { change (Impl.history (_impl cli2) = Impl.history (_impl cli0)).
    rewrite Hh2. exact Hh. }
  exists out. split; [|exact Ho].
  cbn [upd_impl set_impl EmbeddedCli.trace]. rewrite Ht2, Htr.
  rewrite <- app_assoc. reflexivity.
Qed.

(** X19: TAB completes the only candidate.  While the non-empty line [p]
    is being typed and exactly one binding has a name [f] that starts with
    [p], with [|f| + 2] bytes fitting into the command buffer, the TAB byte
    is processed to completion: the command line becomes [f] followed by a
    space, the bytes after [p] are what is written first, the history is
    untouched and no handler or hook is called. *)
Theorem tab_completes_only_candidate (cli : EmbeddedCli.t)
        (p f : list Z) (handle : Z) :
  typing cli p -> names_ok (_impl cli) -> p <> [] ->
  candidates p (Impl.bindings (_impl cli)) = [f] ->
  len f + 2 <= Impl.cmdMaxSize (_impl cli) ->
  exists cli',
    processByte cli 9 handle = Ok cli'
    /\ typing cli' (f ++ [32])
    /\ Impl.history (_impl cli') = Impl.history (_impl cli)
    /\ exists out,
        EmbeddedCli.trace cli'
        = EmbeddedCli.trace cli
          ++ written cli (drop (length p) f ++ [32]) ++ out
        /\ Forall is_write out.
Proof.
  intros Ht Hnames Hne Hcands Hfit.
  pose proof (proj1 (typing_editing cli p) Ht) as (He & Hesc & _).
  assert (Hfits : Forall (fun c => len c + 2 <= Impl.cmdMaxSize (_impl cli))
                         [f]) by (repeat constructor; exact Hfit).
  destruct (onAutocompleteRequest_some cli p f [] He Hnames Hne Hcands Hfits)
    as (a & cli1 & H1 & Hpa & _ & _ & He1 & Hf1 & Hh1 & Htr1).
  rewrite decide_True in Htr1 by (left; reflexivity).
  unfold completed in *.
  assert (Hpf : (length p <= length f)%nat).
  { apply (candidates_prefix p f (Impl.bindings (_impl cli))).
    rewrite Hcands. apply elem_of_cons. auto. }
  rewrite drop_app_le in Htr1 by exact Hpf.
  edestruct (processByte_close cli cli1 (f ++ [32]) 9)
    as (cli2 & H2 & Ht2 & Hh2 & Hout);
    [exact He1|lia|rewrite Hf1; exact Hesc|exact Hh1|exact Htr1|].
  rewrite (processByte_tab cli p handle Ht), H1. cbn [bind].
  rewrite H2. cbn [bind]. eexists. split; [reflexivity|].
  split; [exact Ht2|]. split; [exact Hh2|exact Hout].
Qed.

(** X20: TAB with several candidates.  While the non-empty line [p] is
    being typed and at least two bindings have names that start with [p],
    all fitting into the command buffer, the TAB byte is processed to
    completion and the command line becomes the longest common prefix of
    the candidates: the first [a] bytes of the first candidate [f], where
    every candidate starts with them and one candidate ends or differs
    there.  When this makes the line longer, the added bytes are what is
    written first; when it does not, the line is cleared and every
    candidate is listed on a line of its own, in the order of
    registration, before the invitation and the line are written again.
    The history is untouched and no handler or hook is called. *)
Theorem tab_extends_to_common_prefix (cli : EmbeddedCli.t)
        (p f c2 : list Z) (cs : list (list Z)) (handle : Z) :
  typing cli p -> names_ok (_impl cli) -> p <> [] ->
  candidates p (Impl.bindings (_impl cli)) = f :: c2 :: cs ->
  Forall (fun c => len c + 2 <= Impl.cmdMaxSize (_impl cli))
         (f :: c2 :: cs) ->
  exists (a : nat) (cli' : EmbeddedCli.t),
    processByte cli 9 handle = Ok cli'
    /\ (length p <= a)%nat
    /\ common_prefix_len a f (f :: c2 :: cs)
    /\ prefix_len_maximal a f (f :: c2 :: cs)
    /\ typing cli' (take a f)
    /\ Impl.history (_impl cli') = Impl.history (_impl cli)
    /\ exists out,
        EmbeddedCli.trace cli'
        = EmbeddedCli.trace cli
          ++ (if decide (length p < a)%nat
              then written cli (drop (length p) (take a f))
              else line_cleared cli ++ candidate_lines cli (f :: c2 :: cs)
                   ++ written cli (Impl.invitation (_impl cli))
                   ++ written cli p)
          ++ out
        /\ Forall is_write out.
Proof.
  intros Ht Hnames Hne Hcands Hfit.
  pose proof (proj1 (typing_editing cli p) Ht) as (He & Hesc & _).
  destruct (onAutocompleteRequest_some cli p f (c2 :: cs) He Hnames Hne
              Hcands Hfit)
    as (a & cli1 & H1 & Hpa & Hcommon & Hmaxi & He1 & Hf1 & Hh1 & Htr1).
  unfold completed in *.
  assert (Hsame : (if decide (c2 :: cs = [] \/ (length p < a)%nat)
                   then written cli (drop (length p) (take a f))
                   else line_cleared cli
                        ++ candidate_lines cli (f :: c2 :: cs)
                        ++ written cli (Impl.invitation (_impl cli))
                        ++ written cli p)
                  = (if decide (length p < a)%nat
                     then written cli (drop (length p) (take a f))
                     else line_cleared cli
                          ++ candidate_lines cli (f :: c2 :: cs)
                          ++ written cli (Impl.invitation (_impl cli))
                          ++ written cli p)).
  { destruct (decide (length p < a)%nat) as [Hlt|Hge].
    - rewrite decide_True by (right; exact Hlt). reflexivity.
    - rewrite decide_False by (intros [?|?]; [discriminate|lia]).
      reflexivity. }
  rewrite Hsame in Htr1.
  edestruct (processByte_close cli cli1 (take a f) 9)
    as (cli2 & H2 & Ht2 & Hh2 & Hout);
    [exact He1|lia|rewrite Hf1; exact Hesc|exact Hh1|exact Htr1|].
  exists a. rewrite (processByte_tab cli p handle Ht), H1. cbn [bind].
  rewrite H2. cbn [bind]. eexists. split; [reflexivity|].
  split; [exact Hpa|]. split; [exact Hcommon|]. split; [exact Hmaxi|].
  split; [exact Ht2|]. split; [exact Hh2|exact Hout].
Qed.

(** X21: TAB without a candidate changes nothing.  While a line is being
    typed that is empty, or that no binding name starts with, the TAB byte
    is processed to completion, and the engine afterwards differs from the
    one before by its last byte and by repainted output only; on the empty
    line this holds although every name starts with the empty prefix. *)
Theorem tab_without_candidate_changes_nothing (cli : EmbeddedCli.t)
        (p : list Z) (handle : Z) :
  typing cli p ->
  p = [] \/ candidates p (Impl.bindings (_impl cli)) = [] ->
  exists cli',
    processByte cli 9 handle = Ok cli'
    /\ repaint_only (upd_impl (Impl.set_lastChar 9) cli) cli'.
Proof.
  intros Ht Hnone.
  pose proof (proj1 (typing_editing cli p) Ht) as (He & Hesc & _).
  destruct (onAutocompleteRequest_none cli p He Hnone) as (cli1 & H1 & R1).
  destruct (repaint_only_editing _ _ p R1 He) as (He1 & _).
  pose proof He1 as (Hw1 & _ & Hok1 & Hcmd1).
  destruct (printLiveAutocompletion_total _ p Hw1 Hcmd1 Hok1)
    as (cli2 & H2).
  pose proof (printLiveAutocompletion_repaint _ _ H2) as R2.
  pose proof (repaint_only_trans _ _ _ R1 R2) as R.
  destruct (repaint_only_editing _ _ p R He) as (_ & Hf2 & _).
  rewrite (processByte_tab cli p handle Ht), H1. cbn [bind].
  rewrite H2. cbn [bind]. eexists. split; [reflexivity|].
  apply (repaint_only_with_last 9 (Impl.flags (_impl cli))) in R.
  assert (E1 : with_last 9 (Impl.flags (_impl cli)) cli
               = upd_impl (Impl.set_lastChar 9) cli).
  { clear. destruct cli as [w ws oc pc i tr]. destruct i. reflexivity. }
  assert (E2 : with_last 9 (Impl.flags (_impl cli)) cli2
               = upd_impl (Impl.set_lastChar 9) cli2).
  { rewrite <- Hf2. clear. destruct cli2 as [w ws oc pc i tr]. destruct i.
    reflexivity. }
  rewrite E1, E2 in R. exact R.
Qed.

(** The sample engine with [s] typed, and with [g] typed. *)
Lemma sample_typing_one (c : Z) :
  c <> 0 -> typing (with_cmd [c] sample_cli_with_bindings) [c].
Proof.
  intros Hc.
  unfold typing, cmd_capacity_ok, bindings_ok, cmd_holds. simpl.
  split; [reflexivity|].
  split; [split; [lia|unfold len; simpl; lia]|].
  split; [split; [lia|split; [repeat constructor; unfold len; simpl; lia
                             |lia]]|].
  split; [split; [repeat constructor; exact Hc|split; [reflexivity|]]|].
  { exists (replicate 62 0). reflexivity. }
  split; [reflexivity|lia].
Qed.

Lemma tab_completes_only_candidate_witness :
  typing (with_cmd [115] sample_cli_with_bindings) [115]
  /\ names_ok (_impl (with_cmd [115] sample_cli_with_bindings))
  /\ [115] <> []
  /\ candidates [115]
       (Impl.bindings (_impl (with_cmd [115] sample_cli_with_bindings)))
     = [[115; 101; 116]]
  /\ len [115; 101; 116] + 2 <= 64
  /\ exists cli',
      processByte (with_cmd [115] sample_cli_with_bindings) 9 0 = Ok cli'
      /\ typing cli' ([115; 101; 116] ++ [32]).
Proof.
  assert (H1 : typing (with_cmd [115] sample_cli_with_bindings) [115])
    by (apply sample_typing_one; lia).
  assert (H3 : [115] <> ([] : list Z)) by discriminate.
  assert (H4 : candidates [115]
                 (Impl.bindings
                    (_impl (with_cmd [115] sample_cli_with_bindings)))
               = [[115; 101; 116]]) by (vm_compute; reflexivity).
  assert (H5 : len [115; 101; 116] + 2 <= 64) by (vm_compute; discriminate).
  split; [exact H1|]. split; [exact sample_names_ok|]. split; [exact H3|].
  split; [exact H4|]. split; [exact H5|].
  destruct (tab_completes_only_candidate _ [115] [115; 101; 116] 0
              H1 sample_names_ok H3 H4 H5) as (cli' & Hrun & Ht & _).
  exists cli'. split; [exact Hrun|exact Ht].
Defined.

Lemma tab_extends_to_common_prefix_witness :
  typing (with_cmd [103] sample_cli_with_bindings) [103]
  /\ names_ok (_impl (with_cmd [103] sample_cli_with_bindings))
  /\ [103] <> []
  /\ candidates [103]
       (Impl.bindings (_impl (with_cmd [103] sample_cli_with_bindings)))
     = [103; 101; 116; 45; 108; 101; 100]
         :: [103; 101; 116; 45; 97; 100; 99] :: []
  /\ Forall (fun c => len c + 2 <= 64)
            ([103; 101; 116; 45; 108; 101; 100]
               :: [103; 101; 116; 45; 97; 100; 99] :: [])
  /\ exists (a : nat) cli',
      processByte (with_cmd [103] sample_cli_with_bindings) 9 0 = Ok cli'
      /\ typing cli' (take a [103; 101; 116; 45; 108; 101; 100]).
Proof.
  assert (H1 : typing (with_cmd [103] sample_cli_with_bindings) [103])
    by (apply sample_typing_one; lia).
  assert (H3 : [103] <> ([] : list Z)) by discriminate.
  assert (H4 : candidates [103]
                 (Impl.bindings
                    (_impl (with_cmd [103] sample_cli_with_bindings)))
               = [103; 101; 116; 45; 108; 101; 100]
                   :: [103; 101; 116; 45; 97; 100; 99] :: [])
    by (vm_compute; reflexivity).
  assert (H5 : Forall (fun c => len c + 2 <= 64)
                      ([103; 101; 116; 45; 108; 101; 100]
                         :: [103; 101; 116; 45; 97; 100; 99] :: []))
    by (repeat constructor; vm_compute; discriminate).
  split; [exact H1|]. split; [exact sample_names_ok|]. split; [exact H3|].
  split; [exact H4|]. split; [exact H5|].
  destruct (tab_extends_to_common_prefix _ [103] _ _ [] 0
              H1 sample_names_ok H3 H4 H5)
    as (a & cli' & Hrun & _ & _ & _ & Ht & _).
  exists a, cli'. split; [exact Hrun|exact Ht].
Defined.

Lemma tab_without_candidate_changes_nothing_witness :
  typing sample_cli_with_bindings []
  /\ ([] = ([] : list Z)
      \/ candidates [] (Impl.bindings (_impl sample_cli_with_bindings)) = [])
  /\ exists cli',
      processByte sample_cli_with_bindings 9 0 = Ok cli'
      /\ repaint_only (upd_impl (Impl.set_lastChar 9)
                                sample_cli_with_bindings) cli'.
Proof.
  assert (H2 : [] = ([] : list Z)
               \/ candidates []
                    (Impl.bindings (_impl sample_cli_with_bindings)) = [])
    by (left; reflexivity).
  split; [exact sample_typing|]. split; [exact H2|].
  exact (tab_without_candidate_changes_nothing _ [] 0 sample_typing H2).
Defined.

(** On the sample table: TAB after [s] gives [set] and a space; TAB after
    [g] gives [get-]; a second TAB leaves [get-]. *)
Example tab_samples :
  (exists cli',
      processByte (with_cmd [115] sample_cli_with_bindings) 9 0 = Ok cli'
      /\ cstr (Impl.cmdBuffer (_impl cli')) 0 = Ok [115; 101; 116; 32])
  /\ (exists cli',
         processBytes (with_cmd [103] sample_cli_with_bindings) [9] 0
         = Ok cli'
         /\ cstr (Impl.cmdBuffer (_impl cli')) 0 = Ok [103; 101; 116; 45])
  /\ (exists cli',
         processBytes (with_cmd [103] sample_cli_with_bindings) [9; 9] 0
         = Ok cli'
         /\ cstr (Impl.cmdBuffer (_impl cli')) 0 = Ok [103; 101; 116; 45]).
Proof.
  split; [|split]; eexists; (split; [vm_compute; reflexivity|]);
    vm_compute; reflexivity.
Qed.
(** * What processing leaves alone, and the Enter key *)

Lemma writeChar_cfg cli c cli' :
  writeChar cli c = Ok cli' -> configuration cli' = configuration cli.
Proof. unfold writeChar. intros H. split_ok. reflexivity. Qed.

Lemma writeChars_cfg s : forall cli cli',
  writeChars cli s = Ok cli' -> configuration cli' = configuration cli.
Proof.
  induction s as [|c s IH]; simpl; intros cli cli' H; split_ok; [reflexivity|].
  apply IH in H. apply writeChar_cfg in Hm. congruence.
Qed.

Lemma writeToOutput_cfg cli s cli' :
  writeToOutput cli s = Ok cli' -> configuration cli' = configuration cli.
Proof.
  unfold writeToOutput. intros H. split_ok; [reflexivity|].
  eapply writeChars_cfg; eauto.
Qed.

Lemma writeToOutput_at_cfg cli m p cli' :
  writeToOutput_at cli m p = Ok cli' ->
  configuration cli' = configuration cli.
Proof.
  unfold writeToOutput_at. intros H. split_ok.
  eapply writeToOutput_cfg; eauto.
Qed.

Ltac cfg_fwd0 :=
  repeat match goal with
         | H : writeChar _ _ = Ok _ |- _ => apply writeChar_cfg in H
         | H : writeChars _ _ = Ok _ |- _ => apply writeChars_cfg in H
         | H : writeToOutput _ _ = Ok _ |- _ => apply writeToOutput_cfg in H
         | H : writeToOutput_at _ _ _ = Ok _ |- _ =>
             apply writeToOutput_at_cfg in H
         end.

Ltac cfg_done := unfold configuration in *; simpl in *; congruence.

Lemma clearCurrentLine_cfg cli cli' :
  clearCurrentLine cli = Ok cli' -> configuration cli' = configuration cli.
Proof. unfold clearCurrentLine. intros H. split_ok. cfg_fwd0. cfg_done. Qed.

Lemma getAutocompletedCommand_cfg cli prefix cmd impl' :
  getAutocompletedCommand (_impl cli) prefix = Ok (cmd, impl') ->
  configuration (set_impl impl' cli) = configuration cli.
Proof.
  unfold getAutocompletedCommand. intros H. split_ok; reflexivity.
Qed.

Lemma writeCandidateTail_cfg n first : forall cli i cli',
  writeCandidateTail n cli first i = Ok cli' ->
  configuration cli' = configuration cli.
Proof.
  induction n as [|n IH]; simpl; intros cli i cli' H; split_ok;
    [reflexivity|].
  apply IH in H. cfg_fwd0. congruence.
Qed.

Lemma printLiveAutocompletion_cfg cli cli' :
  printLiveAutocompletion cli = Ok cli' ->
  configuration cli' = configuration cli.
Proof.
  unfold printLiveAutocompletion. intros H. split_ok; [reflexivity|].
  apply getAutocompletedCommand_cfg in Hm.
  apply writeCandidateTail_cfg in Hm0. cfg_fwd0. cfg_done.
Qed.

Lemma printCandidates_cfg bs fl : forall i cli cli',
  printCandidates bs i fl cli = Ok cli' ->
  configuration cli' = configuration cli.
Proof.
  induction bs as [|b bs IH]; simpl; intros i cli cli' H; split_ok;
    try reflexivity; apply IH in H; cfg_fwd0; congruence.
Qed.

Lemma onAutocompleteRequest_cfg cli cli' :
  onAutocompleteRequest cli = Ok cli' ->
  configuration cli' = configuration cli.
Proof.
  unfold onAutocompleteRequest. intros H. split_ok;
    repeat match goal with
           | H : getAutocompletedCommand _ _ = Ok _ |- _ =>
               apply getAutocompletedCommand_cfg in H
           | H : clearCurrentLine _ = Ok _ |- _ =>
               apply clearCurrentLine_cfg in H
           | H : printCandidates _ _ _ _ = Ok _ |- _ =>
               apply printCandidates_cfg in H
           end; cfg_fwd0; cfg_done.
Qed.

Lemma navigateHistory_cfg cli up cli' :
  navigateHistory cli up = Ok cli' ->
  configuration cli' = configuration cli.
Proof.
  unfold navigateHistory. intros H. split_ok; try reflexivity;
    repeat match goal with
           | H : clearCurrentLine _ = Ok _ |- _ =>
               apply clearCurrentLine_cfg in H
           | H : printLiveAutocompletion _ = Ok _ |- _ =>
               apply printLiveAutocompletion_cfg in H
           end; cfg_fwd0; cfg_done.
Qed.

Lemma onEscapedInput_cfg cli c cli' :
  onEscapedInput cli c = Ok cli' -> configuration cli' = configuration cli.
Proof.
  unfold onEscapedInput. intros H. split_ok; try reflexivity.
  apply navigateHistory_cfg in H. cfg_done.
Qed.

Lemma onCharInput_cfg cli c cli' :
  onCharInput cli c = Ok cli' -> configuration cli' = configuration cli.
Proof. unfold onCharInput. intros H. split_ok; cfg_fwd0; cfg_done. Qed.

Lemma onUnknownCommand_cfg cli m p cli' :
  onUnknownCommand cli m p = Ok cli' ->
  configuration cli' = configuration cli.
Proof. unfold onUnknownCommand. intros H. split_ok; cfg_fwd0; cfg_done. Qed.

Lemma invokeBinding_cfg cli buf a d h i b f cli' buf' :
  invokeBinding cli buf a d h i b f = Ok (cli', buf') ->
  configuration cli' = configuration cli.
Proof.
  unfold invokeBinding. intros H. split_ok;
    destruct d; simpl; destruct (EmbeddedCli.postCommand cli); reflexivity.
Qed.

Lemma historyRemove_bufferSize h s h' :
  historyRemove h s = Ok h' ->
  CliHistory.bufferSize h' = CliHistory.bufferSize h.
Proof. unfold historyRemove. intros H. split_ok; reflexivity. Qed.

Lemma historyPut_evict_bufferSize fuel : forall h l u h' u',
  historyPut_evict fuel h l u = Ok (h', u') ->
  CliHistory.bufferSize h' = CliHistory.bufferSize h.
Proof.
  induction fuel as [|fuel IH]; simpl; intros h l u h' u' H;
    [discriminate|].
  split_ok; try reflexivity. apply IH in H. exact H.
Qed.

Lemma historyPut_bufferSize h s ok h' :
  historyPut h s = Ok (ok, h') ->
  CliHistory.bufferSize h' = CliHistory.bufferSize h.
Proof.
  unfold historyPut. intros H. split_ok; try reflexivity.
  all: apply historyRemove_bufferSize in Hm;
    apply historyPut_evict_bufferSize in Hm0; simpl; congruence.
Qed.

Lemma _parseCommand_cfg cli buf n d h r cli' buf' :
  _parseCommand cli buf n d h = Ok (r, cli', buf') ->
  configuration cli' = configuration cli.
Proof.
  unfold _parseCommand. intros H. split_ok; try reflexivity;
    repeat match goal with
           | H : invokeBinding _ _ _ _ _ _ _ _ = Ok ?r |- _ =>
               destruct r; apply invokeBinding_cfg in H
           | H : onUnknownCommand _ _ _ = Ok _ |- _ =>
               apply onUnknownCommand_cfg in H
           | H : historyPut _ _ = Ok ?r |- _ =>
               destruct r; apply historyPut_bufferSize in H
           end;
    repeat match goal with
           | |- context [if ?b then _ else _] => destruct b
           end; cfg_done.
Qed.

Lemma parseCommand_cfg cli h cli' :
  parseCommand cli h = Ok cli' -> configuration cli' = configuration cli.
Proof.
  unfold parseCommand. intros H. split_ok.
  destruct a as [[r c] b]. apply _parseCommand_cfg in Hm. cfg_done.
Qed.

Lemma onControlInput_cfg cli c h cli' :
  onControlInput cli c h = Ok cli' ->
  configuration cli' = configuration cli.
Proof.
  unfold onControlInput, onControlInput_newline. intros H.
  split_ok; try reflexivity;
    repeat match goal with
           | H : onAutocompleteRequest _ = Ok _ |- _ =>
               apply onAutocompleteRequest_cfg in H
           | H : parseCommand _ _ = Ok _ |- _ => apply parseCommand_cfg in H
           end; cfg_fwd0; cfg_done.
Qed.

Lemma processByte_cfg cli c h cli' :
  processByte cli c h = Ok cli' -> configuration cli' = configuration cli.
Proof.
  unfold processByte. intros H. split_ok;
    repeat match goal with
           | H : onEscapedInput _ _ = Ok _ |- _ =>
               apply onEscapedInput_cfg in H
           | H : onControlInput _ _ _ = Ok _ |- _ =>
               apply onControlInput_cfg in H
           | H : onCharInput _ _ = Ok _ |- _ => apply onCharInput_cfg in H
           | H : printLiveAutocompletion _ = Ok _ |- _ =>
               apply printLiveAutocompletion_cfg in H
           end; cfg_done.
Qed.

Lemma parseCommand_blank (cli : EmbeddedCli.t) (p : list Z) (handle : Z) :
  cmd_holds (_impl cli) p -> blank p = true ->
  parseCommand cli handle = Ok cli.
Proof.
  intros Hcmd Hblank. pose proof Hcmd as (_ & Hsz & rest & Hbuf).
  unfold parseCommand, _parseCommand. rewrite Hsz.
  replace (Z.to_nat (len p)) with (length p) by (unfold len; lia).
  pose proof (isEmpty_loop_blank p [] (0 :: rest)) as He.
  cbn [app] in He. rewrite len_nil in He. rewrite Hbuf at 1.
  rewrite He, Hblank. cbn [bind fst snd].
  rewrite upd_impl_same_cmdBuffer. reflexivity.
Qed.

Lemma historyPut_repr (h : CliHistory.t) (items : list (list Z))
      (s : list Z) (ok : bool) (h' : CliHistory.t) :
  hist_repr h items -> item_ok s -> historyPut h s = Ok (ok, h') ->
  exists items', hist_repr h' items'.
Proof.
  intros Hr Hs Hput.
  destruct (Z.le_gt_cases (len s + 1) (CliHistory.bufferSize h))
    as [Hfit|Hno].
  - destruct (historyPut_spec h items s Hr Hs Hfit)
      as (h2 & kept & dropped & Hput2 & Hr2 & _).
    rewrite Hput in Hput2. injection Hput2 as _ <-. eauto.
  - unfold historyPut in Hput.
    destruct (Z.ltb_spec (CliHistory.bufferSize h) (len s + 1)); [|lia].
    injection Hput as _ <-. eauto.
Qed.

Lemma unchanged_shape (cli : EmbeddedCli.t) :
  with_events []
    (upd_impl (fun i => Impl.set_cmdBuffer (Impl.cmdBuffer (_impl cli))
                          (Impl.set_history (Impl.history (_impl cli)) i))
              cli) = cli.
Proof.
  destruct cli as [w ws oc pc i tr]. destruct i.
  unfold with_events. cbn. rewrite app_nil_r. reflexivity.
Qed.

(** The dispatch step of the Enter key: the engine afterwards differs by
    the history, by the contents of the command buffer and by the calls
    made. *)
Lemma enter_dispatch (cli : EmbeddedCli.t) (q : list Z)
      (items : list (list Z)) (handle : Z) :
  submitting cli q items ->
  exists h' buf' out,
    (if 0 <? Impl.cmdSize (_impl cli) then parseCommand cli handle
     else Ok cli)
    = Ok (with_events out
            (upd_impl (fun i => Impl.set_cmdBuffer buf'
                                  (Impl.set_history h' i)) cli))
    /\ length buf' = length (Impl.cmdBuffer (_impl cli))
    /\ exists items', hist_repr h' items'.
Proof.
  intros Hsub.
  pose proof Hsub as (_ & Hcmd & _ & Hhist & _).
  pose proof Hcmd as (Hq0 & Hsz & _).
  assert (Hsame : exists h' buf' out,
             Ok cli
             = Ok (with_events out
                     (upd_impl (fun i => Impl.set_cmdBuffer buf'
                                           (Impl.set_history h' i)) cli))
             /\ length buf' = length (Impl.cmdBuffer (_impl cli))
             /\ exists items', hist_repr h' items').
  { exists (Impl.history (_impl cli)), (Impl.cmdBuffer (_impl cli)), [].
    rewrite unchanged_shape. split; [reflexivity|]. split; [reflexivity|].
    eauto. }
  destruct (Z.ltb_spec 0 (Impl.cmdSize (_impl cli))) as [Hpos|Hzero];
    [|exact Hsame].
  destruct (blank q) eqn:Hblank.
  - rewrite (parseCommand_blank cli q handle Hcmd Hblank). exact Hsame.
  - destruct (parseCommand_repl cli q items handle Hsub Hblank)
      as (ok & h' & buf' & out & Hput & Hrun & Hlen & _).
    exists h', buf', out. split; [exact Hrun|]. split; [exact Hlen|].
    apply (historyPut_repr _ items q ok h' Hhist); [|exact Hput].
    split; [apply blank_false_nonempty; exact Hblank|exact Hq0].
Qed.

(** The end of the Enter key: the command line is emptied, the history
    goes back to position 0 and the invitation is written. *)
Lemma enter_reset (cli3 : EmbeddedCli.t) :
  EmbeddedCli.writeChar cli3 = true ->
  cmd_capacity_ok (_impl cli3) -> bindings_ok (_impl cli3) ->
  0 < len (Impl.cmdBuffer (_impl cli3)) ->
  exists cli5 out,
    (b <- store (Impl.cmdBuffer (_impl cli3)) 0 0 ;;
     writeToOutput
       (upd_impl
          (fun i =>
             Impl.set_history (set_current 0 (Impl.history i))
               (Impl.set_inputLineLength 0
                  (Impl.set_cmdBuffer b (Impl.set_cmdSize 0 i))))
          cli3)
       (Impl.invitation
          (_impl
             (upd_impl
                (fun i =>
                   Impl.set_history (set_current 0 (Impl.history i))
                     (Impl.set_inputLineLength 0
                        (Impl.set_cmdBuffer b (Impl.set_cmdSize 0 i))))
                cli3)))) = Ok cli5
    /\ editing cli5 []
    /\ Impl.flags (_impl cli5) = Impl.flags (_impl cli3)
    /\ Impl.history (_impl cli5)
       = set_current 0 (Impl.history (_impl cli3))
    /\ EmbeddedCli.trace cli5 = EmbeddedCli.trace cli3 ++ out
    /\ Forall is_write out.
Proof.
  intros Hw [Hmax Hlen] Hok Hpos.
  rewrite store_in_range by lia. cbn [bind].
  set (cli4 := upd_impl _ cli3).
  assert (He4 : editing cli4 []).
  { unfold editing, cmd_capacity_ok, bindings_ok, cmd_holds, cli4.
    cbn [upd_impl set_impl _impl EmbeddedCli.writeChar].
    destruct (Impl.cmdBuffer (_impl cli3)) as [|x rest] eqn:Eb;
      [rewrite len_nil in Hpos; lia|].
    destruct (_impl cli3) eqn:E3. cbn in *. subst.
    split; [exact Hw|]. split; [split; [lia|]|].
    { unfold len in *. rewrite length_insert. exact Hlen. }
    split; [exact Hok|]. split; [constructor|]. split; [reflexivity|].
    exists rest. reflexivity. }
  assert (Hf4 : Impl.flags (_impl cli4) = Impl.flags (_impl cli3))
    by (unfold cli4; cbn; destruct (_impl cli3); reflexivity).
  assert (Hh4 : Impl.history (_impl cli4)
                = set_current 0 (Impl.history (_impl cli3)))
    by (unfold cli4; cbn; destruct (_impl cli3); reflexivity).
  destruct (writeToOutput_run cli4 (Impl.invitation (_impl cli4))
                              (proj1 He4)) as (cli5 & H5 & R5).
  destruct (repaint_only_editing _ _ [] R5 He4)
    as (He5 & Hf5 & _ & Hh5 & _).
  destruct (repaint_only_trace _ _ R5) as (o5 & Ht5 & Ho5).
  exists cli5, o5. split; [exact H5|]. split; [exact He5|].
  split; [rewrite Hf5; exact Hf4|]. split; [rewrite Hh5; exact Hh4|].
  split; [exact Ht5|exact Ho5].
Qed.

Lemma written_is_write (cli : EmbeddedCli.t) (s : list Z) :
  Forall is_write (written cli s).
Proof.
  unfold written. destruct (EmbeddedCli.writeString cli).
  - repeat constructor.
  - apply Forall_forall. intros e He.
    apply list_elem_of_fmap in He as (x & -> & _). exact I.
Qed.

Lemma line_cleared_is_write (cli : EmbeddedCli.t) :
  Forall is_write (line_cleared cli).
Proof.
  unfold line_cleared.
  repeat (apply Forall_app; split); try (repeat constructor).
  apply Forall_forall. intros e He.
  apply list_elem_of_fmap in He as (x & -> & _). exact I.
Qed.

Lemma candidate_lines_is_write (cli : EmbeddedCli.t) (cs : list (list Z)) :
  Forall is_write (candidate_lines cli cs).
Proof.
  induction cs as [|c cs IH]; [constructor|].
  unfold candidate_lines. cbn [flat_map].
  repeat (apply Forall_app; split); try apply written_is_write.
  exact IH.
Qed.

(** The completion step of the Enter key. *)
Lemma enter_completion (cli : EmbeddedCli.t) (p : list Z) :
  editing cli p -> names_ok (_impl cli) ->
  len p + 2 <= Impl.cmdMaxSize (_impl cli) ->
  Forall (fun n => len n + 3 <= Impl.cmdMaxSize (_impl cli))
         (candidates p (Impl.bindings (_impl cli))) ->
  exists q cli1 out0,
    onAutocompleteRequest cli = Ok cli1
    /\ editing cli1 q
    /\ len q + 2 <= Impl.cmdMaxSize (_impl cli)
    /\ Impl.flags (_impl cli1) = Impl.flags (_impl cli)
    /\ Impl.history (_impl cli1) = Impl.history (_impl cli)
    /\ EmbeddedCli.trace cli1 = EmbeddedCli.trace cli ++ out0
    /\ Forall is_write out0
    /\ (p = [] \/ candidates p (Impl.bindings (_impl cli)) = [] -> q = p).
Proof.
  intros He Hnames Hroom Hfit.
  destruct (decide (p = [])) as [Hp|Hne].
  { destruct (onAutocompleteRequest_none cli p He (or_introl Hp))
      as (cli1 & H1 & R1).
    destruct (repaint_only_editing _ _ p R1 He) as (He1 & Hf1 & _ & Hh1 & _).
    destruct (repaint_only_trace _ _ R1) as (o & Ht & Ho).
    exists p, cli1, o. auto 10. }
  destruct (candidates p (Impl.bindings (_impl cli))) as [|f cs] eqn:Hc.
  { destruct (onAutocompleteRequest_none cli p He (or_intror Hc))
      as (cli1 & H1 & R1).
    destruct (repaint_only_editing _ _ p R1 He) as (He1 & Hf1 & _ & Hh1 & _).
    destruct (repaint_only_trace _ _ R1) as (o & Ht & Ho).
    exists p, cli1, o. auto 10. }
  assert (Hfit2 : Forall (fun c => len c + 2 <= Impl.cmdMaxSize (_impl cli))
                         (f :: cs)).
  { eapply Forall_impl; [exact Hfit|]. intros x Hx. simpl in Hx. lia. }
  destruct (onAutocompleteRequest_some cli p f cs He Hnames Hne Hc Hfit2)
    as (a & cli1 & H1 & Hpa & Hcommon & _ & He1 & Hf1 & Hh1 & Htr1).
  eexists. exists cli1. eexists.
  split; [exact H1|]. split; [exact He1|].
  split.
  { inversion Hfit as [|? ? Hff _]; subst.
    unfold completed. destruct cs.
    - rewrite len_app, len_cons, len_nil. lia.
    - pose proof (len_nonneg f).
      assert (len (take a f) <= len f) by (unfold len; rewrite length_take; lia).
      lia. }
  split; [exact Hf1|]. split; [exact Hh1|]. split; [exact Htr1|].
  split.
  { destruct (decide _).
    - apply written_is_write.
    - apply Forall_app; split; [apply line_cleared_is_write|].
      apply Forall_app; split; [apply candidate_lines_is_write|].
      apply Forall_app; split; apply written_is_write. }
  intros [?|?]; [contradiction|discriminate].
Qed.

Lemma configuration_names_ok (a b : EmbeddedCli.t) :
  configuration b = configuration a ->
  Impl.bindings (_impl b) = Impl.bindings (_impl a)
  /\ EmbeddedCli.postCommand b = EmbeddedCli.postCommand a
  /\ Impl.cmdMaxSize (_impl b) = Impl.cmdMaxSize (_impl a).
Proof. unfold configuration. intros H. injection H. auto. Qed.

Lemma processByte_end (cli1 : EmbeddedCli.t) (q : list Z) (c : Z) :
  editing cli1 q -> c <> 27 ->
  IS_FLAG_SET (Impl.flags (_impl cli1)) CLI_FLAG_ESCAPE_MODE = false ->
  exists cli2,
    printLiveAutocompletion cli1 = Ok cli2
    /\ typing (upd_impl (Impl.set_lastChar c) cli2) q
    /\ Impl.history (_impl (upd_impl (Impl.set_lastChar c) cli2))
       = Impl.history (_impl cli1)
    /\ exists out,
        EmbeddedCli.trace (upd_impl (Impl.set_lastChar c) cli2)
        = EmbeddedCli.trace cli1 ++ out
        /\ Forall is_write out.
Proof.
  intros He Hc Hesc.
  destruct (processByte_close cli1 cli1 q c [] He Hc Hesc eq_refl)
    as (cli2 & H2 & Ht2 & Hh2 & out & Htr & Ho).
  { rewrite app_nil_r. reflexivity. }
  exists cli2. split; [exact H2|]. split; [exact Ht2|].
  split; [exact Hh2|]. exists out. split; [exact Htr|exact Ho].
Qed.


Lemma printLiveAutocompletion_flags cli cli' :
  printLiveAutocompletion cli = Ok cli' ->
  Impl.flags (_impl cli') = Impl.flags (_impl cli).
Proof.
  intros H. apply printLiveAutocompletion_repaint in H.
  destruct H as (_ & _ & _ & _ & H5 & _). rewrite H5.
  destruct (_impl cli). reflexivity.
Qed.

(** The Enter key, step by step: the completion leaves a line [q] in the
    engine [cli2]; the dispatch runs on it and gives [cli3]; the line is
    reset and the invitation written. *)
Lemma enter_line (cli : EmbeddedCli.t) (p : list Z)
      (items : list (list Z)) (c handle : Z) :
  typing cli p -> c = 13 \/ c = 10 ->
  ~ is_terminator_pair (Impl.lastChar (_impl cli)) c ->
  hist_repr (Impl.history (_impl cli)) items ->
  names_ok (_impl cli) ->
  0 <= Impl.flags (_impl cli) < 256 ->
  IS_FLAG_SET (Impl.flags (_impl cli)) CLI_FLAG_DIRECT_PRINT = false ->
  len p + 2 <= Impl.cmdMaxSize (_impl cli) ->
  Forall (fun n => len n + 3 <= Impl.cmdMaxSize (_impl cli))
         (candidates p (Impl.bindings (_impl cli))) ->
  exists q cli2 cli3 cli' out0 out1,
    submitting cli2 q items
    /\ configuration cli2 = configuration cli
    /\ EmbeddedCli.trace cli2 = EmbeddedCli.trace cli ++ out0
    /\ Forall is_write out0
    /\ (p = [] \/ candidates p (Impl.bindings (_impl cli)) = [] -> q = p)
    /\ (if 0 <? Impl.cmdSize (_impl cli2) then parseCommand cli2 handle
        else Ok cli2) = Ok cli3
    /\ processByte cli c handle = Ok cli'
    /\ typing cli' []
    /\ CliHistory.current (Impl.history (_impl cli')) = 0
    /\ (exists items', hist_repr (Impl.history (_impl cli')) items')
    /\ EmbeddedCli.trace cli' = EmbeddedCli.trace cli3 ++ out1
    /\ Forall is_write out1
    /\ Impl.flags (_impl cli') = Impl.flags (_impl cli).
Proof.
  intros Ht Hc Hpair Hhist Hnames Hfl Hdp Hroom Hfit.
  pose proof (proj1 (typing_editing cli p) Ht) as (He & Hesc & Hlast).
  destruct (enter_completion cli p He Hnames Hroom Hfit)
    as (q & cli1 & o1 & H1 & He1 & Hq & Hf1 & Hh1 & Ht1 & Ho1 & Hqp).
  pose proof (onAutocompleteRequest_cfg _ _ H1) as Hcfg1.
  destruct (writeToOutput_run cli1 lineBreak (proj1 He1))
    as (cli2 & H2 & R2).
  pose proof (writeToOutput_cfg _ _ _ H2) as Hcfg2.
  destruct (repaint_only_editing _ _ q R2 He1)
    as (He2 & Hf2 & _ & Hh2 & _ & _ & Hm2).
  destruct (repaint_only_trace _ _ R2) as (o2 & Ht2 & Ho2).
  assert (Hcfg : configuration cli2 = configuration cli) by congruence.
  destruct (configuration_names_ok _ _ Hcfg) as (Hb2 & Hpc2 & Hmax2).
  assert (Hsub : submitting cli2 q items).
  { pose proof He2 as (Hw2 & [Hmx Hln] & Hok2 & Hcmd2).
    unfold submitting. split; [exact Hw2|]. split; [exact Hcmd2|].
    split; [lia|]. split; [rewrite Hh2, Hh1; exact Hhist|].
    split; [unfold names_ok; rewrite Hb2; exact Hnames|].
    rewrite Hf2, Hf1. split; [exact Hfl|exact Hdp]. }
  destruct (enter_dispatch cli2 q items handle Hsub)
    as (h' & buf' & outP & H3 & Hlen3 & items' & Hr3).
  set (cli3 := with_events outP
                 (upd_impl (fun i => Impl.set_cmdBuffer buf'
                                       (Impl.set_history h' i)) cli2)) in *.
  pose proof He2 as (Hw2 & [Hmx Hln] & Hok2 & Hcmd2).
  assert (Hw3 : EmbeddedCli.writeChar cli3 = true) by exact Hw2.
  assert (Hcap3 : cmd_capacity_ok (_impl cli3)).
  { unfold cmd_capacity_ok, cli3. cbn. destruct (_impl cli2). cbn in *.
    unfold len in *. rewrite Hlen3. auto. }
  assert (Hok3 : bindings_ok (_impl cli3)).
  { revert Hok2. unfold bindings_ok, cli3. cbn. destruct (_impl cli2).
    exact (fun H => H). }
  assert (Hpos3 : 0 < len (Impl.cmdBuffer (_impl cli3))).
  { destruct Hcmd2 as (_ & _ & rest & Hbuf).
    apply (f_equal length) in Hbuf. rewrite length_app in Hbuf.
    simpl in Hbuf. unfold cli3, len. cbn. destruct (_impl cli2). cbn in *.
    lia. }
  assert (Hf3 : Impl.flags (_impl cli3) = Impl.flags (_impl cli)).
  { rewrite <- Hf1, <- Hf2. unfold cli3. cbn. destruct (_impl cli2).
    reflexivity. }
  assert (Hh3 : Impl.history (_impl cli3) = h').
  { unfold cli3. cbn. destruct (_impl cli2). reflexivity. }
  destruct (enter_reset cli3 Hw3 Hcap3 Hok3 Hpos3)
    as (cli5 & o5 & H5 & He5 & Hf5 & Hh5 & Ht5 & Ho5).
  assert (Hc27 : c <> 27) by (destruct Hc as [-> | ->]; lia).
  destruct (processByte_end cli5 [] c He5 Hc27)
    as (cli6 & H6 & Ht6 & Hh6 & o6 & Htr6 & Ho6);
    [rewrite Hf5, Hf3; exact Hesc|].
  exists q, cli2, cli3, (upd_impl (Impl.set_lastChar c) cli6), (o1 ++ o2),
    (o5 ++ o6).
  split; [exact Hsub|]. split; [exact Hcfg|].
  split; [rewrite Ht2, Ht1, app_assoc; reflexivity|].
  split; [apply Forall_app; auto|].
  split; [exact Hqp|]. split; [exact H3|].
  split.
  { assert (Hctl : isControlChar c = true)
      by (destruct Hc as [-> | ->]; reflexivity).
    rewrite processByte_control by assumption.
    unfold onControlInput. cbv zeta.
    assert (Hnp : ((Impl.lastChar (_impl cli) =? 13) && (c =? 10))
                  || ((Impl.lastChar (_impl cli) =? 10) && (c =? 13))
                  = false).
    { apply orb_false_iff. split; apply andb_false_iff.
      - destruct (Z.eqb_spec (Impl.lastChar (_impl cli)) 13) as [E1|];
          [|left; reflexivity].
        destruct (Z.eqb_spec c 10) as [E2|]; [|right; reflexivity].
        exfalso. apply Hpair. left. auto.
      - destruct (Z.eqb_spec (Impl.lastChar (_impl cli)) 10) as [E1|];
          [|left; reflexivity].
        destruct (Z.eqb_spec c 13) as [E2|]; [|right; reflexivity].
        exfalso. apply Hpair. right. auto. }
    rewrite Hnp.
    assert (Hnl : (c =? 13) || (c =? 10) = true)
      by (destruct Hc as [-> | ->]; reflexivity).
    rewrite Hnl. unfold onControlInput_newline.
    rewrite H1. cbn [bind]. rewrite H2. cbn [bind].
    rewrite H3. cbn [bind]. cbv zeta. fold cli3.
    rewrite H5. cbn [bind]. rewrite H6. reflexivity. }
  split; [exact Ht6|].
  split; [rewrite Hh6, Hh5; reflexivity|].
  split; [exists items'; rewrite Hh6, Hh5, Hh3; exact Hr3|].
  split; [rewrite Htr6, Ht5, app_assoc; reflexivity|].
  split; [apply Forall_app; auto|].
  change (Impl.flags (_impl cli6) = Impl.flags (_impl cli)).
  rewrite (printLiveAutocompletion_flags _ _ H6), Hf5. exact Hf3.
Qed.

Lemma fifoBufPop_size b c b' :
  fifoBufPop b = Ok (c, b') -> FifoBuf.size b' = FifoBuf.size b.
Proof. unfold fifoBufPop, c_mod. intros H. split_ok; reflexivity. Qed.

Lemma process_loop_cfg fuel h : forall cli cli',
  process_loop fuel cli h = Ok cli' ->
  configuration cli' = configuration cli.
Proof.
  induction fuel as [|fuel IH]; intros cli cli' H; cbn [process_loop] in H.
  - split_ok. reflexivity.
  - split_ok; [reflexivity|].
    apply IH in H. apply processByte_cfg in Hm0.
    apply fifoBufPop_size in Hm. rewrite H, Hm0.
    unfold configuration. cbn. rewrite Hm.
    destruct (_impl cli). reflexivity.
Qed.

Lemma embeddedCliProcess_cfg cli h cli' :
  embeddedCliProcess cli h = Ok cli' ->
  configuration cli' = configuration cli.
Proof.
  unfold embeddedCliProcess. intros H. split_ok; try reflexivity;
    repeat match goal with
           | H : process_loop _ _ _ = Ok _ |- _ =>
               apply process_loop_cfg in H
           end; cfg_fwd0;
    unfold configuration, set_flag, unset_flag in *; simpl in *;
    congruence.
Qed.

Lemma embeddedCliReceiveChar_cfg cli c cli' :
  embeddedCliReceiveChar cli c = Ok cli' ->
  configuration cli' = configuration cli.
Proof.
  unfold embeddedCliReceiveChar, fifoBufPush, c_mod. intros H.
  split_ok; unfold configuration; cbn; destruct (_impl cli); reflexivity.
Qed.

(** X22: receiving and processing input never changes how the engine is
    set up.  Whenever [embeddedCliReceiveChar] or [embeddedCliProcess]
    returns, the output and command hooks, the invitation, the table of
    bindings with its capacity, and the capacities of the command buffer,
    the history and the input queue are the ones before the call. *)
Theorem processing_keeps_configuration (cli cli' : EmbeddedCli.t)
        (handle : Z) :
  embeddedCliProcess cli handle = Ok cli' ->
  configuration cli' = configuration cli
  /\ forall c cli2,
      embeddedCliReceiveChar cli' c = Ok cli2 ->
      configuration cli2 = configuration cli.
Proof.
  intros H. pose proof (embeddedCliProcess_cfg _ _ _ H) as Hc.
  split; [exact Hc|].
  intros c cli2 H2. rewrite (embeddedCliReceiveChar_cfg _ _ _ H2).
  exact Hc.
Qed.

Lemma processing_keeps_configuration_witness :
  exists cli',
    embeddedCliProcess (with_cmd [115] sample_cli_with_bindings) 0 = Ok cli'
    /\ configuration cli'
       = configuration (with_cmd [115] sample_cli_with_bindings).
Proof.
  destruct (embeddedCliProcess (with_cmd [115] sample_cli_with_bindings) 0)
    as [cli'| |] eqn:E.
  - exists cli'. split; [reflexivity|].
    exact (proj1 (processing_keeps_configuration _ cli' 0 E)).
  - vm_compute in E. discriminate.
  - vm_compute in E. discriminate.
Defined.

(** X23: the Enter key always leaves an empty line.  While a line is
    being typed that leaves two bytes of the command buffer free, with
    every binding name that starts with it leaving three, a line
    terminator that is not the second byte of a pair is processed to
    completion, whatever the line holds: afterwards the command line is
    empty, the engine is ready for the next line, the history stands at
    position 0 and is well formed. *)
Theorem enter_leaves_an_empty_line (cli : EmbeddedCli.t) (p : list Z)
        (items : list (list Z)) (c handle : Z) :
  typing cli p -> c = 13 \/ c = 10 ->
  ~ is_terminator_pair (Impl.lastChar (_impl cli)) c ->
  hist_repr (Impl.history (_impl cli)) items ->
  names_ok (_impl cli) ->
  0 <= Impl.flags (_impl cli) < 256 ->
  IS_FLAG_SET (Impl.flags (_impl cli)) CLI_FLAG_DIRECT_PRINT = false ->
  len p + 2 <= Impl.cmdMaxSize (_impl cli) ->
  Forall (fun n => len n + 3 <= Impl.cmdMaxSize (_impl cli))
         (candidates p (Impl.bindings (_impl cli))) ->
  exists cli',
    processByte cli c handle = Ok cli'
    /\ typing cli' []
    /\ CliHistory.current (Impl.history (_impl cli')) = 0
    /\ exists items', hist_repr (Impl.history (_impl cli')) items'.
Proof.
  intros Ht Hc Hpair Hhist Hnames Hfl Hdp Hroom Hfit.
  destruct (enter_line cli p items c handle Ht Hc Hpair Hhist Hnames Hfl
                       Hdp Hroom Hfit)
    as (q & cli2 & cli3 & cli' & o0 & o1 & _ & _ & _ & _ & _ & _ & Hrun
        & Ht' & Hcur & Hr & _).
  exists cli'. auto.
Qed.




(** The sample engine with [set a b] typed. *)
Lemma sample_typing_set_a_b :
  typing (with_cmd [115; 101; 116; 32; 97; 32; 98] sample_cli_with_bindings)
         (replicate 0 32 ++ (115 :: [101; 116]) ++ replicate 1 32
          ++ 97 :: [32; 98]).
Proof.
  unfold typing, cmd_capacity_ok, bindings_ok, cmd_holds. simpl.
  split; [reflexivity|].
  split; [split; [lia|unfold len; simpl; lia]|].
  split; [split; [lia|split; [repeat constructor; unfold len; simpl; lia
                             |lia]]|].
  split; [split; [repeat constructor; lia|split; [reflexivity|]]|].
  { exists (replicate 56 0). reflexivity. }
  split; [reflexivity|lia].
Qed.

Lemma sample_not_pair (p : list Z) (c : Z) :
  ~ is_terminator_pair
      (Impl.lastChar (_impl (with_cmd p sample_cli_with_bindings))) c.
Proof.
  change (Impl.lastChar (_impl (with_cmd p sample_cli_with_bindings)))
    with 0.
  unfold is_terminator_pair. lia.
Qed.

Lemma sample_line_history (p : list Z) :
  hist_repr (Impl.history (_impl (with_cmd p sample_cli_with_bindings))) [].
Proof.
  unfold hist_repr.
  split; [vm_compute; reflexivity|].
  split; [vm_compute; discriminate|]. split; [reflexivity|].
  split; [constructor|]. split; [vm_compute; discriminate|].
  eexists. reflexivity.
Qed.

Lemma sample_line_flags (p : list Z) :
  0 <= Impl.flags (_impl (with_cmd p sample_cli_with_bindings)) < 256
  /\ IS_FLAG_SET (Impl.flags (_impl (with_cmd p sample_cli_with_bindings)))
                 CLI_FLAG_DIRECT_PRINT = false.
Proof.
  split; [split; [vm_compute; discriminate|vm_compute; reflexivity]
         |reflexivity].
Qed.

Lemma enter_leaves_an_empty_line_witness :
  typing (with_cmd [115; 101; 116; 32; 97; 32; 98] sample_cli_with_bindings)
         (replicate 0 32 ++ (115 :: [101; 116]) ++ replicate 1 32
          ++ 97 :: [32; 98])
  /\ (13 = 13 \/ 13 = 10)
  /\ ~ is_terminator_pair
         (Impl.lastChar
            (_impl (with_cmd [115; 101; 116; 32; 97; 32; 98]
                             sample_cli_with_bindings))) 13
  /\ hist_repr
       (Impl.history
          (_impl (with_cmd [115; 101; 116; 32; 97; 32; 98]
                           sample_cli_with_bindings))) []
  /\ names_ok (_impl (with_cmd [115; 101; 116; 32; 97; 32; 98]
                               sample_cli_with_bindings))
  /\ 0 <= Impl.flags
            (_impl (with_cmd [115; 101; 116; 32; 97; 32; 98]
                             sample_cli_with_bindings)) < 256
  /\ IS_FLAG_SET
       (Impl.flags
          (_impl (with_cmd [115; 101; 116; 32; 97; 32; 98]
                           sample_cli_with_bindings)))
       CLI_FLAG_DIRECT_PRINT = false
  /\ len [115; 101; 116; 32; 97; 32; 98] + 2 <= 64
  /\ Forall (fun n => len n + 3 <= 64)
            (candidates [115; 101; 116; 32; 97; 32; 98]
               (Impl.bindings
                  (_impl (with_cmd [115; 101; 116; 32; 97; 32; 98]
                                   sample_cli_with_bindings))))
  /\ exists cli',
      processByte (with_cmd [115; 101; 116; 32; 97; 32; 98]
                            sample_cli_with_bindings) 13 0 = Ok cli'
      /\ typing cli' []
      /\ CliHistory.current (Impl.history (_impl cli')) = 0.
Proof.
  assert (H2 : 13 = 13 \/ 13 = 10) by (left; reflexivity).
  pose proof (sample_not_pair [115; 101; 116; 32; 97; 32; 98] 13) as H3.
  pose proof (sample_line_history [115; 101; 116; 32; 97; 32; 98]) as H4.
  destruct (sample_line_flags [115; 101; 116; 32; 97; 32; 98]) as [H6 H7].
  assert (H8 : len [115; 101; 116; 32; 97; 32; 98] + 2 <= 64)
    by (vm_compute; discriminate).
  assert (H9 : Forall (fun n => len n + 3 <= 64)
                 (candidates [115; 101; 116; 32; 97; 32; 98]
                    (Impl.bindings
                       (_impl (with_cmd [115; 101; 116; 32; 97; 32; 98]
                                        sample_cli_with_bindings)))))
    by (apply (bool_decide_unpack _); vm_compute; exact I).
  split; [exact sample_typing_set_a_b|]. split; [exact H2|].
  split; [exact H3|]. split; [exact H4|]. split; [exact sample_names_ok|].
  split; [exact H6|]. split; [exact H7|]. split; [exact H8|].
  split; [exact H9|].
  destruct (enter_leaves_an_empty_line _ _ [] 13 0 sample_typing_set_a_b
              H2 H3 H4 sample_names_ok H6 H7 H8 H9)
    as (cli' & Hrun & Ht & Hcur & _).
  exists cli'. auto.
Defined.


(** On the sample table, [s] and Enter: the line is completed to [set]
    and a space, and the handler of [set] is called without arguments. *)
Example enter_completes_first :
  exists cli',
    processByte (with_cmd [115] sample_cli_with_bindings) 13 7 = Ok cli'
    /\ dispatches (EmbeddedCli.trace cli') = [EvBinding 3 7 None 0]
    /\ CliHistory.itemsCount (Impl.history (_impl cli')) = 1
    /\ cstr (CliHistory.buf (Impl.history (_impl cli'))) 0
       = Ok [115; 101; 116; 32].
Proof.
  eexists. split; [vm_compute; reflexivity|].
  split; [vm_compute; reflexivity|].
  split; vm_compute; reflexivity.
Qed.
(** * From the input queue to the handler *)












(** * Printing from the host *)

Lemma clearCurrentLine_events (cli : EmbeddedCli.t) :
  EmbeddedCli.writeChar cli = true ->
  clearCurrentLine cli
  = Ok (upd_impl (Impl.set_inputLineLength 0)
                 (with_events (line_cleared cli) cli)).
Proof.
  intros Hw. unfold clearCurrentLine. cbv zeta.
  rewrite writeChar_total by exact Hw. cbn [bind].
  rewrite writeChars_events by exact Hw. cbn [bind].
  rewrite writeChar_total by exact Hw. cbn [bind].
  f_equal. unfold line_cleared, with_events, emit, upd_impl, set_impl.
  cbn. rewrite <- !app_assoc. reflexivity.
Qed.

(** [embeddedCliPrint] while a line is being edited. *)
Lemma embeddedCliPrint_line (cli : EmbeddedCli.t) (p s : list Z) :
  editing cli p ->
  IS_FLAG_SET (Impl.flags (_impl cli)) CLI_FLAG_DIRECT_PRINT = false ->
  exists cli' out,
    embeddedCliPrint cli s = Ok cli'
    /\ repaint_only cli cli'
    /\ EmbeddedCli.trace cli'
       = EmbeddedCli.trace cli
         ++ line_cleared cli ++ written cli s ++ written cli lineBreak
         ++ written cli (Impl.invitation (_impl cli)) ++ written cli p
         ++ out
    /\ Forall is_write out.
Proof.
  intros He Hdp. pose proof He as (Hw & _ & Hok & Hcmd).
  unfold embeddedCliPrint. rewrite Hw, Hdp. cbn [negb].
  rewrite clearCurrentLine_events by exact Hw. cbn [bind].
  rewrite writeToOutput_events by exact Hw. cbn [bind].
  rewrite writeToOutput_events by exact Hw. cbn [bind].
  set (cli3 := with_events _ (with_events _ (upd_impl _ _))).
  assert (Hf3 : Impl.flags (_impl cli3) = Impl.flags (_impl cli))
    by (unfold cli3; cbn; destruct (_impl cli); reflexivity).
  rewrite Hf3, Hdp. cbn [negb].
  rewrite writeToOutput_events by exact Hw. cbn [bind].
  assert (Hbuf3 : Impl.cmdBuffer (_impl cli3) = Impl.cmdBuffer (_impl cli))
    by (unfold cli3; cbn; destruct (_impl cli); reflexivity).
  unfold writeToOutput_at.
  change (Impl.cmdBuffer (_impl (with_events ?o cli3)))
    with (Impl.cmdBuffer (_impl cli3)).
  rewrite Hbuf3, (cmd_holds_cstr _ _ Hcmd). cbn [bind].
  rewrite writeToOutput_events by exact Hw. cbn [bind].
  set (cli5 := upd_impl _ (with_events _ (with_events _ cli3))).
  assert (R5 : repaint_only cli cli5).
  { unfold repaint_only, cli5, cli3. cbn.
    split_and!; try reflexivity; try (destruct (_impl cli); reflexivity).
    eexists. split; [rewrite <- !app_assoc; reflexivity|].
    repeat (apply Forall_app; split);
      first [apply written_is_write|apply line_cleared_is_write]. }
  destruct (repaint_only_editing _ _ p R5 He) as (He5 & _).
  destruct He5 as (Hw5 & _ & Hok5 & Hcmd5).
  destruct (printLiveAutocompletion_total _ p Hw5 Hcmd5 Hok5) as (cli6 & H6).
  pose proof (printLiveAutocompletion_repaint _ _ H6) as R6.
  destruct (repaint_only_trace _ _ R6) as (out & Htr & Ho).
  rewrite H6. exists cli6, out. split; [reflexivity|].
  split; [exact (repaint_only_trans _ _ _ R5 R6)|].
  split; [|exact Ho].
  rewrite Htr. unfold cli5, cli3, line_cleared.
  cbn [upd_impl set_impl with_events EmbeddedCli.trace _impl].
  destruct (_impl cli).
  cbn [Impl.set_inputLineLength Impl.invitation Impl.inputLineLength].
  rewrite <- !app_assoc. reflexivity.
Qed.

(** X26: printing from the host does not disturb the line being typed.
    While a line [p] is being edited outside a handler, [embeddedCliPrint]
    runs to completion: it clears the line on the screen, writes the
    string and a line break, writes the invitation and [p] again and
    repaints; nothing else is called, and the command line, the history
    and the flags are the ones before.  While the direct-print flag is
    set, as it is during the call of a handler, it writes the string and
    a line break and nothing else. *)
Theorem print_keeps_the_line (cli : EmbeddedCli.t) (p s : list Z) :
  editing cli p ->
  (IS_FLAG_SET (Impl.flags (_impl cli)) CLI_FLAG_DIRECT_PRINT = false ->
   exists cli' out,
     embeddedCliPrint cli s = Ok cli'
     /\ repaint_only cli cli'
     /\ EmbeddedCli.trace cli'
        = EmbeddedCli.trace cli
          ++ line_cleared cli ++ written cli s ++ written cli lineBreak
          ++ written cli (Impl.invitation (_impl cli)) ++ written cli p
          ++ out
     /\ Forall is_write out)
  /\ (IS_FLAG_SET (Impl.flags (_impl cli)) CLI_FLAG_DIRECT_PRINT = true ->
      embeddedCliPrint cli s
      = Ok (with_events (written cli s ++ written cli lineBreak) cli)).
Proof.
  intros He. split.
  - exact (embeddedCliPrint_line cli p s He).
  - intros Hdp. destruct He as (Hw & _).
    unfold embeddedCliPrint. rewrite Hw, Hdp. cbn [negb bind].
    rewrite writeToOutput_events by exact Hw. cbn [bind].
    rewrite writeToOutput_events by exact Hw. cbn [bind].
    change (Impl.flags (_impl (with_events ?a (with_events ?b cli))))
      with (Impl.flags (_impl cli)).
    rewrite Hdp. cbn [negb]. rewrite with_events_app. reflexivity.
Qed.

Lemma print_keeps_the_line_witness :
  editing (with_cmd [115; 101; 116] sample_cli_with_bindings)
          ([115; 101] ++ [116])
  /\ exists cli',
      embeddedCliPrint (with_cmd [115; 101; 116] sample_cli_with_bindings)
                       [104; 105] = Ok cli'
      /\ repaint_only (with_cmd [115; 101; 116] sample_cli_with_bindings)
                      cli'.
Proof.
  pose proof (proj1 (proj1 (typing_editing _ _) sample_typing_set)) as He.
  split; [exact He|].
  destruct (proj1 (print_keeps_the_line _ _ [104; 105] He) eq_refl)
    as (cli' & out & Hrun & R & _).
  exists cli'. split; [exact Hrun|exact R].
Defined.
(** * Overflow of the input queue *)







(** * The [help] command *)

Lemma onHelp_list_run (bs : list CliCommandBinding.t) : forall cli,
  EmbeddedCli.writeChar cli = true ->
  onHelp_list bs cli = Ok (with_events (help_lines cli bs) cli).
Proof.
  induction bs as [|b bs IH]; intros cli Hw.
  - cbn. rewrite with_events_nil. reflexivity.
  - cbn [onHelp_list].
    rewrite writeToOutput_events by exact Hw. cbn [bind].
    rewrite writeToOutput_events by exact Hw. cbn [bind].
    rewrite writeToOutput_events by exact Hw. cbn [bind].
    unfold help_lines. cbn [flat_map]. unfold help_entry at 1.
    destruct (CliCommandBinding.help b) as [text|].
    + rewrite writeChar_total by exact Hw. cbn [bind].
      rewrite writeToOutput_events by exact Hw. cbn [bind].
      rewrite writeToOutput_events by exact Hw. cbn [bind].
      rewrite IH by exact Hw.
      change (emit (EvWriteChar 9) ?c) with (with_events [EvWriteChar 9] c).
      rewrite !with_events_app. unfold help_lines.
      rewrite !written_with_events. f_equal. f_equal.
      rewrite <- !app_assoc. reflexivity.
    + cbn [bind]. rewrite IH by exact Hw.
      rewrite !with_events_app. unfold help_lines.
      rewrite !written_with_events. f_equal. f_equal.
      rewrite app_nil_r, <- !app_assoc. reflexivity.
Qed.

Lemma hist_flat_length (items : list (list Z)) :
  Z.of_nat (length items) <= len (hist_flat items).
Proof.
  unfold len. induction items as [|it items IH]; simpl; [lia|].
  rewrite length_app. simpl. lia.
Qed.

(** [onHelp] on the arguments the dispatcher hands over. *)
Lemma onHelp_run (cli : EmbeddedCli.t) :
  EmbeddedCli.writeChar cli = true ->
  names_ok (_impl cli) ->
  Impl.bindings (_impl cli) <> [] ->
  onHelp cli None
  = Ok (0, with_events (help_lines cli (Impl.bindings (_impl cli))) cli)
  /\ forall (str : list Z) (items : list (list Z)),
       tokenized str items -> len (hist_flat items) < 65536 ->
       onHelp cli (Some str)
       = Ok match items with
            | [] =>
                (0, with_events
                      (help_lines cli (Impl.bindings (_impl cli))) cli)
            | [name] =>
                match list_find (fun b => CliCommandBinding.name b = name)
                                (Impl.bindings (_impl cli)) with
                | Some (_, b) =>
                    match CliCommandBinding.help b with
                    | Some text =>
                        (0, with_events (help_entry cli name (Some text))
                                        cli)
                    | None =>
                        (1, with_events
                              (written cli HelpLiteral.notAvailable
                               ++ written cli lineBreak) cli)
                    end
                | None =>
                    (1, with_events
                          (written cli Literal.unknownHead
                           ++ written cli name
                           ++ written cli Literal.unknownTail
                           ++ written cli lineBreak) cli)
                end
            | _ =>
                (0, with_events (written cli HelpLiteral.usage
                                 ++ written cli lineBreak) cli)
            end.
Proof.
  intros Hw Hnames Hne.
  assert (Hcnt : (Impl.bindingsCount (_impl cli) =? 0) = false).
  { apply Z.eqb_neq. unfold Impl.bindingsCount.
    destruct (Impl.bindings (_impl cli)); [contradiction|]. simpl. lia. }
  split.
  - unfold onHelp. rewrite Hcnt. cbn [embeddedCliGetTokenCount bind].
    change (0 =? 0) with true. cbn match.
    rewrite onHelp_list_run by exact Hw. reflexivity.
  - intros str items Htok Hlen.
    pose proof (hist_flat_length items) as Hn.
    unfold onHelp. rewrite Hcnt.
    rewrite (tokenized_count str items Htok) by lia. cbn [bind].
    destruct items as [|name [|it2 items]].
    + change (Z.of_nat (length (@nil (list Z))) =? 0) with true. cbn match.
      rewrite onHelp_list_run by exact Hw. reflexivity.
    + change (Z.of_nat (length [name]) =? 0) with false.
      change (Z.of_nat (length [name]) =? 1) with true. cbn match.
      destruct (tokenized_get_some str [name] 0 name Htok Hlen eq_refl)
        as [Hget Hname].
      change (Z.of_nat 0 + 1) with 1 in Hget.
      change (len (hist_flat (take 0 [name]))) with 0 in Hget, Hname.
      rewrite Hget. cbn [bind].
      destruct Htok as (Hok & rest & Hstr & _).
      inversion Hok as [|? ? [_ Hnz] _]; subst.
      simpl hist_flat in *.
      rewrite (findBinding_spec _ 0 name (0 :: rest))
        ; [|lia| |exact Hnz|exact Hnames].
      2:{ change (Z.to_nat 0) with 0%nat. rewrite drop_0, <- app_assoc.
          reflexivity. }
      destruct (list_find _ _) as [[k b]|]; cbn [bind].
      * destruct (CliCommandBinding.help b) as [text|].
        -- unfold writeToOutput_at. rewrite Hname. cbn [bind].
           rewrite writeToOutput_events by exact Hw. cbn [bind].
           rewrite writeToOutput_events by exact Hw. cbn [bind].
           rewrite writeToOutput_events by exact Hw. cbn [bind].
           rewrite writeChar_total by exact Hw. cbn [bind].
           rewrite writeToOutput_events by exact Hw. cbn [bind].
           rewrite writeToOutput_events by exact Hw. cbn [bind].
           change (emit (EvWriteChar 9) ?c)
             with (with_events [EvWriteChar 9] c).
           rewrite !with_events_app, !written_with_events.
           unfold help_entry. reflexivity.
        -- rewrite writeToOutput_events by exact Hw. cbn [bind].
           rewrite writeToOutput_events by exact Hw. cbn [bind].
           rewrite !with_events_app. reflexivity.
      * rewrite (onUnknownCommand_events _ _ _ name) by assumption.
        reflexivity.
    + assert (E0 : (Z.of_nat (length (name :: it2 :: items)) =? 0) = false).
      { apply Z.eqb_neq. simpl length. lia. }
      assert (E1 : (Z.of_nat (length (name :: it2 :: items)) =? 1) = false).
      { apply Z.eqb_neq. simpl length. lia. }
      rewrite E0, E1.
      rewrite writeToOutput_events by exact Hw. cbn [bind].
      rewrite writeToOutput_events by exact Hw. cbn [bind].
      rewrite !with_events_app. reflexivity.
Qed.

(** X28: what the [help] command prints.  On an engine with the
    [writeChar] hook and at least one binding, whose names are strings:
    without arguments [onHelp] lists every binding, in table order, as a
    bullet, the name and a line break, followed by a TAB, the help text and
    a line break when the binding has one, and returns 0; with one argument
    it prints that entry for the first binding of that name and returns 0,
    or [Help is not available] when that binding has no help text, or the
    message about an unknown command when no binding has that name,
    returning 1 in both cases; with two arguments or more it prints a
    usage message and returns 0. *)
Theorem help_prints_the_bindings (cli : EmbeddedCli.t) :
  EmbeddedCli.writeChar cli = true ->
  names_ok (_impl cli) ->
  Impl.bindings (_impl cli) <> [] ->
  onHelp cli None
  = Ok (0, with_events (help_lines cli (Impl.bindings (_impl cli))) cli)
  /\ forall (str : list Z) (items : list (list Z)),
       tokenized str items -> len (hist_flat items) < 65536 ->
       onHelp cli (Some str)
       = Ok match items with
            | [] =>
                (0, with_events
                      (help_lines cli (Impl.bindings (_impl cli))) cli)
            | [name] =>
                match list_find (fun b => CliCommandBinding.name b = name)
                                (Impl.bindings (_impl cli)) with
                | Some (_, b) =>
                    match CliCommandBinding.help b with
                    | Some text =>
                        (0, with_events (help_entry cli name (Some text))
                                        cli)
                    | None =>
                        (1, with_events
                              (written cli HelpLiteral.notAvailable
                               ++ written cli lineBreak) cli)
                    end
                | None =>
                    (1, with_events
                          (written cli Literal.unknownHead
                           ++ written cli name
                           ++ written cli Literal.unknownTail
                           ++ written cli lineBreak) cli)
                end
            | _ =>
                (0, with_events (written cli HelpLiteral.usage
                                 ++ written cli lineBreak) cli)
            end.
Proof. exact (onHelp_run cli). Qed.

Lemma sample_tokenized_help :
  tokenized [104; 101; 108; 112; 0; 0] [[104; 101; 108; 112]].
Proof.
  split.
  - constructor; [|constructor]. split; [discriminate|].
    apply (bool_decide_unpack _). vm_compute. exact I.
  - exists []. split; [reflexivity|]. discriminate.
Qed.

Lemma help_prints_the_bindings_witness :
  EmbeddedCli.writeChar sample_cli_with_bindings = true
  /\ names_ok (_impl sample_cli_with_bindings)
  /\ Impl.bindings (_impl sample_cli_with_bindings) <> []
  /\ onHelp sample_cli_with_bindings (Some [104; 101; 108; 112; 0; 0])
     = Ok (0, with_events
                (help_entry sample_cli_with_bindings [104; 101; 108; 112]
                            (Some Literal.helpText))
                sample_cli_with_bindings).
Proof.
  assert (H1 : EmbeddedCli.writeChar sample_cli_with_bindings = true)
    by reflexivity.
  assert (H3 : Impl.bindings (_impl sample_cli_with_bindings) <> [])
    by (vm_compute; discriminate).
  split; [exact H1|]. split; [exact sample_names_ok|]. split; [exact H3|].
  destruct (help_prints_the_bindings sample_cli_with_bindings H1
              sample_names_ok H3) as [_ H].
  exact (H [104; 101; 108; 112; 0; 0] [[104; 101; 108; 112]]
           sample_tokenized_help ltac:(vm_compute; reflexivity)).
Defined.

(** The listing for the sample engine, as the bytes written. *)
Example help_listing_sample :
  (if onHelp sample_cli_with_bindings None is Ok (code, cli)
   then Some (code, EmbeddedCli.trace cli) else None)
  = Some (0, map EvWriteChar
               ([32; 42; 32; 104; 101; 108; 112; 13; 10; 9]
                ++ Literal.helpText ++ [13; 10]
                ++ [32; 42; 32; 103; 101; 116; 45; 108; 101; 100; 13; 10]
                ++ [32; 42; 32; 103; 101; 116; 45; 97; 100; 99; 13; 10]
                ++ [32; 42; 32; 115; 101; 116; 13; 10])).
Proof. vm_compute. reflexivity. Qed.

(** * An engine that has been set up *)



